(** * Fusion360 MCP server: command dispatcher, socket relay and script generator

    A shallow embedding of the socket relay and command-dispatch core of the
    Fusion360 MCP server:

    - [Py]: the Python values that travel through the code (JSON values and
      host object references), exceptions, and the few dynamic operations the
      handlers perform on them;
    - [Utf8] and [Json]: [bytes.decode('utf-8')], [json.loads], [json.dumps];
    - [CommandHandler]: [fusion360_addon/server/command_handler.py];
    - [SocketServer]: the per-client loop of
      [fusion360_addon/server/socket_server.py];
    - [Connection]: [src/fusion360_mcp/fusion360_connection.py];
    - [ScriptGenerator]: the lookups of [src/fusion360_mcp/script_generator.py];
    - [MockHost]: a recording test double of the host CAD API. *)

From Stdlib Require Import ZArith NArith List String Ascii Bool Lia Floats.
From Stdlib Require Import DecimalString.
Import ListNotations.
Local Open Scope string_scope.
Local Open Scope list_scope.
Set Warnings "-register-all,-abstract-large-number".

(* ================================================================== *)
(** * Python values, exceptions and dynamic operations *)
(* ================================================================== *)

Module Py.

(** A Python value.  [VStr] holds the UTF-8 encoding of a [str]; [VDict] is a
    [dict] with [str] keys in insertion order; [VObj] is a reference to an
    object of the host application (an [adsk] object), which the Python code
    can only pass around and hand back to the host. *)
Inductive val : Type :=
| VNone
| VBool (b : bool)
| VInt (z : Z)
| VFloat (f : float)
| VStr (s : string)
| VList (l : list val)
| VDict (d : list (string * val))
| VObj (ref : string).

(** Exception classes: those that some [except] clause of the program tells
    apart, and those of the errors that the interpreter raises.
    [BaseExceptionOnly] stands for [KeyboardInterrupt], [SystemExit] and the
    like, which [except Exception] does not catch.  No [except] clause of
    the program names [ValueError], so that [JSONDecodeError] and
    [UnicodeDecodeError], which derive from it, can stand beside it. *)
Inductive exn_class : Type :=
| BaseExceptionOnly
| ExceptionC
| TypeErrorC
| ValueErrorC
| AttributeErrorC
| OverflowErrorC
| RecursionErrorC
| SocketTimeoutC
| ConnectionErrorC
| JSONDecodeErrorC
| UnicodeDecodeErrorC.

(** An exception: its class and the text [str(e)]. *)
Record exn : Type := Exn { exn_class_of : exn_class; exn_msg : string }.

Definition is_Exception (e : exn) : bool :=
  match exn_class_of e with
  | BaseExceptionOnly => false
  | _ => true
  end.

Definition exn_class_eqb (a b : exn_class) : bool :=
  match a, b with
  | BaseExceptionOnly, BaseExceptionOnly
  | ExceptionC, ExceptionC
  | TypeErrorC, TypeErrorC
  | ValueErrorC, ValueErrorC
  | AttributeErrorC, AttributeErrorC
  | OverflowErrorC, OverflowErrorC
  | RecursionErrorC, RecursionErrorC
  | SocketTimeoutC, SocketTimeoutC
  | ConnectionErrorC, ConnectionErrorC
  | JSONDecodeErrorC, JSONDecodeErrorC
  | UnicodeDecodeErrorC, UnicodeDecodeErrorC => true
  | _, _ => false
  end.

Inductive outcome (A : Type) : Type :=
| Ret (a : A)
| Raise (e : exn).
Arguments Ret {A} a.
Arguments Raise {A} e.

(** Errors raised by the interpreter itself.  Their texts differ between
    Python versions, so the text is left to the runtime ([error_text]).
    [IntToStr] and [StrToInt] are the [ValueError]s of the limit on the
    digits of an [int] that is printed or read ([StrToInt] with the number of
    digits met); [RecursionLimit] is the [RecursionError], with what the
    interpreter was doing. *)
Inductive py_error : Type :=
| NoAttribute (receiver : val) (name : string)
| UnhashableKey (key : val)
| NotAMapping (func : string) (arg : val)
| UnexpectedKeyword (func : string) (key : string)
| MultipleValues (func : string) (key : string)
| MissingArguments (func : string) (names : list string)
| UnsupportedOperand (op : string) (a b : val)
| NotAnInteger (v : val)
| NotIterable (v : val)
| NotCallable (v : val)
| NotSerializable (v : val)
| JsonDecodeFailure (text : string)
| IntTooLarge
| IntToStr
| StrToInt (digits : nat)
| RecursionLimit (doing : string).

Definition py_error_class (e : py_error) : exn_class :=
  match e with
  | NoAttribute _ _ => AttributeErrorC
  | IntTooLarge => OverflowErrorC
  | JsonDecodeFailure _ => JSONDecodeErrorC
  | IntToStr | StrToInt _ => ValueErrorC
  | RecursionLimit _ => RecursionErrorC
  | _ => TypeErrorC
  end.

(** Why [str()] of a list, a dict or a host object fails, when it does: an
    [int] beyond the limit on digits inside it ([ValueError]), or a value
    nested deeper than the recursion limit allows ([RecursionError]). *)
Inductive str_failure : Type :=
| LongInt
| TooDeep.

Definition str_failure_error (f : str_failure) : py_error :=
  match f with
  | LongInt => IntToStr
  | TooDeep => RecursionLimit "getting the repr of an object"
  end.

(** What the model takes from the Python runtime as given:
    - the text of interpreter errors;
    - [str()] of values other than [None], [bool], [int] and [str] (the
      [repr] of floats, lists, dicts and host objects), and whether
      [str()] of a list, a dict or a host object fails instead (on an
      [int] beyond the limit inside it, or on the recursion limit for a
      value that is nested too deep);
    - [sys.get_int_max_str_digits()]: [4300] unless the interpreter is
      started otherwise, [0] for no limit; the program does not set it;
    - what the call stack leaves of the recursion limit where the program
      calls [json] (see [json_depth]). *)
Class PyRuntime : Type := {
  error_text : py_error -> string;
  str_other : val -> string;
  str_error : val -> option str_failure;
  int_max_str_digits : nat;
  spare_depth : nat
}.

Definition py_raise `{PyRuntime} {A : Type} (e : py_error) : outcome A :=
  Raise (Exn (py_error_class e) (error_text e)).

(** [o] and then [k], unless [o] raises. *)
Definition and_then {A B : Type} (o : outcome A) (k : A -> outcome B) : outcome B :=
  match o with
  | Ret a => k a
  | Raise e => Raise e
  end.

(** ** Dictionaries *)

Fixpoint dict_get (d : list (string * val)) (k : string) : option val :=
  match d with
  | [] => None
  | (k', v) :: d' => if String.eqb k' k then Some v else dict_get d' k
  end.

Definition dict_has (d : list (string * val)) (k : string) : bool :=
  match dict_get d k with Some _ => true | None => false end.

(** [d[k] = v]: an existing key keeps its position. *)
Fixpoint dict_set (d : list (string * val)) (k : string) (v : val)
  : list (string * val) :=
  match d with
  | [] => [(k, v)]
  | (k', v') :: d' =>
      if String.eqb k' k then (k', v) :: d' else (k', v') :: dict_set d' k v
  end.

(** [d.update(u)] *)
Definition dict_update (d u : list (string * val)) : list (string * val) :=
  fold_left (fun acc kv => dict_set acc (fst kv) (snd kv)) u d.

Definition dict_keys (d : list (string * val)) : list string := map fst d.

(** ** Numbers *)

Definition Z_of_bool (b : bool) : Z := if b then 1%Z else 0%Z.

(** The number of decimal digits of an [int], its sign left out. *)
Definition int_digits (z : Z) : nat :=
  String.length (NilZero.string_of_int (Z.to_int (Z.abs z))).

(** The limit of the interpreter on the conversion between [int] and [str]:
    a number of [digits] digits is refused when the limit is set and
    [digits] is beyond it (the interpreter looks at the limit only beyond
    640 digits, the least limit that can be set). *)
Definition beyond_limit `{PyRuntime} (digits : nat) : bool :=
  Nat.ltb 640 digits && Nat.ltb 0 int_max_str_digits && Nat.ltb int_max_str_digits digits.

(** The binary64 float nearest to [(-1)^neg * n / d] (ties to even), for
    [0 <= n] and [0 < d]: what [float()] computes from a decimal literal. *)
Definition float_of_ratio (neg : bool) (n d : Z) : float :=
  match n with
  | Z0 => if neg then neg_zero else zero
  | Zneg _ => nan
  | Zpos _ =>
      let k := Z.max 0 (Z.log2 d - Z.log2 n + 56) in
      let num := Z.shiftl n k in
      let q := Z.div num d in
      let r := Z.modulo num d in
      let loc :=
        if Z.eqb r 0 then loc_Exact
        else loc_Inexact (Z.compare (2 * r) d) in
      SF2Prim (binary_round_aux prec emax neg q (- k) loc)
  end.

(** [float(z)] for an [int]; Python raises [OverflowError] beyond the range. *)
Definition float_of_Z (z : Z) : option float :=
  let f := float_of_ratio (Z.ltb z 0) (Z.abs z) 1 in
  if is_infinity f then None else Some f.

(** Exact comparison of an [int] with a [float], as Python does it. *)
Definition Z_float_compare (z : Z) (f : float) : option comparison :=
  match Prim2SF f with
  | S754_nan => None
  | S754_infinity s => Some (if s then Gt else Lt)
  | S754_zero _ => Some (Z.compare z 0)
  | S754_finite s m e =>
      let fm := if s then Z.neg m else Z.pos m in
      if Z.leb 0 e then Some (Z.compare z (fm * 2 ^ e))
      else Some (Z.compare (z * 2 ^ (- e)) fm)
  end.

Inductive number : Type :=
| NInt (z : Z)
| NFloat (f : float).

Definition as_number (v : val) : option number :=
  match v with
  | VBool b => Some (NInt (Z_of_bool b))
  | VInt z => Some (NInt z)
  | VFloat f => Some (NFloat f)
  | _ => None
  end.

Definition number_eqb (a b : number) : bool :=
  match a, b with
  | NInt x, NInt y => Z.eqb x y
  | NFloat x, NFloat y => PrimFloat.eqb x y
  | NInt x, NFloat y =>
      match Z_float_compare x y with Some Eq => true | _ => false end
  | NFloat x, NInt y =>
      match Z_float_compare y x with Some Eq => true | _ => false end
  end.

(** [a > b] on numbers *)
Definition number_gtb (a b : number) : bool :=
  match a, b with
  | NInt x, NInt y => Z.ltb y x
  | NFloat x, NFloat y => PrimFloat.ltb y x
  | NInt x, NFloat y =>
      match Z_float_compare x y with Some Gt => true | _ => false end
  | NFloat x, NInt y =>
      match Z_float_compare y x with Some Lt => true | _ => false end
  end.

Definition number_add (a b : number) : option number :=
  match a, b with
  | NInt x, NInt y => Some (NInt (x + y))
  | NFloat x, NFloat y => Some (NFloat (x + y)%float)
  | NInt x, NFloat y =>
      match float_of_Z x with
      | Some fx => Some (NFloat (fx + y)%float)
      | None => None
      end
  | NFloat x, NInt y =>
      match float_of_Z y with
      | Some fy => Some (NFloat (x + fy)%float)
      | None => None
      end
  end.

Definition number_sub (a b : number) : option number :=
  match a, b with
  | NInt x, NInt y => Some (NInt (x - y))
  | NFloat x, NFloat y => Some (NFloat (x - y)%float)
  | NInt x, NFloat y =>
      match float_of_Z x with
      | Some fx => Some (NFloat (fx - y)%float)
      | None => None
      end
  | NFloat x, NInt y =>
      match float_of_Z y with
      | Some fy => Some (NFloat (x - fy)%float)
      | None => None
      end
  end.

Definition val_of_number (n : number) : val :=
  match n with
  | NInt z => VInt z
  | NFloat f => VFloat f
  end.

(** ** Dynamic operations *)

(** Truth value.  Host objects are taken to be true (the [adsk] classes the
    handlers test, [Design] and [Material], define neither [__bool__] nor
    [__len__]). *)
Definition py_truthy (v : val) : bool :=
  match v with
  | VNone => false
  | VBool b => b
  | VInt z => negb (Z.eqb z 0)
  | VFloat f => negb (PrimFloat.eqb f zero)
  | VStr s => negb (String.eqb s "")
  | VList l => match l with [] => false | _ => true end
  | VDict d => match d with [] => false | _ => true end
  | VObj _ => true
  end.

(** [a == b].  Host objects compare by identity. *)
Fixpoint py_eq (a b : val) {struct a} : bool :=
  match a, b with
  | VNone, VNone => true
  | VStr x, VStr y => String.eqb x y
  | VList xs, VList ys =>
      (fix go (xs ys : list val) {struct xs} : bool :=
         match xs, ys with
         | [], [] => true
         | x :: xs', y :: ys' => py_eq x y && go xs' ys'
         | _, _ => false
         end) xs ys
  | VDict xd, VDict yd =>
      Nat.eqb (List.length xd) (List.length yd) &&
      (fix go (xd : list (string * val)) {struct xd} : bool :=
         match xd with
         | [] => true
         | (k, v) :: xd' =>
             match dict_get yd k with
             | Some v' => py_eq v v'
             | None => false
             end && go xd'
         end) xd
  | VObj x, VObj y => String.eqb x y
  | _, _ =>
      match as_number a, as_number b with
      | Some x, Some y => number_eqb x y
      | _, _ => false
      end
  end.

Section Dynamic.
Context `{PyRuntime}.

(** [a + b] *)
Definition py_add (a b : val) : outcome val :=
  match a, b with
  | VStr x, VStr y => Ret (VStr (x ++ y))
  | VList x, VList y => Ret (VList (x ++ y))
  | _, _ =>
      match as_number a, as_number b with
      | Some x, Some y =>
          match number_add x y with
          | Some n => Ret (val_of_number n)
          | None => py_raise IntTooLarge
          end
      | _, _ => py_raise (UnsupportedOperand "+" a b)
      end
  end.

(** [a - b] *)
Definition py_sub (a b : val) : outcome val :=
  match as_number a, as_number b with
  | Some x, Some y =>
      match number_sub x y with
      | Some n => Ret (val_of_number n)
      | None => py_raise IntTooLarge
      end
  | _, _ => py_raise (UnsupportedOperand "-" a b)
  end.

(** [a > b], where [b] is a number or a string (the program compares with
    nothing else on the right). *)
Definition py_gt (a b : val) : outcome bool :=
  match a, b with
  | VStr x, VStr y => Ret (String.ltb y x)
  | _, _ =>
      match as_number a, as_number b with
      | Some x, Some y => Ret (number_gtb x y)
      | _, _ => py_raise (UnsupportedOperand ">" a b)
      end
  end.

(** [str(v)], as an f-string and [format] print a value: an [int] beyond
    the limit raises [ValueError]; for a list, a dict or a host object the
    runtime says whether it prints. *)
Definition py_str (v : val) : outcome string :=
  match v with
  | VNone => Ret "None"
  | VBool true => Ret "True"
  | VBool false => Ret "False"
  | VInt z =>
      if beyond_limit (int_digits z) then py_raise IntToStr
      else Ret (NilZero.string_of_int (Z.to_int z))
  | VFloat _ => Ret (str_other v)
  | VStr s => Ret s
  | VList _ | VDict _ | VObj _ =>
      match str_error v with
      | Some f => py_raise (str_failure_error f)
      | None => Ret (str_other v)
      end
  end.

(** [table.get(key, default)] on a dict literal with [str] keys: a list or
    a dict cannot be hashed, anything else that is no key gives [default]. *)
Definition str_dict_get {A : Type} (table : list (string * A)) (key : val)
    (default : A) : outcome A :=
  match key with
  | VList _ | VDict _ => py_raise (UnhashableKey key)
  | VStr k =>
      match find (fun kv => String.eqb (fst kv) k) table with
      | Some kv => Ret (snd kv)
      | None => Ret default
      end
  | _ => Ret default
  end.

(** [range(v)] *)
Definition py_range (v : val) : outcome (list val) :=
  match v with
  | VInt n => Ret (map (fun i => VInt (Z.of_nat i)) (seq 0 (Z.to_nat n)))
  | VBool b =>
      Ret (map (fun i => VInt (Z.of_nat i)) (seq 0 (Z.to_nat (Z_of_bool b))))
  | _ => py_raise (NotAnInteger v)
  end.

End Dynamic.

End Py.

(* ================================================================== *)
(** * Text: decimal and hexadecimal digits, UTF-8 *)
(* ================================================================== *)

Module Text.

Local Open Scope N_scope.

Definition code (c : ascii) : N := N_of_ascii c.

(** [str(z)] for an [int] *)
Definition decimal_of_Z (z : Z) : string := NilZero.string_of_int (Z.to_int z).

Definition decimal_of_nat (n : nat) : string := decimal_of_Z (Z.of_nat n).

Definition hex_digit (n : N) : ascii :=
  if n <? 10 then ascii_of_N (48 + n) else ascii_of_N (87 + n).

(** Two lower-case hexadecimal digits, as ["%02x"] prints a byte. *)
Definition hex2 (n : N) : string :=
  String (hex_digit (n / 16)) (String (hex_digit (n mod 16)) "").

(** Four lower-case hexadecimal digits, as ["%04x"] prints. *)
Definition hex4 (n : N) : string :=
  (hex2 (n / 256) ++ hex2 (n mod 256))%string.

Definition is_digit (c : ascii) : bool :=
  (48 <=? code c) && (code c <=? 57).

Definition digit_value (c : ascii) : Z := Z.of_N (code c - 48).

(** The value of a hexadecimal digit, upper or lower case. *)
Definition hex_value (c : ascii) : option N :=
  let n := code c in
  if (48 <=? n) && (n <=? 57) then Some (n - 48)
  else if (97 <=? n) && (n <=? 102) then Some (n - 87)
  else if (65 <=? n) && (n <=? 70) then Some (n - 55)
  else None.

(** The UTF-8 encoding of a code point (surrogates are encoded like any
    other code point of their range, so that a [str] holding a lone
    surrogate still has a representation). *)
Definition utf8_encode (cp : N) : list ascii :=
  if cp <? 128 then [ascii_of_N cp]
  else if cp <? 2048 then
    [ascii_of_N (192 + cp / 64); ascii_of_N (128 + cp mod 64)]
  else if cp <? 65536 then
    [ascii_of_N (224 + cp / 4096);
     ascii_of_N (128 + (cp / 64) mod 64);
     ascii_of_N (128 + cp mod 64)]
  else
    [ascii_of_N (240 + cp / 262144);
     ascii_of_N (128 + (cp / 4096) mod 64);
     ascii_of_N (128 + (cp / 64) mod 64);
     ascii_of_N (128 + cp mod 64)].

End Text.

Module Utf8.
Import Py Text.

Local Open Scope N_scope.

Definition is_cont (b : N) : bool := (128 <=? b) && (b <=? 191).

(** Whether [b2] may follow the lead byte [b1] of a three- or four-byte
    sequence (this excludes overlong forms, surrogates and code points
    beyond U+10FFFF). *)
Definition second_ok (b1 b2 : N) : bool :=
  is_cont b2 &&
  (if b1 =? 224 then 160 <=? b2
   else if b1 =? 237 then b2 <? 160
   else if b1 =? 240 then 144 <=? b2
   else if b1 =? 244 then b2 <? 144
   else true).

Inductive decode_error : Type :=
| UnexpectedEnd (start len : nat)
| InvalidStart (start : nat)
| InvalidContinuation (start len : nat).

(** Strict UTF-8 validation of the bytes [bs], the first of them at position
    [pos]: the first error, if there is one. *)
Fixpoint validate (pos : nat) (bs : list N) {struct bs} : option decode_error :=
  match bs with
  | [] => None
  | b1 :: r1 =>
      if b1 <? 128 then validate (pos + 1)%nat r1
      else if b1 <? 194 then Some (InvalidStart pos)
      else if b1 <? 224 then
        match r1 with
        | [] => Some (UnexpectedEnd pos 1)
        | b2 :: r2 =>
            if is_cont b2 then validate (pos + 2)%nat r2
            else Some (InvalidContinuation pos 1)
        end
      else if b1 <? 240 then
        match r1 with
        | [] => Some (UnexpectedEnd pos 1)
        | b2 :: r2 =>
            if negb (second_ok b1 b2) then Some (InvalidContinuation pos 1)
            else
              match r2 with
              | [] => Some (UnexpectedEnd pos 2)
              | b3 :: r3 =>
                  if is_cont b3 then validate (pos + 3)%nat r3
                  else Some (InvalidContinuation pos 2)
              end
        end
      else if b1 <? 245 then
        match r1 with
        | [] => Some (UnexpectedEnd pos 1)
        | b2 :: r2 =>
            if negb (second_ok b1 b2) then Some (InvalidContinuation pos 1)
            else
              match r2 with
              | [] => Some (UnexpectedEnd pos 2)
              | b3 :: r3 =>
                  if negb (is_cont b3) then Some (InvalidContinuation pos 2)
                  else
                    match r3 with
                    | [] => Some (UnexpectedEnd pos 3)
                    | b4 :: r4 =>
                        if is_cont b4 then validate (pos + 4)%nat r4
                        else Some (InvalidContinuation pos 3)
                    end
              end
        end
      else Some (InvalidStart pos)
  end.

Definition error_span (e : decode_error) : nat * nat :=
  match e with
  | UnexpectedEnd s l => (s, l)
  | InvalidStart s => (s, 1%nat)
  | InvalidContinuation s l => (s, l)
  end.

Definition error_reason (e : decode_error) : string :=
  match e with
  | UnexpectedEnd _ _ => "unexpected end of data"
  | InvalidStart _ => "invalid start byte"
  | InvalidContinuation _ _ => "invalid continuation byte"
  end.

(** [str(e)] of the [UnicodeDecodeError] *)
Definition error_message (bs : list N) (e : decode_error) : string :=
  let '(s, l) := error_span e in
  (if Nat.eqb l 1 then
    "'utf-8' codec can't decode byte 0x" ++ hex2 (nth s bs 0)
      ++ " in position " ++ decimal_of_nat s ++ ": " ++ error_reason e
  else
    "'utf-8' codec can't decode bytes in position " ++ decimal_of_nat s
      ++ "-" ++ decimal_of_nat (s + l - 1) ++ ": " ++ error_reason e)%string.

(** [data.decode('utf-8')]: the [str] keeps the bytes of [data]. *)
Definition decode (data : list Byte.byte) : outcome string :=
  let bs := map Byte.to_N data in
  match validate 0 bs with
  | None => Ret (string_of_list_byte data)
  | Some e => Raise (Exn UnicodeDecodeErrorC (error_message bs e))
  end.

(** [text.encode('utf-8')] *)
Definition encode (text : string) : list Byte.byte := list_byte_of_string text.

End Utf8.

(* ================================================================== *)
(** * JSON: [json.loads] and [json.dumps] *)
(* ================================================================== *)

Module Json.
Import Py Text.

Local Open Scope char_scope.

(** ** Decoding *)

Definition is_ws (c : ascii) : bool :=
  Ascii.eqb c " " || Ascii.eqb c "009" || Ascii.eqb c "010" || Ascii.eqb c "013".

Fixpoint skip_ws (s : list ascii) : list ascii :=
  match s with
  | c :: r => if is_ws c then skip_ws r else s
  | [] => []
  end.

(** [s] without its first character, when that is [c]. *)
Definition expect (c : ascii) (s : list ascii) : option (list ascii) :=
  match s with
  | x :: r => if Ascii.eqb x c then Some r else None
  | [] => None
  end.

(** [s] without the prefix [p], when it starts with it. *)
Fixpoint expect_all (p s : list ascii) : option (list ascii) :=
  match p with
  | [] => Some s
  | c :: p' =>
      match expect c s with
      | Some r => expect_all p' r
      | None => None
      end
  end.

(** The result of scanning: a value and the text that follows it, a syntax
    error ([JSONDecodeError]), an error of the interpreter (an [int] with
    more digits than the limit allows, the recursion limit), or the budget of
    the model exhausted (which does not happen, see [scan_once_fuel]). *)
Inductive presult (A : Type) : Type :=
| POk (a : A) (rest : list ascii)
| PErr
| PRaise (e : py_error)
| PFuel.
Arguments POk {A} a rest.
Arguments PErr {A}.
Arguments PRaise {A} e.
Arguments PFuel {A}.

Definition hex4_value (c1 c2 c3 c4 : ascii) : option N :=
  match hex_value c1, hex_value c2, hex_value c3, hex_value c4 with
  | Some a, Some b, Some c, Some d => Some (((a * 16 + b) * 16 + c) * 16 + d)%N
  | _, _, _, _ => None
  end.

Definition is_high_surrogate (u : N) : bool := (55296 <=? u)%N && (u <=? 56319)%N.
Definition is_low_surrogate (u : N) : bool := (56320 <=? u)%N && (u <=? 57343)%N.
Definition join_surrogates (hi lo : N) : N :=
  (65536 + ((hi - 55296) * 1024 + (lo - 56320)))%N.

(** The character a one-letter escape stands for. *)
Definition simple_escape (e : ascii) : option ascii :=
  if Ascii.eqb e "034" then Some "034"
  else if Ascii.eqb e "\" then Some "\"
  else if Ascii.eqb e "/" then Some "/"
  else if Ascii.eqb e "b" then Some "008"
  else if Ascii.eqb e "f" then Some "012"
  else if Ascii.eqb e "n" then Some "010"
  else if Ascii.eqb e "r" then Some "013"
  else if Ascii.eqb e "t" then Some "009"
  else None.

(** [scanstring], strict: [s] starts right after the opening quote. *)
Fixpoint scanstring (s : list ascii) {struct s} : option (list ascii * list ascii) :=
  match s with
  | [] => None
  | c :: r =>
      if Ascii.eqb c "034" then Some ([], r)
      else if Ascii.eqb c "\" then
        match r with
        | [] => None
        | e :: r1 =>
            if Ascii.eqb e "u" then
              match r1 with
              | c1 :: c2 :: c3 :: c4 :: r2 =>
                  match hex4_value c1 c2 c3 c4 with
                  | None => None
                  | Some u =>
                      let single :=
                        match scanstring r2 with
                        | Some (str, rest) => Some (utf8_encode u ++ str, rest)
                        | None => None
                        end in
                      if is_high_surrogate u then
                        match r2 with
                        | b :: r3 =>
                            if Ascii.eqb b "\" then
                              match r3 with
                              | x :: d1 :: d2 :: d3 :: d4 :: r4 =>
                                  if Ascii.eqb x "u" then
                                    match hex4_value d1 d2 d3 d4 with
                                    | None => None
                                    | Some u2 =>
                                        if is_low_surrogate u2 then
                                          match scanstring r4 with
                                          | Some (str, rest) =>
                                              Some (utf8_encode (join_surrogates u u2) ++ str, rest)
                                          | None => None
                                          end
                                        else single
                                    end
                                  else single
                              | _ => single
                              end
                            else single
                        | [] => single
                        end
                      else single
                  end
              | _ => None
              end
            else
              match simple_escape e with
              | None => None
              | Some ch =>
                  match scanstring r1 with
                  | Some (str, rest) => Some (ch :: str, rest)
                  | None => None
                  end
              end
        end
      else if (code c <? 32)%N then None
      else
        match scanstring r with
        | Some (str, rest) => Some (c :: str, rest)
        | None => None
        end
  end.

(** The longest prefix of digits, and what follows. *)
Fixpoint span_digits (s : list ascii) : list ascii * list ascii :=
  match s with
  | c :: r =>
      if is_digit c then let '(ds, rest) := span_digits r in (c :: ds, rest)
      else ([], s)
  | [] => ([], [])
  end.

Definition digits_value (ds : list ascii) : Z :=
  fold_left (fun acc c => (acc * 10 + digit_value c)%Z) ds 0%Z.

(** [float(text)] for the literal with integer digits [ip], fraction digits
    [fp] and exponent [ex]. *)
Definition float_of_decimal (neg : bool) (ip fp : list ascii) (ex : Z) : float :=
  let m := digits_value (ip ++ fp) in
  let e := (ex - Z.of_nat (List.length fp))%Z in
  if (0 <=? e)%Z then float_of_ratio neg (m * 10 ^ e) 1
  else float_of_ratio neg m (10 ^ (- e)).

(** The integer part of a number: [0], or a non-zero digit and more digits. *)
Definition match_int_part (s : list ascii) : option (list ascii * list ascii) :=
  match s with
  | c :: r =>
      if Ascii.eqb c "0" then Some ([c], r)
      else if is_digit c then let '(ds, rest) := span_digits r in Some (c :: ds, rest)
      else None
  | [] => None
  end.

(** The fraction: a dot and at least one digit. *)
Definition match_frac (s : list ascii) : option (list ascii * list ascii) :=
  match s with
  | p :: d :: r =>
      if Ascii.eqb p "." && is_digit d
      then let '(ds, rest) := span_digits r in Some (d :: ds, rest)
      else None
  | _ => None
  end.

(** The exponent: [e] or [E], an optional sign and at least one digit. *)
Definition match_exp (s : list ascii) : option (Z * list ascii) :=
  match s with
  | e :: r =>
      if Ascii.eqb e "e" || Ascii.eqb e "E" then
        let '(neg, r1) :=
          match r with
          | sg :: r' =>
              if Ascii.eqb sg "-" then (true, r')
              else if Ascii.eqb sg "+" then (false, r')
              else (false, r)
          | [] => (false, r)
          end in
        match span_digits r1 with
        | ([], _) => None
        | (ds, rest) =>
            Some (if neg then (- digits_value ds)%Z else digits_value ds, rest)
        end
      else None
  | [] => None
  end.

Definition chars (t : string) : list ascii := list_ascii_of_string t.

Section Decode.
Context `{PyRuntime}.

(** The number at the start of [s], if there is one: a number with a
    fraction or an exponent is read by [float()], which takes any number of
    digits; another one by [int()], which refuses more digits than the limit
    allows. *)
Definition match_number (s : list ascii) : presult val :=
  let '(neg, s1) :=
    match s with
    | c :: r => if Ascii.eqb c "-" then (true, r) else (false, s)
    | [] => (false, s)
    end in
  match match_int_part s1 with
  | None => PErr
  | Some (ip, s2) =>
      match match_frac s2, match_exp s2 with
      | Some (fp, s3), _ =>
          match match_exp s3 with
          | Some (ex, s4) => POk (VFloat (float_of_decimal neg ip fp ex)) s4
          | None => POk (VFloat (float_of_decimal neg ip fp 0)) s3
          end
      | None, Some (ex, s4) => POk (VFloat (float_of_decimal neg ip [] ex)) s4
      | None, None =>
          if beyond_limit (List.length ip) then PRaise (StrToInt (List.length ip))
          else POk (VInt (if neg then - digits_value ip else digits_value ip)%Z) s2
      end
  end.

(** The literals, and then numbers: what [scan_once] tries when the value is
    neither a string, an object nor an array. *)
Definition scan_atom (s : list ascii) : presult val :=
  let try_number := match_number s in
  match expect_all (chars "null") s with
  | Some rest => POk VNone rest
  | None =>
  match expect_all (chars "true") s with
  | Some rest => POk (VBool true) rest
  | None =>
  match expect_all (chars "false") s with
  | Some rest => POk (VBool false) rest
  | None =>
  match expect_all (chars "NaN") s with
  | Some rest => POk (VFloat nan) rest
  | None =>
  match expect_all (chars "Infinity") s with
  | Some rest => POk (VFloat infinity) rest
  | None =>
  match expect_all (chars "-Infinity") s with
  | Some rest => POk (VFloat neg_infinity) rest
  | None => try_number
  end end end end end end.

(** [scan_once], with the loops of [JSONObject] and [JSONArray]:
    [object_rest] starts right after the opening quote of a key,
    [array_rest] at the start of an element.  [room] is the number of
    objects and arrays, one inside the other, that the recursion limit of
    the interpreter still allows: the scanner asks for one level at every
    opening brace and bracket. *)
Fixpoint scan_once (fuel room : nat) (s : list ascii) {struct fuel} : presult val :=
  match fuel with
  | O => PFuel
  | S fuel' =>
      match s with
      | [] => PErr
      | c :: r =>
          if Ascii.eqb c "034" then
            match scanstring r with
            | Some (str, rest) => POk (VStr (string_of_list_ascii str)) rest
            | None => PErr
            end
          else if Ascii.eqb c "{" then
            match room with
            | O => PRaise (RecursionLimit "decoding a JSON object from a unicode string")
            | S room' =>
                match skip_ws r with
                | x :: r1 =>
                    if Ascii.eqb x "}" then POk (VDict []) r1
                    else if Ascii.eqb x "034" then object_rest fuel' room' r1 []
                    else PErr
                | [] => PErr
                end
            end
          else if Ascii.eqb c "[" then
            match room with
            | O => PRaise (RecursionLimit "decoding a JSON array from a unicode string")
            | S room' =>
                match skip_ws r with
                | x :: r1 =>
                    if Ascii.eqb x "]" then POk (VList []) r1
                    else array_rest fuel' room' (x :: r1) []
                | [] => PErr
                end
            end
          else scan_atom s
      end
  end

with object_rest (fuel room : nat) (s : list ascii) (acc : list (string * val))
  {struct fuel} : presult val :=
  match fuel with
  | O => PFuel
  | S fuel' =>
      match scanstring s with
      | None => PErr
      | Some (k, s1) =>
          match expect ":" (skip_ws s1) with
          | None => PErr
          | Some s2 =>
              match scan_once fuel' room (skip_ws s2) with
              | PErr => PErr
              | PRaise e => PRaise e
              | PFuel => PFuel
              | POk v s3 =>
                  let acc' := dict_set acc (string_of_list_ascii k) v in
                  match skip_ws s3 with
                  | x :: s4 =>
                      if Ascii.eqb x "}" then POk (VDict acc') s4
                      else if Ascii.eqb x "," then
                        match expect "034" (skip_ws s4) with
                        | Some s5 => object_rest fuel' room s5 acc'
                        | None => PErr
                        end
                      else PErr
                  | [] => PErr
                  end
              end
          end
      end
  end

with array_rest (fuel room : nat) (s : list ascii) (acc : list val)
  {struct fuel} : presult val :=
  match fuel with
  | O => PFuel
  | S fuel' =>
      match scan_once fuel' room s with
      | PErr => PErr
      | PRaise e => PRaise e
      | PFuel => PFuel
      | POk v s1 =>
          match skip_ws s1 with
          | x :: s2 =>
              if Ascii.eqb x "]" then POk (VList (acc ++ [v])) s2
              else if Ascii.eqb x "," then
                array_rest fuel' room (skip_ws s2) (acc ++ [v])
              else PErr
          | [] => PErr
          end
      end
  end.

(** The number of objects and arrays, one inside the other, that [json]
    reads or writes before the recursion limit of the interpreter stops it,
    where the program calls it.  It is what the call stack leaves of the
    limit, and the model does not know the stack: two levels are what the
    texts that the program builds itself need (a response; a command with
    empty parameters), and a stack that has room for the calls of the
    program, which the model takes for granted, has room for them; what is
    there beyond them is left to the runtime. *)
Definition json_depth : nat := 2 + spare_depth.

(** [json.loads(text)]: the value, or the exception: [JSONDecodeError] for a
    text that is no JSON, [ValueError] for an [int] with more digits than
    the limit allows and [RecursionError] for a text that is nested too
    deep, when the scanner meets them before an error of syntax.  The budget
    is more than the scanner can use on [text] (see [scan_once_fuel]). *)
Definition json_loads (text : string) : outcome val :=
  let s := chars text in
  match scan_once (S (2 * List.length s)) json_depth (skip_ws s) with
  | POk v rest =>
      match skip_ws rest with
      | [] => Ret v
      | _ => py_raise (JsonDecodeFailure text)
      end
  | PRaise e => py_raise e
  | _ => py_raise (JsonDecodeFailure text)
  end.

End Decode.

(** ** Encoding *)

(** The code points of a UTF-8 text. *)
Fixpoint codepoints (s : list ascii) {struct s} : list N :=
  match s with
  | [] => []
  | b1 :: r1 =>
      let n1 := code b1 in
      if (n1 <? 192)%N then n1 :: codepoints r1
      else if (n1 <? 224)%N then
        match r1 with
        | b2 :: r2 => ((n1 - 192) * 64 + (code b2 - 128))%N :: codepoints r2
        | [] => [n1]
        end
      else if (n1 <? 240)%N then
        match r1 with
        | b2 :: b3 :: r3 =>
            ((n1 - 224) * 4096 + (code b2 - 128) * 64 + (code b3 - 128))%N
              :: codepoints r3
        | _ => n1 :: codepoints r1
        end
      else
        match r1 with
        | b2 :: b3 :: b4 :: r4 =>
            ((n1 - 240) * 262144 + (code b2 - 128) * 4096
               + (code b3 - 128) * 64 + (code b4 - 128))%N
              :: codepoints r4
        | _ => n1 :: codepoints r1
        end
  end.

(** One character of a string literal, with [ensure_ascii]. *)
Definition escape_codepoint (n : N) : string :=
  (if (n =? 34)%N then String "\" (String "034" "")
  else if (n =? 92)%N then "\\"
  else if (n =? 10)%N then "\n"
  else if (n =? 13)%N then "\r"
  else if (n =? 9)%N then "\t"
  else if (n =? 12)%N then "\f"
  else if (n =? 8)%N then "\b"
  else if (32 <=? n)%N && (n <=? 126)%N then String (ascii_of_N n) ""
  else if (n <? 65536)%N then "\u" ++ hex4 n
  else
    let m := (n - 65536)%N in
    "\u" ++ hex4 (55296 + (m / 1024) mod 1024)%N
      ++ "\u" ++ hex4 (56320 + m mod 1024)%N)%string.

Definition encode_string (t : string) : string :=
  (String "034" (String.concat "" (map escape_codepoint (codepoints (chars t))))
     ++ String "034" "")%string.

(** [f] on the elements of [l] from left to right, up to the first one on
    which it raises. *)
Definition each_outcome {A B : Type} (f : A -> outcome B) : list A -> outcome (list B) :=
  fix go (l : list A) : outcome (list B) :=
    match l with
    | [] => Ret []
    | x :: l' =>
        match f x with
        | Raise e => Raise e
        | Ret y =>
            match go l' with
            | Raise e => Raise e
            | Ret ys => Ret (y :: ys)
            end
        end
    end.

Section Dumps.
Context `{PyRuntime}.

Definition encode_float (f : float) : string :=
  (if is_nan f then "NaN"
  else if PrimFloat.eqb f infinity then "Infinity"
  else if PrimFloat.eqb f neg_infinity then "-Infinity"
  else str_other (VFloat f))%string.

(** The encoder of [json.dumps] with the default options, with [room]
    levels of lists and dicts left before the recursion limit: an [int]
    beyond the limit on its digits raises [ValueError], a list or a dict
    with no level left [RecursionError], a host object [TypeError]; the
    first of them in the order of the text is raised. *)
Fixpoint encode_value (room : nat) (v : val) {struct v} : outcome string :=
  match v with
  | VNone => Ret "null"%string
  | VBool true => Ret "true"%string
  | VBool false => Ret "false"%string
  | VInt z =>
      if beyond_limit (int_digits z) then py_raise IntToStr
      else Ret (decimal_of_Z z)
  | VFloat f => Ret (encode_float f)
  | VStr t => Ret (encode_string t)
  | VList l =>
      match room with
      | O => py_raise (RecursionLimit "encoding a JSON object")
      | S room' =>
          match each_outcome (encode_value room') l with
          | Raise e => Raise e
          | Ret ss => Ret ("[" ++ String.concat ", " ss ++ "]")%string
          end
      end
  | VDict d =>
      match room with
      | O => py_raise (RecursionLimit "encoding a JSON object")
      | S room' =>
          match
            each_outcome
              (fun kv =>
                 match encode_value room' (snd kv) with
                 | Raise e => Raise e
                 | Ret sx => Ret (encode_string (fst kv) ++ ": " ++ sx)%string
                 end)
              d
          with
          | Raise e => Raise e
          | Ret ss => Ret ("{" ++ String.concat ", " ss ++ "}")%string
          end
      end
  | VObj _ => py_raise (NotSerializable v)
  end.

(** [json.dumps(v)] *)
Definition json_dumps (v : val) : outcome string := encode_value json_depth v.

End Dumps.

End Json.

(* ================================================================== *)
(** * The host application and the handler monad *)
(* ================================================================== *)

Module HostApi.
Import Py.

(** The host CAD application is a black box behind its call surface: reading
    and writing attributes of its objects, calling its callables, iterating
    over its collections and running caller-supplied code.  Every operation
    may raise and may change the state [W] of the host. *)
(** [adsk.fusion.FeatureOperations]: the members of the enumeration that
    the handlers name. *)
Inductive FeatureOperations : Type :=
| NewBodyFeatureOperation
| JoinFeatureOperation
| CutFeatureOperation
| IntersectFeatureOperation.

Class Host (W : Type) : Type := {
  (** [adsk.core.Application.get()] and its [userInterface], read once when
      the handler object is built *)
  app : val;
  ui : val;
  (** the [adsk] module *)
  adsk : val;
  (** the value of a member of [adsk.fusion.FeatureOperations] (a constant
      of the API) *)
  feature_operation : FeatureOperations -> val;
  host_getattr : val -> string -> W -> outcome val * W;
  host_setattr : val -> string -> val -> W -> outcome unit * W;
  host_call : val -> list val -> W -> outcome val * W;
  host_iter : val -> W -> outcome (list val) * W;
  (** [exec(code, namespace)] under [redirect_stdout]: the captured text *)
  host_exec : val -> list (string * val) -> W -> outcome string * W
}.

(** Computations on the host: state passing with exceptions. *)
Definition M (W A : Type) : Type := W -> outcome A * W.

Definition ret {W A : Type} (a : A) : M W A := fun w => (Ret a, w).

Definition raise {W A : Type} (e : exn) : M W A := fun w => (Raise e, w).

Definition bind {W A B : Type} (m : M W A) (k : A -> M W B) : M W B :=
  fun w =>
    match m w with
    | (Ret a, w') => k a w'
    | (Raise e, w') => (Raise e, w')
    end.

Definition lift {W A : Type} (o : outcome A) : M W A := fun w => (o, w).

(** [try: m  except Exception as e: h e] *)
Definition try_except {W A : Type} (m : M W A) (h : exn -> M W A) : M W A :=
  fun w =>
    match m w with
    | (Ret a, w') => (Ret a, w')
    | (Raise e, w') => if is_Exception e then h e w' else (Raise e, w')
    end.

(** [try: m  except: h] (a bare [except] catches every exception) *)
Definition try_except_all {W A : Type} (m : M W A) (h : M W A) : M W A :=
  fun w =>
    match m w with
    | (Ret a, w') => (Ret a, w')
    | (Raise _, w') => h w'
    end.

(** [raise Exception(text)] *)
Definition raise_Exception {W A : Type} (text : string) : M W A :=
  raise (Exn ExceptionC text).

Declare Scope host_scope.
Delimit Scope host_scope with host.
Notation "x <- m ;; k" := (bind m (fun x => k))
  (at level 61, m at next level, right associativity) : host_scope.
Notation "m ;;; k" := (bind m (fun _ => k))
  (at level 61, right associativity) : host_scope.

(** [for x in xs: body x] *)
Fixpoint for_each {W A : Type} (xs : list A) (body : A -> M W unit) : M W unit :=
  match xs with
  | [] => ret tt
  | x :: xs' => bind (body x) (fun _ => for_each xs' body)
  end.

(** [[f x for x in xs]], evaluated left to right *)
Fixpoint map_each {W A B : Type} (xs : list A) (f : A -> M W B) : M W (list B) :=
  match xs with
  | [] => ret []
  | x :: xs' =>
      bind (f x) (fun y => bind (map_each xs' f) (fun ys => ret (y :: ys)))
  end.

Section Access.
Context `{PyRuntime} {W : Type} `{Host W}.

(** [obj.name]: [None] has none of the attributes the program reads. *)
Definition attr (obj : val) (name : string) : M W val :=
  match obj with
  | VNone => lift (py_raise (NoAttribute VNone name))
  | _ => host_getattr obj name
  end.

(** [obj.n1.n2...] *)
Fixpoint path (obj : val) (names : list string) : M W val :=
  match names with
  | [] => ret obj
  | n :: names' => bind (attr obj n) (fun o => path o names')
  end.

(** [obj.name = v] *)
Definition set_attr (obj : val) (name : string) (v : val) : M W unit :=
  match obj with
  | VNone => lift (py_raise (NoAttribute VNone name))
  | _ => host_setattr obj name v
  end.

(** [f(args)], where [f] has been looked up already *)
Definition call (f : val) (args : list val) : M W val := host_call f args.

(** [for x in obj]: the elements *)
Definition iterate (obj : val) : M W (list val) :=
  match obj with
  | VList l => ret l
  | VNone => lift (py_raise (NotIterable VNone))
  | _ => host_iter obj
  end.

(** [hasattr(obj, name)]: false when the lookup raises [AttributeError] *)
Definition has_attr (obj : val) (name : string) : M W bool :=
  fun w =>
    match attr obj name w with
    | (Ret _, w') => (Ret true, w')
    | (Raise e, w') =>
        if exn_class_eqb (exn_class_of e) AttributeErrorC
        then (Ret false, w') else (Raise e, w')
    end.

End Access.

End HostApi.

(* ================================================================== *)
(** * The command handler ([command_handler.py]) *)
(* ================================================================== *)

Module CommandHandler.
Import Py HostApi.
Local Open Scope host_scope.

Set Warnings "-inexact-float".
(** The tolerance of the geometric selections, the literal [0.001]. *)
Definition epsilon : float := 0.001%float.
Set Warnings "inexact-float".

(** The two shapes of a response. *)
Definition success_response (result : val) : val :=
  VDict [("status", VStr "success"); ("result", result)].

Definition error_response (message : string) : val :=
  VDict [("status", VStr "error"); ("message", VStr message)].

Section Handlers.
Context `{PyRuntime} {W : Type} `{Host W}.

(** [self._get_camera_info()] *)
Definition _get_camera_info : M W val :=
  try_except_all
    (viewport <- attr app "activeViewport";;
     camera <- attr viewport "camera";;
     ex <- path camera ["eye"; "x"];;
     ey <- path camera ["eye"; "y"];;
     ez <- path camera ["eye"; "z"];;
     tx <- path camera ["target"; "x"];;
     ty <- path camera ["target"; "y"];;
     tz <- path camera ["target"; "z"];;
     ux <- path camera ["upVector"; "x"];;
     uy <- path camera ["upVector"; "y"];;
     uz <- path camera ["upVector"; "z"];;
     ct <- attr camera "cameraType";;
     st <- attr camera "isSmoothTransition";;
     ret (VDict [("eye", VList [ex; ey; ez]);
                 ("target", VList [tx; ty; tz]);
                 ("up_vector", VList [ux; uy; uz]);
                 ("camera_type", ct);
                 ("is_smooth_transition", st)]))
    (ret (VDict [("error", VStr "Could not get camera info")])).

(** [x.material.name if x.material else "None"] *)
Definition material_name (body : val) : M W val :=
  m <- attr body "material";;
  if py_truthy m then path body ["material"; "name"] else ret (VStr "None").

(** One entry of the [bodies] list of [get_scene_info]. *)
Definition scene_body (root_component i : val) : M W val :=
  item <- path root_component ["bRepBodies"; "item"];;
  body <- call item [i];;
  name <- attr body "name";;
  volume <- attr body "volume";;
  area <- attr body "area";;
  material <- material_name body;;
  is_visible <- attr body "isVisible";;
  ret (VDict [("name", name); ("volume", volume); ("area", area);
              ("material", material); ("is_visible", is_visible)]).

(** The [try] block of [get_scene_info]. *)
Definition get_scene_info_body : M W val :=
     design <- attr app "activeProduct";;
     if negb (py_truthy design) then ret (VDict [("error", VStr "No active design")])
     else
       root_component <- attr design "rootComponent";;
       design_name <- path design ["parentDocument"; "name"];;
       design_type <- attr design "productType";;
       rc_name <- attr root_component "name";;
       bodies_count <- path root_component ["bRepBodies"; "count"];;
       sketches_count <- path root_component ["sketches"; "count"];;
       features_count <- path root_component ["features"; "count"];;
       occurrences_count <- path root_component ["occurrences"; "count"];;
       has_timeline <- has_attr design "timeline";;
       timeline_count <-
         (if has_timeline : bool then path design ["timeline"; "count"]
          else ret (VInt 0));;
       camera <- _get_camera_info;;
       let info :=
         [("design_name", design_name);
          ("design_type", design_type);
          ("root_component",
           VDict [("name", rc_name);
                  ("bodies_count", bodies_count);
                  ("sketches_count", sketches_count);
                  ("features_count", features_count);
                  ("occurrences_count", occurrences_count)]);
          ("timeline_count", timeline_count);
          ("camera", camera)] in
       n <- path root_component ["bRepBodies"; "count"];;
       indices <- lift (py_range n);;
       bodies <- map_each indices (scene_body root_component);;
       ret (VDict (dict_set info "bodies" (VList bodies))).

Definition get_scene_info : M W val :=
  try_except get_scene_info_body
    (fun e => ret (VDict [("error", VStr (exn_msg e))])).

(** The first loop of [get_object_info]: the body called [name], if any. *)
Fixpoint find_body (root_component name : val) (indices : list val)
    (obj_info : list (string * val)) : M W (list (string * val)) :=
  match indices with
  | [] => ret obj_info
  | i :: rest =>
      item <- path root_component ["bRepBodies"; "item"];;
      body <- call item [i];;
      body_name <- attr body "name";;
      if py_eq body_name name then
        volume <- attr body "volume";;
        area <- attr body "area";;
        material <- material_name body;;
        is_visible <- attr body "isVisible";;
        faces_count <- path body ["faces"; "count"];;
        edges_count <- path body ["edges"; "count"];;
        vertices_count <- path body ["vertices"; "count"];;
        ret (dict_update obj_info
               [("found", VBool true); ("type", VStr "body");
                ("volume", volume); ("area", area); ("material", material);
                ("is_visible", is_visible); ("faces_count", faces_count);
                ("edges_count", edges_count); ("vertices_count", vertices_count)])
      else find_body root_component name rest obj_info
  end.

(** The second loop of [get_object_info]: the sketch called [name], if any. *)
Fixpoint find_sketch (root_component name : val) (indices : list val)
    (obj_info : list (string * val)) : M W (list (string * val)) :=
  match indices with
  | [] => ret obj_info
  | i :: rest =>
      item <- path root_component ["sketches"; "item"];;
      sketch <- call item [i];;
      sketch_name <- attr sketch "name";;
      if py_eq sketch_name name then
        is_visible <- attr sketch "isVisible";;
        profile_count <- path sketch ["profiles"; "count"];;
        curve_count <- path sketch ["sketchCurves"; "count"];;
        reference_plane <- attr sketch "referencePlane";;
        plane <-
          (if py_truthy reference_plane then path sketch ["referencePlane"; "name"]
           else ret (VStr "Unknown"));;
        ret (dict_update obj_info
               [("found", VBool true); ("type", VStr "sketch");
                ("is_visible", is_visible); ("profile_count", profile_count);
                ("curve_count", curve_count); ("plane", plane)])
      else find_sketch root_component name rest obj_info
  end.

(** The [try] block of [get_object_info]. *)
Definition get_object_info_body (name : val) : M W val :=
     design <- attr app "activeProduct";;
     if negb (py_truthy design) then ret (VDict [("error", VStr "No active design")])
     else
       root_component <- attr design "rootComponent";;
       let obj_info := [("name", name); ("found", VBool false)] in
       n <- path root_component ["bRepBodies"; "count"];;
       indices <- lift (py_range n);;
       obj_info <- find_body root_component name indices obj_info;;
       obj_info <-
         (if negb (py_truthy (match dict_get obj_info "found" with
                              | Some v => v
                              | None => VNone
                              end))
          then
            m <- path root_component ["sketches"; "count"];;
            indices <- lift (py_range m);;
            find_sketch root_component name indices obj_info
          else ret obj_info);;
       ret (VDict obj_info).

Definition get_object_info (name : val) : M W val :=
  try_except (get_object_info_body name)
    (fun e => ret (VDict [("error", VStr (exn_msg e))])).

Definition execute_code (code : val) : M W val :=
  try_except
    (design <- attr app "activeProduct";;
     let namespace :=
       [("adsk", adsk); ("app", app); ("ui", ui); ("design", design)] in
     product <- attr app "activeProduct";;
     namespace <-
       (if py_truthy product then
          component <- path app ["activeProduct"; "rootComponent"];;
          ret (dict_set namespace "component" component)
        else ret namespace);;
     captured_output <- host_exec code namespace;;
     ret (VDict [("executed", VBool true); ("result", VStr captured_output)]))
    (fun e => raise_Exception ("Code execution error: " ++ exn_msg e)).

(** The construction planes by name, as [create_sketch] and [mirror] look
    them up: [plane_map.get(plane, root_component.xYConstructionPlane)]. *)
Definition construction_plane_of (root_component plane : val) : M W val :=
  xy <- attr root_component "xYConstructionPlane";;
  yz <- attr root_component "yZConstructionPlane";;
  xz <- attr root_component "xZConstructionPlane";;
  default <- attr root_component "xYConstructionPlane";;
  lift (str_dict_get [("xy", xy); ("yz", yz); ("xz", xz)] plane default).

Definition create_sketch (plane : val) : M W val :=
  try_except
    (design <- attr app "activeProduct";;
     root_component <- attr design "rootComponent";;
     construction_plane <- construction_plane_of root_component plane;;
     add <- path root_component ["sketches"; "add"];;
     sketch <- call add [construction_plane];;
     sketch_name <- attr sketch "name";;
     ret (VDict [("sketch_name", sketch_name); ("plane", plane);
                 ("success", VBool true)]))
    (fun e => raise_Exception ("Failed to create sketch: " ++ exn_msg e)).

(** The most recently created sketch:
    [if root_component.sketches.count == 0: raise Exception(text)] and
    [root_component.sketches.item(root_component.sketches.count - 1)]. *)
Definition last_sketch (root_component : val) (text : string) : M W val :=
  count <- path root_component ["sketches"; "count"];;
  if py_eq count (VInt 0) then raise_Exception text
  else
    item <- path root_component ["sketches"; "item"];;
    count <- path root_component ["sketches"; "count"];;
    index <- lift (py_sub count (VInt 1));;
    call item [index].

Definition point3d (x y z : M W val) : M W val :=
  create <- path adsk ["core"; "Point3D"; "create"];;
  x <- x;; y <- y;; z <- z;;
  call create [x; y; z].

Definition draw_rectangle (width height origin_x origin_y origin_z : val) : M W val :=
  try_except
    (design <- attr app "activeProduct";;
     root_component <- attr design "rootComponent";;
     sketch <- last_sketch root_component "No sketch available. Create a sketch first.";;
     point1 <- point3d (ret origin_x) (ret origin_y) (ret origin_z);;
     point2 <- point3d (lift (py_add origin_x width)) (lift (py_add origin_y height))
                       (ret origin_z);;
     add <- path sketch ["sketchCurves"; "sketchLines"; "addTwoPointRectangle"];;
     rectangle <- call add [point1; point2];;
     sketch_name <- attr sketch "name";;
     ret (VDict [("rectangle_created", VBool true); ("width", width);
                 ("height", height); ("sketch", sketch_name)]))
    (fun e => raise_Exception ("Failed to draw rectangle: " ++ exn_msg e)).

Definition draw_circle (radius center_x center_y center_z : val) : M W val :=
  try_except
    (design <- attr app "activeProduct";;
     root_component <- attr design "rootComponent";;
     sketch <- last_sketch root_component "No sketch available. Create a sketch first.";;
     center_point <- point3d (ret center_x) (ret center_y) (ret center_z);;
     add <- path sketch ["sketchCurves"; "sketchCircles"; "addByCenterRadius"];;
     circle <- call add [center_point; radius];;
     sketch_name <- attr sketch "name";;
     ret (VDict [("circle_created", VBool true); ("radius", radius);
                 ("center", VList [center_x; center_y; center_z]);
                 ("sketch", sketch_name)]))
    (fun e => raise_Exception ("Failed to draw circle: " ++ exn_msg e)).

Definition draw_line (start_x start_y end_x end_y start_z end_z : val) : M W val :=
  try_except
    (design <- attr app "activeProduct";;
     root_component <- attr design "rootComponent";;
     sketch <- last_sketch root_component "No sketch available. Create a sketch first.";;
     start_point <- point3d (ret start_x) (ret start_y) (ret start_z);;
     end_point <- point3d (ret end_x) (ret end_y) (ret end_z);;
     add <- path sketch ["sketchCurves"; "sketchLines"; "addByTwoPoints"];;
     line <- call add [start_point; end_point];;
     sketch_name <- attr sketch "name";;
     ret (VDict [("line_created", VBool true);
                 ("start", VList [start_x; start_y; start_z]);
                 ("end", VList [end_x; end_y; end_z]);
                 ("sketch", sketch_name)]))
    (fun e => raise_Exception ("Failed to draw line: " ++ exn_msg e)).

(** [sketch.profiles.item(profile_index)], after the check that the sketch
    has profiles. *)
Definition profile_of (sketch profile_index : val) : M W val :=
  count <- path sketch ["profiles"; "count"];;
  if py_eq count (VInt 0) then raise_Exception "No profiles found in sketch."
  else
    item <- path sketch ["profiles"; "item"];;
    call item [profile_index].

(** The operation map of [extrude] and [revolve], and its lookup
    [operation_map.get(operation, ...NewBodyFeatureOperation)]. *)
Definition operation_map : list (string * FeatureOperations) :=
  [("new_body", NewBodyFeatureOperation);
   ("join", JoinFeatureOperation);
   ("cut", CutFeatureOperation);
   ("intersect", IntersectFeatureOperation)].

Definition operation_type_of (operation : val) : outcome val :=
  match str_dict_get operation_map operation NewBodyFeatureOperation with
  | Ret op => Ret (feature_operation op)
  | Raise e => Raise e
  end.

Definition extrude (height profile_index operation direction : val) : M W val :=
  try_except
    (design <- attr app "activeProduct";;
     root_component <- attr design "rootComponent";;
     sketch <- last_sketch root_component "No sketch available.";;
     profile <- profile_of sketch profile_index;;
     extrudes <- path root_component ["features"; "extrudeFeatures"];;
     operation_type <- lift (operation_type_of operation);;
     create_input <- attr extrudes "createInput";;
     extrude_input <- call create_input [profile; operation_type];;
     create_by_real <- path adsk ["core"; "ValueInput"; "createByReal"];;
     distance_value <- call create_by_real [height];;
     (if py_eq direction (VStr "symmetric") then
        set_extent <- attr extrude_input "setSymmetricExtent";;
        call set_extent [distance_value; VBool true]
      else
        let is_negative := py_eq direction (VStr "negative") in
        set_extent <- attr extrude_input "setDistanceExtent";;
        call set_extent [VBool is_negative; distance_value]);;;
     add <- attr extrudes "add";;
     feature <- call add [extrude_input];;
     feature_name <- attr feature "name";;
     ret (VDict [("extrude_created", VBool true); ("height", height);
                 ("operation", operation); ("direction", direction);
                 ("feature_name", feature_name)]))
    (fun e => raise_Exception ("Failed to extrude: " ++ exn_msg e)).

Definition revolve (angle profile_index axis_origin_x axis_origin_y axis_origin_z
    axis_direction_x axis_direction_y axis_direction_z operation : val) : M W val :=
  try_except
    (design <- attr app "activeProduct";;
     root_component <- attr design "rootComponent";;
     sketch <- last_sketch root_component "No sketch available.";;
     profile <- profile_of sketch profile_index;;
     revolves <- path root_component ["features"; "revolveFeatures"];;
     operation_type <- lift (operation_type_of operation);;
     create_input <- attr revolves "createInput";;
     revolve_input <- call create_input [profile; operation_type];;
     axis_point <- point3d (ret axis_origin_x) (ret axis_origin_y) (ret axis_origin_z);;
     create_vector <- path adsk ["core"; "Vector3D"; "create"];;
     axis_direction <- call create_vector
                         [axis_direction_x; axis_direction_y; axis_direction_z];;
     create_line <- path adsk ["core"; "Line3D"; "create"];;
     axis <- call create_line [axis_point; axis_direction];;
     create_by_string <- path adsk ["core"; "ValueInput"; "createByString"];;
     angle_text <- lift (py_str angle);;
     angle_value <- call create_by_string [VStr (angle_text ++ " deg")];;
     set_extent <- attr revolve_input "setRevolutionExtent";;
     call set_extent [VBool false; angle_value];;;
     set_attr revolve_input "revolutionAxis" axis;;;
     add <- attr revolves "add";;
     feature <- call add [revolve_input];;
     feature_name <- attr feature "name";;
     ret (VDict [("revolve_created", VBool true); ("angle", angle);
                 ("operation", operation); ("feature_name", feature_name)]))
    (fun e => raise_Exception ("Failed to revolve: " ++ exn_msg e)).

(** [root_component.bRepBodies.item(body_index)], after the check that the
    design has bodies. *)
Definition body_of (root_component body_index : val) (text : string) : M W val :=
  count <- path root_component ["bRepBodies"; "count"];;
  if py_eq count (VInt 0) then raise_Exception text
  else
    item <- path root_component ["bRepBodies"; "item"];;
    call item [body_index].

(** [adsk.core.ObjectCollection.create()] *)
Definition new_collection : M W val :=
  create <- path adsk ["core"; "ObjectCollection"; "create"];;
  call create [].

(** [collection.add(x)] *)
Definition collection_add (collection x : val) : M W unit :=
  add <- attr collection "add";;
  call add [x];;;
  ret tt.

(** [for x in body.<items>: collection.add(x)] *)
Definition select_all (items : string) (collection body : val) : M W unit :=
  xs <- attr body items;;
  xs <- iterate xs;;
  for_each xs (fun x => collection_add collection x).

(** [bbox = body.boundingBox] and
    [for x in body.<items>:
       if x.boundingBox.maxPoint.z > (bbox.maxPoint.z - 0.001):
         collection.add(x)] *)
Definition select_top (items : string) (collection body : val) : M W unit :=
  bbox <- attr body "boundingBox";;
  xs <- attr body items;;
  xs <- iterate xs;;
  for_each xs (fun x =>
    z <- path x ["boundingBox"; "maxPoint"; "z"];;
    body_z <- path bbox ["maxPoint"; "z"];;
    limit <- lift (py_sub body_z (VFloat epsilon));;
    above <- lift (py_gt z limit);;
    if above : bool then collection_add collection x else ret tt).

(** The edge selection of [fillet]. *)
Definition fillet_select (edge_selection collection body : val) : M W unit :=
  if py_eq edge_selection (VStr "all") then select_all "edges" collection body
  else if py_eq edge_selection (VStr "top") then select_top "edges" collection body
  else ret tt.

(** The edge selection of [chamfer]. *)
Definition chamfer_select (edge_selection collection body : val) : M W unit :=
  if py_eq edge_selection (VStr "all") then select_all "edges" collection body
  else ret tt.

(** The face selection of [shell]. *)
Definition shell_select (face_selection collection body : val) : M W unit :=
  if py_eq face_selection (VStr "top") then select_top "faces" collection body
  else ret tt.

Definition fillet (radius body_index edge_selection : val) : M W val :=
  try_except
    (design <- attr app "activeProduct";;
     root_component <- attr design "rootComponent";;
     body <- body_of root_component body_index "No bodies available for filleting.";;
     edge_collection <- new_collection;;
     fillet_select edge_selection edge_collection body;;;
     fillets <- path root_component ["features"; "filletFeatures"];;
     create_input <- attr fillets "createInput";;
     fillet_input <- call create_input [];;
     add_set <- attr fillet_input "addConstantRadiusEdgeSet";;
     create_by_real <- path adsk ["core"; "ValueInput"; "createByReal"];;
     radius_value <- call create_by_real [radius];;
     call add_set [edge_collection; radius_value; VBool true];;;
     add <- attr fillets "add";;
     feature <- call add [fillet_input];;
     edges_count <- attr edge_collection "count";;
     feature_name <- attr feature "name";;
     ret (VDict [("fillet_created", VBool true); ("radius", radius);
                 ("edges_count", edges_count); ("feature_name", feature_name)]))
    (fun e => raise_Exception ("Failed to create fillet: " ++ exn_msg e)).

Definition chamfer (distance body_index edge_selection : val) : M W val :=
  try_except
    (design <- attr app "activeProduct";;
     root_component <- attr design "rootComponent";;
     body <- body_of root_component body_index "No bodies available for chamfering.";;
     edge_collection <- new_collection;;
     chamfer_select edge_selection edge_collection body;;;
     chamfers <- path root_component ["features"; "chamferFeatures"];;
     create_input <- attr chamfers "createInput";;
     chamfer_input <- call create_input [edge_collection; VBool true];;
     set_distance <- attr chamfer_input "setToEqualDistance";;
     create_by_real <- path adsk ["core"; "ValueInput"; "createByReal"];;
     distance_value <- call create_by_real [distance];;
     call set_distance [distance_value];;;
     add <- attr chamfers "add";;
     feature <- call add [chamfer_input];;
     edges_count <- attr edge_collection "count";;
     feature_name <- attr feature "name";;
     ret (VDict [("chamfer_created", VBool true); ("distance", distance);
                 ("edges_count", edges_count); ("feature_name", feature_name)]))
    (fun e => raise_Exception ("Failed to create chamfer: " ++ exn_msg e)).

Definition shell (thickness body_index face_selection : val) : M W val :=
  try_except
    (design <- attr app "activeProduct";;
     root_component <- attr design "rootComponent";;
     body <- body_of root_component body_index "No bodies available for shelling.";;
     face_collection <- new_collection;;
     shell_select face_selection face_collection body;;;
     shells <- path root_component ["features"; "shellFeatures"];;
     body_collection <- new_collection;;
     collection_add body_collection body;;;
     create_input <- attr shells "createInput";;
     shell_input <- call create_input [body_collection];;
     set_attr shell_input "facesToRemove" face_collection;;;
     create_by_real <- path adsk ["core"; "ValueInput"; "createByReal"];;
     thickness_value <- call create_by_real [thickness];;
     set_attr shell_input "insideThickness" thickness_value;;;
     add <- attr shells "add";;
     feature <- call add [shell_input];;
     faces_removed <- attr face_collection "count";;
     feature_name <- attr feature "name";;
     ret (VDict [("shell_created", VBool true); ("thickness", thickness);
                 ("faces_removed", faces_removed); ("feature_name", feature_name)]))
    (fun e => raise_Exception ("Failed to create shell: " ++ exn_msg e)).

Definition mirror (mirror_plane body_index : val) : M W val :=
  try_except
    (design <- attr app "activeProduct";;
     root_component <- attr design "rootComponent";;
     body <- body_of root_component body_index "No bodies available for mirroring.";;
     construction_plane <- construction_plane_of root_component mirror_plane;;
     input_entities <- new_collection;;
     collection_add input_entities body;;;
     mirrors <- path root_component ["features"; "mirrorFeatures"];;
     create_input <- attr mirrors "createInput";;
     mirror_input <- call create_input [input_entities; construction_plane];;
     add <- attr mirrors "add";;
     feature <- call add [mirror_input];;
     feature_name <- attr feature "name";;
     ret (VDict [("mirror_created", VBool true); ("mirror_plane", mirror_plane);
                 ("feature_name", feature_name)]))
    (fun e => raise_Exception ("Failed to create mirror: " ++ exn_msg e)).

(** ** Calling a handler with keyword arguments *)

(** The first keyword that the function cannot take, if any: [self] is bound
    already, any other name must be a parameter. *)
Definition bad_keyword (names : list string) (k : string) : bool :=
  String.eqb k "self" || negb (existsb (String.eqb k) names).

(** Binding the keyword arguments [params] of a call for a method with the parameters [required]
    (no default) and [optional]: the keyword arguments, when they fit. *)
Definition bind_kwargs (func : string) (required optional : list string)
    (params : val) : outcome (list (string * val)) :=
  match params with
  | VDict d =>
      match find (bad_keyword (required ++ optional)) (dict_keys d) with
      | Some k =>
          if String.eqb k "self" then py_raise (MultipleValues func k)
          else py_raise (UnexpectedKeyword func k)
      | None =>
          match filter (fun r => negb (dict_has d r)) required with
          | [] => Ret d
          | missing => py_raise (MissingArguments func missing)
          end
      end
  | _ => py_raise (NotAMapping func params)
  end.

(** The argument [name]: the keyword given, or else the default. *)
Definition arg (d : list (string * val)) (name : string) (default : val) : val :=
  match dict_get d name with
  | Some v => v
  | None => default
  end.

Definition call_get_scene_info (params : val) : M W val :=
  d <- lift (bind_kwargs "get_scene_info" [] [] params);;
  get_scene_info.

Definition call_get_object_info (params : val) : M W val :=
  d <- lift (bind_kwargs "get_object_info" ["name"] [] params);;
  get_object_info (arg d "name" VNone).

Definition call_execute_code (params : val) : M W val :=
  d <- lift (bind_kwargs "execute_code" ["code"] [] params);;
  execute_code (arg d "code" VNone).

Definition call_create_sketch (params : val) : M W val :=
  d <- lift (bind_kwargs "create_sketch" [] ["plane"] params);;
  create_sketch (arg d "plane" (VStr "xy")).

Definition call_draw_rectangle (params : val) : M W val :=
  d <- lift (bind_kwargs "draw_rectangle" ["width"; "height"]
               ["origin_x"; "origin_y"; "origin_z"] params);;
  draw_rectangle (arg d "width" VNone) (arg d "height" VNone)
    (arg d "origin_x" (VInt 0)) (arg d "origin_y" (VInt 0))
    (arg d "origin_z" (VInt 0)).

Definition call_draw_circle (params : val) : M W val :=
  d <- lift (bind_kwargs "draw_circle" ["radius"]
               ["center_x"; "center_y"; "center_z"] params);;
  draw_circle (arg d "radius" VNone) (arg d "center_x" (VInt 0))
    (arg d "center_y" (VInt 0)) (arg d "center_z" (VInt 0)).

Definition call_draw_line (params : val) : M W val :=
  d <- lift (bind_kwargs "draw_line" ["start_x"; "start_y"; "end_x"; "end_y"]
               ["start_z"; "end_z"] params);;
  draw_line (arg d "start_x" VNone) (arg d "start_y" VNone)
    (arg d "end_x" VNone) (arg d "end_y" VNone)
    (arg d "start_z" (VInt 0)) (arg d "end_z" (VInt 0)).

Definition call_extrude (params : val) : M W val :=
  d <- lift (bind_kwargs "extrude" ["height"]
               ["profile_index"; "operation"; "direction"] params);;
  extrude (arg d "height" VNone) (arg d "profile_index" (VInt 0))
    (arg d "operation" (VStr "new_body")) (arg d "direction" (VStr "positive")).

Definition call_revolve (params : val) : M W val :=
  d <- lift (bind_kwargs "revolve" ["angle"]
               ["profile_index"; "axis_origin_x"; "axis_origin_y"; "axis_origin_z";
                "axis_direction_x"; "axis_direction_y"; "axis_direction_z";
                "operation"] params);;
  revolve (arg d "angle" VNone) (arg d "profile_index" (VInt 0))
    (arg d "axis_origin_x" (VInt 0)) (arg d "axis_origin_y" (VInt 0))
    (arg d "axis_origin_z" (VInt 0)) (arg d "axis_direction_x" (VInt 1))
    (arg d "axis_direction_y" (VInt 0)) (arg d "axis_direction_z" (VInt 0))
    (arg d "operation" (VStr "new_body")).

Definition call_fillet (params : val) : M W val :=
  d <- lift (bind_kwargs "fillet" ["radius"] ["body_index"; "edge_selection"] params);;
  fillet (arg d "radius" VNone) (arg d "body_index" (VInt 0))
    (arg d "edge_selection" (VStr "all")).

Definition call_chamfer (params : val) : M W val :=
  d <- lift (bind_kwargs "chamfer" ["distance"] ["body_index"; "edge_selection"] params);;
  chamfer (arg d "distance" VNone) (arg d "body_index" (VInt 0))
    (arg d "edge_selection" (VStr "all")).

Definition call_shell (params : val) : M W val :=
  d <- lift (bind_kwargs "shell" ["thickness"] ["body_index"; "face_selection"] params);;
  shell (arg d "thickness" VNone) (arg d "body_index" (VInt 0))
    (arg d "face_selection" (VStr "top")).

Definition call_mirror (params : val) : M W val :=
  d <- lift (bind_kwargs "mirror" ["mirror_plane"] ["body_index"] params);;
  mirror (arg d "mirror_plane" VNone) (arg d "body_index" (VInt 0)).

(** ** The dispatcher *)

(** The [handlers] table of [_execute_command_internal]. *)
Definition handlers : list (string * (val -> M W val)) :=
  [("get_scene_info", call_get_scene_info);
   ("get_object_info", call_get_object_info);
   ("execute_code", call_execute_code);
   ("create_sketch", call_create_sketch);
   ("draw_rectangle", call_draw_rectangle);
   ("draw_circle", call_draw_circle);
   ("draw_line", call_draw_line);
   ("extrude", call_extrude);
   ("revolve", call_revolve);
   ("fillet", call_fillet);
   ("chamfer", call_chamfer);
   ("shell", call_shell);
   ("mirror", call_mirror)].

(** The registered tool names. *)
Definition registered : list string := map fst handlers.

(** [handlers.get(cmd_type)] *)
Definition handlers_get (cmd_type : val) : outcome (option (val -> M W val)) :=
  str_dict_get (map (fun kv => (fst kv, Some (snd kv))) handlers) cmd_type None.

(** [command.get(key, default)]: anything but a dict has no [get]. *)
Definition command_get (command : val) (key : string) (default : val) : outcome val :=
  match command with
  | VDict d => Ret (arg d key default)
  | _ => py_raise (NoAttribute command "get")
  end.

Definition _execute_command_internal (command : val) : M W val :=
  cmd_type <- lift (command_get command "type" VNone);;
  params <- lift (command_get command "params" (VDict []));;
  handler <- lift (handlers_get cmd_type);;
  match handler with
  | Some handler =>
      try_except
        (result <- handler params;;
         ret (success_response result))
        (fun e => ret (error_response (exn_msg e)))
  | None =>
      type_text <- lift (py_str cmd_type);;
      ret (error_response ("Unknown command type: " ++ type_text))
  end.

(** [CommandHandler.execute_command] (what it prints is left out) *)
Definition execute_command (command : val) : M W val :=
  try_except
    (_execute_command_internal command)
    (fun e => ret (error_response (exn_msg e))).

End Handlers.

End CommandHandler.

(* ================================================================== *)
(** * The lookups of the script generator ([script_generator.py]) *)
(* ================================================================== *)

Module ScriptGenerator.
Import Py.

Definition nl : string := String "010" "".

(** The lines of a piece of generated code. *)
Definition lines (ls : list string) : string := String.concat nl ls.

Definition all_edges_code : string :=
  lines ["for edge in body.edges:";
         "    edgeCollection.add(edge)"].

Definition top_edges_code : string :=
  lines ["for edge in body.edges:";
         "    if edge.boundingBox.maxPoint.z > (body.boundingBox.maxPoint.z - 0.001):";
         "        edgeCollection.add(edge)"].

Definition bottom_edges_code : string :=
  lines ["for edge in body.edges:";
         "    if edge.boundingBox.minPoint.z < (body.boundingBox.minPoint.z + 0.001):";
         "        edgeCollection.add(edge)"].

Definition vertical_edges_code : string :=
  lines ["for edge in body.edges:";
         "    # Select edges that are approximately vertical";
         "    direction = edge.geometry.direction";
         "    if abs(direction.z) < 0.1:  # Nearly horizontal";
         "        edgeCollection.add(edge)"].

Definition _get_edge_collection_code (edge_selection : val) : string :=
  if py_eq edge_selection (VStr "all") then all_edges_code
  else if py_eq edge_selection (VStr "top") then top_edges_code
  else if py_eq edge_selection (VStr "bottom") then bottom_edges_code
  else if py_eq edge_selection (VStr "vertical") then vertical_edges_code
  else all_edges_code.

(** The code that selects the faces at one extreme of the bounding box. *)
Definition face_code (point cmp axis sign : string) : string :=
  lines ["for face in body.faces:";
         ("    if face.boundingBox." ++ point ++ "." ++ axis ++ " " ++ cmp
           ++ " (body.boundingBox." ++ point ++ "." ++ axis ++ " " ++ sign
           ++ " 0.001):")%string;
         "        faceCollection.add(face)"].

Definition face_map : list (string * string) :=
  [("top", face_code "maxPoint" ">" "z" "-");
   ("bottom", face_code "minPoint" "<" "z" "+");
   ("front", face_code "maxPoint" ">" "y" "-");
   ("back", face_code "minPoint" "<" "y" "+");
   ("left", face_code "minPoint" "<" "x" "+");
   ("right", face_code "maxPoint" ">" "x" "-")].

Section Lookups.
Context `{PyRuntime}.

Definition _get_operation_code (operation : val) : outcome string :=
  str_dict_get
    [("new_body", "NewBody"); ("join", "Join"); ("cut", "Cut");
     ("intersect", "Intersect")]
    operation "NewBody".

Definition _get_face_collection_code (face_selection : val) : outcome string :=
  str_dict_get face_map face_selection (face_code "maxPoint" ">" "z" "-").

End Lookups.

End ScriptGenerator.

(* ================================================================== *)
(** * Sockets *)
(* ================================================================== *)

Module Sock.
Import Py.

(** What arrives on a stream socket, in order: a burst of bytes (an empty
    one: the peer has closed the connection), or an error of [recv]. *)
Inductive recv_event : Type :=
| Chunk (data : list Byte.byte)
| RecvRaise (e : exn).

(** [data] cut into pieces of [n] bytes (the last one may be shorter). *)
Fixpoint pieces_from (n : nat) (data : list Byte.byte) (cur : list Byte.byte)
    (room : nat) {struct data} : list (list Byte.byte) :=
  match data with
  | [] => match cur with [] => [] | _ => [rev cur] end
  | b :: data' =>
      match room with
      | O => rev cur :: pieces_from n data' [b] (n - 1)
      | S room' => pieces_from n data' (b :: cur) room'
      end
  end.

Definition pieces (n : nat) (data : list Byte.byte) : list (list Byte.byte) :=
  pieces_from n data [] n.

(** What successive calls of [recv(buffer_size)] return: a burst longer than
    [buffer_size] takes several calls. *)
Definition reads (buffer_size : nat) (tape : list recv_event) : list recv_event :=
  flat_map
    (fun ev =>
       match ev with
       | Chunk [] => [Chunk []]
       | Chunk data => map Chunk (pieces buffer_size data)
       | RecvRaise e => [RecvRaise e]
       end)
    tape.

Definition timeout : exn := Exn SocketTimeoutC "timed out".

Definition is_timeout (e : exn) : bool := exn_class_eqb (exn_class_of e) SocketTimeoutC.

Definition is_connection_error (e : exn) : bool :=
  exn_class_eqb (exn_class_of e) ConnectionErrorC.

End Sock.

(* ================================================================== *)
(** * The per-client loop of the socket server ([socket_server.py]) *)
(* ================================================================== *)

Module SocketServer.
Import Py Sock HostApi CommandHandler.

(** The socket of an accepted client: what is still to arrive, how the
    coming [sendall] calls end ([None]: the data is sent; past the end of
    the list every call succeeds), what has been sent, and the commands
    handed to the dispatcher so far (kept for the statements below). *)
Record client : Type := {
  incoming : list recv_event;
  send_script : list (option exn);
  sent : list (list Byte.byte);
  dispatched : list val
}.

(** How [_handle_client] stops: it waits in [recv] for data that does not
    come, the client has closed the connection, receiving, decoding or
    parsing failed with another exception than [JSONDecodeError]
    (the loop breaks and the socket is closed), or an exception that is no
    [Exception] leaves the handler. *)
Inductive client_exit : Type :=
| Blocked (buffer : list Byte.byte)
| Disconnected
| ReceiveError (e : exn)
| Escaped (e : exn).

(** [client.sendall(data)] *)
Definition sendall (data : list Byte.byte) (c : client) : outcome unit * client :=
  match send_script c with
  | Some e :: script =>
      (Raise e, {| incoming := incoming c; send_script := script;
                   sent := sent c; dispatched := dispatched c |})
  | None :: script =>
      (Ret tt, {| incoming := incoming c; send_script := script;
                  sent := sent c ++ [data]; dispatched := dispatched c |})
  | [] =>
      (Ret tt, {| incoming := incoming c; send_script := [];
                  sent := sent c ++ [data]; dispatched := dispatched c |})
  end.

Definition note_dispatched (command : val) (c : client) : client :=
  {| incoming := incoming c; send_script := send_script c; sent := sent c;
     dispatched := dispatched c ++ [command] |}.

(** The size that [_handle_client] passes to [recv]. *)
Definition recv_size : nat := 8192.

Section Server.
Context `{PyRuntime} {W : Type} `{Host W}.

(** [execute_wrapper()]: [None] when it returns, the exception when one
    leaves it. *)
Definition execute_wrapper (command : val) (w : W) (c : client)
  : option exn * W * client :=
  let c := note_dispatched command c in
  let send_error (e : exn) (w : W) :=
    match Json.json_dumps (error_response (exn_msg e)) with
    | Ret text => (None, w, snd (sendall (Utf8.encode text) c))
    | Raise _ => (None, w, c)
    end in
  match execute_command command w with
  | (Raise e, w') => if is_Exception e then send_error e w' else (Some e, w', c)
  | (Ret response, w') =>
      match Json.json_dumps response with
      | Raise e => if is_Exception e then send_error e w' else (Some e, w', c)
      | Ret response_json => (None, w', snd (sendall (Utf8.encode response_json) c))
      end
  end.

(** The loop of [_handle_client] over what the [recv] calls return,
    while the server keeps running ([self.running] is set by another thread,
    which is outside this model). *)
Fixpoint client_loop (tape : list recv_event) (buffer : list Byte.byte)
    (w : W) (c : client) {struct tape} : client_exit * W * client :=
  match tape with
  | [] => (Blocked buffer, w, c)
  | RecvRaise e :: _ =>
      if is_Exception e then (ReceiveError e, w, c) else (Escaped e, w, c)
  | Chunk [] :: _ => (Disconnected, w, c)
  | Chunk data :: tape' =>
      let buffer := buffer ++ data in
      match Utf8.decode buffer with
      | Raise e => (ReceiveError e, w, c)
      | Ret text =>
          match Json.json_loads text with
          | Raise e =>
              if exn_class_eqb (exn_class_of e) JSONDecodeErrorC
              then client_loop tape' buffer w c
              else (ReceiveError e, w, c)
          | Ret command =>
              match execute_wrapper command w c with
              | (Some e, w', c') => (Escaped e, w', c')
              | (None, w', c') => client_loop tape' [] w' c'
              end
          end
      end
  end.

Definition _handle_client (w : W) (c : client) : client_exit * W * client :=
  client_loop (reads recv_size (incoming c)) []
    w {| incoming := []; send_script := send_script c; sent := sent c;
         dispatched := dispatched c |}.

End Server.

End SocketServer.

(* ================================================================== *)
(** * The connection manager ([fusion360_connection.py]) *)
(* ================================================================== *)

Module Connection.
Import Py Sock.

(** The network as the connection manager meets it: how the coming
    connection attempts end ([None]: accepted; past the end of the list they
    are refused), how the coming [sendall] calls end (past the end they
    succeed), what the coming [recv] calls meet (past the end they time
    out), what has been sent, and how many sockets have been created. *)
Record net : Type := {
  connect_script : list (option exn);
  send_script : list (option exn);
  recv_script : list recv_event;
  sent : list (list Byte.byte);
  sockets_created : nat
}.

(** [Fusion360Connection]: [sock] is the socket in use, if any. *)
Record Fusion360Connection : Type := {
  host : string;
  port : Z;
  sock : option nat
}.

Definition with_sock (c : Fusion360Connection) (s : option nat) : Fusion360Connection :=
  {| host := host c; port := port c; sock := s |}.

Definition refused : exn := Exn ConnectionErrorC "[Errno 111] Connection refused".

(** [Fusion360Connection.connect].  How [self.sock.connect] ends is given
    by the script of the network (a port that is no port is refused there),
    so that the line that logs host and port after it prints. *)
Definition connect (c : Fusion360Connection) (n : net)
  : outcome bool * Fusion360Connection * net :=
  match sock c with
  | Some _ => (Ret true, c, n)
  | None =>
      let s := sockets_created n in
      let after (script : list (option exn)) :=
        {| connect_script := script; send_script := send_script n;
           recv_script := recv_script n; sent := sent n;
           sockets_created := S s |} in
      match connect_script n with
      | None :: script => (Ret true, with_sock c (Some s), after script)
      | Some e :: script =>
          if is_Exception e then (Ret false, with_sock c None, after script)
          else (Raise e, with_sock c (Some s), after script)
      | [] => (Ret false, with_sock c None, after [])
      end
  end.

Section Receive.
Context `{PyRuntime}.

(** [data = b''.join(chunks)] and [json.loads(data.decode('utf-8'))]: the
    data when it is complete JSON, [None] on [JSONDecodeError]; every other
    exception passes. *)
Definition complete (chunks : list (list Byte.byte))
  : outcome (option (list Byte.byte)) :=
  let data := List.concat chunks in
  match Utf8.decode data with
  | Raise e => Raise e
  | Ret text =>
      match Json.json_loads text with
      | Ret _ => Ret (Some data)
      | Raise e =>
          if exn_class_eqb (exn_class_of e) JSONDecodeErrorC then Ret None
          else Raise e
      end
  end.

(** How the [while True] loop of [receive_full_response] ends. *)
Inductive loop_exit : Type :=
| Returned (data : list Byte.byte)
| Raised (e : exn)
| Broke (chunks : list (list Byte.byte)).

Fixpoint receive_loop (tape : list recv_event) (chunks : list (list Byte.byte))
    {struct tape} : loop_exit * list recv_event :=
  match tape with
  | [] => (Broke chunks, [])
  | RecvRaise e :: tape' =>
      if is_timeout e then (Broke chunks, tape') else (Raised e, tape')
  | Chunk [] :: tape' =>
      match chunks with
      | [] => (Raised (Exn ExceptionC "Connection closed before receiving any data"),
               tape')
      | _ => (Broke chunks, tape')
      end
  | Chunk chunk :: tape' =>
      let chunks := chunks ++ [chunk] in
      match complete chunks with
      | Raise e => (Raised e, tape')
      | Ret (Some data) => (Returned data, tape')
      | Ret None => receive_loop tape' chunks
      end
  end.

(** The default of [buffer_size]. *)
Definition default_buffer_size : nat := 8192.

(** [Fusion360Connection.receive_full_response], on what is to arrive: the
    result and what is left to arrive. *)
Definition receive_full_response (buffer_size : nat) (tape : list recv_event)
  : outcome (list Byte.byte) * list recv_event :=
  match receive_loop (reads buffer_size tape) [] with
  | (Returned data, rest) => (Ret data, rest)
  | (Raised e, rest) => (Raise e, rest)
  | (Broke chunks, rest) =>
      match chunks with
      | [] => (Raise (Exn ExceptionC "No data received"), rest)
      | _ =>
          match complete chunks with
          | Raise e => (Raise e, rest)
          | Ret (Some data) => (Ret data, rest)
          | Ret None => (Raise (Exn ExceptionC "Incomplete JSON response received"), rest)
          end
      end
  end.

End Receive.

Section Send.
Context `{PyRuntime}.

(** [self.sock.sendall(data)] *)
Definition sendall (data : list Byte.byte) (n : net) : outcome unit * net :=
  match send_script n with
  | Some e :: script =>
      (Raise e, {| connect_script := connect_script n; send_script := script;
                   recv_script := recv_script n; sent := sent n;
                   sockets_created := sockets_created n |})
  | None :: script =>
      (Ret tt, {| connect_script := connect_script n; send_script := script;
                  recv_script := recv_script n; sent := sent n ++ [data];
                  sockets_created := sockets_created n |})
  | [] =>
      (Ret tt, {| connect_script := connect_script n; send_script := [];
                  recv_script := recv_script n; sent := sent n ++ [data];
                  sockets_created := sockets_created n |})
  end.

(** [response.get(key, default)] *)
Definition response_get (response : val) (key : string) (default : val) : outcome val :=
  match response with
  | VDict d => Ret (CommandHandler.arg d key default)
  | _ => py_raise (NoAttribute response "get")
  end.

(** What [send_command] makes of the bytes received.  Of what it logs, the
    values that it prints are kept, because printing one can raise: the
    status, and the message of an error response ([None] when there is
    none).  The message has been printed for the log when the [Exception]
    is raised with it, so that [str()] of that exception is its text. *)
Definition interpret (response_data : list Byte.byte) : outcome val :=
  and_then (Utf8.decode response_data) (fun text =>
  and_then (Json.json_loads text) (fun response =>
  and_then (response_get response "status" (VStr "unknown")) (fun logged =>
  and_then (py_str logged) (fun _ =>
  and_then (response_get response "status" VNone) (fun status =>
    if py_eq status (VStr "error") then
      and_then (response_get response "message" VNone) (fun logged =>
      and_then (py_str logged) (fun _ =>
      and_then (response_get response "message" (VStr "Unknown error from Fusion360"))
        (fun message =>
      and_then (py_str message) (fun message_text =>
        Raise (Exn ExceptionC message_text)))))
    else response_get response "result" (VDict [])))))).

(** The body of the [try] of [send_command], for the command built before
    it.  Its first line prints the command type and the parameters for the
    log, which can raise. *)
Definition exchange (command_type params : val) (n : net) : outcome val * net :=
  let command :=
    VDict [("type", command_type);
           ("params", if py_truthy params then params else VDict [])] in
  match and_then (py_str command_type) (fun _ => py_str params) with
  | Raise e => (Raise e, n)
  | Ret _ =>
      match Json.json_dumps command with
      | Raise e => (Raise e, n)
      | Ret text =>
          match sendall (Utf8.encode text) n with
          | (Raise e, n1) => (Raise e, n1)
          | (Ret _, n1) =>
              let '(r, rest) :=
                receive_full_response default_buffer_size (recv_script n1) in
              let n2 :=
                {| connect_script := connect_script n1; send_script := send_script n1;
                   recv_script := rest; sent := sent n1;
                   sockets_created := sockets_created n1 |} in
              match r with
              | Raise e => (Raise e, n2)
              | Ret response_data => (interpret response_data, n2)
              end
          end
      end
  end.

(** [Fusion360Connection.send_command] *)
Definition send_command (c : Fusion360Connection) (command_type params : val) (n : net)
  : outcome val * Fusion360Connection * net :=
  match (match sock c with
         | Some _ => (Ret true, c, n)
         | None => connect c n
         end) with
  | (Raise e, c1, n1) => (Raise e, c1, n1)
  | (Ret false, c1, n1) =>
      (Raise (Exn ConnectionErrorC "Not connected to Fusion360"), c1, n1)
  | (Ret true, c1, n1) =>
      match exchange command_type params n1 with
      | (Ret result, n2) => (Ret result, c1, n2)
      | (Raise e, n2) =>
          match exn_class_of e with
          | BaseExceptionOnly => (Raise e, c1, n2)
          | SocketTimeoutC =>
              (Raise (Exn ExceptionC
                 "Timeout waiting for Fusion360 response - try simplifying your request"),
               with_sock c1 None, n2)
          | ConnectionErrorC =>
              (Raise (Exn ExceptionC ("Connection to Fusion360 lost: " ++ exn_msg e)),
               with_sock c1 None, n2)
          | JSONDecodeErrorC =>
              (Raise (Exn ExceptionC ("Invalid response from Fusion360: " ++ exn_msg e)),
               c1, n2)
          | _ =>
              (Raise (Exn ExceptionC ("Communication error with Fusion360: " ++ exn_msg e)),
               with_sock c1 None, n2)
          end
      end
  end.

End Send.

End Connection.

(* ================================================================== *)
(** * A recording test double of the host, and a sample runtime *)
(* ================================================================== *)

Module MockHost.
Import Py HostApi.

(** The state of the double.  Objects are named by the expression that
    reaches them ([app.activeProduct.rootComponent], ...).  [attrs] gives the
    attributes that have a value of their own, [failing] those whose read
    raises, [iterables] the elements of the collections that are iterated,
    [collections] the content of the [ObjectCollection]s created so far, and
    [calls] records every call with its arguments. *)
Record world : Type := {
  attrs : list (string * val);
  failing : list (string * exn);
  iterables : list (string * list val);
  collections : list (string * list val);
  calls : list (string * list val)
}.

Definition lookup {A : Type} (table : list (string * A)) (k : string) : option A :=
  match find (fun kv => String.eqb (fst kv) k) table with
  | Some kv => Some (snd kv)
  | None => None
  end.

Definition dotted (p name : string) : string := (p ++ "." ++ name)%string.

Section Double.
Context `{PyRuntime}.

Definition mock_getattr (obj : val) (name : string) (w : world) : outcome val * world :=
  match obj with
  | VObj p =>
      let q := dotted p name in
      match lookup (failing w) q with
      | Some e => (Raise e, w)
      | None =>
          match dict_get (attrs w) q with
          | Some v => (Ret v, w)
          | None =>
              match lookup (collections w) p with
              | Some items =>
                  if String.eqb name "count"
                  then (Ret (VInt (Z.of_nat (List.length items))), w)
                  else (Ret (VObj q), w)
              | None => (Ret (VObj q), w)
              end
          end
      end
  | _ => (py_raise (NoAttribute obj name), w)
  end.

Definition mock_setattr (obj : val) (name : string) (v : val) (w : world)
  : outcome unit * world :=
  match obj with
  | VObj p =>
      (Ret tt,
       {| attrs := dict_set (attrs w) (dotted p name) v; failing := failing w;
          iterables := iterables w; collections := collections w;
          calls := calls w |})
  | _ => (py_raise (NoAttribute obj name), w)
  end.

(** The object a call returns: named after the call. *)
Definition call_result (f : string) (args : list val) : val :=
  match args with
  | [VInt i] => VObj (f ++ "(" ++ NilZero.string_of_int (Z.to_int i) ++ ")")
  | _ => VObj (f ++ "()")
  end.

Definition mock_call (f : val) (args : list val) (w : world) : outcome val * world :=
  match f with
  | VObj name =>
      let log := calls w ++ [(name, args)] in
      match lookup (failing w) (name ++ "()") with
      | Some e =>
          (Raise e,
           {| attrs := attrs w; failing := failing w; iterables := iterables w;
              collections := collections w; calls := log |})
      | None =>
          if String.eqb name "adsk.core.ObjectCollection.create" then
            let c := ("collection" ++ NilZero.string_of_int
                        (Z.to_int (Z.of_nat (List.length (collections w)))))%string in
            (Ret (VObj c),
             {| attrs := attrs w; failing := failing w; iterables := iterables w;
                collections := collections w ++ [(c, [])]; calls := log |})
          else
            match find (fun c => String.eqb name (dotted (fst c) "add")) (collections w) with
            | Some (c, _) =>
                (Ret (VBool true),
                 {| attrs := attrs w; failing := failing w; iterables := iterables w;
                    collections :=
                      map (fun kv => if String.eqb (fst kv) c
                                     then (fst kv, snd kv ++ args) else kv)
                          (collections w);
                    calls := log |})
            | None =>
                (Ret (call_result name args),
                 {| attrs := attrs w; failing := failing w; iterables := iterables w;
                    collections := collections w; calls := log |})
            end
      end
  | _ => (py_raise (NotCallable f), w)
  end.

Definition mock_iter (obj : val) (w : world) : outcome (list val) * world :=
  match obj with
  | VObj p =>
      match lookup (iterables w) p with
      | Some items => (Ret items, w)
      | None => (Ret [], w)
      end
  | _ => (py_raise (NotIterable obj), w)
  end.

(** The double runs no code: [exec] prints nothing and changes nothing. *)
Definition mock_exec (code : val) (namespace : list (string * val)) (w : world)
  : outcome string * world :=
  (Ret "", w).

#[export] Instance mock_host : Host world := {|
  app := VObj "app";
  ui := VObj "app.userInterface";
  adsk := VObj "adsk";
  feature_operation := fun op =>
    VObj match op with
         | NewBodyFeatureOperation => "adsk.fusion.FeatureOperations.NewBodyFeatureOperation"
         | JoinFeatureOperation => "adsk.fusion.FeatureOperations.JoinFeatureOperation"
         | CutFeatureOperation => "adsk.fusion.FeatureOperations.CutFeatureOperation"
         | IntersectFeatureOperation =>
             "adsk.fusion.FeatureOperations.IntersectFeatureOperation"
         end;
  host_getattr := mock_getattr;
  host_setattr := mock_setattr;
  host_call := mock_call;
  host_iter := mock_iter;
  host_exec := mock_exec
|}.

End Double.

(** A design in which nothing has a value of its own. *)
Definition blank : world :=
  {| attrs := []; failing := []; iterables := []; collections := []; calls := [] |}.

Definition with_attrs (table : list (string * val)) (w : world) : world :=
  {| attrs := table; failing := failing w; iterables := iterables w;
     collections := collections w; calls := calls w |}.

Definition with_failing (table : list (string * exn)) (w : world) : world :=
  {| attrs := attrs w; failing := table; iterables := iterables w;
     collections := collections w; calls := calls w |}.

Definition with_iterables (table : list (string * list val)) (w : world) : world :=
  {| attrs := attrs w; failing := failing w; iterables := table;
     collections := collections w; calls := calls w |}.

(** The name of a Python type, as error texts print it. *)
Definition type_name (v : val) : string :=
  match v with
  | VNone => "NoneType"
  | VBool _ => "bool"
  | VInt _ => "int"
  | VFloat _ => "float"
  | VStr _ => "str"
  | VList _ => "list"
  | VDict _ => "dict"
  | VObj _ => "object"
  end.

Definition quoted (t : string) : string := ("'" ++ t ++ "'")%string.

(** [a], [a and b], [a, b, and c] *)
Definition name_list (names : list string) : string :=
  match names with
  | [] => ""
  | [a] => quoted a
  | [a; b] => quoted a ++ " and " ++ quoted b
  | a :: ((_ :: _ :: _) as rest) =>
      quoted a ++ ", " ++
      (fix tail (l : list string) : string :=
         match l with
         | [] => ""
         | [z] => "and " ++ quoted z
         | y :: l' => quoted y ++ ", " ++ tail l'
         end) rest
  end%string.

(** A runtime for the examples: the error texts follow CPython 3.11 (the
    text for keyword arguments that are no mapping names the module, here
    by its place in the repository; the name depends on how the add-in is
    loaded); floats, lists, dicts and host
    objects print as their type name in angle brackets (no example depends
    on how they print); the limit on the digits of an [int] is 4300, and
    [json] nests 994 deep, as it does when it is called from the top of a
    script. *)
Definition decimal (n : nat) : string := NilZero.string_of_int (Z.to_int (Z.of_nat n)).

Definition limit_text : string :=
  "Exceeds the limit (4300 digits) for integer string conversion".

Definition raise_limit_text : string :=
  "; use sys.set_int_max_str_digits() to increase the limit".

Definition sample_error_text (e : py_error) : string :=
  match e with
  | NoAttribute r name =>
      quoted (type_name r) ++ " object has no attribute " ++ quoted name
  | UnhashableKey k => "unhashable type: " ++ quoted (type_name k)
  | NotAMapping f a =>
      "fusion360_addon.server.command_handler.CommandHandler." ++ f
        ++ "() argument after ** must be a mapping, not " ++ type_name a
  | UnexpectedKeyword f k =>
      "CommandHandler." ++ f ++ "() got an unexpected keyword argument " ++ quoted k
  | MultipleValues f k =>
      "CommandHandler." ++ f ++ "() got multiple values for argument " ++ quoted k
  | MissingArguments f names =>
      "CommandHandler." ++ f ++ "() missing " ++ decimal (List.length names)
        ++ " required positional argument"
        ++ (match names with [_] => "" | _ => "s" end) ++ ": " ++ name_list names
  | UnsupportedOperand op a b =>
      if String.eqb op ">" then
        "'>' not supported between instances of " ++ quoted (type_name a)
          ++ " and " ++ quoted (type_name b)
      else
        "unsupported operand type(s) for " ++ op ++ ": " ++ quoted (type_name a)
          ++ " and " ++ quoted (type_name b)
  | NotAnInteger v => quoted (type_name v) ++ " object cannot be interpreted as an integer"
  | NotIterable v => quoted (type_name v) ++ " object is not iterable"
  | NotCallable v => quoted (type_name v) ++ " object is not callable"
  | NotSerializable v => "Object of type " ++ type_name v ++ " is not JSON serializable"
  | JsonDecodeFailure _ => "Expecting value: line 1 column 1 (char 0)"
  | IntTooLarge => "int too large to convert to float"
  | IntToStr => limit_text ++ raise_limit_text
  | StrToInt digits =>
      limit_text ++ ": value has " ++ decimal digits ++ " digits" ++ raise_limit_text
  | RecursionLimit doing => "maximum recursion depth exceeded while " ++ doing
  end%string.

(** Does [v] hold an [int] of more than 4300 digits? *)
Fixpoint holds_long_int (v : val) : bool :=
  match v with
  | VInt z => Nat.ltb 4300 (int_digits z)
  | VList l => existsb holds_long_int l
  | VDict d => existsb (fun kv => holds_long_int (snd kv)) d
  | _ => false
  end.

#[export] Instance sample_runtime : PyRuntime := {|
  error_text := sample_error_text;
  str_other := fun v => ("<" ++ type_name v ++ ">")%string;
  str_error := fun v => if holds_long_int v then Some LongInt else None;
  int_max_str_digits := 4300;
  spare_depth := 992
|}.

End MockHost.

(* ================================================================== *)
(** * Vocabulary of the statements *)
(* ================================================================== *)

Import Py HostApi CommandHandler.

(** The fields of a response. *)
Definition has_key (r : val) (k : string) : bool :=
  match r with
  | VDict d => dict_has d k
  | _ => false
  end.

Definition status_of (r : val) : option val :=
  match r with
  | VDict d => dict_get d "status"
  | _ => None
  end.

Definition message_of (r : val) : option val :=
  match r with
  | VDict d => dict_get d "message"
  | _ => None
  end.

Definition result_of (r : val) : option val :=
  match r with
  | VDict d => dict_get d "result"
  | _ => None
  end.

(** A command as the connection manager builds it. *)
Definition command_of (type : string) (params : list (string * val)) : val :=
  VDict [("type", VStr type); ("params", VDict params)].

(** The operations that [extrude] and [revolve] know by name. *)
Definition known_operations : list string := map fst operation_map.

(** The edge selections that the script generator knows by name. *)
Definition known_edge_selections : list string := ["all"; "top"; "bottom"; "vertical"].

Set Warnings "-inexact-float".
(** An edge whose bounding box reaches up to [z] is at the top of a body
    whose bounding box reaches up to [body_z]: [z > body_z - 0.001], in the
    arithmetic of Python's floats. *)
Definition above_top (body_z z : float) : bool :=
  PrimFloat.ltb (PrimFloat.sub body_z 0.001) z.
Set Warnings "inexact-float".

(** The objects of the host that [fillet] meets on its way: the design and
    its root component, the body, the collection of edges and its [add],
    the bounding box and the edges of the body, and what makes the
    feature. *)
Record fillet_objects : Type := {
  f_design : val;
  f_root : val;
  f_body : val;
  f_collection : val;
  f_bbox : val;
  f_edges : val;
  f_add : val;
  f_fillets : val;
  f_create_input : val;
  f_input : val;
  f_add_set : val;
  f_create_by_real : val;
  f_radius : val;
  f_add_feature : val;
  f_feature : val
}.

(** The objects of the host that [extrude] meets on its way. *)
Record extrude_objects : Type := {
  x_design : val;
  x_root : val;
  x_sketch : val;
  x_profile : val;
  x_extrudes : val;
  x_create_input : val;
  x_input : val;
  x_create_by_real : val;
  x_distance : val;
  x_set_symmetric : val;
  x_set_distance : val;
  x_add : val;
  x_feature : val
}.

(** The result of a handler with the echoed [operation] replaced. *)
Definition echo_operation (operation : val) (r : outcome val) : outcome val :=
  match r with
  | Ret (VDict d) => Ret (VDict (dict_set d "operation" operation))
  | _ => r
  end.

Section Vocabulary.
Context `{PyRuntime} {W : Type} `{Host W}.

(** What the dispatcher makes of the outcome of a handler. *)
Definition respond (r : outcome val * W) : outcome val * W :=
  match r with
  | (Ret x, w') => (Ret (success_response x), w')
  | (Raise e, w') =>
      if is_Exception e then (Ret (error_response (exn_msg e)), w') else (Raise e, w')
  end.

(** The run [a] ends in the same state of the host as the run [b], with the
    same outcome up to the echoed operation. *)
Definition same_but_echo (operation : val) (a b : outcome val * W) : Prop :=
  a = (echo_operation operation (fst b), snd b).

(** The calls of the two query handlers that bind: [get_scene_info] without
    arguments, [get_object_info] with [name] alone. *)
Definition query_call (d : list (string * val)) : Prop :=
  (dict_get d "type" = Some (VStr "get_scene_info") /\
   exists kw,
     bind_kwargs "get_scene_info" [] [] (arg d "params" (VDict [])) = Ret kw) \/
  (dict_get d "type" = Some (VStr "get_object_info") /\
   exists kw,
     bind_kwargs "get_object_info" ["name"] [] (arg d "params" (VDict [])) = Ret kw).

(** From every state of the host that satisfies [pre], the computation [m]
    returns [a] and leaves a state that satisfies [post]. *)
Definition answers {A : Type} (pre post : W -> Prop) (m : M W A) (a : A) : Prop :=
  forall w, pre w -> exists w', m w = (Ret a, w') /\ post w'.

(** The same, whatever the value returned. *)
Definition performs {A : Type} (pre post : W -> Prop) (m : M W A) : Prop :=
  forall w, pre w -> exists a w', m w = (Ret a, w') /\ post w'.

(** The host reports a body and its edges: in the states in which the
    collection of edges holds [l] ([holds l]), the body has the bounding
    box [f_bbox], whose greatest z coordinate is [body_z], and the edges
    [es], the edge [x] with the greatest z coordinate [edge_z x]; and
    [collection.add(x)] puts [x] behind what the collection holds. *)
Record reports_edges (holds : list val -> W -> Prop) (o : fillet_objects)
    (es : list val) (body_z : float) (edge_z : val -> float) : Prop := {
  read_bbox : forall l,
    answers (holds l) (holds l) (attr (f_body o) "boundingBox") (f_bbox o);
  read_edges : forall l,
    answers (holds l) (holds l) (attr (f_body o) "edges") (f_edges o);
  read_items : forall l, answers (holds l) (holds l) (iterate (f_edges o)) es;
  read_edge_z : forall l x, In x es ->
    answers (holds l) (holds l) (path x ["boundingBox"; "maxPoint"; "z"])
      (VFloat (edge_z x));
  read_body_z : forall l,
    answers (holds l) (holds l) (path (f_bbox o) ["maxPoint"; "z"]) (VFloat body_z);
  read_add : forall l,
    answers (holds l) (holds l) (attr (f_collection o) "add") (f_add o);
  call_add : forall l x,
    performs (holds l) (holds (l ++ [x])) (call (f_add o) [x])
}.

(** The host lets [fillet] make its feature: from the states in which no
    collection has been created ([ready]) it finds the body number
    [body_index] and creates the collection, empty; and in the states in
    which the collection holds [l] it creates the input of the feature,
    takes the collection with the radius, adds the feature, called
    [feature_name], and reports [len(l)] as the count of the collection. *)
Record makes_fillet (ready : W -> Prop) (holds : list val -> W -> Prop)
    (o : fillet_objects) (radius body_index feature_name : val) : Prop := {
  read_design : answers ready ready (attr app "activeProduct") (f_design o);
  read_root : answers ready ready (attr (f_design o) "rootComponent") (f_root o);
  find_body :
    answers ready ready
      (body_of (f_root o) body_index "No bodies available for filleting.") (f_body o);
  create_collection : answers ready (holds []) new_collection (f_collection o);
  read_fillets : forall l,
    answers (holds l) (holds l) (path (f_root o) ["features"; "filletFeatures"])
      (f_fillets o);
  read_create_input : forall l,
    answers (holds l) (holds l) (attr (f_fillets o) "createInput") (f_create_input o);
  call_create_input : forall l,
    answers (holds l) (holds l) (call (f_create_input o) []) (f_input o);
  read_add_set : forall l,
    answers (holds l) (holds l) (attr (f_input o) "addConstantRadiusEdgeSet")
      (f_add_set o);
  read_create_by_real : forall l,
    answers (holds l) (holds l) (path adsk ["core"; "ValueInput"; "createByReal"])
      (f_create_by_real o);
  call_create_by_real : forall l,
    answers (holds l) (holds l) (call (f_create_by_real o) [radius]) (f_radius o);
  call_add_set : forall l,
    performs (holds l) (holds l)
      (call (f_add_set o) [f_collection o; f_radius o; VBool true]);
  read_add_feature : forall l,
    answers (holds l) (holds l) (attr (f_fillets o) "add") (f_add_feature o);
  call_add_feature : forall l,
    answers (holds l) (holds l) (call (f_add_feature o) [f_input o]) (f_feature o);
  read_count : forall l,
    answers (holds l) (holds l) (attr (f_collection o) "count")
      (VInt (Z.of_nat (List.length l)));
  read_feature_name : forall l,
    answers (holds l) (holds l) (attr (f_feature o) "name") feature_name
}.

(** The host carries out a new-body extrusion: in the states that satisfy
    [inv] it finds the last sketch and its profile number [profile_index],
    answers [createInput] for this profile and the operation
    [NewBodyFeatureOperation] with the input [x_input], takes the distance
    made of [height] as the extent of that input, one way or the other, and
    adds the feature for it, called [feature_name]. *)
Record new_body_extrusion (inv : W -> Prop) (o : extrude_objects)
    (height profile_index feature_name : val) : Prop := {
  ex_design : answers inv inv (attr app "activeProduct") (x_design o);
  ex_root : answers inv inv (attr (x_design o) "rootComponent") (x_root o);
  ex_sketch :
    answers inv inv (last_sketch (x_root o) "No sketch available.") (x_sketch o);
  ex_profile : answers inv inv (profile_of (x_sketch o) profile_index) (x_profile o);
  ex_extrudes :
    answers inv inv (path (x_root o) ["features"; "extrudeFeatures"]) (x_extrudes o);
  ex_create_input :
    answers inv inv (attr (x_extrudes o) "createInput") (x_create_input o);
  ex_input :
    answers inv inv
      (call (x_create_input o) [x_profile o; feature_operation NewBodyFeatureOperation])
      (x_input o);
  ex_create_by_real :
    answers inv inv (path adsk ["core"; "ValueInput"; "createByReal"])
      (x_create_by_real o);
  ex_distance : answers inv inv (call (x_create_by_real o) [height]) (x_distance o);
  ex_set_symmetric :
    answers inv inv (attr (x_input o) "setSymmetricExtent") (x_set_symmetric o);
  ex_symmetric :
    performs inv inv (call (x_set_symmetric o) [x_distance o; VBool true]);
  ex_set_distance :
    answers inv inv (attr (x_input o) "setDistanceExtent") (x_set_distance o);
  ex_one_sided : forall negative,
    performs inv inv (call (x_set_distance o) [VBool negative; x_distance o]);
  ex_add : answers inv inv (attr (x_extrudes o) "add") (x_add o);
  ex_feature : answers inv inv (call (x_add o) [x_input o]) (x_feature o);
  ex_feature_name : answers inv inv (attr (x_feature o) "name") feature_name
}.

End Vocabulary.

(** ** Reading brackets and quotes *)

(** A reader that only counts brackets and follows string literals: the
    scanner of [Json] is compared with it to tell where a value ends. *)
Module Reader.

Inductive mode : Type := Plain | InString | Escaped.

(** How one character changes the nesting depth and the mode. *)
Definition step (st : nat * mode) (c : ascii) : nat * mode :=
  let '(d, m) := st in
  match m with
  | Plain =>
      if Ascii.eqb c "034" then (d, InString)
      else if Ascii.eqb c "{" || Ascii.eqb c "[" then (S d, Plain)
      else if Ascii.eqb c "}" || Ascii.eqb c "]" then (Nat.pred d, Plain)
      else (d, Plain)
  | InString =>
      if Ascii.eqb c "\" then (d, Escaped)
      else if Ascii.eqb c "034" then (d, Plain)
      else (d, InString)
  | Escaped => (d, InString)
  end.

Definition run (st : nat * mode) (s : list ascii) : nat * mode := fold_left step s st.

(** The states after each character of [s]. *)
Fixpoint trace (st : nat * mode) (s : list ascii) : list (nat * mode) :=
  match s with
  | [] => []
  | c :: s' => step st c :: trace (step st c) s'
  end.

(** From [st0] the text [s] leads to [st1], and every state on the way,
    [st1] included, satisfies [P]. *)
Definition steady (P : nat * mode -> Prop) (st0 : nat * mode) (s : list ascii)
  (st1 : nat * mode) : Prop :=
  run st0 s = st1 /\ Forall P (trace st0 s).

(** From [st0] the text [s], which is not empty, leads to [st1], and every
    state before its last character satisfies [P]. *)
Definition until (P : nat * mode -> Prop) (st0 : nat * mode) (s : list ascii)
  (st1 : nat * mode) : Prop :=
  s <> [] /\ run st0 s = st1 /\ Forall P (removelast (trace st0 s)).

(** Strictly inside a value that began at depth [d]. *)
Definition inside (d : nat) (st : nat * mode) : Prop :=
  d < fst st \/ (fst st = d /\ snd st <> Plain).

(** Within a string literal at depth [d]. *)
Definition in_string (d : nat) (st : nat * mode) : Prop :=
  fst st = d /\ snd st <> Plain.

(** The text [s] is closed at depth [d]: it leads from depth [d] back to it,
    and every proper prefix of it ends strictly inside. *)
Definition closed (d : nat) (s : list ascii) : Prop :=
  until (inside d) (d, Plain) s (d, Plain).

(** Characters that change the state outside strings. *)
Definition special (c : ascii) : bool :=
  Ascii.eqb c "034" || Ascii.eqb c "{" || Ascii.eqb c "[" || Ascii.eqb c "}"
  || Ascii.eqb c "]".

Definition plain (s : list ascii) : Prop := Forall (fun c => special c = false) s.

(** What [scanstring] consumes leads from inside the literal to just after
    its closing quote, and stays in the literal before that. *)
Definition string_body (c : list ascii) : Prop :=
  forall d, until (in_string d) (d, InString) c (d, Plain).

(** What [object_rest] consumes, from the first key to the closing brace,
    and [array_rest], from the first element to the closing bracket. *)
Definition object_tail (c : list ascii) : Prop :=
  forall d, until (inside d) (S d, InString) c (d, Plain).

Definition array_tail (c : list ascii) : Prop :=
  forall d, until (inside d) (S d, Plain) c (d, Plain).

(** The values whose text is delimited: strings, arrays and objects. *)
Definition is_container (v : val) : bool :=
  match v with
  | VStr _ | VList _ | VDict _ => true
  | _ => false
  end.

Definition opens_container (x : ascii) : bool :=
  Ascii.eqb x "034" || Ascii.eqb x "{" || Ascii.eqb x "[".

(** A character after which a value does not go on: whitespace, a comma or
    a closing bracket. *)
Definition stop_char (c : ascii) : bool :=
  Json.is_ws c || Ascii.eqb c "," || Ascii.eqb c "]" || Ascii.eqb c "}".

(** The text starts with such a character. *)
Definition stops (rest : list ascii) : bool :=
  match rest with
  | c :: _ => stop_char c
  | [] => false
  end.

(** The text of a value: closed when the value is a string, an array or an
    object, and free of brackets and quotes otherwise. *)
Definition consumed_by (v : val) (c : list ascii) : Prop :=
  if is_container v then forall d, closed d c else c <> [] /\ plain c.

End Reader.

(** ** The network *)

(** Socket-level errors: timeouts and connection errors (reset, broken
    pipe, refused). *)
Definition socket_level (e : exn) : bool :=
  Sock.is_timeout e || Sock.is_connection_error e.

Definition socket_level_outcome (o : option exn) : Prop :=
  match o with
  | Some e => socket_level e = true
  | None => True
  end.

Definition socket_level_event (ev : Sock.recv_event) : Prop :=
  match ev with
  | Sock.RecvRaise e => socket_level e = true
  | Sock.Chunk _ => True
  end.

(** A network whose socket operations fail with socket-level errors only. *)
Definition socket_errors_only (n : Connection.net) : Prop :=
  Forall socket_level_outcome (Connection.connect_script n) /\
  Forall socket_level_outcome (Connection.send_script n) /\
  Forall socket_level_event (Connection.recv_script n).

(** The network after a connection attempt that was accepted. *)
Definition connected (n : Connection.net) (script : list (option exn)) : Connection.net :=
  {| Connection.connect_script := script;
     Connection.send_script := Connection.send_script n;
     Connection.recv_script := Connection.recv_script n;
     Connection.sent := Connection.sent n;
     Connection.sockets_created := S (Connection.sockets_created n) |}.

(** The command that [send_command] serializes. *)
Definition command_sent (command_type params : val) : val :=
  VDict [("type", command_type);
         ("params", if py_truthy params then params else VDict [])].

Section Texts.
Context `{PyRuntime}.

(** The exceptions after which [send_command] forgets its socket: all but
    those that are no [Exception] and [JSONDecodeError]. *)
Definition invalidating (e : exn) : bool :=
  match exn_class_of e with
  | BaseExceptionOnly | JSONDecodeErrorC => false
  | _ => true
  end.

(** Data that decodes to a text that is JSON. *)
Definition parses (data : list Byte.byte) : Prop :=
  exists text v, Utf8.decode data = Ret text /\ Json.json_loads text = Ret v.

(** The payload cut into chunks of one byte. *)
Definition byte_chunks (payload : list Byte.byte) : list Sock.recv_event :=
  map (fun b => Sock.Chunk [b]) payload.

(** The characters of the [str] that [decode] makes of [data]. *)
Definition text_of (data : list Byte.byte) : list ascii := map ascii_of_byte data.

Definition ascii_only (data : list Byte.byte) : bool :=
  forallb (fun b => (Byte.to_N b <? 128)%N) data.

(** The last byte of [data] is no whitespace. *)
Definition ends_without_space (data : list Byte.byte) : bool :=
  match rev data with
  | b :: _ => negb (Json.is_ws (ascii_of_byte b))
  | [] => true
  end.

(** Some byte of [data] is no whitespace. *)
Definition has_text (data : list Byte.byte) : bool :=
  match Json.skip_ws (text_of data) with
  | [] => false
  | _ => true
  end.

(** [data] is the text of one JSON object. *)
Definition is_json_object (data : list Byte.byte) : bool :=
  match Json.json_loads (string_of_list_byte data) with
  | Ret (VDict _) => true
  | _ => false
  end.

(** No run of digits in the text that follows [run] digits is longer than
    the interpreter lets an [int] be. *)
Fixpoint runs_fit (run : nat) (s : list ascii) : bool :=
  match s with
  | [] => negb (beyond_limit run)
  | c :: r =>
      if Text.is_digit c then runs_fit (S run) r
      else negb (beyond_limit run) && runs_fit 0 r
  end.

(** No number in [data] has more digits in a row than the interpreter lets
    an [int] have (4300, unless the limit is set otherwise). *)
Definition short_numbers (data : list Byte.byte) : bool := runs_fit 0 (text_of data).

(** Every run of digits in [s] is one that the interpreter reads as an
    [int]. *)
Definition fits (s : list ascii) : Prop :=
  forall a ds b, s = a ++ ds ++ b -> forallb Text.is_digit ds = true ->
    beyond_limit (List.length ds) = false.

(** A buffer that holds a string, an array or an object and more than
    whitespace after it. *)
Definition stuck (buffer : list Byte.byte) : Prop :=
  exists first extra v,
    buffer = first ++ extra /\
    Json.json_loads (string_of_list_byte first) = Ret v /\
    Reader.is_container v = true /\
    has_text extra = true.

End Texts.

(** The client [c] with [tape] to arrive. *)
Definition arriving (tape : list Sock.recv_event) (c : SocketServer.client)
  : SocketServer.client :=
  {| SocketServer.incoming := tape;
     SocketServer.send_script := SocketServer.send_script c;
     SocketServer.sent := SocketServer.sent c;
     SocketServer.dispatched := SocketServer.dispatched c |}.

(** ** The designs and messages of the examples *)

Module Examples.
Import MockHost.

(** The text [t] with every apostrophe turned into a double quote: JSON
    texts are written with apostrophes below. *)
Definition json_text (t : string) : string :=
  string_of_list_ascii
    (map (fun c => if Ascii.eqb c "'" then "034"%char else c) (list_ascii_of_string t)).

Definition json_bytes (t : string) : list Byte.byte := Utf8.encode (json_text t).

Definition root : string := "app.activeProduct.rootComponent".

(** A design without sketches. *)
Definition no_sketch : world :=
  with_attrs [((root ++ ".sketches.count")%string, VInt 0)] blank.

(** A design with one sketch that has one profile. *)
Definition one_sketch : world :=
  with_attrs [((root ++ ".sketches.count")%string, VInt 1);
              ((root ++ ".sketches.item(0).profiles.count")%string, VInt 1)] blank.

(** No active design: [app.activeProduct] is [None]. *)
Definition no_design : world := with_attrs [("app.activeProduct", VNone)] blank.

(** The host fails: reading [app.activeProduct] raises. *)
Definition broken_host : world :=
  with_failing
    [("app.activeProduct", Exn ExceptionC "RuntimeError: 2 : InternalValidationError")]
    blank.

Definition box : string := (root ++ ".bRepBodies.item(0)")%string.

(** A design with one body: a box of height 10 with three edges, the first
    at the top, the second at the bottom, the third less than a thousandth below
    the top. *)
Definition box_z (edge : val) : float :=
  match edge with
  | VObj "e1" => 0%float
  | VObj "e2" => 9.99951171875%float
  | _ => 10%float
  end.

Definition box_edges : list val := [VObj "e0"; VObj "e1"; VObj "e2"].

Definition one_box : world :=
  with_iterables [((box ++ ".edges")%string, box_edges)]
    (with_attrs
       [((root ++ ".bRepBodies.count")%string, VInt 1);
        ((box ++ ".boundingBox.maxPoint.z")%string, VFloat 10);
        ("e0.boundingBox.maxPoint.z", VFloat (box_z (VObj "e0")));
        ("e1.boundingBox.maxPoint.z", VFloat (box_z (VObj "e1")));
        ("e2.boundingBox.maxPoint.z", VFloat (box_z (VObj "e2")))]
       blank).

(** The states of [one_box] in which no collection has been created, and
    those in which the one collection holds [l]; the record of calls is
    free. *)
Definition box_ready (w : world) : Prop :=
  attrs w = attrs one_box /\ failing w = [] /\ iterables w = iterables one_box /\
  collections w = [].

Definition box_holds (l : list val) (w : world) : Prop :=
  attrs w = attrs one_box /\ failing w = [] /\ iterables w = iterables one_box /\
  collections w = [("collection0", l)].

(** The objects that [fillet] with the radius 1 meets on [one_box]. *)
Definition box_objects : fillet_objects :=
  let fillets := (root ++ ".features.filletFeatures")%string in
  {| f_design := VObj "app.activeProduct";
     f_root := VObj root;
     f_body := VObj box;
     f_collection := VObj "collection0";
     f_bbox := VObj (box ++ ".boundingBox");
     f_edges := VObj (box ++ ".edges");
     f_add := VObj "collection0.add";
     f_fillets := VObj fillets;
     f_create_input := VObj (fillets ++ ".createInput");
     f_input := VObj (fillets ++ ".createInput()");
     f_add_set := VObj (fillets ++ ".createInput().addConstantRadiusEdgeSet");
     f_create_by_real := VObj "adsk.core.ValueInput.createByReal";
     f_radius := VObj "adsk.core.ValueInput.createByReal(1)";
     f_add_feature := VObj (fillets ++ ".add");
     f_feature := VObj (fillets ++ ".add()") |}.

(** The states of [one_sketch] in which only the record of calls has
    changed. *)
Definition sketch_inv (w : world) : Prop :=
  attrs w = attrs one_sketch /\ failing w = [] /\ collections w = [].

(** The objects that [extrude] with the height 20 meets on [one_sketch]. *)
Definition sketch_objects : extrude_objects :=
  let extrudes := (root ++ ".features.extrudeFeatures")%string in
  {| x_design := VObj "app.activeProduct";
     x_root := VObj root;
     x_sketch := VObj (root ++ ".sketches.item(0)");
     x_profile := VObj (root ++ ".sketches.item(0).profiles.item(0)");
     x_extrudes := VObj extrudes;
     x_create_input := VObj (extrudes ++ ".createInput");
     x_input := VObj (extrudes ++ ".createInput()");
     x_create_by_real := VObj "adsk.core.ValueInput.createByReal";
     x_distance := VObj "adsk.core.ValueInput.createByReal(20)";
     x_set_symmetric := VObj (extrudes ++ ".createInput().setSymmetricExtent");
     x_set_distance := VObj (extrudes ++ ".createInput().setDistanceExtent");
     x_add := VObj (extrudes ++ ".add");
     x_feature := VObj (extrudes ++ ".add()") |}.

Definition reset : exn := Exn ConnectionErrorC "[Errno 104] Connection reset by peer".

(** A connection in use, on a network where the next [sendall] meets a
    reset and the peer accepts a new connection. *)
Definition in_use : Connection.Fusion360Connection :=
  {| Connection.host := "localhost"; Connection.port := 9876;
     Connection.sock := Some 0%nat |}.

Definition dropping : Connection.net :=
  {| Connection.connect_script := [None]; Connection.send_script := [Some reset];
     Connection.recv_script := []; Connection.sent := [];
     Connection.sockets_created := 1 |}.

Definition dropped : Connection.net :=
  {| Connection.connect_script := [None]; Connection.send_script := [];
     Connection.recv_script := []; Connection.sent := [];
     Connection.sockets_created := 1 |}.

(** A response as the add-in sends it. *)
Definition scene_response : list Byte.byte :=
  json_bytes "{'status': 'success', 'result': {'bodies': 2}}".

(** The network when the peer is back and answers the next command. *)
Definition answering : Connection.net :=
  {| Connection.connect_script := [None]; Connection.send_script := [];
     Connection.recv_script := [Sock.Chunk scene_response];
     Connection.sent := []; Connection.sockets_created := 1 |}.

Definition receiving (tape : list Sock.recv_event) : Connection.net :=
  {| Connection.connect_script := []; Connection.send_script := [];
     Connection.recv_script := tape; Connection.sent := [];
     Connection.sockets_created := 1 |}.

(** A response with a character of two bytes, not escaped:
    [{"status": "success", "result": "<e acute>"}]. *)
Definition accented : list Byte.byte :=
  json_bytes "{'status': 'success', 'result': '"
    ++ [Byte.xc3; Byte.xa9] ++ json_bytes "'}".

(** A response with a line feed after it. *)
Definition padded : list Byte.byte := json_bytes "{'a': 1}" ++ [Byte.x0a].

(** A command, and a client that has sent nothing yet. *)
Definition scene_query : list Byte.byte := json_bytes "{'type': 'get_scene_info'}".

Definition scene_command : val := VDict [("type", VStr "get_scene_info")].

Definition fresh_client (tape : list Sock.recv_event) : SocketServer.client :=
  {| SocketServer.incoming := tape; SocketServer.send_script := [];
     SocketServer.sent := []; SocketServer.dispatched := [] |}.

End Examples.
(* ================================================================== *)
(** * The tool registry ([tools.py]) *)
(* ================================================================== *)

(** The parts that follow embed the MCP server side of the program:

    - [Tools]: [src/fusion360_mcp/tools.py];
    - [Generator]: [src/fusion360_mcp/script_generator.py], with the
      templates and [str.format] as the templates use it;
    - [McpServer]: [generate_tool_script] of [src/fusion360_mcp/server.py];
    - [PersistentConnection]: [disconnect], [get_fusion360_connection] and
      [check_fusion360_available] of
      [src/fusion360_mcp/fusion360_connection.py]. *)

Module Tools.
Import Py.
Local Open Scope list_scope.
Local Open Scope string_scope.

Definition dq : string := String "034" "".

Set Warnings "-inexact-float".
(** [FUSION360_TOOLS], entry by entry as in the source. *)
Definition FUSION360_TOOLS : list val :=
  [VDict
     [("name", VStr "get_scene_info");
      ("title", VStr "Get Scene Info");
      ("description", VStr "Get detailed information about the current Fusion360 design");
      ("inputSchema", VDict
        [("type", VStr "object");
         ("properties", VDict []);
         ("required", VList [])])];
   VDict
     [("name", VStr "get_object_info");
      ("title", VStr "Get Object Info");
      ("description", VStr "Get detailed information about a specific object in the design");
      ("inputSchema", VDict
        [("type", VStr "object");
         ("required", VList [VStr "name"]);
         ("properties", VDict
           [("name", VDict
              [("type", VStr "string");
               ("description", VStr "The name of the object to get information about")])])])];
   VDict
     [("name", VStr "execute_code");
      ("title", VStr "Execute Fusion360 Code");
      ("description", VStr "Execute arbitrary Python code in Fusion360 for debugging and advanced operations");
      ("inputSchema", VDict
        [("type", VStr "object");
         ("required", VList [VStr "code"]);
         ("properties", VDict
           [("code", VDict
              [("type", VStr "string");
               ("description", VStr "Python code to execute in Fusion360 context")])])])];
   VDict
     [("name", VStr "create_sketch");
      ("title", VStr "Create Sketch");
      ("description", VStr "Creates a new sketch on a specified plane in Fusion 360");
      ("inputSchema", VDict
        [("type", VStr "object");
         ("required", VList [VStr "plane"]);
         ("properties", VDict
           [("plane", VDict
              [("type", VStr "string");
               ("enum", VList [VStr "xy"; VStr "yz"; VStr "xz"]);
               ("description", VStr "The plane to create the sketch on")])])])];
   VDict
     [("name", VStr "draw_rectangle");
      ("title", VStr "Draw Rectangle");
      ("description", VStr "Draws a rectangle in the active sketch");
      ("inputSchema", VDict
        [("type", VStr "object");
         ("required", VList [VStr "width"; VStr "height"]);
         ("properties", VDict
           [("width", VDict
              [("type", VStr "number");
               ("description", VStr "Width of the rectangle in mm");
               ("minimum", VFloat 0.1)]);
            ("height", VDict
              [("type", VStr "number");
               ("description", VStr "Height of the rectangle in mm");
               ("minimum", VFloat 0.1)]);
            ("origin_x", VDict
              [("type", VStr "number");
               ("description", VStr "X coordinate of the origin point");
               ("default", VFloat 0)]);
            ("origin_y", VDict
              [("type", VStr "number");
               ("description", VStr "Y coordinate of the origin point");
               ("default", VFloat 0)]);
            ("origin_z", VDict
              [("type", VStr "number");
               ("description", VStr "Z coordinate of the origin point");
               ("default", VFloat 0)])])])];
   VDict
     [("name", VStr "draw_circle");
      ("title", VStr "Draw Circle");
      ("description", VStr "Draws a circle in the active sketch");
      ("inputSchema", VDict
        [("type", VStr "object");
         ("required", VList [VStr "radius"]);
         ("properties", VDict
           [("radius", VDict
              [("type", VStr "number");
               ("description", VStr "Radius of the circle in mm");
               ("minimum", VFloat 0.1)]);
            ("center_x", VDict
              [("type", VStr "number");
               ("description", VStr "X coordinate of the center point");
               ("default", VFloat 0)]);
            ("center_y", VDict
              [("type", VStr "number");
               ("description", VStr "Y coordinate of the center point");
               ("default", VFloat 0)]);
            ("center_z", VDict
              [("type", VStr "number");
               ("description", VStr "Z coordinate of the center point");
               ("default", VFloat 0)])])])];
   VDict
     [("name", VStr "draw_line");
      ("title", VStr "Draw Line");
      ("description", VStr "Draws a line in the active sketch");
      ("inputSchema", VDict
        [("type", VStr "object");
         ("required", VList [VStr "start_x"; VStr "start_y"; VStr "end_x"; VStr "end_y"]);
         ("properties", VDict
           [("start_x", VDict
              [("type", VStr "number");
               ("description", VStr "X coordinate of the start point")]);
            ("start_y", VDict
              [("type", VStr "number");
               ("description", VStr "Y coordinate of the start point")]);
            ("start_z", VDict
              [("type", VStr "number");
               ("description", VStr "Z coordinate of the start point");
               ("default", VFloat 0)]);
            ("end_x", VDict
              [("type", VStr "number");
               ("description", VStr "X coordinate of the end point")]);
            ("end_y", VDict
              [("type", VStr "number");
               ("description", VStr "Y coordinate of the end point")]);
            ("end_z", VDict
              [("type", VStr "number");
               ("description", VStr "Z coordinate of the end point");
               ("default", VFloat 0)])])])];
   VDict
     [("name", VStr "extrude");
      ("title", VStr "Extrude");
      ("description", VStr "Extrudes a profile from a sketch");
      ("inputSchema", VDict
        [("type", VStr "object");
         ("required", VList [VStr "height"]);
         ("properties", VDict
           [("height", VDict
              [("type", VStr "number");
               ("description", VStr "Extrusion height in mm");
               ("minimum", VFloat 0.1)]);
            ("profile_index", VDict
              [("type", VStr "integer");
               ("description", VStr "Index of the profile to extrude (0-based)");
               ("default", VInt 0);
               ("minimum", VInt 0)]);
            ("operation", VDict
              [("type", VStr "string");
               ("enum", VList [VStr "new_body"; VStr "join"; VStr "cut"; VStr "intersect"]);
               ("description", VStr "Type of extrusion operation");
               ("default", VStr "new_body")]);
            ("direction", VDict
              [("type", VStr "string");
               ("enum", VList [VStr "positive"; VStr "negative"; VStr "symmetric"]);
               ("description", VStr "Direction of extrusion");
               ("default", VStr "positive")])])])];
   VDict
     [("name", VStr "revolve");
      ("title", VStr "Revolve");
      ("description", VStr "Revolves a profile around an axis");
      ("inputSchema", VDict
        [("type", VStr "object");
         ("required", VList [VStr "angle"]);
         ("properties", VDict
           [("angle", VDict
              [("type", VStr "number");
               ("description", VStr "Angle of revolution in degrees");
               ("minimum", VFloat 0.1);
               ("maximum", VInt 360)]);
            ("profile_index", VDict
              [("type", VStr "integer");
               ("description", VStr "Index of the profile to revolve (0-based)");
               ("default", VInt 0);
               ("minimum", VInt 0)]);
            ("axis_origin_x", VDict
              [("type", VStr "number");
               ("description", VStr "X coordinate of the axis origin");
               ("default", VFloat 0)]);
            ("axis_origin_y", VDict
              [("type", VStr "number");
               ("description", VStr "Y coordinate of the axis origin");
               ("default", VFloat 0)]);
            ("axis_origin_z", VDict
              [("type", VStr "number");
               ("description", VStr "Z coordinate of the axis origin");
               ("default", VFloat 0)]);
            ("axis_direction_x", VDict
              [("type", VStr "number");
               ("description", VStr "X component of the axis direction");
               ("default", VFloat 1)]);
            ("axis_direction_y", VDict
              [("type", VStr "number");
               ("description", VStr "Y component of the axis direction");
               ("default", VFloat 0)]);
            ("axis_direction_z", VDict
              [("type", VStr "number");
               ("description", VStr "Z component of the axis direction");
               ("default", VFloat 0)]);
            ("operation", VDict
              [("type", VStr "string");
               ("enum", VList [VStr "new_body"; VStr "join"; VStr "cut"; VStr "intersect"]);
               ("description", VStr "Type of revolve operation");
               ("default", VStr "new_body")])])])];
   VDict
     [("name", VStr "fillet");
      ("title", VStr "Fillet Edges");
      ("description", VStr "Creates a fillet on selected edges");
      ("inputSchema", VDict
        [("type", VStr "object");
         ("required", VList [VStr "radius"]);
         ("properties", VDict
           [("radius", VDict
              [("type", VStr "number");
               ("description", VStr "Fillet radius in mm");
               ("minimum", VFloat 0.1)]);
            ("body_index", VDict
              [("type", VStr "integer");
               ("description", VStr "Index of the body to fillet (0-based)");
               ("default", VInt 0);
               ("minimum", VInt 0)]);
            ("edge_selection", VDict
              [("type", VStr "string");
               ("enum", VList [VStr "all"; VStr "top"; VStr "bottom"; VStr "vertical"]);
               ("description", VStr "Which edges to fillet");
               ("default", VStr "all")])])])];
   VDict
     [("name", VStr "chamfer");
      ("title", VStr "Chamfer Edges");
      ("description", VStr "Creates a chamfer on selected edges");
      ("inputSchema", VDict
        [("type", VStr "object");
         ("required", VList [VStr "distance"]);
         ("properties", VDict
           [("distance", VDict
              [("type", VStr "number");
               ("description", VStr "Chamfer distance in mm");
               ("minimum", VFloat 0.1)]);
            ("body_index", VDict
              [("type", VStr "integer");
               ("description", VStr "Index of the body to chamfer (0-based)");
               ("default", VInt 0);
               ("minimum", VInt 0)]);
            ("edge_selection", VDict
              [("type", VStr "string");
               ("enum", VList [VStr "all"; VStr "top"; VStr "bottom"; VStr "vertical"]);
               ("description", VStr "Which edges to chamfer");
               ("default", VStr "all")])])])];
   VDict
     [("name", VStr "shell");
      ("title", VStr "Shell Body");
      ("description", VStr "Creates a hollow shell from a solid body");
      ("inputSchema", VDict
        [("type", VStr "object");
         ("required", VList [VStr "thickness"]);
         ("properties", VDict
           [("thickness", VDict
              [("type", VStr "number");
               ("description", VStr "Wall thickness in mm");
               ("minimum", VFloat 0.1)]);
            ("body_index", VDict
              [("type", VStr "integer");
               ("description", VStr "Index of the body to shell (0-based)");
               ("default", VInt 0);
               ("minimum", VInt 0)]);
            ("face_selection", VDict
              [("type", VStr "string");
               ("enum", VList [VStr "top"; VStr "bottom"; VStr "front"; VStr "back"; VStr "left"; VStr "right"]);
               ("description", VStr "Which face to remove for the shell");
               ("default", VStr "top")])])])];
   VDict
     [("name", VStr "mirror");
      ("title", VStr "Mirror Feature");
      ("description", VStr "Creates a mirror of features across a plane");
      ("inputSchema", VDict
        [("type", VStr "object");
         ("required", VList [VStr "mirror_plane"]);
         ("properties", VDict
           [("mirror_plane", VDict
              [("type", VStr "string");
               ("enum", VList [VStr "xy"; VStr "yz"; VStr "xz"]);
               ("description", VStr "The plane to mirror across")]);
            ("body_index", VDict
              [("type", VStr "integer");
               ("description", VStr "Index of the body to mirror (0-based)");
               ("default", VInt 0);
               ("minimum", VInt 0)])])])]].

Set Warnings "inexact-float".

(** [d[key]], where [d] is an entry of the registry or a part of one: [None]
    stands for the [KeyError] of a key that is not there. *)
Definition subscript (d : val) (key : string) : option val :=
  match d with
  | VDict items => dict_get items key
  | _ => None
  end.

(** [get_tool_by_name(name)]: the first entry whose name is [name], or
    [None]. *)
Definition get_tool_by_name (name : val) : val :=
  match
    find (fun tool =>
            match subscript tool "name" with
            | Some n => py_eq n name
            | None => false
            end) FUSION360_TOOLS
  with
  | Some tool => tool
  | None => VNone
  end.

(** [types.Tool(name=..., title=..., description=..., inputSchema=...)] *)
Record Tool : Type := {
  name : val;
  title : val;
  description : val;
  inputSchema : val
}.

(** [get_tool_list()]: [None] when an entry lacks one of the four keys. *)
Definition get_tool_list : option (list Tool) :=
  (fix each (tools : list val) : option (list Tool) :=
     match tools with
     | [] => Some []
     | tool :: tools' =>
         match subscript tool "name", subscript tool "title",
               subscript tool "description", subscript tool "inputSchema",
               each tools' with
         | Some n, Some t, Some d, Some s, Some l =>
             Some ({| name := n; title := t; description := d; inputSchema := s |} :: l)
         | _, _, _, _, _ => None
         end
     end) FUSION360_TOOLS.

End Tools.

(* ================================================================== *)
(** * The script generator ([script_generator.py]) *)
(* ================================================================== *)

(** The generator runs in the process of the MCP server, where the values
    are those of JSON: a reference to an object of the host ([VObj]) does
    not occur there, and is given the behaviour of a value that has none of
    the methods asked for. *)

Module Generator.
Import Py Tools.
Local Open Scope list_scope.
Local Open Scope string_scope.

Definition lines (ls : list string) : string := ScriptGenerator.lines ls.

(** [SCRIPT_TEMPLATES] *)
Definition SCRIPT_TEMPLATES : list (string * string) :=
  [("create_sketch",
    lines
      ["";
       "# Create a new sketch on the {plane} plane";
       "sketches = component.sketches";
       "{plane_code}";
       "sketch = sketches.add({plane_var})";
       ""]);
   ("draw_rectangle",
    lines
      ["";
       "# Draw a rectangle";
       "rectangle = sketch.sketchCurves.sketchLines.addTwoPointRectangle(";
       "    adsk.core.Point3D.create({origin_x}, {origin_y}, {origin_z}),";
       "    adsk.core.Point3D.create({origin_x} + {width}, {origin_y} + {height}, {origin_z})";
       ")";
       ""]);
   ("draw_circle",
    lines
      ["";
       "# Draw a circle";
       "circle = sketch.sketchCurves.sketchCircles.addByCenterRadius(";
       "    adsk.core.Point3D.create({center_x}, {center_y}, {center_z}),";
       "    {radius}";
       ")";
       ""]);
   ("draw_line",
    lines
      ["";
       "# Draw a line";
       "line = sketch.sketchCurves.sketchLines.addByTwoPoints(";
       "    adsk.core.Point3D.create({start_x}, {start_y}, {start_z}),";
       "    adsk.core.Point3D.create({end_x}, {end_y}, {end_z})";
       ")";
       ""]);
   ("extrude",
    lines
      ["";
       "# Extrude the profile";
       "prof = sketch.profiles.item({profile_index})";
       "extrudes = component.features.extrudeFeatures";
       "extInput = extrudes.createInput(prof, adsk.fusion.FeatureOperations.{operation_code}FeatureOperation)";
       "{direction_code}";
       "extrude = extrudes.add(extInput)";
       ""]);
   ("revolve",
    lines
      ["";
       "# Revolve the profile";
       "prof = sketch.profiles.item({profile_index})";
       "revolves = component.features.revolveFeatures";
       "revInput = revolves.createInput(prof, adsk.fusion.FeatureOperations.{operation_code}FeatureOperation)";
       "axis = adsk.core.Line3D.create(";
       "    adsk.core.Point3D.create({axis_origin_x}, {axis_origin_y}, {axis_origin_z}),";
       "    adsk.core.Vector3D.create({axis_direction_x}, {axis_direction_y}, {axis_direction_z})";
       ")";
       ("revInput.setRevolutionExtent(False, adsk.core.ValueInput.createByString(" ++ dq ++ "{angle} deg" ++ dq ++ "))")%string;
       "revInput.revolutionAxis = axis";
       "revolve = revolves.add(revInput)";
       ""]);
   ("fillet",
    lines
      ["";
       "# Fillet edges";
       "fillets = component.features.filletFeatures";
       "edgeCollection = adsk.core.ObjectCollection.create()";
       "body = component.bRepBodies.item({body_index})";
       "{edge_collection_code}";
       "filletInput = fillets.createInput()";
       "filletInput.addConstantRadiusEdgeSet(edgeCollection, adsk.core.ValueInput.createByReal({radius}), True)";
       "fillet = fillets.add(filletInput)";
       ""]);
   ("chamfer",
    lines
      ["";
       "# Chamfer edges";
       "chamfers = component.features.chamferFeatures";
       "edgeCollection = adsk.core.ObjectCollection.create()";
       "body = component.bRepBodies.item({body_index})";
       "{edge_collection_code}";
       "chamferInput = chamfers.createInput(edgeCollection, True)";
       "chamferInput.setToEqualDistance(adsk.core.ValueInput.createByReal({distance}))";
       "chamfer = chamfers.add(chamferInput)";
       ""]);
   ("shell",
    lines
      ["";
       "# Shell the body";
       "shells = component.features.shellFeatures";
       "body = component.bRepBodies.item({body_index})";
       "faceCollection = adsk.core.ObjectCollection.create()";
       "{face_collection_code}";
       "# Create body collection (API expects ObjectCollection, not Python list)";
       "bodyCollection = adsk.core.ObjectCollection.create()";
       "bodyCollection.add(body)";
       "";
       "# Create shell input with just the body collection, then set faces to remove as property";
       "shellInput = shells.createInput(bodyCollection)";
       "shellInput.facesToRemove = faceCollection";
       "shellInput.insideThickness = adsk.core.ValueInput.createByReal({thickness})";
       "shell = shells.add(shellInput)";
       ""]);
   ("mirror",
    lines
      ["";
       "# Mirror feature";
       "mirrors = component.features.mirrorFeatures";
       "body = component.bRepBodies.item({body_index})";
       "inputEntities = adsk.core.ObjectCollection.create()";
       "inputEntities.add(body)";
       "{mirror_plane_code}";
       "mirrorInput = mirrors.createInput(inputEntities, {mirror_plane_var})";
       "mirror = mirrors.add(mirrorInput)";
       ""])].

Definition script_header : string :=
  lines
    ["#Author-Fusion360 MCP Server";
     "#Description-Auto-generated script from MCP tool calls";
     "";
     "import adsk.core, adsk.fusion, adsk.cam, traceback";
     "";
     "def run(context):";
     "    ui = None";
     "    try:";
     "        app = adsk.core.Application.get()";
     "        ui = app.userInterface";
     "        ";
     "        # Get the active design";
     "        design = app.activeProduct";
     "        if not design:";
     "            ui.messageBox('No active Fusion design', 'No Design')";
     "            return";
     "            ";
     "        # Get the root component";
     "        component = design.rootComponent";
     "        ";
     "        # Variables for sketch and features";
     "        sketch = None";
     ""].

Definition script_footer : string :=
  lines
    ["";
     "        # Finish sketch if one is active";
     "        if sketch and sketch.isValid:";
     "            sketch.exitEdit()";
     "            ";
     "    except:";
     "        if ui:";
     "            ui.messageBox('Failed:\n{}'.format(traceback.format_exc()))";
     "";
     "def stop(context):";
     "    pass";
     ""].

(** How a call of the generator ends: with a value; with an exception; or
    outside what is modelled ([Unmodelled]: a template that [parse] does not
    read, a key that the registry lacks; [generate_script_ends] shows that
    this does not happen). *)
Inductive result (A : Type) : Type :=
| Ok (a : A)
| Raised (e : exn)
| Unmodelled.
Arguments Ok {A} a.
Arguments Raised {A} e.
Arguments Unmodelled {A}.

(** [raise ValueError(text)] *)
Definition ValueError {A : Type} (text : string) : result A :=
  Raised (Exn ValueErrorC text).

(** [raise ValueError(f"...")], where building the text can raise. *)
Definition raise_ValueError {A : Type} (text : outcome string) : result A :=
  match text with
  | Ret text => ValueError text
  | Raise e => Raised e
  end.

Definition of_outcome {A : Type} (o : outcome A) : result A :=
  match o with
  | Ret a => Ok a
  | Raise e => Raised e
  end.

(** ** [str.format] with keyword arguments *)

(** A piece of a format string: a character to copy, or a replacement field
    that names a keyword. *)
Inductive item : Type :=
| Copy (c : ascii)
| Field (name : string).

Inductive reading : Type :=
| Text
| Opened
| Name (name : string)
| Closed
| Failed.

Definition is_name_start (c : ascii) : bool :=
  let n := Text.code c in
  ((65 <=? n) && (n <=? 90) || (97 <=? n) && (n <=? 122) || (n =? 95))%N.

Definition is_name_char (c : ascii) : bool :=
  is_name_start c || Text.is_digit c.

(** One character of a format string.  Only what the templates use is read:
    text, doubled braces, and fields that are a plain keyword ([{name}]);
    everything else (positions, attributes, conversions, format
    specifications, a single brace) ends in [Failed]. *)
Definition read_char (st : list item * reading) (c : ascii) : list item * reading :=
  let '(items, r) := st in
  match r with
  | Text =>
      if Ascii.eqb c "{" then (items, Opened)
      else if Ascii.eqb c "}" then (items, Closed)
      else ((items ++ [Copy c])%list, Text)
  | Opened =>
      if Ascii.eqb c "{" then ((items ++ [Copy c])%list, Text)
      else if is_name_start c then (items, Name (String c ""))
      else (items, Failed)
  | Name n =>
      if Ascii.eqb c "}" then ((items ++ [Field n])%list, Text)
      else if is_name_char c then (items, Name (n ++ String c ""))
      else (items, Failed)
  | Closed =>
      if Ascii.eqb c "}" then ((items ++ [Copy c])%list, Text)
      else (items, Failed)
  | Failed => (items, Failed)
  end.

Definition parse (template : string) : option (list item) :=
  match fold_left read_char (list_ascii_of_string template) ([], Text) with
  | (items, Text) => Some items
  | _ => None
  end.

Section Format.
Context `{PyRuntime}.

(** How [format] ends: with the text; with the [KeyError] of a keyword that
    is missing; or with the exception that printing a value raises. *)
Inductive filled : Type :=
| Formatted (text : string)
| KeyError (key : string)
| FormatRaised (e : exn).

(** [format] goes through the items from left to right: a field looks its
    keyword up and prints the value before the rest is read, so that the
    first failure in the order of the template is the one that is raised. *)
Fixpoint fill (items : list item) (kwargs : list (string * val)) : filled :=
  match items with
  | [] => Formatted ""
  | Copy c :: items' =>
      match fill items' kwargs with
      | Formatted text => Formatted (String c text)
      | other => other
      end
  | Field name :: items' =>
      match dict_get kwargs name with
      | None => KeyError name
      | Some v =>
          match py_str v with
          | Raise e => FormatRaised e
          | Ret printed =>
              match fill items' kwargs with
              | Formatted text => Formatted (printed ++ text)
              | other => other
              end
          end
      end
  end.

(** [a or b] *)
Definition py_or (a b : val) : val := if py_truthy a then a else b.

(** [v / 2] *)
Definition py_half (v : val) : outcome val :=
  match as_number v with
  | Some (NInt z) =>
      let f := float_of_ratio (Z.ltb z 0) (Z.abs z) 2 in
      if is_infinity f
      then Raise (Exn OverflowErrorC "integer division result too large for a float")
      else Ret (VFloat f)
  | Some (NFloat f) => Ret (VFloat (f / 2)%float)
  | None => py_raise (UnsupportedOperand "/" v (VInt 2))
  end.

(** ** The lookups *)

Definition plane_map : list (string * (string * string)) :=
  [("xy", ("xyPlane = component.xYConstructionPlane", "xyPlane"));
   ("yz", ("yzPlane = component.yZConstructionPlane", "yzPlane"));
   ("xz", ("xzPlane = component.xZConstructionPlane", "xzPlane"))].

Definition _get_plane_code (plane : val) : outcome (string * string) :=
  str_dict_get plane_map plane
    ("xyPlane = component.xYConstructionPlane", "xyPlane").

Definition _get_mirror_plane_code (mirror_plane : val) : outcome (string * string) :=
  str_dict_get plane_map mirror_plane
    ("xyPlane = component.xYConstructionPlane", "xyPlane").

Definition distance_code (value extent : string) : string :=
  "distance = adsk.core.ValueInput.createByReal(" ++ value ++ ")"
    ++ ScriptGenerator.nl ++ extent.

Definition _get_direction_code (direction height : val) : outcome string :=
  if py_eq direction (VStr "positive") then
    and_then (py_str height) (fun printed =>
    Ret (distance_code printed "extInput.setDistanceExtent(False, distance)"))
  else if py_eq direction (VStr "negative") then
    and_then (py_str height) (fun printed =>
    Ret (distance_code ("-" ++ printed) "extInput.setDistanceExtent(False, distance)"))
  else if py_eq direction (VStr "symmetric") then
    and_then (py_half height) (fun half =>
    and_then (py_str half) (fun printed =>
    Ret (distance_code printed "extInput.setSymmetricExtent(distance, True)")))
  else
    and_then (py_str height) (fun printed =>
    Ret (distance_code printed "extInput.setDistanceExtent(False, distance)")).

(** ** [generate_script] *)

(** [processed_args = {}] and the copy of the arguments into it. *)
Definition copy_arguments (arguments : val) : outcome (list (string * val)) :=
  match arguments with
  | VDict d => Ret (fold_left (fun acc kv => dict_set acc (fst kv) (snd kv)) d [])
  | _ => py_raise (NoAttribute arguments "items")
  end.

(** The defaults of the tool schema for the parameters that are not given. *)
Definition apply_defaults (tool_props : list (string * val))
    (processed_args : list (string * val)) : list (string * val) :=
  fold_left
    (fun acc prop =>
       match subscript (snd prop) "default" with
       | Some default =>
           if dict_has acc (fst prop) then acc else dict_set acc (fst prop) default
       | None => acc
       end)
    tool_props processed_args.

(** [processed_args.get(key, default)] *)
Definition get (processed_args : list (string * val)) (key : string) (default : val) : val :=
  match dict_get processed_args key with
  | Some v => v
  | None => default
  end.

(** The special handling of the tools: the pieces of code that are computed
    from the arguments. *)
Definition special (tool_name : val) (processed_args : list (string * val))
  : outcome (list (string * val)) :=
  if py_eq tool_name (VStr "create_sketch") then
    match _get_plane_code (get processed_args "plane" (VStr "xy")) with
    | Ret (plane_code, plane_var) =>
        Ret (dict_set (dict_set processed_args "plane_code" (VStr plane_code))
               "plane_var" (VStr plane_var))
    | Raise e => Raise e
    end
  else if py_eq tool_name (VStr "extrude") then
    match ScriptGenerator._get_operation_code
            (get processed_args "operation" (VStr "new_body")) with
    | Ret operation_code =>
        let processed_args :=
          dict_set processed_args "operation_code" (VStr operation_code) in
        match _get_direction_code (get processed_args "direction" (VStr "positive"))
                (get processed_args "height" (VFloat 10)) with
        | Ret direction_code =>
            Ret (dict_set processed_args "direction_code" (VStr direction_code))
        | Raise e => Raise e
        end
    | Raise e => Raise e
    end
  else if py_eq tool_name (VStr "revolve") then
    match ScriptGenerator._get_operation_code
            (get processed_args "operation" (VStr "new_body")) with
    | Ret operation_code =>
        Ret (dict_set processed_args "operation_code" (VStr operation_code))
    | Raise e => Raise e
    end
  else if py_eq tool_name (VStr "fillet") || py_eq tool_name (VStr "chamfer") then
    let edge_collection_code :=
      ScriptGenerator._get_edge_collection_code
        (get processed_args "edge_selection" (VStr "all")) in
    Ret (dict_set processed_args "edge_collection_code" (VStr edge_collection_code))
  else if py_eq tool_name (VStr "shell") then
    match ScriptGenerator._get_face_collection_code
            (get processed_args "face_selection" (VStr "top")) with
    | Ret face_collection_code =>
        Ret (dict_set processed_args "face_collection_code" (VStr face_collection_code))
    | Raise e => Raise e
    end
  else if py_eq tool_name (VStr "mirror") then
    match _get_mirror_plane_code (get processed_args "mirror_plane" (VStr "xy")) with
    | Ret (mirror_plane_code, mirror_plane_var) =>
        Ret (dict_set
               (dict_set processed_args "mirror_plane_code" (VStr mirror_plane_code))
               "mirror_plane_var" (VStr mirror_plane_var))
    | Raise e => Raise e
    end
  else Ret processed_args.

(** [str(e)] of the [KeyError] for a keyword: its [repr]. *)
Definition key_error_text (key : string) : string := "'" ++ key ++ "'".

Definition generate_script (tool_name arguments : val) : result string :=
  let tool_def := get_tool_by_name tool_name in
  if negb (py_truthy tool_def) then
    raise_ValueError
      (and_then (py_str tool_name) (fun name => Ret ("Unknown tool: " ++ name)))
  else
    match str_dict_get (map (fun kv => (fst kv, VStr (snd kv))) SCRIPT_TEMPLATES)
            tool_name VNone with
    | Raise e => Raised e
    | Ret template =>
        if negb (py_truthy template)
        then
          raise_ValueError
            (and_then (py_str tool_name) (fun name =>
             Ret ("No script template for tool: " ++ name)))
        else
          match copy_arguments arguments with
          | Raise e => Raised e
          | Ret processed_args =>
              match subscript tool_def "inputSchema" with
              | Some schema =>
                  match subscript schema "properties" with
                  | Some (VDict tool_props) =>
                      match special tool_name (apply_defaults tool_props processed_args) with
                      | Raise e => Raised e
                      | Ret processed_args =>
                          match template with
                          | VStr template =>
                              match parse template with
                              | Some items =>
                                  match fill items processed_args with
                                  | Formatted script => Ok script
                                  | KeyError key =>
                                      raise_ValueError
                                        (and_then (py_str tool_name) (fun name =>
                                         Ret ("Missing required parameter for "
                                              ++ name ++ ": " ++ key_error_text key)))
                                  | FormatRaised e => Raised e
                                  end
                              | None => Unmodelled
                              end
                          | _ => Unmodelled
                          end
                      end
                  | _ => Unmodelled
                  end
              | None => Unmodelled
              end
          end
    end.

(** ** [generate_multi_tool_script] *)

(** [tool_call.get(key, default)] *)
Definition call_get (tool_call : val) (key : string) (default : val) : outcome val :=
  match tool_call with
  | VDict d => Ret (get d key default)
  | _ => py_raise (NoAttribute tool_call "get")
  end.

(** The parts of the script for the tool calls from number [i] on.  The
    line that names a tool call is written inside the [try], the line that
    reports an error in the [except] clause, where nothing catches what
    printing the tool name raises. *)
Fixpoint tool_parts (i : nat) (tool_calls : list val) : result (list string) :=
  match tool_calls with
  | [] => Ok []
  | tool_call :: rest =>
      match call_get tool_call "tool_name" VNone, call_get tool_call "name" VNone,
            call_get tool_call "arguments" VNone,
            call_get tool_call "parameters" (VDict []) with
      | Ret a, Ret b, Ret c, Ret d =>
          let tool_name := py_or a b in
          let arguments := py_or c d in
          let failed (e : exn) : result (list string) :=
            if is_Exception e then
              match py_str tool_name with
              | Ret name =>
                  Ok ["        # Error in tool call " ++ Text.decimal_of_nat (i + 1)
                        ++ " (" ++ name ++ "): " ++ exn_msg e]
              | Raise e' => Raised e'
              end
            else Raised e in
          let here : result (list string) :=
            match generate_script tool_name arguments with
            | Ok tool_script =>
                match py_str tool_name with
                | Ret name =>
                    Ok ["        # Tool call " ++ Text.decimal_of_nat (i + 1) ++ ": "
                          ++ name;
                        tool_script]
                | Raise e => failed e
                end
            | Raised e => failed e
            | Unmodelled => Unmodelled
            end in
          match here with
          | Ok parts =>
              match tool_parts (S i) rest with
              | Ok more => Ok (parts ++ more)%list
              | other => other
              end
          | other => other
          end
      | Raise e, _, _, _ | _, Raise e, _, _ | _, _, Raise e, _ | _, _, _, Raise e =>
          Raised e
      end
  end.

Definition generate_multi_tool_script (tool_calls : list val) : result string :=
  match tool_parts 0 tool_calls with
  | Ok parts =>
      Ok (String.concat ScriptGenerator.nl ([script_header] ++ parts ++ [script_footer])%list)
  | Raised e => Raised e
  | Unmodelled => Unmodelled
  end.

Definition generate_single_tool_script (tool_name arguments : val) : result string :=
  generate_multi_tool_script
    [VDict [("tool_name", tool_name); ("arguments", arguments)]].

End Format.

End Generator.

(* ================================================================== *)
(** * Script mode of the MCP server ([server.py]) *)
(* ================================================================== *)

Module McpServer.
Import Py Generator.
Local Open Scope list_scope.
Local Open Scope string_scope.

Section Tool.
Context `{PyRuntime}.

(** [generate_tool_script(name, arguments)]: the text of the one
    [TextContent] that it returns.  Both texts print [name], the second one
    in the [except] clause, where nothing catches what that raises. *)
Definition generate_tool_script (name arguments : val) : result string :=
  let failed (e : exn) : result string :=
    if is_Exception e then
      match py_str name with
      | Ret printed =>
          Ok ("Error generating script for '" ++ printed ++ "': " ++ exn_msg e)
      | Raise e' => Raised e'
      end
    else Raised e in
  match generate_single_tool_script name arguments with
  | Ok script =>
      match py_str name with
      | Ret printed =>
          Ok ("Generated Fusion360 script for '" ++ printed ++ "':"
              ++ ScriptGenerator.nl ++ ScriptGenerator.nl ++ "```python"
              ++ ScriptGenerator.nl ++ script ++ ScriptGenerator.nl ++ "```")
      | Raise e => failed e
      end
  | Raised e => failed e
  | Unmodelled => Unmodelled
  end.

End Tool.

End McpServer.

(* ================================================================== *)
(** * The persistent connection ([fusion360_connection.py]) *)
(* ================================================================== *)

Module PersistentConnection.
Import Py Sock Connection.
Local Open Scope list_scope.
Local Open Scope string_scope.

(** The process of the MCP server: the global [_fusion360_connection], the
    network, and how the coming [close] calls of sockets end ([None]: the
    socket is closed; past the end of the list every call succeeds). *)
Record process : Type := {
  connection : option Fusion360Connection;
  network : net;
  close_script : list (option exn)
}.

(** [Fusion360Connection.disconnect] (what it logs is left out) *)
Definition disconnect (c : Fusion360Connection) (closes : list (option exn))
  : outcome unit * Fusion360Connection * list (option exn) :=
  match sock c with
  | Some _ =>
      match closes with
      | Some e :: closes' =>
          if is_Exception e then (Ret tt, with_sock c None, closes')
          else (Raise e, with_sock c None, closes')
      | None :: closes' => (Ret tt, with_sock c None, closes')
      | [] => (Ret tt, with_sock c None, [])
      end
  | None => (Ret tt, c, closes)
  end.

Section Global.
Context `{PyRuntime}.

(** The second half of [get_fusion360_connection]: a new connection, when
    there is none. *)
Definition new_connection (n : net) (closes : list (option exn))
  : outcome (option Fusion360Connection) * process :=
  match connect {| host := "localhost"; port := 9876; sock := None |} n with
  | (Ret true, c, n') =>
      (Ret (Some c), {| connection := Some c; network := n'; close_script := closes |})
  | (Ret false, _, n') =>
      (Ret None, {| connection := None; network := n'; close_script := closes |})
  | (Raise e, c, n') =>
      (Raise e, {| connection := Some c; network := n'; close_script := closes |})
  end.

(** [get_fusion360_connection()] *)
Definition get_fusion360_connection (p : process)
  : outcome (option Fusion360Connection) * process :=
  match connection p with
  | Some c =>
      match send_command c (VStr "get_scene_info") VNone (network p) with
      | (Ret _, c', n') =>
          (Ret (Some c'),
           {| connection := Some c'; network := n'; close_script := close_script p |})
      | (Raise e, c', n') =>
          if is_Exception e then
            let '(_, _, closes) := disconnect c' (close_script p) in
            new_connection n' closes
          else
            (Raise e,
             {| connection := Some c'; network := n'; close_script := close_script p |})
      end
  | None => new_connection (network p) (close_script p)
  end.

Definition not_available : string :=
  "Fusion360 is not currently running or the MCP add-in is not started. "
  ++ "Please start Fusion360 and enable the Fusion360MCP add-in.".

(** [check_fusion360_available()]: the error message, or [None]. *)
Definition check_fusion360_available (p : process) : outcome (option string) * process :=
  match get_fusion360_connection p with
  | (Ret None, p') => (Ret (Some not_available), p')
  | (Ret (Some _), p') => (Ret None, p')
  | (Raise e, p') => (Raise e, p')
  end.

End Global.

End PersistentConnection.

(* ================================================================== *)
(** * Vocabulary of the further properties *)
(* ================================================================== *)

Module Terms.
Import Py HostApi CommandHandler.
Local Open Scope string_scope.
Local Open Scope list_scope.

(** ** The handlers and their parameters *)

(** The parameters of the handlers, [self] left out: those without a
    default and those with one, as the [def] lines give them. *)
Definition signatures : list (string * (list string * list string)) :=
  [("get_scene_info", ([], []));
   ("get_object_info", (["name"], []));
   ("execute_code", (["code"], []));
   ("create_sketch", ([], ["plane"]));
   ("draw_rectangle", (["width"; "height"], ["origin_x"; "origin_y"; "origin_z"]));
   ("draw_circle", (["radius"], ["center_x"; "center_y"; "center_z"]));
   ("draw_line", (["start_x"; "start_y"; "end_x"; "end_y"], ["start_z"; "end_z"]));
   ("extrude", (["height"], ["profile_index"; "operation"; "direction"]));
   ("revolve", (["angle"],
                ["profile_index"; "axis_origin_x"; "axis_origin_y"; "axis_origin_z";
                 "axis_direction_x"; "axis_direction_y"; "axis_direction_z";
                 "operation"]));
   ("fillet", (["radius"], ["body_index"; "edge_selection"]));
   ("chamfer", (["distance"], ["body_index"; "edge_selection"]));
   ("shell", (["thickness"], ["body_index"; "face_selection"]));
   ("mirror", (["mirror_plane"], ["body_index"]))].

(** The keyword arguments of the command [d] fit the handler [type]. *)
Definition binds `{PyRuntime} (type : string) (d : list (string * val)) : Prop :=
  exists required optional kw,
    In (type, (required, optional)) signatures /\
    bind_kwargs type required optional (arg d "params" (VDict [])) = Ret kw.

(** The handlers that need a sketch or a body: the collection of the root
    component whose [count] they test, and the message of the error response
    when it is [0]. *)
Definition needs : list (string * (string * string)) :=
  [("draw_circle",
    ("sketches", "Failed to draw circle: No sketch available. Create a sketch first."));
   ("draw_line",
    ("sketches", "Failed to draw line: No sketch available. Create a sketch first."));
   ("extrude", ("sketches", "Failed to extrude: No sketch available."));
   ("revolve", ("sketches", "Failed to revolve: No sketch available."));
   ("fillet", ("bRepBodies", "Failed to create fillet: No bodies available for filleting."));
   ("chamfer",
    ("bRepBodies", "Failed to create chamfer: No bodies available for chamfering."));
   ("shell", ("bRepBodies", "Failed to create shell: No bodies available for shelling."));
   ("mirror", ("bRepBodies", "Failed to create mirror: No bodies available for mirroring."))].

(** The text that each handler puts before the message of an error. *)
Definition prefixes : list (string * string) :=
  [("execute_code", "Code execution error: ");
   ("create_sketch", "Failed to create sketch: ");
   ("draw_rectangle", "Failed to draw rectangle: ");
   ("draw_circle", "Failed to draw circle: ");
   ("draw_line", "Failed to draw line: ");
   ("extrude", "Failed to extrude: ");
   ("revolve", "Failed to revolve: ");
   ("fillet", "Failed to create fillet: ");
   ("chamfer", "Failed to create chamfer: ");
   ("shell", "Failed to create shell: ");
   ("mirror", "Failed to create mirror: ")].

Definition known_planes : list string := ["xy"; "yz"; "xz"].

(** The result of a handler with the echoed value under [key] replaced. *)
Definition echo (key : string) (v : val) (r : outcome val) : outcome val :=
  match r with
  | Ret (VDict d) => Ret (VDict (dict_set d key v))
  | _ => r
  end.

(** The run [a] ends in the same state of the host as the run [b], with the
    same outcome up to the value echoed under [key]. *)
Definition same_but {W : Type} (key : string) (v : val) (a b : outcome val * W) : Prop :=
  a = (echo key v (fst b), snd b).

(** Reading the attribute [name] changes nothing on the host. *)
Definition reads_quietly `{PyRuntime} {W : Type} `{Host W} (name : string) : Prop :=
  forall (obj : val) (w : W), snd (attr obj name w) = w.

(** The message of the response to a command that names no handler because
    of its shape: it is no dict, or its [type] is missing or no [str].  A
    type that can be a key is printed behind ["Unknown command type: "], and
    when printing it raises, the message is the text of that error. *)
Definition malformed_reply `{PyRuntime} (command : val) : option string :=
  match command with
  | VDict d =>
      match arg d "type" VNone with
      | VStr _ => None
      | (VList _ | VDict _) as t => Some (error_text (UnhashableKey t))
      | t =>
          match py_str t with
          | Ret printed => Some ("Unknown command type: " ++ printed)%string
          | Raise e => Some (exn_msg e)
          end
      end
  | _ => Some (error_text (NoAttribute command "get"))
  end.

(** [str()] of the value does not raise. *)
Definition prints `{PyRuntime} (v : val) : Prop := exists printed, py_str v = Ret printed.

(** ** The connection manager *)

(** The network [n] after a receive that has left [rest] to arrive. *)
Definition received (n : Connection.net) (rest : list Sock.recv_event) : Connection.net :=
  {| Connection.connect_script := Connection.connect_script n;
     Connection.send_script := Connection.send_script n;
     Connection.recv_script := rest;
     Connection.sent := Connection.sent n;
     Connection.sockets_created := Connection.sockets_created n |}.

(** The peer refuses the next connection attempt: the attempt fails with an
    [Exception], or no attempt is expected to succeed any more. *)
Definition refusing (n : Connection.net) : Prop :=
  match Connection.connect_script n with
  | [] => True
  | Some e :: _ => is_Exception e = true
  | None :: _ => False
  end.

(** The network after a connection attempt, whatever its outcome. *)
Definition attempted (n : Connection.net) : Connection.net :=
  {| Connection.connect_script := tl (Connection.connect_script n);
     Connection.send_script := Connection.send_script n;
     Connection.recv_script := Connection.recv_script n;
     Connection.sent := Connection.sent n;
     Connection.sockets_created := S (Connection.sockets_created n) |}.

(** How the data stops coming: the socket times out, at once or later, or
    the peer closes the connection. *)
Definition goes_quiet (tape : list Sock.recv_event) : Prop :=
  match tape with
  | [] => True
  | Sock.RecvRaise e :: _ => Sock.is_timeout e = true
  | Sock.Chunk [] :: _ => True
  | Sock.Chunk _ :: _ => False
  end.

(** No non-empty prefix of the chunks makes a complete JSON text, and every
    one decodes. *)
Definition never_complete `{PyRuntime} (chunks : list (list Byte.byte)) : Prop :=
  forall pre post, chunks = pre ++ post -> pre <> [] ->
    Connection.complete pre = Ret None.

(** ** The socket server *)

(** Every [sendall] to the client succeeds. *)
Definition sends_succeed (c : SocketServer.client) : Prop :=
  Forall (fun o => o = None) (SocketServer.send_script c).

(** The client [c] after [data] has been sent to it. *)
Definition answered (c : SocketServer.client) (data : list Byte.byte)
  : SocketServer.client :=
  snd (SocketServer.sendall data c).

End Terms.

Module GeneratorTerms.
Import Py Tools Generator.
Local Open Scope list_scope.
Local Open Scope string_scope.

(** The tools that have a script template. *)
Definition scripted : list string := map fst SCRIPT_TEMPLATES.

(** The [properties] of the input schema of the tool [t]. *)
Definition properties (t : string) : list (string * val) :=
  match subscript (get_tool_by_name (VStr t)) "inputSchema" with
  | Some schema =>
      match subscript schema "properties" with
      | Some (VDict props) => props
      | _ => []
      end
  | None => []
  end.

(** The parameters that the input schema of the tool [t] lists as
    [required]. *)
Definition required (t : string) : list string :=
  match subscript (get_tool_by_name (VStr t)) "inputSchema" with
  | Some schema =>
      match subscript schema "required" with
      | Some (VList names) =>
          flat_map (fun v => match v with VStr k => [k] | _ => [] end) names
      | _ => []
      end
  | None => []
  end.

(** The [default] that the properties [props] give the parameter [k]. *)
Definition default_in (props : list (string * val)) (k : string) : option val :=
  match
    find (fun prop =>
            String.eqb (fst prop) k &&
            match subscript (snd prop) "default" with Some _ => true | None => false end)
      props
  with
  | Some prop => subscript (snd prop) "default"
  | None => None
  end.

Definition schema_default (t k : string) : option val := default_in (properties t) k.

(** The parameters that a script cannot be generated without: the fields of
    the template of each tool that have no default in the schema and are not
    computed by [generate_script], in the order of the template. *)
Definition template_parameters : list (string * list string) :=
  [("create_sketch", ["plane"]);
   ("draw_rectangle", ["width"; "height"]);
   ("draw_circle", ["radius"]);
   ("draw_line", ["start_x"; "start_y"; "end_x"; "end_y"]);
   ("extrude", []);
   ("revolve", ["angle"]);
   ("fillet", ["radius"]);
   ("chamfer", ["distance"]);
   ("shell", ["thickness"]);
   ("mirror", [])].

(** The values that [generate_script] uses in place of a parameter that is
    missing and has no default in the schema. *)
Definition fallbacks : list (string * (string * val)) :=
  [("extrude", ("height", VFloat 10));
   ("mirror", ("mirror_plane", VStr "xy"))].

(** A value that can be the key of a [dict]. *)
Definition hashable (v : val) : bool :=
  match v with
  | VList _ | VDict _ => false
  | _ => true
  end.

(** No argument is a list or a dict. *)
Definition plain_arguments (d : list (string * val)) : Prop :=
  Forall (fun kv => hashable (snd kv) = true) d.

(** The first of [names] that is no key of [d]. *)
Definition first_missing (names : list string) (d : list (string * val)) : option string :=
  find (fun k => negb (dict_has d k)) names.

(** The arguments as [generate_script] copies them. *)
Definition copied (d : list (string * val)) : list (string * val) :=
  fold_left (fun acc kv => dict_set acc (fst kv) (snd kv)) d [].

(** The keywords of the replacement fields, in order. *)
Definition fields (items : list item) : list string :=
  flat_map (fun i => match i with Field name => [name] | Copy _ => [] end) items.

(** The keywords that [generate_script] computes for a tool. *)
Definition computed (tool_name : val) : list string :=
  if py_eq tool_name (VStr "create_sketch") then ["plane_code"; "plane_var"]
  else if py_eq tool_name (VStr "extrude") then ["operation_code"; "direction_code"]
  else if py_eq tool_name (VStr "revolve") then ["operation_code"]
  else if py_eq tool_name (VStr "fillet") || py_eq tool_name (VStr "chamfer")
  then ["edge_collection_code"]
  else if py_eq tool_name (VStr "shell") then ["face_collection_code"]
  else if py_eq tool_name (VStr "mirror") then ["mirror_plane_code"; "mirror_plane_var"]
  else [].

(** The keyword [f] is there whatever the arguments are: it is computed, or
    the schema has a default for it. *)
Definition provided (tool_name : val) (props : list (string * val)) (f : string) : bool :=
  existsb (String.eqb f) (computed tool_name) ||
  match default_in props f with Some _ => true | None => false end.

(** The names of the tools of the registry. *)
Definition registered_tools : list string :=
  flat_map
    (fun tool => match subscript tool "name" with Some (VStr t) => [t] | _ => [] end)
    FUSION360_TOOLS.

(** Is [name] the name of a tool of the registry? *)
Definition is_registered (name : val) : bool :=
  match name with
  | VStr t => existsb (String.eqb t) registered_tools
  | _ => false
  end.

(** Is the default of every property a value that can be a key? *)
Definition defaults_hashable (props : list (string * val)) : bool :=
  forallb
    (fun prop =>
       match subscript (snd prop) "default" with
       | Some v => hashable v
       | None => true
       end)
    props.

Definition is_dict (v : val) : bool :=
  match v with
  | VDict _ => true
  | _ => false
  end.

(** A value that every interpreter prints: no list, dict or host object,
    and no [int] of more than 640 digits (below that the limit on digits
    does not apply, however it is set). *)
Definition simple (v : val) : bool :=
  match v with
  | VInt z => Nat.leb (int_digits z) 640
  | VList _ | VDict _ | VObj _ => false
  | _ => true
  end.

(** Is the default of every property such a value? *)
Definition defaults_simple (props : list (string * val)) : bool :=
  forallb
    (fun prop =>
       match subscript (snd prop) "default" with
       | Some v => simple v
       | None => true
       end)
    props.

Section Printing.
Context `{PyRuntime}.

(** [str()] of every argument returns. *)
Definition arguments_print (d : list (string * val)) : Prop :=
  Forall (fun kv => Terms.prints (snd kv)) d.

(** [str()] of the tool name of a tool call returns. *)
Definition name_prints (tool_call : val) : Prop :=
  match tool_call with
  | VDict c =>
      Terms.prints (py_or (Generator.get c "tool_name" VNone)
                      (Generator.get c "name" VNone))
  | _ => True
  end.

End Printing.

End GeneratorTerms.

Module JsonTerms.
Import Py Text Json.
Local Open Scope list_scope.

(** A text of printable ASCII characters. *)
Definition printable (t : string) : bool :=
  forallb (fun c => (32 <=? code c)%N && (code c <=? 126)%N) (chars t).

(** What follows a value inside a text that [json.dumps] writes: nothing,
    or a comma or a closing bracket. *)
Definition follows (rest : list ascii) : bool :=
  match rest with
  | [] => true
  | c :: _ => Ascii.eqb c "," || Ascii.eqb c "]" || Ascii.eqb c "}"
  end.

Fixpoint distinct (keys : list string) : bool :=
  match keys with
  | [] => true
  | k :: keys' => negb (existsb (String.eqb k) keys') && distinct keys'
  end.

(** The values that [json.dumps] writes without help from the runtime and
    that are their own reading: no floats, no host objects, texts of
    printable ASCII characters, and no key twice in a dict. *)
Fixpoint writable (v : val) : bool :=
  match v with
  | VNone | VBool _ | VInt _ => true
  | VStr t => printable t
  | VList l => forallb writable l
  | VDict d =>
      forallb (fun kv => printable (fst kv) && writable (snd kv)) d
      && distinct (map fst d)
  | VFloat _ | VObj _ => false
  end.

(** The number of values in a value. *)
Fixpoint size (v : val) : nat :=
  match v with
  | VList l => S (list_sum (map size l))
  | VDict d => S (list_sum (map (fun kv => size (snd kv)) d))
  | _ => 1
  end.

(** A text that starts with neither whitespace nor a closing bracket. *)
Definition starts (s : list ascii) : bool :=
  match s with
  | c :: _ => negb (is_ws c) && negb (Ascii.eqb c "]")
  | [] => false
  end.

Definition ascii_text (s : list ascii) : bool := forallb (fun c => (code c <? 128)%N) s.

(** The text of an item of a dict. *)
Definition item_text (k t : string) : string := (encode_string k ++ ": " ++ t)%string.

(** The number of lists and dicts, one inside the other, in a value. *)
Fixpoint depth (v : val) : nat :=
  match v with
  | VList l => S (list_max (map depth l))
  | VDict d => S (list_max (map (fun kv => depth (snd kv)) d))
  | _ => 0
  end.

Section Limits.
Context `{PyRuntime}.

(** No [int] in the value has more digits than the interpreter prints and
    reads. *)
Fixpoint short_ints (v : val) : bool :=
  match v with
  | VInt z => negb (beyond_limit (int_digits z))
  | VList l => forallb short_ints l
  | VDict d => forallb (fun kv => short_ints (snd kv)) d
  | _ => true
  end.

(** The value is within what the interpreter lets [json] write and read:
    its [int]s are short, and it is not nested deeper than the recursion
    limit allows. *)
Definition within_limits (v : val) : Prop :=
  short_ints v = true /\ depth v <= json_depth.

(** The text [t] is read back as [v] with a budget of [fuel] or more and
    with [room] levels of nesting or more, whatever follows it in a text
    that [json.dumps] writes. *)
Definition reads_back (v : val) (t : string) (fuel room : nat) : Prop :=
  starts (chars t) = true /\ ascii_text (chars t) = true /\
  forall f r rest, fuel <= f -> room <= r -> follows rest = true ->
    scan_once f r (chars t ++ rest) = POk v rest.

(** The encoder on an item of a dict *)
Definition encode_item (room : nat) (kv : string * val) : outcome string :=
  match encode_value room (snd kv) with
  | Raise e => Raise e
  | Ret sx => Ret (encode_string (fst kv) ++ ": " ++ sx)%string
  end.

End Limits.

End JsonTerms.

(* ================================================================== *)
(** * Further examples *)
(* ================================================================== *)

Module MoreExamples.
Import Py HostApi CommandHandler MockHost Examples Terms.
Local Open Scope list_scope.
Local Open Scope string_scope.

(** A design whose one sketch has no profile. *)
Definition empty_sketch : world :=
  with_attrs [(root ++ ".sketches.count", VInt 1);
              (root ++ ".sketches.item(0).profiles.count", VInt 0)] blank.

(** [empty_sketch] after the last sketch has been asked for. *)
Definition empty_sketch_read : world :=
  {| attrs := attrs empty_sketch; failing := []; iterables := []; collections := [];
     calls := [(root ++ ".sketches.item", [VInt 0])] |}.

(** The commands of the examples. *)
Definition circle_command : val := command_of "draw_circle" [("radius", VInt 5)].

Definition extrude_command : val := command_of "extrude" [("height", VInt 20)].

(** [create_sketch] on the blank design answers with objects of the host,
    which [json.dumps] cannot write. *)
Definition sketch_command : val := command_of "create_sketch" [].

(** The command that tests the connection, as it is sent. *)
Definition test_text : string := json_text "{'type': 'get_scene_info', 'params': {}}".

(** An error response as the add-in sends it. *)
Definition error_reply_text : string :=
  json_text "{'status': 'error', 'message': 'No active design'}".

Definition error_reply : list Byte.byte := Utf8.encode error_reply_text.

(** The network when nothing is to come and no connection is accepted. *)
Definition silent : Connection.net := receiving [].

(** A connection without a socket. *)
Definition idle : Connection.Fusion360Connection :=
  {| Connection.host := "localhost"; Connection.port := 9876;
     Connection.sock := None |}.

(** A process that keeps the connection [in_use], on a network where the
    add-in answers with [reply] and accepts one more connection. *)
Definition keeping (reply : list Byte.byte) : PersistentConnection.process :=
  {| PersistentConnection.connection := Some in_use;
     PersistentConnection.network :=
       {| Connection.connect_script := [None]; Connection.send_script := [];
          Connection.recv_script := [Sock.Chunk reply]; Connection.sent := [];
          Connection.sockets_created := 1 |};
     PersistentConnection.close_script := [] |}.

(** The start of a response. *)
Definition cut_response : list Byte.byte := json_bytes "{'status': 'succ".

(** Two tool calls, the second for a tool that does not exist. *)
Definition two_calls : list val :=
  [VDict [("tool_name", VStr "create_sketch"); ("arguments", VDict [("plane", VStr "xy")])];
   VDict [("tool_name", VStr "bogus")]].

End MoreExamples.

(* ================================================================== *)
(** * Properties of the JSON scanner *)
(* ================================================================== *)

Module ScannerFacts.
Import Text Json Reader.

(** ** The reader *)

Lemma run_app (st : nat * mode) (a b : list ascii) :
  run st (a ++ b) = run (run st a) b.
Proof. apply fold_left_app. Qed.

Lemma trace_app (st : nat * mode) (a b : list ascii) :
  trace st (a ++ b) = trace st a ++ trace (run st a) b.
Proof.
  revert st. induction a as [|c a IH]; intros st; [reflexivity|].
  cbn. now rewrite IH.
Qed.

Lemma trace_nil (st : nat * mode) (s : list ascii) : trace st s = [] -> s = [].
Proof. destruct s; [reflexivity|discriminate]. Qed.

Lemma trace_last (st : nat * mode) (s : list ascii) :
  s <> [] -> trace st s = removelast (trace st s) ++ [run st s].
Proof.
  intros Hs. destruct (exists_last Hs) as [a [c ->]].
  rewrite trace_app, run_app. cbn. rewrite removelast_last. reflexivity.
Qed.

Lemma steady_nil (P : nat * mode -> Prop) (st : nat * mode) : steady P st [] st.
Proof. split; [reflexivity|constructor]. Qed.

Lemma steady_app (P : nat * mode -> Prop) (st0 st1 st2 : nat * mode) (a b : list ascii) :
  steady P st0 a st1 -> steady P st1 b st2 -> steady P st0 (a ++ b) st2.
Proof.
  intros [Ra Fa] [Rb Fb]. split.
  - now rewrite run_app, Ra.
  - rewrite trace_app, Ra. apply Forall_app. now split.
Qed.

Lemma steady_cons (P : nat * mode -> Prop) (st0 st2 : nat * mode) (c : ascii)
  (b : list ascii) :
  P (step st0 c) -> steady P (step st0 c) b st2 -> steady P st0 (c :: b) st2.
Proof.
  intros Hc [Rb Fb]. split; [exact Rb|]. cbn. constructor; assumption.
Qed.

Lemma steady_impl (P Q : nat * mode -> Prop) (st0 st1 : nat * mode) (s : list ascii) :
  (forall st, P st -> Q st) -> steady P st0 s st1 -> steady Q st0 s st1.
Proof.
  intros HPQ [R F]. split; [exact R|]. eapply Forall_impl; [|exact F]. exact HPQ.
Qed.

Lemma until_one (P : nat * mode -> Prop) (st0 : nat * mode) (c : ascii) :
  until P st0 [c] (step st0 c).
Proof. split; [discriminate|]. split; [reflexivity|constructor]. Qed.

Lemma until_cons (P : nat * mode -> Prop) (st0 st2 : nat * mode) (c : ascii)
  (b : list ascii) :
  P (step st0 c) -> until P (step st0 c) b st2 -> until P st0 (c :: b) st2.
Proof.
  intros Hc [Hb [Rb Fb]]. split; [discriminate|]. split; [exact Rb|].
  cbn [trace]. destruct (trace (step st0 c) b) eqn:E.
  - apply trace_nil in E. contradiction.
  - cbn [removelast]. constructor; assumption.
Qed.

Lemma until_app (P : nat * mode -> Prop) (st0 st1 st2 : nat * mode) (a b : list ascii) :
  steady P st0 a st1 -> until P st1 b st2 -> until P st0 (a ++ b) st2.
Proof.
  intros [Ra Fa] [Hb [Rb Fb]]. split; [|split].
  - destruct a; [exact Hb|discriminate].
  - now rewrite run_app, Ra.
  - rewrite trace_app, Ra, removelast_app.
    + apply Forall_app. now split.
    + intros E. apply trace_nil in E. contradiction.
Qed.

Lemma until_impl (P Q : nat * mode -> Prop) (st0 st1 : nat * mode) (s : list ascii) :
  (forall st, P st -> Q st) -> until P st0 s st1 -> until Q st0 s st1.
Proof.
  intros HPQ [Hs [R F]]. split; [exact Hs|]. split; [exact R|].
  eapply Forall_impl; [|exact F]. exact HPQ.
Qed.

Lemma until_steady (P : nat * mode -> Prop) (st0 st1 : nat * mode) (s : list ascii) :
  until P st0 s st1 -> P st1 -> steady P st0 s st1.
Proof.
  intros [Hs [R F]] H1. split; [exact R|].
  rewrite (trace_last st0 s Hs). apply Forall_app. split; [exact F|].
  rewrite R. constructor; [exact H1|constructor].
Qed.

Lemma step_plain (d : nat) (c : ascii) :
  special c = false -> step (d, Plain) c = (d, Plain).
Proof.
  unfold special, step. intros Hs.
  destruct (Ascii.eqb c "034"); [discriminate|].
  destruct (Ascii.eqb c "{"); [discriminate|].
  destruct (Ascii.eqb c "["); [discriminate|].
  destruct (Ascii.eqb c "}"); [discriminate|].
  destruct (Ascii.eqb c "]"); [discriminate|]. reflexivity.
Qed.

Lemma steady_plain (P : nat * mode -> Prop) (d : nat) (s : list ascii) :
  P (d, Plain) -> plain s -> steady P (d, Plain) s (d, Plain).
Proof.
  intros HP. induction 1 as [|c s Hc Hs IH]; [apply steady_nil|].
  apply steady_cons; rewrite (step_plain d c Hc); [exact HP|exact IH].
Qed.

Lemma inside_le (d : nat) (st : nat * mode) : inside d st -> d <= fst st.
Proof. intros [H|[H _]]; lia. Qed.

Lemma inside_up (d : nat) (st : nat * mode) : S d <= fst st -> inside d st.
Proof. intros H. left. lia. Qed.

(** A closed text has no closed proper prefix. *)
Lemma closed_prefix (d : nat) (a x : list ascii) :
  closed d a -> closed d (a ++ x) -> x = [].
Proof.
  intros [Ha [Ra _]] [_ [_ Fax]].
  destruct x as [|c x]; [reflexivity|exfalso].
  rewrite trace_app in Fax.
  assert (Hne : trace (run (d, Plain) a) (c :: x) <> []) by (cbn; discriminate).
  rewrite removelast_app in Fax by exact Hne.
  apply Forall_app in Fax. destruct Fax as [Fa _].
  rewrite (trace_last _ _ Ha) in Fa. apply Forall_app in Fa. destruct Fa as [_ Fl].
  inversion Fl as [|? ? Hin _]; subst. rewrite Ra in Hin.
  destruct Hin as [Hlt|[_ Hm]]; cbn in *; [lia|congruence].
Qed.

(** ** The pieces of the scanner *)

Lemma is_ws_plain (c : ascii) : is_ws c = true -> special c = false.
Proof.
  unfold is_ws. intros H.
  repeat (apply orb_true_iff in H; destruct H as [H|H]);
    apply Ascii.eqb_eq in H; subst c; reflexivity.
Qed.

Lemma skip_ws_split (s : list ascii) :
  exists w, s = w ++ skip_ws s /\ plain w.
Proof.
  induction s as [|c s [w [E Hw]]].
  - exists []. split; [reflexivity|constructor].
  - cbn. destruct (is_ws c) eqn:Hc.
    + exists (c :: w). split; [cbn; congruence|].
      constructor; [now apply is_ws_plain|exact Hw].
    + exists []. split; [reflexivity|constructor].
Qed.

Lemma skip_ws_length (s : list ascii) : List.length (skip_ws s) <= List.length s.
Proof.
  destruct (skip_ws_split s) as [w [E _]].
  rewrite E at 2. rewrite length_app. lia.
Qed.

Lemma expect_inv (c : ascii) (s r : list ascii) : expect c s = Some r -> s = c :: r.
Proof.
  destruct s as [|x s]; [discriminate|]. cbn.
  destruct (Ascii.eqb x c) eqn:E; [|discriminate].
  apply Ascii.eqb_eq in E. congruence.
Qed.

Lemma expect_all_inv (p s r : list ascii) : expect_all p s = Some r -> s = p ++ r.
Proof.
  revert s. induction p as [|c p IH]; intros s; cbn.
  - congruence.
  - destruct (expect c s) as [s'|] eqn:E; [|discriminate].
    intros H. apply expect_inv in E. apply IH in H. congruence.
Qed.

Ltac each_char c :=
  destruct c as [[|] [|] [|] [|] [|] [|] [|] [|]].

Lemma hex_value_in_string (c : ascii) (v : N) :
  hex_value c = Some v -> Ascii.eqb c "\" = false /\ Ascii.eqb c "034" = false.
Proof. each_char c; vm_compute; intros H; try discriminate H; split; reflexivity. Qed.

Lemma is_digit_plain (c : ascii) : is_digit c = true -> special c = false.
Proof. each_char c; vm_compute; intros H; try discriminate H; reflexivity. Qed.

Lemma hex4_value_inv (c1 c2 c3 c4 : ascii) (u : N) :
  hex4_value c1 c2 c3 c4 = Some u ->
  exists v1 v2 v3 v4,
    hex_value c1 = Some v1 /\ hex_value c2 = Some v2 /\
    hex_value c3 = Some v3 /\ hex_value c4 = Some v4.
Proof.
  unfold hex4_value.
  destruct (hex_value c1) as [v1|]; [|discriminate].
  destruct (hex_value c2) as [v2|]; [|discriminate].
  destruct (hex_value c3) as [v3|]; [|discriminate].
  destruct (hex_value c4) as [v4|]; [|discriminate].
  intros _. exists v1, v2, v3, v4. repeat split.
Qed.

Lemma step_hex (d : nat) (c : ascii) (v : N) :
  hex_value c = Some v -> step (d, InString) c = (d, InString).
Proof.
  intros H. apply hex_value_in_string in H. destruct H as [H1 H2].
  cbn. now rewrite H1, H2.
Qed.

Lemma in_string_string (d : nat) : in_string d (d, InString).
Proof. split; [reflexivity|discriminate]. Qed.

Lemma in_string_escaped (d : nat) : in_string d (d, Escaped).
Proof. split; [reflexivity|discriminate]. Qed.

(** A four-digit escape, after its backslash and [u]. *)
Lemma hex4_steady (d : nat) (c1 c2 c3 c4 : ascii) (u : N) :
  hex4_value c1 c2 c3 c4 = Some u ->
  steady (in_string d) (d, InString) [c1; c2; c3; c4] (d, InString).
Proof.
  intros H. apply hex4_value_inv in H.
  destruct H as (v1 & v2 & v3 & v4 & H1 & H2 & H3 & H4).
  repeat (apply steady_cons;
          [ first [ rewrite (step_hex d _ _ H1) | rewrite (step_hex d _ _ H2)
                  | rewrite (step_hex d _ _ H3) | rewrite (step_hex d _ _ H4) ];
            apply in_string_string |
            first [ rewrite (step_hex d _ _ H1) | rewrite (step_hex d _ _ H2)
                  | rewrite (step_hex d _ _ H3) | rewrite (step_hex d _ _ H4) ] ]).
  apply steady_nil.
Qed.

Lemma string_body_escape (e : ascii) (c : list ascii) :
  string_body c -> string_body ("\"%char :: e :: c).
Proof.
  intros H d. apply until_cons; [apply in_string_escaped|].
  apply until_cons; [apply in_string_string|]. apply H.
Qed.

Lemma string_body_unicode (c1 c2 c3 c4 : ascii) (u : N) (c : list ascii) :
  hex4_value c1 c2 c3 c4 = Some u ->
  string_body c -> string_body ("\"%char :: "u"%char :: c1 :: c2 :: c3 :: c4 :: c).
Proof.
  intros Hu H d.
  apply until_cons; [apply in_string_escaped|].
  apply until_cons; [apply in_string_string|].
  change (c1 :: c2 :: c3 :: c4 :: c) with ([c1; c2; c3; c4] ++ c).
  eapply until_app; [apply (hex4_steady d _ _ _ _ _ Hu)|]. apply H.
Qed.

Lemma scanstring_consumes (n : nat) :
  forall s str rest, List.length s <= n -> scanstring s = Some (str, rest) ->
  exists c, s = c ++ rest /\ string_body c.
Proof.
  induction n as [|n IH]; intros s str rest Hn.
  - destruct s; [discriminate|cbn in Hn; lia].
  - destruct s as [|c r]; [discriminate|]. cbn in Hn.
    cbn [scanstring].
    destruct (Ascii.eqb c "034") eqn:Hq.
    { apply Ascii.eqb_eq in Hq. subst c. intros H. injection H as _ <-.
      exists ["034"%char]. split; [reflexivity|]. intros d. apply until_one. }
    destruct (Ascii.eqb c "\") eqn:Hb.
    { apply Ascii.eqb_eq in Hb. subst c.
      destruct r as [|e r1]; [discriminate|]. cbn in Hn.
      destruct (Ascii.eqb e "u") eqn:He.
      - apply Ascii.eqb_eq in He. subst e.
        destruct r1 as [|c1 [|c2 [|c3 [|c4 r2]]]]; try discriminate.
        cbn in Hn.
        destruct (hex4_value c1 c2 c3 c4) as [u|] eqn:Hu; [|discriminate].
        assert (Hsingle :
          match scanstring r2 with
          | Some (str0, rest0) => Some (utf8_encode u ++ str0, rest0)
          | None => None
          end = Some (str, rest) ->
          exists c, "\"%char :: "u"%char :: c1 :: c2 :: c3 :: c4 :: r2 = c ++ rest
                    /\ string_body c).
        { destruct (scanstring r2) as [[str0 rest0]|] eqn:E; [|discriminate].
          intros H. injection H as _ <-.
          destruct (IH r2 str0 rest0 ltac:(lia) E) as (c & -> & Hc).
          exists ("\"%char :: "u"%char :: c1 :: c2 :: c3 :: c4 :: c).
          split; [reflexivity|]. now apply (string_body_unicode _ _ _ _ u). }
        destruct (is_high_surrogate u); [|exact Hsingle].
        destruct r2 as [|b r3]; [exact Hsingle|].
        destruct (Ascii.eqb b "\") eqn:Hb2; [|exact Hsingle].
        destruct r3 as [|x [|d1 [|d2 [|d3 [|d4 r4]]]]]; try exact Hsingle.
        destruct (Ascii.eqb x "u") eqn:Hx; [|exact Hsingle].
        destruct (hex4_value d1 d2 d3 d4) as [u2|] eqn:Hu2; [|discriminate].
        destruct (is_low_surrogate u2); [|exact Hsingle].
        apply Ascii.eqb_eq in Hb2, Hx. subst b x. cbn in Hn.
        destruct (scanstring r4) as [[str0 rest0]|] eqn:E; [|discriminate].
        intros H. injection H as _ <-.
        destruct (IH r4 str0 rest0 ltac:(lia) E) as (c & -> & Hc).
        exists ("\"%char :: "u"%char :: c1 :: c2 :: c3 :: c4 ::
                "\"%char :: "u"%char :: d1 :: d2 :: d3 :: d4 :: c).
        split; [reflexivity|].
        apply (string_body_unicode _ _ _ _ u); [exact Hu|].
        now apply (string_body_unicode _ _ _ _ u2).
      - destruct (simple_escape e) as [ch|]; [|discriminate].
        destruct (scanstring r1) as [[str0 rest0]|] eqn:E; [|discriminate].
        intros H. injection H as _ <-.
        destruct (IH r1 str0 rest0 ltac:(lia) E) as (c & -> & Hc).
        exists ("\"%char :: e :: c). split; [reflexivity|].
        now apply string_body_escape. }
    destruct (code c <? 32)%N; [discriminate|].
    destruct (scanstring r) as [[str0 rest0]|] eqn:E; [|discriminate].
    intros H. injection H as _ <-.
    destruct (IH r str0 rest0 ltac:(lia) E) as (c' & -> & Hc).
    exists (c :: c'). split; [reflexivity|].
    intros d. apply until_cons.
    + cbn. rewrite Hb, Hq. apply in_string_string.
    + cbn [step]. rewrite Hb, Hq. apply Hc.
Qed.

Lemma scanstring_body (s str rest : list ascii) :
  scanstring s = Some (str, rest) -> exists c, s = c ++ rest /\ string_body c.
Proof. apply (scanstring_consumes (List.length s)). lia. Qed.

(** A string literal, with its opening quote, is closed. *)
Lemma string_closed (d : nat) (c : list ascii) :
  string_body c -> closed d ("034"%char :: c).
Proof.
  intros H. apply until_cons.
  - right. split; [reflexivity|discriminate].
  - eapply until_impl; [|apply H]. intros st [H1 H2]. right. now split.
Qed.

(** ** Numbers and literals *)

Lemma span_digits_split (s : list ascii) :
  s = fst (span_digits s) ++ snd (span_digits s) /\ plain (fst (span_digits s)).
Proof.
  induction s as [|c s [E Hp]]; cbn.
  - split; [reflexivity|constructor].
  - destruct (is_digit c) eqn:Hc.
    + destruct (span_digits s) as [ds rest]. cbn in *. split; [congruence|].
      constructor; [now apply is_digit_plain|exact Hp].
    + cbn. split; [reflexivity|constructor].
Qed.

Lemma span_digits_inv (s ds rest : list ascii) :
  span_digits s = (ds, rest) -> s = ds ++ rest /\ plain ds.
Proof. intros H. generalize (span_digits_split s). now rewrite H. Qed.

Lemma match_int_part_inv (s ip rest : list ascii) :
  match_int_part s = Some (ip, rest) -> s = ip ++ rest /\ ip <> [] /\ plain ip.
Proof.
  destruct s as [|c r]; [discriminate|]. cbn.
  destruct (Ascii.eqb c "0") eqn:H0.
  - apply Ascii.eqb_eq in H0. subst c. intros H. injection H as <- <-.
    split; [reflexivity|]. split; [discriminate|]. repeat constructor.
  - destruct (is_digit c) eqn:Hc; [|discriminate].
    destruct (span_digits r) as [ds rest0] eqn:E.
    intros H. injection H as <- <-.
    apply span_digits_inv in E. destruct E as [-> Hp].
    split; [reflexivity|]. split; [discriminate|].
    constructor; [now apply is_digit_plain|exact Hp].
Qed.

Lemma match_frac_inv (s fp rest : list ascii) :
  match_frac s = Some (fp, rest) -> exists c, s = c ++ rest /\ plain c.
Proof.
  destruct s as [|p [|d r]]; try discriminate. cbn.
  destruct (Ascii.eqb p ".") eqn:Hp; [|discriminate].
  destruct (is_digit d) eqn:Hd; [|discriminate]. cbn.
  destruct (span_digits r) as [ds rest0] eqn:E.
  intros H. injection H as _ <-.
  apply span_digits_inv in E. destruct E as [-> Hds].
  apply Ascii.eqb_eq in Hp. subst p.
  exists ("."%char :: d :: ds). split; [reflexivity|].
  constructor; [reflexivity|]. constructor; [now apply is_digit_plain|exact Hds].
Qed.

Lemma match_exp_inv (s : list ascii) (ex : Z) (rest : list ascii) :
  match_exp s = Some (ex, rest) -> exists c, s = c ++ rest /\ plain c.
Proof.
  destruct s as [|e r]; [discriminate|]. cbn.
  destruct (Ascii.eqb e "e" || Ascii.eqb e "E") eqn:He; [|discriminate].
  assert (Hpe : special e = false).
  { apply orb_true_iff in He. destruct He as [He|He];
      apply Ascii.eqb_eq in He; subst e; reflexivity. }
  assert (Hsign : exists sg r1, r = sg ++ r1 /\ plain sg /\
            (let '(neg, r1') :=
               match r with
               | sg0 :: r' =>
                   if Ascii.eqb sg0 "-" then (true, r')
                   else if Ascii.eqb sg0 "+" then (false, r')
                   else (false, r)
               | [] => (false, r)
               end in r1') = r1).
  { destruct r as [|sg0 r'].
    - exists [], []. repeat split. constructor.
    - destruct (Ascii.eqb sg0 "-") eqn:Hm.
      + apply Ascii.eqb_eq in Hm. subst sg0. exists ["-"%char], r'.
        repeat split. repeat constructor.
      + destruct (Ascii.eqb sg0 "+") eqn:Hpl.
        * apply Ascii.eqb_eq in Hpl. subst sg0. exists ["+"%char], r'.
          repeat split. repeat constructor.
        * exists [], (sg0 :: r'). repeat split. constructor. }
  destruct Hsign as (sg & r1 & -> & Hsg & Hr1).
  destruct (match sg ++ r1 with
            | sg0 :: r' =>
                if Ascii.eqb sg0 "-" then (true, r')
                else if Ascii.eqb sg0 "+" then (false, r')
                else (false, sg ++ r1)
            | [] => (false, sg ++ r1)
            end) as [neg r1'] eqn:E.
  cbn in Hr1. subst r1'.
  destruct (span_digits r1) as [ds rest0] eqn:Ed.
  apply span_digits_inv in Ed. destruct Ed as [-> Hds].
  destruct ds as [|d0 ds]; [discriminate|].
  intros H. injection H as _ <-.
  exists (e :: sg ++ d0 :: ds). split.
  - cbn. now rewrite <- app_assoc.
  - constructor; [exact Hpe|]. apply Forall_app. now split.
Qed.

Ltac split_ws H w Hw :=
  match type of H with
  | skip_ws ?s = _ =>
      let E := fresh "E" in
      destruct (skip_ws_split s) as (w & E & Hw); rewrite H in E; subst s
  end.

Ltac char_eq H := apply Ascii.eqb_eq in H; subst.

Lemma match_int_part_digits (s ip rest : list ascii) :
  match_int_part s = Some (ip, rest) -> forallb is_digit ip = true.
Proof.
  destruct s as [|c r]; [discriminate|]. cbn.
  destruct (Ascii.eqb c "0") eqn:H0.
  - apply Ascii.eqb_eq in H0. subst c. intros E. injection E as <- <-. reflexivity.
  - destruct (is_digit c) eqn:Hc; [|discriminate].
    destruct (span_digits r) as [ds rest0] eqn:E.
    intros E0. injection E0 as <- <-. cbn. rewrite Hc. cbn.
    clear Hc H0. revert ds rest0 E. induction r as [|d r IH]; cbn; intros ds rest0.
    + intros E. injection E as <- <-. reflexivity.
    + destruct (is_digit d) eqn:Hd.
      * destruct (span_digits r) as [ds1 r1]. intros E. injection E as <- <-.
        cbn. rewrite Hd. now apply (IH ds1 r1).
      * intros E. injection E as <- <-. reflexivity.
Qed.

(** ** Where a value ends *)

Lemma stops_cons (rest : list ascii) :
  stops rest = true -> exists c r, rest = c :: r /\ stop_char c = true.
Proof. destruct rest as [|c r]; [discriminate|]. intros E. now exists c, r. Qed.

Lemma skip_ws_stops (s : list ascii) (x : ascii) (r : list ascii) :
  skip_ws s = x :: r -> stop_char x = true -> stops s = true.
Proof.
  destruct s as [|c s]; [discriminate|]. cbn [skip_ws stops].
  destruct (is_ws c) eqn:Hc.
  - intros _ _. unfold stop_char. now rewrite Hc.
  - intros E. injection E as -> _. trivial.
Qed.

Lemma stop_char_no_digit (c : ascii) : stop_char c = true -> is_digit c = false.
Proof. each_char c; vm_compute; intros E; try discriminate E; reflexivity. Qed.

Lemma stop_char_no_dot (c : ascii) :
  stop_char c = true ->
  Ascii.eqb c "." = false /\ Ascii.eqb c "e" = false /\ Ascii.eqb c "E" = false.
Proof. each_char c; vm_compute; intros E; try discriminate E; repeat split. Qed.

Lemma span_digits_extend (s ds rest x : list ascii) :
  span_digits s = (ds, rest) -> rest <> [] -> span_digits (s ++ x) = (ds, rest ++ x).
Proof.
  revert ds rest. induction s as [|c s IH]; intros ds rest; cbn.
  - intros E. injection E as <- <-. contradiction.
  - destruct (is_digit c) eqn:Hc.
    + destruct (span_digits s) as [ds1 r1] eqn:E1. intros E. injection E as <- <-.
      intros Hr. now rewrite (IH ds1 r1 eq_refl Hr).
    + intros E. injection E as <- <-. intros _. reflexivity.
Qed.

Lemma match_int_part_extend (s ip rest x : list ascii) :
  match_int_part s = Some (ip, rest) -> rest <> [] ->
  match_int_part (s ++ x) = Some (ip, rest ++ x).
Proof.
  destruct s as [|c r]; [discriminate|]. cbn.
  destruct (Ascii.eqb c "0"); [intros E; injection E as <- <-; reflexivity|].
  destruct (is_digit c); [|discriminate].
  destruct (span_digits r) as [ds rest0] eqn:E.
  intros E0. injection E0 as <- <-. intros Hr.
  now rewrite (span_digits_extend _ _ _ x E Hr).
Qed.

Lemma match_frac_extend (s fp rest x : list ascii) :
  match_frac s = Some (fp, rest) -> rest <> [] ->
  match_frac (s ++ x) = Some (fp, rest ++ x).
Proof.
  destruct s as [|p [|d r]]; try discriminate. cbn.
  destruct (Ascii.eqb p "." && is_digit d); [|discriminate].
  destruct (span_digits r) as [ds rest0] eqn:E.
  intros E0. injection E0 as <- <-. intros Hr.
  now rewrite (span_digits_extend _ _ _ x E Hr).
Qed.

Lemma match_frac_stops (s x : list ascii) :
  stops s = true -> match_frac s = None /\ match_frac (s ++ x) = None.
Proof.
  intros Hs. destruct (stops_cons _ Hs) as (c & r & -> & Hc).
  destruct (stop_char_no_dot c Hc) as (Hd & _ & _).
  split.
  - destruct r; cbn; [reflexivity|]. now rewrite Hd.
  - cbn. destruct (r ++ x); [reflexivity|]. now rewrite Hd.
Qed.

Lemma match_exp_stops (s x : list ascii) :
  stops s = true -> match_exp s = None /\ match_exp (s ++ x) = None.
Proof.
  intros Hs. destruct (stops_cons _ Hs) as (c & r & -> & Hc).
  destruct (stop_char_no_dot c Hc) as (_ & He1 & He2).
  cbn. now rewrite He1, He2.
Qed.

Lemma match_exp_extend (s : list ascii) (ex : Z) (rest x : list ascii) :
  match_exp s = Some (ex, rest) -> rest <> [] ->
  match_exp (s ++ x) = Some (ex, rest ++ x).
Proof.
  destruct s as [|e r]; [discriminate|]. cbn.
  destruct (Ascii.eqb e "e" || Ascii.eqb e "E"); [|discriminate].
  destruct r as [|sg r'].
  - cbn. discriminate.
  - cbn [List.app].
    destruct (Ascii.eqb sg "-").
    { destruct (span_digits r') as [ds rest0] eqn:E.
      destruct ds as [|d0 ds]; [discriminate|].
      intros E0. injection E0 as <- <-. intros Hr.
      now rewrite (span_digits_extend _ _ _ x E Hr). }
    destruct (Ascii.eqb sg "+").
    { destruct (span_digits r') as [ds rest0] eqn:E.
      destruct ds as [|d0 ds]; [discriminate|].
      intros E0. injection E0 as <- <-. intros Hr.
      now rewrite (span_digits_extend _ _ _ x E Hr). }
    destruct (span_digits (sg :: r')) as [ds rest0] eqn:E.
    destruct ds as [|d0 ds]; [discriminate|].
    intros E0. injection E0 as <- <-. intros Hr.
    change (sg :: r' ++ x) with ((sg :: r') ++ x).
    now rewrite (span_digits_extend _ _ _ x E Hr).
Qed.

Lemma expect_all_extend (p s r x : list ascii) :
  expect_all p s = Some r -> expect_all p (s ++ x) = Some (r ++ x).
Proof.
  revert s. induction p as [|c p IH]; intros s; cbn.
  - intros E. injection E as <-. reflexivity.
  - destruct s as [|y s]; [discriminate|]. cbn.
    destruct (Ascii.eqb y c); [apply IH|discriminate].
Qed.

(** A literal that a text does not start with: it stays so when the text
    grows, unless the text is the beginning of the literal. *)
Lemma expect_all_none (p s x : list ascii) :
  expect_all p s = None ->
  expect_all p (s ++ x) = None \/ exists t, p = s ++ t.
Proof.
  revert s. induction p as [|c p IH]; intros s; cbn; [discriminate|].
  destruct s as [|y s].
  - intros _. right. now exists (c :: p).
  - cbn. destruct (Ascii.eqb y c) eqn:Ey; [|now left].
    apply Ascii.eqb_eq in Ey. subst y. intros E.
    destruct (IH s E) as [E1|[t ->]]; [now left|]. right. now exists t.
Qed.

Lemma literal_stays (p s c rest x : list ascii) :
  forallb (fun a => negb (stop_char a)) p = true ->
  s = c ++ rest -> stops rest = true ->
  expect_all p s = None -> expect_all p (s ++ x) = None.
Proof.
  intros Hp -> Hr E. destruct (expect_all_none p _ x E) as [E1|[t ->]]; [exact E1|].
  exfalso. destruct (stops_cons _ Hr) as (a & r & -> & Ha).
  rewrite <- app_assoc, !forallb_app in Hp. cbn in Hp. rewrite Ha in Hp.
  cbn in Hp. rewrite andb_false_r in Hp. discriminate.
Qed.

Section Scanner.
Context {runtime : PyRuntime}.

Lemma match_number_inv (s : list ascii) (v : val) (rest : list ascii) :
  match_number s = POk v rest -> exists c, s = c ++ rest /\ c <> [] /\ plain c.
Proof.
  unfold match_number.
  assert (Hsign : exists sg s1, s = sg ++ s1 /\ plain sg /\
            snd (match s with
                 | c :: r => if Ascii.eqb c "-" then (true, r) else (false, s)
                 | [] => (false, s)
                 end) = s1).
  { destruct s as [|c r].
    - exists [], []. repeat split. constructor.
    - destruct (Ascii.eqb c "-") eqn:Hm.
      + apply Ascii.eqb_eq in Hm. subst c. exists ["-"%char], r.
        repeat split. repeat constructor.
      + exists [], (c :: r). repeat split. constructor. }
  destruct Hsign as (sg & s1 & E & Hsg & Hs1).
  destruct (match s with
            | c :: r => if Ascii.eqb c "-" then (true, r) else (false, s)
            | [] => (false, s)
            end) as [neg s1'].
  cbn in Hs1. subst s1' s.
  destruct (match_int_part s1) as [[ip s2]|] eqn:Ei; [|discriminate].
  apply match_int_part_inv in Ei. destruct Ei as (-> & Hip & Hpi).
  assert (Hne : forall x, sg ++ ip ++ x <> []).
  { intros x. destruct sg; [|discriminate]. destruct ip; [contradiction|discriminate]. }
  destruct (match_frac s2) as [[fp s3]|] eqn:Ef.
  - apply match_frac_inv in Ef. destruct Ef as (cf & -> & Hcf).
    destruct (match_exp s3) as [[ex s4]|] eqn:Ee.
    + apply match_exp_inv in Ee. destruct Ee as (ce & -> & Hce).
      intros H. injection H as _ <-.
      exists (sg ++ ip ++ cf ++ ce). split; [now rewrite <- !app_assoc|].
      split; [apply Hne|]. repeat (apply Forall_app; split); assumption.
    + intros H. injection H as _ <-.
      exists (sg ++ ip ++ cf). split; [now rewrite <- !app_assoc|].
      split; [apply Hne|]. repeat (apply Forall_app; split); assumption.
  - destruct (match_exp s2) as [[ex s4]|] eqn:Ee.
    + apply match_exp_inv in Ee. destruct Ee as (ce & -> & Hce).
      intros H. injection H as _ <-.
      exists (sg ++ ip ++ ce). split; [now rewrite <- !app_assoc|].
      split; [apply Hne|]. repeat (apply Forall_app; split); assumption.
    + destruct (beyond_limit (List.length ip)); [discriminate|].
      intros H. injection H as _ <-.
      exists (sg ++ ip ++ []). split; [now rewrite <- !app_assoc|].
      split; [apply Hne|]. repeat (apply Forall_app; split); try assumption.
      constructor.
Qed.

Lemma match_number_atom (s : list ascii) (v : val) (rest : list ascii) :
  match_number s = POk v rest -> is_container v = false.
Proof.
  unfold match_number.
  destruct (match s with
            | c :: r => if Ascii.eqb c "-" then (true, r) else (false, s)
            | [] => (false, s)
            end) as [neg s1].
  destruct (match_int_part s1) as [[ip s2]|]; [|discriminate].
  destruct (match_frac s2) as [[fp s3]|].
  - destruct (match_exp s3) as [[ex s4]|]; intros H; injection H as <- _; reflexivity.
  - destruct (match_exp s2) as [[ex s4]|].
    + intros H; injection H as <- _; reflexivity.
    + destruct (beyond_limit _); [discriminate|].
      intros H; injection H as <- _; reflexivity.
Qed.

(** The only error of the interpreter in a number is the limit on the digits
    of an [int], for a run of digits of the text. *)
Lemma match_number_raises (s : list ascii) (e : py_error) :
  match_number s = PRaise e ->
  exists a ds b, s = a ++ ds ++ b /\ forallb is_digit ds = true /\
    beyond_limit (List.length ds) = true /\ e = StrToInt (List.length ds).
Proof.
  unfold match_number.
  assert (Hsign : exists sg, s = sg ++
            snd (match s with
                 | c :: r => if Ascii.eqb c "-" then (true, r) else (false, s)
                 | [] => (false, s)
                 end)).
  { destruct s as [|c r]; [now exists []|].
    destruct (Ascii.eqb c "-") eqn:Hm; [|now exists []].
    apply Ascii.eqb_eq in Hm. subst c. now exists ["-"%char]. }
  destruct Hsign as (sg & E).
  destruct (match s with
            | c :: r => if Ascii.eqb c "-" then (true, r) else (false, s)
            | [] => (false, s)
            end) as [neg s1].
  cbn in E.
  destruct (match_int_part s1) as [[ip s2]|] eqn:Ei; [|discriminate].
  pose proof (match_int_part_digits _ _ _ Ei) as Hd.
  apply match_int_part_inv in Ei. destruct Ei as (-> & _ & _).
  destruct (match_frac s2) as [[fp s3]|].
  - destruct (match_exp s3) as [[ex s4]|]; discriminate.
  - destruct (match_exp s2) as [[ex s4]|]; [discriminate|].
    destruct (beyond_limit (List.length ip)) eqn:Hb; [|discriminate].
    intros E0. injection E0 as <-. exists sg, ip, s2. repeat split; assumption.
Qed.

Lemma scan_atom_inv (s : list ascii) (v : val) (rest : list ascii) :
  scan_atom s = POk v rest ->
  is_container v = false /\ exists c, s = c ++ rest /\ c <> [] /\ plain c.
Proof.
  unfold scan_atom.
  repeat match goal with
  | |- context [expect_all (chars ?t) s] =>
      let E := fresh "E" in
      destruct (expect_all (chars t) s) as [r|] eqn:E;
      [ apply expect_all_inv in E; intros H; injection H as <- <-;
        split; [reflexivity|];
        exists (chars t); split; [exact E|];
        split; [discriminate|repeat constructor] | ]
  end.
  intros En. split.
  - now apply match_number_atom in En.
  - now apply match_number_inv in En.
Qed.

Lemma scan_atom_raises (s : list ascii) (e : py_error) :
  scan_atom s = PRaise e ->
  exists a ds b, s = a ++ ds ++ b /\ forallb is_digit ds = true /\
    beyond_limit (List.length ds) = true /\ e = StrToInt (List.length ds).
Proof.
  unfold scan_atom.
  repeat match goal with
  | |- context [expect_all (chars ?t) s] =>
      destruct (expect_all (chars t) s) as [r|]; [discriminate|]
  end.
  apply match_number_raises.
Qed.

Lemma scan_atom_fuel (s : list ascii) : scan_atom s <> PFuel.
Proof.
  unfold scan_atom.
  repeat match goal with
  | |- context [expect_all ?p ?t] => destruct (expect_all p t); [discriminate|]
  end.
  unfold match_number.
  destruct (match s with
            | c :: r => if Ascii.eqb c "-" then (true, r) else (false, s)
            | [] => (false, s)
            end) as [neg s1].
  destruct (match_int_part s1) as [[ip s2]|]; [|discriminate].
  destruct (match_frac s2) as [[fp s3]|].
  - destruct (match_exp s3) as [[ex s4]|]; discriminate.
  - destruct (match_exp s2) as [[ex s4]|]; [discriminate|].
    destruct (beyond_limit _); discriminate.
Qed.

Lemma consumed_nonempty (v : val) (c : list ascii) : consumed_by v c -> c <> [].
Proof.
  unfold consumed_by. destruct (is_container v).
  - intros H. exact (proj1 (H 0)).
  - intros H. exact (proj1 H).
Qed.

Lemma key_steady (d : nat) (c : list ascii) :
  string_body c -> steady (inside d) (S d, InString) c (S d, Plain).
Proof.
  intros H. apply until_steady; [|now apply inside_up].
  eapply until_impl; [|apply H]. intros st [H1 _]. apply inside_up. cbn in *. lia.
Qed.

Lemma ws_steady (d : nat) (w : list ascii) :
  plain w -> steady (inside d) (S d, Plain) w (S d, Plain).
Proof. apply steady_plain. now apply inside_up. Qed.

Lemma value_steady (d : nat) (v : val) (c : list ascii) :
  consumed_by v c -> steady (inside d) (S d, Plain) c (S d, Plain).
Proof.
  unfold consumed_by. destruct (is_container v); intros H.
  - apply until_steady; [|now apply inside_up].
    eapply until_impl; [|apply (H (S d))].
    intros st Hst. apply inside_le in Hst. now apply inside_up.
  - apply ws_steady. apply H.
Qed.

Lemma close_brace (d : nat) : until (inside d) (S d, Plain) ["}"%char] (d, Plain).
Proof. apply (until_one (inside d) (S d, Plain) "}"). Qed.

Lemma close_bracket (d : nat) : until (inside d) (S d, Plain) ["]"%char] (d, Plain).
Proof. apply (until_one (inside d) (S d, Plain) "]"). Qed.

Lemma scan_consumes (f : nat) :
  (forall room s v rest, scan_once f room s = POk v rest ->
     exists c, s = c ++ rest /\ consumed_by v c) /\
  (forall room s acc v rest, object_rest f room s acc = POk v rest ->
     is_container v = true /\ exists c, s = c ++ rest /\ object_tail c) /\
  (forall room s acc v rest, array_rest f room s acc = POk v rest ->
     is_container v = true /\ exists c, s = c ++ rest /\ array_tail c).
Proof.
  induction f as [|f (IHv & IHo & IHa)].
  { repeat split; intros; discriminate. }
  split; [|split].
  - intros room s v rest. cbn [scan_once].
    destruct s as [|c r]; [discriminate|].
    destruct (Ascii.eqb c "034") eqn:Hq.
    { char_eq Hq.
      destruct (scanstring r) as [[str rest0]|] eqn:E; [|discriminate].
      intros H. injection H as <- <-.
      apply scanstring_body in E. destruct E as (c & -> & Hc).
      exists ("034"%char :: c). split; [reflexivity|].
      intros d. now apply string_closed. }
    destruct (Ascii.eqb c "{") eqn:Ho.
    { char_eq Ho. destruct room as [|room]; [discriminate|].
      destruct (skip_ws r) as [|x r1] eqn:Ew; [discriminate|].
      split_ws Ew w Hw.
      destruct (Ascii.eqb x "}") eqn:Hx.
      - char_eq Hx. intros H. injection H as <- <-.
        exists ("{"%char :: w ++ ["}"%char]). split.
        + cbn. now rewrite <- app_assoc.
        + intros d. apply until_cons; [now apply inside_up|].
          eapply until_app; [apply (ws_steady d w Hw)|apply close_brace].
      - destruct (Ascii.eqb x "034") eqn:Hx2; [|discriminate].
        char_eq Hx2. intros H.
        destruct (IHo _ _ _ _ _ H) as (Hv & c & -> & Hc).
        exists ("{"%char :: w ++ "034"%char :: c). split.
        + cbn. now rewrite <- app_assoc.
        + unfold consumed_by. rewrite Hv. intros d.
          apply until_cons; [now apply inside_up|].
          eapply until_app; [apply (ws_steady d w Hw)|].
          apply until_cons; [now apply inside_up|]. apply Hc. }
    destruct (Ascii.eqb c "[") eqn:Ha.
    { char_eq Ha. destruct room as [|room]; [discriminate|].
      destruct (skip_ws r) as [|x r1] eqn:Ew; [discriminate|].
      split_ws Ew w Hw.
      destruct (Ascii.eqb x "]") eqn:Hx.
      - char_eq Hx. intros H. injection H as <- <-.
        exists ("["%char :: w ++ ["]"%char]). split.
        + cbn. now rewrite <- app_assoc.
        + intros d. apply until_cons; [now apply inside_up|].
          eapply until_app; [apply (ws_steady d w Hw)|apply close_bracket].
      - intros H.
        destruct (IHa _ _ _ _ _ H) as (Hv & c & E & Hc).
        exists ("["%char :: w ++ c). split.
        + cbn. now rewrite <- app_assoc, E.
        + unfold consumed_by. rewrite Hv. intros d.
          apply until_cons; [now apply inside_up|].
          eapply until_app; [apply (ws_steady d w Hw)|apply Hc]. }
    intros H. apply scan_atom_inv in H. destruct H as (Hv & c' & E & Hc).
    exists c'. split; [exact E|]. unfold consumed_by. now rewrite Hv.
  - intros room s acc v rest. cbn [object_rest].
    destruct (scanstring s) as [[k s1]|] eqn:Ek; [|discriminate].
    apply scanstring_body in Ek. destruct Ek as (kb & -> & Hkb).
    destruct (expect ":" (skip_ws s1)) as [s2|] eqn:Ec; [|discriminate].
    apply expect_inv in Ec. split_ws Ec w1 Hw1.
    destruct (scan_once f room (skip_ws s2)) as [v0 s3| | |] eqn:Ev; try discriminate.
    destruct (IHv _ _ _ _ Ev) as (cv & Ecv & Hcv).
    split_ws Ecv w2 Hw2.
    destruct (skip_ws s3) as [|x s4] eqn:Ew3; [discriminate|].
    split_ws Ew3 w3 Hw3.
    assert (Hhead : forall d, steady (inside d) (S d, InString)
                      (kb ++ (w1 ++ ":"%char :: w2) ++ cv ++ w3) (S d, Plain)).
    { intros d. eapply steady_app; [apply (key_steady d kb Hkb)|].
      eapply steady_app; [apply ws_steady|].
      { apply Forall_app. split; [exact Hw1|]. constructor; [reflexivity|exact Hw2]. }
      eapply steady_app; [apply (value_steady d v0 cv Hcv)|].
      now apply ws_steady. }
    destruct (Ascii.eqb x "}") eqn:Hx.
    + char_eq Hx. intros H. injection H as <- <-. split; [reflexivity|].
      exists ((kb ++ (w1 ++ ":"%char :: w2) ++ cv ++ w3) ++ ["}"%char]). split.
      * rewrite <- ?app_assoc; cbn; rewrite <- ?app_assoc; reflexivity.
      * intros d. eapply until_app; [apply Hhead|apply close_brace].
    + destruct (Ascii.eqb x ",") eqn:Hx2; [|discriminate]. char_eq Hx2.
      destruct (expect "034" (skip_ws s4)) as [s5|] eqn:E5; [|discriminate].
      apply expect_inv in E5. split_ws E5 w4 Hw4.
      intros H. destruct (IHo _ _ _ _ _ H) as (Hv & c5 & -> & Hc5).
      split; [exact Hv|].
      exists ((kb ++ (w1 ++ ":"%char :: w2) ++ cv ++ w3) ++
              (","%char :: w4) ++ "034"%char :: c5). split.
      * rewrite <- ?app_assoc; cbn; rewrite <- ?app_assoc; reflexivity.
      * intros d. eapply until_app; [apply Hhead|].
        eapply until_app; [apply ws_steady; constructor; [reflexivity|exact Hw4]|].
        apply until_cons; [now apply inside_up|]. apply Hc5.
  - intros room s acc v rest. cbn [array_rest].
    destruct (scan_once f room s) as [v0 s1| | |] eqn:Ev; try discriminate.
    destruct (IHv _ _ _ _ Ev) as (cv & -> & Hcv).
    destruct (skip_ws s1) as [|x s2] eqn:Ew1; [discriminate|].
    split_ws Ew1 w1 Hw1.
    assert (Hhead : forall d, steady (inside d) (S d, Plain) (cv ++ w1) (S d, Plain)).
    { intros d. eapply steady_app; [apply (value_steady d v0 cv Hcv)|].
      now apply ws_steady. }
    destruct (Ascii.eqb x "]") eqn:Hx.
    + char_eq Hx. intros H. injection H as <- <-. split; [reflexivity|].
      exists ((cv ++ w1) ++ ["]"%char]). split.
      * rewrite <- ?app_assoc; reflexivity.
      * intros d. eapply until_app; [apply Hhead|apply close_bracket].
    + destruct (Ascii.eqb x ",") eqn:Hx2; [|discriminate]. char_eq Hx2.
      intros H. destruct (IHa _ _ _ _ _ H) as (Hv & c2 & E2 & Hc2).
      split_ws E2 w2 Hw2.
      split; [exact Hv|].
      exists ((cv ++ w1) ++ (","%char :: w2) ++ c2). split.
      * rewrite <- ?app_assoc; cbn; rewrite <- ?app_assoc; reflexivity.
      * intros d. eapply until_app; [apply Hhead|].
        eapply until_app; [apply ws_steady; constructor; [reflexivity|exact Hw2]|].
        apply Hc2.
Qed.

Lemma scan_once_consumes (f room : nat) (s : list ascii) (v : val) (rest : list ascii) :
  scan_once f room s = POk v rest -> exists c, s = c ++ rest /\ consumed_by v c.
Proof. apply (scan_consumes f). Qed.

(** ** The budget is enough *)

Lemma consumed_length (c rest : list ascii) :
  c <> [] -> List.length rest < List.length (c ++ rest).
Proof. intros H. rewrite length_app. destruct c; [contradiction|cbn; lia]. Qed.

Lemma scanstring_length (s str rest : list ascii) :
  scanstring s = Some (str, rest) -> List.length rest < List.length s.
Proof.
  intros H. apply scanstring_body in H. destruct H as (c & -> & Hc).
  apply consumed_length. exact (proj1 (Hc 0)).
Qed.

Lemma scan_once_length (f room : nat) (s : list ascii) (v : val) (rest : list ascii) :
  scan_once f room s = POk v rest -> List.length rest < List.length s.
Proof.
  intros H. apply scan_once_consumes in H. destruct H as (c & -> & Hc).
  apply consumed_length. now apply consumed_nonempty in Hc.
Qed.

Lemma skip_ws_cons_length (s : list ascii) (x : ascii) (r : list ascii) :
  skip_ws s = x :: r -> List.length r < List.length s.
Proof. intros H. generalize (skip_ws_length s). rewrite H. cbn. lia. Qed.

Lemma scan_fuel (f : nat) :
  (forall room s, 2 * List.length s < f -> scan_once f room s <> PFuel) /\
  (forall room s acc, 2 * List.length s < f -> object_rest f room s acc <> PFuel) /\
  (forall room s acc, 2 * List.length s + 1 < f -> array_rest f room s acc <> PFuel).
Proof.
  induction f as [|f (IHv & IHo & IHa)].
  { repeat split; intros; lia. }
  split; [|split].
  - intros room s Hf. cbn [scan_once].
    destruct s as [|c r]; [discriminate|]. cbn [List.length] in Hf.
    destruct (Ascii.eqb c "034").
    { destruct (scanstring r) as [[str rest]|]; discriminate. }
    destruct (Ascii.eqb c "{").
    { destruct room as [|room]; [discriminate|].
      destruct (skip_ws r) as [|x r1] eqn:Ew; [discriminate|].
      apply skip_ws_cons_length in Ew.
      destruct (Ascii.eqb x "}"); [discriminate|].
      destruct (Ascii.eqb x "034"); [|discriminate].
      apply IHo. lia. }
    destruct (Ascii.eqb c "[").
    { destruct room as [|room]; [discriminate|].
      destruct (skip_ws r) as [|x r1] eqn:Ew; [discriminate|].
      generalize (skip_ws_length r). rewrite Ew. intros Hl.
      destruct (Ascii.eqb x "]"); [discriminate|].
      apply IHa. lia. }
    apply scan_atom_fuel.
  - intros room s acc Hf. cbn [object_rest].
    destruct (scanstring s) as [[k s1]|] eqn:Ek; [|discriminate].
    apply scanstring_length in Ek.
    destruct (expect ":" (skip_ws s1)) as [s2|] eqn:Ec; [|discriminate].
    apply expect_inv in Ec. apply skip_ws_cons_length in Ec.
    generalize (skip_ws_length s2). intros Hl2.
    destruct (scan_once f room (skip_ws s2)) as [v0 s3| | |] eqn:Ev;
      [|discriminate|discriminate|].
    + apply scan_once_length in Ev.
      destruct (skip_ws s3) as [|x s4] eqn:Ew3; [discriminate|].
      apply skip_ws_cons_length in Ew3.
      destruct (Ascii.eqb x "}"); [discriminate|].
      destruct (Ascii.eqb x ","); [|discriminate].
      destruct (expect "034" (skip_ws s4)) as [s5|] eqn:E5; [|discriminate].
      apply expect_inv in E5. apply skip_ws_cons_length in E5.
      apply IHo. lia.
    + exfalso. revert Ev. apply IHv. lia.
  - intros room s acc Hf. cbn [array_rest].
    destruct (scan_once f room s) as [v0 s1| | |] eqn:Ev; [|discriminate|discriminate|].
    + apply scan_once_length in Ev.
      destruct (skip_ws s1) as [|x s2] eqn:Ew1; [discriminate|].
      apply skip_ws_cons_length in Ew1.
      destruct (Ascii.eqb x "]"); [discriminate|].
      destruct (Ascii.eqb x ","); [|discriminate].
      generalize (skip_ws_length s2). intros Hl2.
      apply IHa. lia.
    + exfalso. revert Ev. apply IHv. lia.
Qed.

(** [json_loads] never runs out of budget. *)
Lemma scan_once_fuel (room : nat) (s : list ascii) :
  scan_once (S (2 * List.length s)) room (skip_ws s) <> PFuel.
Proof. apply (scan_fuel _). generalize (skip_ws_length s). lia. Qed.

(** More budget than is needed changes nothing. *)
Lemma fuel_mono (f : nat) :
  (forall room s f', f <= f' -> scan_once f room s <> PFuel ->
     scan_once f' room s = scan_once f room s) /\
  (forall room s acc f', f <= f' -> object_rest f room s acc <> PFuel ->
     object_rest f' room s acc = object_rest f room s acc) /\
  (forall room s acc f', f <= f' -> array_rest f room s acc <> PFuel ->
     array_rest f' room s acc = array_rest f room s acc).
Proof.
  induction f as [|f (IHv & IHo & IHa)].
  { repeat split; intros; cbn in *; congruence. }
  split; [|split].
  - intros room s f' Hf. destruct f' as [|f']; [lia|]. cbn [scan_once].
    destruct s as [|c r]; [reflexivity|].
    destruct (Ascii.eqb c "034"); [reflexivity|].
    destruct (Ascii.eqb c "{").
    { destruct room as [|room]; [reflexivity|].
      destruct (skip_ws r) as [|x r1]; [reflexivity|].
      destruct (Ascii.eqb x "}"); [reflexivity|].
      destruct (Ascii.eqb x "034"); [|reflexivity].
      apply IHo. lia. }
    destruct (Ascii.eqb c "[").
    { destruct room as [|room]; [reflexivity|].
      destruct (skip_ws r) as [|x r1]; [reflexivity|].
      destruct (Ascii.eqb x "]"); [reflexivity|].
      apply IHa. lia. }
    reflexivity.
  - intros room s acc f' Hf. destruct f' as [|f']; [lia|]. cbn [object_rest].
    destruct (scanstring s) as [[k s1]|]; [|reflexivity].
    destruct (expect ":" (skip_ws s1)) as [s2|]; [|reflexivity].
    destruct (scan_once f room (skip_ws s2)) as [v s3| | |] eqn:Ev.
    + rewrite (IHv room (skip_ws s2) f') by first [lia | rewrite Ev; discriminate].
      rewrite Ev.
      destruct (skip_ws s3) as [|x s4]; [reflexivity|].
      destruct (Ascii.eqb x "}"); [reflexivity|].
      destruct (Ascii.eqb x ","); [|reflexivity].
      destruct (expect "034" (skip_ws s4)) as [s5|]; [|reflexivity].
      apply IHo. lia.
    + rewrite (IHv room (skip_ws s2) f') by first [lia | rewrite Ev; discriminate].
      rewrite Ev. reflexivity.
    + rewrite (IHv room (skip_ws s2) f') by first [lia | rewrite Ev; discriminate].
      rewrite Ev. reflexivity.
    + intros Hn. contradiction Hn. reflexivity.
  - intros room s acc f' Hf. destruct f' as [|f']; [lia|]. cbn [array_rest].
    destruct (scan_once f room s) as [v s1| | |] eqn:Ev.
    + rewrite (IHv room s f') by first [lia | rewrite Ev; discriminate]. rewrite Ev.
      destruct (skip_ws s1) as [|x s2]; [reflexivity|].
      destruct (Ascii.eqb x "]"); [reflexivity|].
      destruct (Ascii.eqb x ","); [|reflexivity].
      apply IHa. lia.
    + rewrite (IHv room s f') by first [lia | rewrite Ev; discriminate].
      rewrite Ev. reflexivity.
    + rewrite (IHv room s f') by first [lia | rewrite Ev; discriminate].
      rewrite Ev. reflexivity.
    + intros Hn. contradiction Hn. reflexivity.
Qed.

(** ** One value, and nothing after it *)

Lemma skip_ws_app (s t : list ascii) :
  skip_ws s <> [] -> skip_ws (s ++ t) = skip_ws s ++ t.
Proof.
  induction s as [|c s IH]; cbn; [contradiction|].
  destruct (is_ws c); [exact IH|reflexivity].
Qed.

Lemma skip_ws_app_nil (s t : list ascii) :
  skip_ws s = [] -> skip_ws (s ++ t) = skip_ws t.
Proof.
  induction s as [|c s IH]; cbn; [reflexivity|].
  destruct (is_ws c); [exact IH|discriminate].
Qed.

Lemma scan_once_container (f room : nat) (x : ascii) (s : list ascii) (v : val)
  (rest : list ascii) :
  scan_once f room (x :: s) = POk v rest -> is_container v = opens_container x.
Proof.
  destruct f as [|f]; [discriminate|]. cbn [scan_once]. unfold opens_container.
  destruct (Ascii.eqb x "034").
  { destruct (scanstring s) as [[str r]|]; [|discriminate].
    intros H. injection H as <- _. reflexivity. }
  destruct (Ascii.eqb x "{").
  { destruct room as [|room]; [discriminate|].
    destruct (skip_ws s) as [|y r1]; [discriminate|].
    destruct (Ascii.eqb y "}"); [intros H; injection H as <- _; reflexivity|].
    destruct (Ascii.eqb y "034"); [|discriminate].
    intros H. apply (scan_consumes f) in H. apply H. }
  destruct (Ascii.eqb x "[").
  { destruct room as [|room]; [discriminate|].
    destruct (skip_ws s) as [|y r1]; [discriminate|].
    destruct (Ascii.eqb y "]"); [intros H; injection H as <- _; reflexivity|].
    intros H. apply (scan_consumes f) in H. apply H. }
  intros H. apply scan_atom_inv in H. apply H.
Qed.

Lemma closed_split (d : nat) (c1 r1 c2 r2 : list ascii) :
  c1 ++ r1 = c2 ++ r2 -> closed d c1 -> closed d c2 -> c1 = c2 /\ r1 = r2.
Proof.
  intros E H1 H2. apply app_eq_app in E. destruct E as [l [[-> ->]|[-> ->]]].
  - rewrite (closed_prefix d c2 l H2 H1). now rewrite app_nil_r.
  - rewrite (closed_prefix d c1 l H1 H2). now rewrite app_nil_r.
Qed.

Lemma chars_of_list (s : list ascii) : chars (string_of_list_ascii s) = s.
Proof. apply list_ascii_of_string_of_list_ascii. Qed.

(** ** When more text follows *)

Lemma scanstring_extend (n : nat) :
  forall s str rest t, List.length s <= n -> scanstring s = Some (str, rest) ->
  scanstring (s ++ t) = Some (str, rest ++ t).
Proof.
  induction n as [|n IH]; intros s str rest t Hn.
  - destruct s; [discriminate|cbn in Hn; lia].
  - destruct s as [|c r]; [discriminate|]. cbn in Hn.
    cbn [scanstring List.app].
    destruct (Ascii.eqb c "034").
    { intros E. injection E as <- <-. reflexivity. }
    destruct (Ascii.eqb c "\").
    { destruct r as [|e r1]; [discriminate|]. cbn in Hn. cbn [List.app].
      destruct (Ascii.eqb e "u").
      - destruct r1 as [|c1 [|c2 [|c3 [|c4 r2]]]]; try discriminate.
        cbn in Hn. cbn [List.app].
        destruct (hex4_value c1 c2 c3 c4) as [u|]; [|discriminate].
        assert (Hsingle :
          match scanstring r2 with
          | Some (str0, rest0) => Some (utf8_encode u ++ str0, rest0)
          | None => None
          end = Some (str, rest) ->
          match scanstring (r2 ++ t) with
          | Some (str0, rest0) => Some (utf8_encode u ++ str0, rest0)
          | None => None
          end = Some (str, rest ++ t)).
        { destruct (scanstring r2) as [[str0 rest0]|] eqn:E; [|discriminate].
          intros E0. injection E0 as <- <-.
          now rewrite (IH r2 str0 rest0 t ltac:(lia) E). }
        destruct (is_high_surrogate u); [|exact Hsingle].
        destruct r2 as [|b r3]; [discriminate|].
        change ((b :: r3) ++ t) with (b :: (r3 ++ t)) in *. cbv beta iota zeta.
        destruct (Ascii.eqb b "\") eqn:Hb; [|exact Hsingle].
        apply Ascii.eqb_eq in Hb. subst b.
        destruct r3 as [|y r3]; [discriminate|].
        change ((y :: r3) ++ t) with (y :: (r3 ++ t)) in *. cbv beta iota zeta.
        destruct (Ascii.eqb y "u") eqn:Hy.
        + apply Ascii.eqb_eq in Hy. subst y.
          destruct r3 as [|d1 [|d2 [|d3 [|d4 r4]]]]; try (cbn; discriminate).
          cbn [List.app]. change (Ascii.eqb "u" "u") with true. cbv beta iota.
          destruct (hex4_value d1 d2 d3 d4) as [u2|]; [|discriminate].
          destruct (is_low_surrogate u2); [|exact Hsingle].
          cbn in Hn.
          destruct (scanstring r4) as [[str0 rest0]|] eqn:E; [|discriminate].
          intros E0. injection E0 as <- <-.
          now rewrite (IH r4 str0 rest0 t ltac:(lia) E).
        + intros E.
          assert (E1 : match scanstring ("\"%char :: y :: r3) with
                       | Some (str0, rest0) => Some (utf8_encode u ++ str0, rest0)
                       | None => None
                       end = Some (str, rest)).
          { revert E. destruct r3 as [|d1 [|d2 [|d3 [|d4 r4]]]]; intros E; exact E. }
          apply Hsingle in E1.
          destruct (r3 ++ t) as [|d1 [|d2 [|d3 [|d4 r4]]]]; exact E1.
      - destruct (simple_escape e) as [ch|]; [|discriminate].
        destruct (scanstring r1) as [[str0 rest0]|] eqn:E; [|discriminate].
        intros E0. injection E0 as <- <-.
        now rewrite (IH r1 str0 rest0 t ltac:(lia) E). }
    destruct (code c <? 32)%N; [discriminate|].
    destruct (scanstring r) as [[str0 rest0]|] eqn:E; [|discriminate].
    intros E0. injection E0 as <- <-.
    now rewrite (IH r str0 rest0 t ltac:(lia) E).
Qed.

Lemma match_exp_no_frac (s : list ascii) (ex : Z) (rest t : list ascii) :
  match_exp s = Some (ex, rest) -> match_frac (s ++ t) = None.
Proof.
  destruct s as [|e r]; [discriminate|]. cbn [match_exp List.app match_frac].
  destruct (Ascii.eqb e ".") eqn:Hp.
  - apply Ascii.eqb_eq in Hp. subst e. cbn. discriminate.
  - intros _. destruct (r ++ t); reflexivity.
Qed.

Lemma beyond_limit_mono (n m : nat) :
  n <= m -> beyond_limit m = false -> beyond_limit n = false.
Proof.
  unfold beyond_limit. intros Hnm.
  destruct (Nat.ltb 0 int_max_str_digits); [|now rewrite !andb_false_r].
  rewrite !andb_true_r.
  intros E. apply andb_false_iff in E. apply andb_false_iff.
  destruct E as [E|E]; [left|right]; apply Nat.ltb_ge in E; apply Nat.ltb_ge; lia.
Qed.

Lemma fits_suffix (a s : list ascii) : fits (a ++ s) -> fits s.
Proof.
  intros Hf a0 ds b E. apply (Hf (a ++ a0) ds b). subst s. now rewrite <- app_assoc.
Qed.

Lemma fits_prefix (s b : list ascii) : fits (s ++ b) -> fits s.
Proof.
  intros Hf a ds b0 E. apply (Hf a ds (b0 ++ b)). subst s. now rewrite <- !app_assoc.
Qed.

Lemma fits_tail (c : ascii) (s : list ascii) : fits (c :: s) -> fits s.
Proof. apply (fits_suffix [c]). Qed.

Lemma runs_fit_sound (s : list ascii) :
  forall run, runs_fit run s = true ->
  (forall ds b, s = ds ++ b -> forallb is_digit ds = true ->
     beyond_limit (run + List.length ds) = false) /\ fits s.
Proof.
  assert (H0 : beyond_limit 0 = false) by reflexivity.
  induction s as [|c r IH]; intros run; cbn [runs_fit].
  - intros Hr. apply negb_true_iff in Hr. split.
    + intros ds b E _. symmetry in E. apply app_eq_nil in E. destruct E as [-> _].
      now rewrite Nat.add_0_r.
    + intros a ds b E _. symmetry in E. apply app_eq_nil in E. destruct E as [_ E].
      apply app_eq_nil in E. destruct E as [-> _]. exact H0.
  - destruct (is_digit c) eqn:Hc.
    + intros Hr. destruct (IH _ Hr) as [Hp Hf].
      assert (Hpre : forall ds b, c :: r = ds ++ b -> forallb is_digit ds = true ->
                beyond_limit (run + List.length ds) = false).
      { intros ds b E Hd. destruct ds as [|d ds].
        - apply (beyond_limit_mono _ (S run + 0)); [cbn; lia|].
          apply (Hp [] r eq_refl eq_refl).
        - cbn in E. injection E as <- E. cbn in Hd. apply andb_true_iff in Hd.
          cbn [List.length]. rewrite Nat.add_succ_r. apply (Hp ds b E). apply Hd. }
      split; [exact Hpre|].
      intros a ds b E Hd. destruct a as [|a0 a].
      * apply (beyond_limit_mono _ (run + List.length ds)); [lia|].
        now apply (Hpre ds b).
      * cbn in E. injection E as _ E. now apply (Hf a ds b).
    + intros Hr. apply andb_true_iff in Hr. destruct Hr as [Hb Hr].
      apply negb_true_iff in Hb. destruct (IH _ Hr) as [Hp Hf].
      assert (Hpre : forall ds b, c :: r = ds ++ b -> forallb is_digit ds = true ->
                ds = []).
      { intros ds b E Hd. destruct ds as [|d ds]; [reflexivity|].
        cbn in E. injection E as <- E. cbn in Hd. rewrite Hc in Hd. discriminate. }
      split.
      * intros ds b E Hd. rewrite (Hpre ds b E Hd). now rewrite Nat.add_0_r.
      * intros a ds b E Hd. destruct a as [|a0 a].
        -- rewrite (Hpre ds b E Hd). exact H0.
        -- cbn in E. injection E as _ E. now apply (Hf a ds b).
Qed.

Lemma runs_fit_fits (s : list ascii) : runs_fit 0 s = true -> fits s.
Proof. intros Hr. apply (runs_fit_sound s 0 Hr). Qed.

Lemma match_number_extend (s : list ascii) (v : val) (rest t : list ascii) :
  match_number s = POk v rest -> stops rest = true ->
  match_number (s ++ t) = POk v (rest ++ t).
Proof.
  intros E Hs.
  assert (Hr : forall c, c ++ rest <> []).
  { intros c. destruct (stops_cons _ Hs) as (a & r & -> & _). now destruct c. }
  revert E. unfold match_number.
  assert (Hsign :
    forall neg s1,
      match s with
      | c :: r => if Ascii.eqb c "-" then (true, r) else (false, s)
      | [] => (false, s)
      end = (neg, s1) ->
      s1 = [] \/
      match s ++ t with
      | c :: r => if Ascii.eqb c "-" then (true, r) else (false, s ++ t)
      | [] => (false, s ++ t)
      end = (neg, s1 ++ t)).
  { intros neg s1. destruct s as [|c r].
    - intros E. injection E as <- <-. now left.
    - cbn [List.app]. destruct (Ascii.eqb c "-").
      + intros E. injection E as <- <-. now right.
      + intros E. injection E as <- <-. now right. }
  destruct (match s with
            | c :: r => if Ascii.eqb c "-" then (true, r) else (false, s)
            | [] => (false, s)
            end) as [neg s1].
  destruct (Hsign neg s1 eq_refl) as [-> | ->]; [discriminate|].
  destruct (match_int_part s1) as [[ip s2]|] eqn:Ei; [|discriminate].
  destruct (match_frac s2) as [[fp s3]|] eqn:Ef.
  - destruct (match_frac_inv _ _ _ Ef) as (cf & E2 & _).
    destruct (match_exp s3) as [[ex s4]|] eqn:Ee.
    + destruct (match_exp_inv _ _ _ Ee) as (ce & E3 & _).
      intros E. injection E as <- <-.
      rewrite (match_int_part_extend _ _ _ t Ei)
        by (rewrite E2, E3, app_assoc; apply Hr).
      rewrite (match_frac_extend _ _ _ t Ef) by (rewrite E3; apply Hr).
      now rewrite (match_exp_extend _ _ _ t Ee) by apply (Hr []).
    + intros E. injection E as <- <-.
      rewrite (match_int_part_extend _ _ _ t Ei) by (rewrite E2; apply Hr).
      rewrite (match_frac_extend _ _ _ t Ef) by apply (Hr []).
      now rewrite (proj2 (match_exp_stops _ t Hs)).
  - destruct (match_exp s2) as [[ex s4]|] eqn:Ee.
    + destruct (match_exp_inv _ _ _ Ee) as (ce & E3 & _).
      intros E. injection E as <- <-.
      rewrite (match_int_part_extend _ _ _ t Ei) by (rewrite E3; apply Hr).
      rewrite (match_exp_no_frac _ _ _ t Ee).
      now rewrite (match_exp_extend _ _ _ t Ee) by apply (Hr []).
    + destruct (beyond_limit (List.length ip)) eqn:Hb; [discriminate|].
      intros E. injection E as <- <-.
      rewrite (match_int_part_extend _ _ _ t Ei) by apply (Hr []).
      rewrite (proj2 (match_frac_stops _ t Hs)), (proj2 (match_exp_stops _ t Hs)).
      now rewrite Hb.
Qed.

Lemma scan_atom_extend (s : list ascii) (v : val) (rest t : list ascii) :
  scan_atom s = POk v rest -> stops rest = true ->
  scan_atom (s ++ t) = POk v (rest ++ t).
Proof.
  intros E Hs. destruct (scan_atom_inv _ _ _ E) as (_ & c & Ec & _).
  revert E. unfold scan_atom.
  repeat match goal with
  | |- context [expect_all (chars ?l) s] =>
      let E := fresh "E" in
      destruct (expect_all (chars l) s) as [r|] eqn:E;
      [ intros Hsame; injection Hsame as <- <-;
        now rewrite (expect_all_extend _ _ _ t E)
      | rewrite (literal_stays (chars l) s c rest t eq_refl Ec Hs E) ]
  end.
  intros En. now apply match_number_extend.
Qed.

Lemma skip_ws_cons_app (s : list ascii) (x : ascii) (r t : list ascii) :
  skip_ws s = x :: r -> skip_ws (s ++ t) = x :: (r ++ t).
Proof. intros E. rewrite skip_ws_app by (rewrite E; discriminate). now rewrite E. Qed.

Lemma expect_skip_app (c : ascii) (s r t : list ascii) :
  expect c (skip_ws s) = Some r -> expect c (skip_ws (s ++ t)) = Some (r ++ t).
Proof.
  intros E. pose proof (expect_inv _ _ _ E) as Es.
  rewrite (skip_ws_cons_app _ _ _ t Es). rewrite Es in E. revert E. cbn.
  destruct (Ascii.eqb c c); [reflexivity|discriminate].
Qed.

(** A value that has been read is read again, with what is left longer by
    as much, when more text follows: a string, an array or an object
    always, another value when the text that was left starts with one of
    the characters that end it. *)
Lemma scan_extend (f : nat) :
  (forall room s v rest t, scan_once f room s = POk v rest ->
     is_container v = true \/ stops rest = true ->
     scan_once f room (s ++ t) = POk v (rest ++ t)) /\
  (forall room s acc v rest t, object_rest f room s acc = POk v rest ->
     object_rest f room (s ++ t) acc = POk v (rest ++ t)) /\
  (forall room s acc v rest t, array_rest f room s acc = POk v rest ->
     array_rest f room (s ++ t) acc = POk v (rest ++ t)).
Proof.
  induction f as [|f (IHv & IHo & IHa)].
  { repeat split; intros; discriminate. }
  split; [|split].
  - intros room s v rest t. cbn [scan_once].
    destruct s as [|c r]; [discriminate|]. cbn [List.app].
    destruct (Ascii.eqb c "034").
    { destruct (scanstring r) as [[str rest0]|] eqn:E; [|discriminate].
      intros E0 _. injection E0 as <- <-.
      now rewrite (scanstring_extend _ _ _ _ t (Nat.le_refl _) E). }
    destruct (Ascii.eqb c "{").
    { destruct room as [|room]; [discriminate|].
      destruct (skip_ws r) as [|x r1] eqn:Ew; [discriminate|].
      rewrite (skip_ws_cons_app _ _ _ t Ew).
      destruct (Ascii.eqb x "}"); [intros E0 _; injection E0 as <- <-; reflexivity|].
      destruct (Ascii.eqb x "034"); [|discriminate].
      intros E0 _. now apply IHo. }
    destruct (Ascii.eqb c "[").
    { destruct room as [|room]; [discriminate|].
      destruct (skip_ws r) as [|x r1] eqn:Ew; [discriminate|].
      rewrite (skip_ws_cons_app _ _ _ t Ew).
      destruct (Ascii.eqb x "]"); [intros E0 _; injection E0 as <- <-; reflexivity|].
      intros E0 _. now apply (IHa room (x :: r1)). }
    intros E0 [Hv|Hs].
    + apply scan_atom_inv in E0. destruct E0 as [E0 _]. congruence.
    + now apply (scan_atom_extend (c :: r)).
  - intros room s acc v rest t. cbn [object_rest].
    destruct (scanstring s) as [[k s1]|] eqn:Ek; [|discriminate].
    rewrite (scanstring_extend _ _ _ _ t (Nat.le_refl _) Ek).
    destruct (expect ":" (skip_ws s1)) as [s2|] eqn:Ec; [|discriminate].
    rewrite (expect_skip_app _ _ _ t Ec).
    destruct (scan_once f room (skip_ws s2)) as [v1 s3| | |] eqn:Ev; try discriminate.
    assert (Hs2 : skip_ws s2 <> []).
    { intros E. rewrite E in Ev. destruct f; discriminate. }
    rewrite (skip_ws_app _ t Hs2).
    destruct (skip_ws s3) as [|x s4] eqn:Ew; [discriminate|].
    assert (Hstop : stop_char x = true -> stops s3 = true).
    { apply (skip_ws_stops _ _ _ Ew). }
    destruct (Ascii.eqb x "}") eqn:Hx.
    { char_eq Hx. intros E0. injection E0 as <- <-.
      rewrite (IHv _ _ _ _ t Ev) by (right; now apply Hstop).
      now rewrite (skip_ws_cons_app _ _ _ t Ew). }
    destruct (Ascii.eqb x ",") eqn:Hx2; [|discriminate].
    char_eq Hx2.
    rewrite (IHv _ _ _ _ t Ev) by (right; now apply Hstop).
    rewrite (skip_ws_cons_app _ _ _ t Ew).
    change (Ascii.eqb "," "}") with false. change (Ascii.eqb "," ",") with true.
    cbv beta iota.
    destruct (expect "034" (skip_ws s4)) as [s5|] eqn:Eq; [|discriminate].
    rewrite (expect_skip_app _ _ _ t Eq). apply IHo.
  - intros room s acc v rest t. cbn [array_rest].
    destruct (scan_once f room s) as [v1 s1| | |] eqn:Ev; try discriminate.
    destruct (skip_ws s1) as [|x s2] eqn:Ew; [discriminate|].
    assert (Hstop : stop_char x = true -> stops s1 = true).
    { apply (skip_ws_stops _ _ _ Ew). }
    destruct (Ascii.eqb x "]") eqn:Hx.
    { char_eq Hx. intros E0. injection E0 as <- <-.
      rewrite (IHv _ _ _ _ t Ev) by (right; now apply Hstop).
      now rewrite (skip_ws_cons_app _ _ _ t Ew). }
    destruct (Ascii.eqb x ",") eqn:Hx2; [|discriminate].
    char_eq Hx2.
    rewrite (IHv _ _ _ _ t Ev) by (right; now apply Hstop).
    rewrite (skip_ws_cons_app _ _ _ t Ew).
    change (Ascii.eqb "," "]") with false. change (Ascii.eqb "," ",") with true.
    cbv beta iota.
    intros E0.
    assert (Hs2 : skip_ws s2 <> []).
    { intros E. rewrite E in E0. clear - E0. destruct f as [|[|f]]; cbn in E0; discriminate. }
    rewrite (skip_ws_app _ t Hs2). now apply IHa.
Qed.

Lemma fits_skip_ws (s : list ascii) : fits s -> fits (skip_ws s).
Proof.
  destruct (skip_ws_split s) as (w & E & _). intros Hf. rewrite E in Hf.
  now apply fits_suffix in Hf.
Qed.

Lemma fits_skip_cons (s : list ascii) (x : ascii) (r : list ascii) :
  skip_ws s = x :: r -> fits s -> fits r.
Proof. intros E Hf. apply fits_skip_ws in Hf. rewrite E in Hf. now apply fits_tail in Hf. Qed.

Lemma fits_scanstring (s k s1 : list ascii) :
  scanstring s = Some (k, s1) -> fits s -> fits s1.
Proof.
  intros E. apply scanstring_body in E. destruct E as (c & -> & _). apply fits_suffix.
Qed.

Lemma fits_expect (c : ascii) (s r : list ascii) :
  expect c s = Some r -> fits s -> fits r.
Proof. intros E. apply expect_inv in E. subst s. apply fits_tail. Qed.

Lemma fits_scan_once (f room : nat) (s : list ascii) (v : val) (rest : list ascii) :
  scan_once f room s = POk v rest -> fits s -> fits rest.
Proof.
  intros E. apply scan_once_consumes in E. destruct E as (c & -> & _). apply fits_suffix.
Qed.

(** In a text whose runs of digits fit, the scanner raises only when the
    text is nested too deep, and it does so whatever follows the text. *)
Lemma scan_raises (f : nat) :
  (forall room s e, fits s -> scan_once f room s = PRaise e ->
     (exists d, e = RecursionLimit d) /\
     forall t, scan_once f room (s ++ t) = PRaise e) /\
  (forall room s acc e, fits s -> object_rest f room s acc = PRaise e ->
     (exists d, e = RecursionLimit d) /\
     forall t, object_rest f room (s ++ t) acc = PRaise e) /\
  (forall room s acc e, fits s -> array_rest f room s acc = PRaise e ->
     (exists d, e = RecursionLimit d) /\
     forall t, array_rest f room (s ++ t) acc = PRaise e).
Proof.
  induction f as [|f (IHv & IHo & IHa)].
  { repeat split; intros; discriminate. }
  split; [|split].
  - intros room s e Hf. cbn [scan_once].
    destruct s as [|c r]; [discriminate|]. cbn [List.app].
    destruct (Ascii.eqb c "034").
    { destruct (scanstring r) as [[str rest0]|]; discriminate. }
    destruct (Ascii.eqb c "{").
    { destruct room as [|room].
      { intros E. injection E as <-. split; [eexists; reflexivity|reflexivity]. }
      destruct (skip_ws r) as [|x r1] eqn:Ew; [discriminate|].
      destruct (Ascii.eqb x "}") eqn:Hx; [discriminate|].
      destruct (Ascii.eqb x "034") eqn:Hq; [|discriminate].
      intros E.
      destruct (IHo room r1 [] e) as [Hd Ht];
        [apply (fits_skip_cons _ _ _ Ew); now apply fits_tail in Hf|exact E|].
      split; [exact Hd|]. intros t. rewrite (skip_ws_cons_app _ _ _ t Ew).
      rewrite Hx, Hq. apply Ht. }
    destruct (Ascii.eqb c "[").
    { destruct room as [|room].
      { intros E. injection E as <-. split; [eexists; reflexivity|reflexivity]. }
      destruct (skip_ws r) as [|x r1] eqn:Ew; [discriminate|].
      destruct (Ascii.eqb x "]") eqn:Hx; [discriminate|].
      intros E.
      destruct (IHa room (x :: r1) [] e) as [Hd Ht];
        [rewrite <- Ew; apply fits_skip_ws; now apply fits_tail in Hf|exact E|].
      split; [exact Hd|]. intros t. rewrite (skip_ws_cons_app _ _ _ t Ew), Hx. apply Ht. }
    intros E. exfalso. apply scan_atom_raises in E.
    destruct E as (a & ds & b & E & Hd & Hb & _).
    rewrite (Hf a ds b E Hd) in Hb. discriminate.
  - intros room s acc e Hf. cbn [object_rest].
    destruct (scanstring s) as [[k s1]|] eqn:Ek; [|discriminate].
    pose proof (fits_scanstring _ _ _ Ek Hf) as Hf1.
    destruct (expect ":" (skip_ws s1)) as [s2|] eqn:Ec; [|discriminate].
    pose proof (fits_expect _ _ _ Ec (fits_skip_ws _ Hf1)) as Hf2.
    assert (Hhead : forall t,
      object_rest (S f) room (s ++ t) acc
      = match scan_once f room (skip_ws (s2 ++ t)) with
        | PErr => PErr
        | PRaise e => PRaise e
        | PFuel => PFuel
        | POk v s3 =>
            let acc' := dict_set acc (string_of_list_ascii k) v in
            match skip_ws s3 with
            | x :: s4 =>
                if Ascii.eqb x "}" then POk (VDict acc') s4
                else if Ascii.eqb x "," then
                  match expect "034" (skip_ws s4) with
                  | Some s5 => object_rest f room s5 acc'
                  | None => PErr
                  end
                else PErr
            | [] => PErr
            end
        end).
    { intros t. cbn [object_rest].
      rewrite (scanstring_extend _ _ _ _ t (Nat.le_refl _) Ek).
      now rewrite (expect_skip_app _ _ _ t Ec). }
    destruct (scan_once f room (skip_ws s2)) as [v1 s3| | |] eqn:Ev; try discriminate.
    + assert (Hs2 : skip_ws s2 <> []).
      { intros E. rewrite E in Ev. clear - Ev. destruct f; discriminate. }
      pose proof (fits_scan_once _ _ _ _ _ Ev (fits_skip_ws _ Hf2)) as Hf3.
      destruct (skip_ws s3) as [|x s4] eqn:Ew; [discriminate|].
      destruct (Ascii.eqb x "}") eqn:Hx; [discriminate|].
      destruct (Ascii.eqb x ",") eqn:Hx2; [|discriminate].
      destruct (expect "034" (skip_ws s4)) as [s5|] eqn:Eq; [|discriminate].
      intros E.
      destruct (IHo room s5 (dict_set acc (string_of_list_ascii k) v1) e) as [Hd Ht];
        [apply (fits_expect _ _ _ Eq); apply fits_skip_ws;
         apply (fits_skip_cons _ _ _ Ew Hf3)|exact E|].
      split; [exact Hd|]. intros t. refine (eq_trans (Hhead t) _).
      rewrite (skip_ws_app _ t Hs2).
      rewrite (proj1 (scan_extend f) _ _ _ _ t Ev).
      * rewrite (skip_ws_cons_app _ _ _ t Ew). cbv zeta. rewrite Hx, Hx2.
        rewrite (expect_skip_app _ _ _ t Eq). apply Ht.
      * right. apply (skip_ws_stops _ _ _ Ew). char_eq Hx2. reflexivity.
    + intros E. injection E as ->.
      assert (Hs2 : skip_ws s2 <> []).
      { intros E. rewrite E in Ev. clear - Ev. destruct f; discriminate. }
      destruct (IHv room _ e (fits_skip_ws _ Hf2) Ev) as [Hd Ht].
      split; [exact Hd|]. intros t.
      refine (eq_trans (Hhead t) _). now rewrite (skip_ws_app _ t Hs2), Ht.
  - intros room s acc e Hf. cbn [array_rest].
    destruct (scan_once f room s) as [v1 s1| | |] eqn:Ev; try discriminate.
    + pose proof (fits_scan_once _ _ _ _ _ Ev Hf) as Hf1.
      destruct (skip_ws s1) as [|x s2] eqn:Ew; [discriminate|].
      destruct (Ascii.eqb x "]") eqn:Hx; [discriminate|].
      destruct (Ascii.eqb x ",") eqn:Hx2; [|discriminate].
      intros E.
      assert (Hs2 : skip_ws s2 <> []).
      { intros E0. rewrite E0 in E. clear - E. destruct f as [|[|f]]; cbn in E; discriminate. }
      destruct (IHa room (skip_ws s2) (acc ++ [v1]) e) as [Hd Ht];
        [apply fits_skip_ws; apply (fits_skip_cons _ _ _ Ew Hf1)|exact E|].
      split; [exact Hd|]. intros t.
      rewrite (proj1 (scan_extend f) _ _ _ _ t Ev).
      * rewrite (skip_ws_cons_app _ _ _ t Ew), Hx, Hx2.
        rewrite (skip_ws_app _ t Hs2). apply Ht.
      * right. apply (skip_ws_stops _ _ _ Ew). char_eq Hx2. reflexivity.
    + intros E. injection E as ->.
      destruct (IHv room _ e Hf Ev) as [Hd Ht].
      split; [exact Hd|]. intros t. now rewrite Ht.
Qed.

(** ** One value, and nothing after it *)

Lemma scan_once_nil (f room : nat) (v : val) (rest : list ascii) :
  scan_once f room [] <> POk v rest.
Proof. destruct f; discriminate. Qed.

(** Of two texts that are JSON, one the beginning of the other, the longer
    one adds whitespace only, when one of the two values is a string, an
    array or an object. *)
Lemma json_loads_longer (p x : list ascii) (v1 v2 : val) :
  json_loads (string_of_list_ascii p) = Ret v1 ->
  json_loads (string_of_list_ascii (p ++ x)) = Ret v2 ->
  is_container v1 = true \/ is_container v2 = true ->
  skip_ws x = [].
Proof.
  unfold json_loads. rewrite !chars_of_list.
  destruct (scan_once _ _ (skip_ws p)) as [w1 r1| | |] eqn:E1; try discriminate.
  destruct (skip_ws r1) eqn:Er1; [|discriminate]. intros H. injection H as ->.
  destruct (skip_ws p) as [|h tl] eqn:Ep; [now apply scan_once_nil in E1|].
  rewrite skip_ws_app by (rewrite Ep; discriminate). rewrite Ep.
  destruct (scan_once _ _ ((h :: tl) ++ x)) as [w2 r2| | |] eqn:E2; try discriminate.
  destruct (skip_ws r2) eqn:Er2; [|discriminate]. intros H. injection H as ->.
  intros Hc.
  assert (H1 : is_container v1 = true /\ is_container v2 = true).
  { apply scan_once_container in E1. cbn [List.app] in E2.
    apply scan_once_container in E2. rewrite E1, E2 in *. tauto. }
  destruct H1 as [Hv1 Hv2].
  apply scan_once_consumes in E1, E2.
  destruct E1 as (c1 & Ec1 & Hc1). destruct E2 as (c2 & Ec2 & Hc2).
  unfold consumed_by in Hc1, Hc2. rewrite Hv1 in Hc1. rewrite Hv2 in Hc2.
  rewrite Ec1, <- app_assoc in Ec2.
  destruct (closed_split 0 _ _ _ _ Ec2 (Hc1 0) (Hc2 0)) as [_ <-].
  now rewrite skip_ws_app_nil in Er2.
Qed.

(** The scanner on a longer text, with the budget of the longer text. *)
Lemma scan_once_longer (room : nat) (p x : list ascii) :
  skip_ws p <> [] ->
  scan_once (S (2 * List.length p)) room (skip_ws p ++ x) <> PFuel ->
  scan_once (S (2 * List.length (p ++ x))) room (skip_ws (p ++ x))
  = scan_once (S (2 * List.length p)) room (skip_ws p ++ x).
Proof.
  intros Hp Hn. rewrite (skip_ws_app _ x Hp).
  apply (proj1 (fuel_mono _)); [rewrite length_app; lia|exact Hn].
Qed.

(** Extra data: a string, an array or an object followed by more than
    whitespace is no JSON, and [json.loads] says so with a
    [JSONDecodeError]. *)
Lemma json_loads_extra_data (a b : list ascii) (v : val) :
  json_loads (string_of_list_ascii a) = Ret v -> is_container v = true ->
  skip_ws b <> [] ->
  json_loads (string_of_list_ascii (a ++ b))
  = py_raise (JsonDecodeFailure (string_of_list_ascii (a ++ b))).
Proof.
  unfold json_loads. rewrite !chars_of_list.
  destruct (scan_once _ _ (skip_ws a)) as [w r| | |] eqn:E; try discriminate.
  destruct (skip_ws r) eqn:Er; [|discriminate]. intros H. injection H as ->.
  intros Hv Hb.
  assert (Ha : skip_ws a <> []).
  { intros E0. rewrite E0 in E. now apply scan_once_nil in E. }
  pose proof (proj1 (scan_extend _) _ _ _ _ b E (or_introl Hv)) as Eb.
  rewrite (scan_once_longer _ a b Ha) by (rewrite Eb; discriminate).
  rewrite Eb, (skip_ws_app_nil _ b Er).
  destruct (skip_ws b); [contradiction|reflexivity].
Qed.

(** No text that is cut short is JSON, when the whole is a string, an
    array or an object with no whitespace after it: [json.loads] raises
    [JSONDecodeError] on it, when no run of digits in it is too long for an
    [int]. *)
Lemma json_loads_cut (p x : list ascii) (v : val) :
  json_loads (string_of_list_ascii (p ++ x)) = Ret v -> is_container v = true ->
  skip_ws x <> [] -> fits p ->
  json_loads (string_of_list_ascii p)
  = py_raise (JsonDecodeFailure (string_of_list_ascii p)).
Proof.
  intros Ha Hv Hx Hf.
  destruct (json_loads (string_of_list_ascii p)) as [v1|e] eqn:E.
  { exfalso. apply Hx. apply (json_loads_longer p x v1 v E Ha). now right. }
  revert E. unfold json_loads. rewrite !chars_of_list.
  destruct (scan_once _ _ (skip_ws p)) as [w r| |e0|] eqn:Es.
  - destruct (skip_ws r); [discriminate|]. intros <-. reflexivity.
  - intros <-. reflexivity.
  - exfalso.
    assert (Hp : skip_ws p <> []).
    { intros E0. rewrite E0 in Es. cbn in Es. discriminate. }
    destruct (proj1 (scan_raises _) _ _ _ (fits_skip_ws _ Hf) Es) as [_ Ht].
    revert Ha. unfold json_loads. rewrite chars_of_list.
    rewrite (scan_once_longer _ p x Hp) by (rewrite Ht; discriminate).
    rewrite Ht. discriminate.
  - intros <-. reflexivity.
Qed.

End Scanner.

End ScannerFacts.

(* ================================================================== *)
(** * Properties of the dispatcher *)
(* ================================================================== *)

Section DispatcherFacts.
Context `{PyRuntime} {W : Type} `{Host W}.

Lemma internal_response_shape (command : val) (w w' : W) (r : val) :
  _execute_command_internal command w = (Ret r, w') ->
  (exists x, r = success_response x) \/ (exists m, r = error_response m).
Proof.
  unfold _execute_command_internal, bind, lift.
  destruct (command_get command "type" VNone) as [cmd_type|e]; [|discriminate].
  destruct (command_get command "params" (VDict [])) as [params|e]; [|discriminate].
  destruct (handlers_get cmd_type) as [[handler|]|e]; [| |discriminate].
  - unfold try_except, bind, ret.
    destruct (handler params w) as [[x|e] w1].
    + intros E; inversion E; subst. left; eauto.
    + destruct (is_Exception e); intros E; inversion E; subst. right; eauto.
  - destruct (py_str cmd_type) as [type_text|e]; [|discriminate].
    unfold ret. intros E; inversion E; subst. right; eauto.
Qed.

Lemma execute_command_shape (command : val) (w w' : W) (r : val) :
  execute_command command w = (Ret r, w') ->
  (exists x, r = success_response x) \/ (exists m, r = error_response m).
Proof.
  unfold execute_command, try_except.
  destruct (_execute_command_internal command w) as [[r0|e] w0] eqn:E.
  - intros E'; inversion E'; subst. eapply internal_response_shape; eauto.
  - destruct (is_Exception e); unfold ret; intros E'; inversion E'; subst.
    right; eauto.
Qed.

(** Only an exception that is no [Exception] leaves [execute_command]. *)
Lemma execute_command_raises (command : val) (w w' : W) (e : exn) :
  execute_command command w = (Raise e, w') -> is_Exception e = false.
Proof.
  unfold execute_command, try_except.
  destruct (_execute_command_internal command w) as [[r0|e0] w0]; [discriminate|].
  destruct (is_Exception e0) eqn:E; unfold ret; intros E'; inversion E'; subst.
  exact E.
Qed.

(** C1. Every response that [execute_command] returns has one of two shapes:
    its status is ["error"] exactly when it has a [message] and no [result],
    and ["success"] exactly when it has a [result] and no [message]; so
    exactly one of the two fields is present. *)
Theorem C1_response_invariant (command : val) (w w' : W) (r : val) :
  execute_command command w = (Ret r, w') ->
  (status_of r = Some (VStr "error") \/ status_of r = Some (VStr "success")) /\
  (status_of r = Some (VStr "error") <->
     has_key r "message" = true /\ has_key r "result" = false) /\
  (status_of r = Some (VStr "success") <->
     has_key r "result" = true /\ has_key r "message" = false) /\
  (has_key r "result" = negb (has_key r "message")).
Proof.
  intros E. destruct (execute_command_shape _ _ _ _ E) as [[x ->]|[m ->]]; cbn.
  - repeat split; auto; try discriminate; intros [? ?]; discriminate.
  - repeat split; auto; try discriminate; intros [? ?]; discriminate.
Qed.

Lemma find_key_none {A B : Type} (g : A -> B) (l : list (string * A)) (k : string) :
  ~ In k (map fst l) ->
  find (fun kv => String.eqb (fst kv) k) (map (fun kv => (fst kv, g (snd kv))) l) = None.
Proof.
  induction l as [|[k' a] l IH]; cbn; [reflexivity|].
  intros Hn. destruct (String.eqb_spec k' k) as [->|_].
  - exfalso. apply Hn. now left.
  - apply IH. intros Hin. apply Hn. now right.
Qed.

Lemma handlers_get_unknown (type : string) :
  ~ In type registered -> handlers_get (VStr type) = Ret None.
Proof.
  intros Hn. unfold handlers_get, str_dict_get.
  now rewrite (find_key_none Some handlers type Hn).
Qed.

(** C2. A command whose type is a string that names no registered tool does
    not make [execute_command] raise: the response has status ["error"] and
    the message ["Unknown command type: <type>"], which contains the type as
    it was given; the host is not touched. *)
Theorem C2_unknown_command_type (d : list (string * val)) (type : string) (w : W) :
  dict_get d "type" = Some (VStr type) ->
  ~ In type registered ->
  let message := ("Unknown command type: " ++ type)%string in
  execute_command (VDict d) w = (Ret (error_response message), w) /\
  status_of (error_response message) = Some (VStr "error") /\
  message_of (error_response message) = Some (VStr message).
Proof.
  intros Ht Hn. split; [|split; reflexivity].
  unfold execute_command, try_except, _execute_command_internal, bind, lift.
  unfold command_get, arg. rewrite Ht.
  rewrite (handlers_get_unknown type Hn). reflexivity.
Qed.

Lemma execute_command_dispatch (d : list (string * val)) (type : string)
    (handler : val -> M W val) (w : W) :
  dict_get d "type" = Some (VStr type) ->
  handlers_get (VStr type) = Ret (Some handler) ->
  execute_command (VDict d) w = respond (handler (arg d "params" (VDict [])) w).
Proof.
  intros Ht Hh.
  unfold execute_command, try_except, _execute_command_internal, bind, lift.
  unfold command_get. unfold arg at 1. rewrite Ht, Hh.
  unfold try_except, bind, ret, respond.
  destruct (handler (arg d "params" (VDict [])) w) as [[x|e] w1]; [reflexivity|].
  destruct (is_Exception e) eqn:E; [reflexivity|]. now rewrite E.
Qed.

Lemma draw_rectangle_no_sketch (width height ox oy oz count : val) (w w' : W) :
  path app ["activeProduct"; "rootComponent"; "sketches"; "count"] w = (Ret count, w') ->
  py_eq count (VInt 0) = true ->
  draw_rectangle width height ox oy oz w
    = (Raise (Exn ExceptionC
        "Failed to draw rectangle: No sketch available. Create a sketch first."), w').
Proof.
  intros Hp Hc. cbn [path] in Hp. unfold bind in Hp.
  unfold draw_rectangle, try_except, last_sketch. cbn [path]. unfold bind.
  destruct (attr app "activeProduct" w) as [[design|e] w1]; [|discriminate].
  destruct (attr design "rootComponent" w1) as [[rc|e] w2]; [|discriminate].
  destruct (attr rc "sketches" w2) as [[sk|e] w3]; [|discriminate].
  destruct (attr sk "count" w3) as [[c|e] w4]; [|discriminate].
  unfold ret in Hp. inversion Hp; subst. unfold ret. rewrite Hc.
  reflexivity.
Qed.

(** C4 (as amended). When the design has no sketch (reading
    [app.activeProduct.rootComponent.sketches.count] gives a count equal to
    0), the command [draw_rectangle] with [width] 50 and [height] 30 gets
    the error response whose message is the handler's text behind the
    prefix that the handler's own [except] clause adds:
    ["Failed to draw rectangle: No sketch available. Create a sketch first."] *)
Theorem C4_draw_rectangle_without_sketch (w w' : W) (count : val) :
  path app ["activeProduct"; "rootComponent"; "sketches"; "count"] w = (Ret count, w') ->
  py_eq count (VInt 0) = true ->
  execute_command
    (command_of "draw_rectangle" [("width", VInt 50); ("height", VInt 30)]) w
  = (Ret (error_response
       "Failed to draw rectangle: No sketch available. Create a sketch first."), w').
Proof.
  intros Hp Hc. unfold command_of.
  rewrite (execute_command_dispatch _ "draw_rectangle" call_draw_rectangle w);
    [|reflexivity|reflexivity].
  cbn [arg dict_get String.eqb Ascii.eqb Bool.eqb].
  unfold call_draw_rectangle, bind, lift. cbn.
  rewrite (draw_rectangle_no_sketch _ _ _ _ _ count w w' Hp Hc). reflexivity.
Qed.

(** ** The operation of [extrude] *)

Lemma bind_same_but_echo {A : Type} (operation : val) (m : M W A)
    (k1 k2 : A -> M W val) (w : W) :
  (forall a w', same_but_echo operation (k1 a w') (k2 a w')) ->
  same_but_echo operation (bind m k1 w) (bind m k2 w).
Proof.
  intros Hk. unfold bind. destruct (m w) as [[a|e] w']; [apply Hk|reflexivity].
Qed.

Lemma try_except_same_but_echo (operation : val) (m1 m2 : M W val)
    (f : exn -> string) (w : W) :
  same_but_echo operation (m1 w) (m2 w) ->
  same_but_echo operation
    (try_except m1 (fun e => raise_Exception (f e)) w)
    (try_except m2 (fun e => raise_Exception (f e)) w).
Proof.
  unfold same_but_echo, try_except. intros ->.
  destruct (m2 w) as [[v|e] w']; cbn.
  - destruct v; reflexivity.
  - destruct (is_Exception e); reflexivity.
Qed.

Lemma operation_type_unknown (operation : string) :
  ~ In operation known_operations ->
  operation_type_of (VStr operation) = Ret (feature_operation NewBodyFeatureOperation).
Proof.
  intros Hn. unfold operation_type_of, str_dict_get.
  pose proof (find_key_none (fun x => x) operation_map operation Hn) as Hf.
  rewrite map_ext with (g := fun kv => kv) in Hf by (now intros [k v]).
  rewrite map_id in Hf. now rewrite Hf.
Qed.

Lemma operation_code_unknown (operation : string) :
  ~ In operation known_operations ->
  ScriptGenerator._get_operation_code (VStr operation) = Ret "NewBody".
Proof.
  intros Hn. unfold ScriptGenerator._get_operation_code, str_dict_get.
  cbn [find fst snd].
  repeat match goal with
  | |- context [String.eqb ?a operation] =>
      destruct (String.eqb_spec a operation) as [<-|_];
      [exfalso; apply Hn; cbn; tauto|]
  end.
  reflexivity.
Qed.

(** ** Runs on a host that answers *)

Lemma bind_answers {A B : Type} (pre post : W -> Prop) (m : M W A) (a : A)
    (k : A -> M W B) (w : W) :
  answers pre post m a -> pre w -> exists w', post w' /\ bind m k w = k a w'.
Proof.
  intros Hm Hw. destruct (Hm w Hw) as (w' & E & Hw'). exists w'.
  split; [exact Hw'|]. unfold bind. now rewrite E.
Qed.

Lemma bind_performs {A B : Type} (pre post : W -> Prop) (m : M W A)
    (k : A -> M W B) (w : W) :
  performs pre post m -> pre w -> exists a w', post w' /\ bind m k w = k a w'.
Proof.
  intros Hm Hw. destruct (Hm w Hw) as (a & w' & E & Hw'). exists a, w'.
  split; [exact Hw'|]. unfold bind. now rewrite E.
Qed.

Lemma bind_assoc {A B C : Type} (m : M W A) (k : A -> M W B) (k' : B -> M W C) (w : W) :
  bind (bind m k) k' w = bind m (fun a => bind (k a) k') w.
Proof. unfold bind. destruct (m w) as [[a|e] w']; reflexivity. Qed.

Lemma try_except_returns {A : Type} (m : M W A) (h : exn -> M W A) (w w' : W) (a : A) :
  m w = (Ret a, w') -> try_except m h w = (Ret a, w').
Proof. intros E. unfold try_except. now rewrite E. Qed.

(** One step of a run: the host answers the read or the call at the head
    of the computation, and the run goes on from the state it leaves. *)
Ltac answered Ha Hw :=
  let w1 := fresh "w" in
  let Hw1 := fresh "Hw" in
  let E := fresh "E" in
  match type of Ha with
  | answers _ _ ?m _ =>
      match goal with
      | |- context [bind m ?k ?w0] =>
          destruct (bind_answers _ _ m _ k w0 Ha Hw) as (w1 & Hw1 & E);
          rewrite E; clear E
      end
  end.

Ltac performed Ha Hw :=
  let a1 := fresh "a" in
  let w1 := fresh "w" in
  let Hw1 := fresh "Hw" in
  let E := fresh "E" in
  match type of Ha with
  | performs _ _ ?m =>
      match goal with
      | |- context [bind m ?k ?w0] =>
          destruct (bind_performs _ _ m k w0 Ha Hw) as (a1 & w1 & Hw1 & E);
          rewrite E; clear E
      end
  end.

(** C8. An [extrude] whose [operation] is a string outside [new_body],
    [join], [cut] and [intersect] is no error on that account: the lookup in
    the operation map gives [NewBodyFeatureOperation]; the handler does to
    the host exactly what it does for [new_body] and ends the same way,
    except that the result echoes the operation as it was given; the
    dispatcher passes the outcome on; the script generator writes
    [NewBody]; and on a host that carries out a new-body extrusion, one
    that answers [createInput] for the profile and
    [NewBodyFeatureOperation], the handler makes the feature and returns
    its result, with the operation as it was given. *)
Theorem C8_extrude_unknown_operation (height profile_index direction : val)
    (operation : string) (w : W) :
  ~ In operation known_operations ->
  operation_type_of (VStr operation) = Ret (feature_operation NewBodyFeatureOperation) /\
  same_but_echo (VStr operation)
    (extrude height profile_index (VStr operation) direction w)
    (extrude height profile_index (VStr "new_body") direction w) /\
  execute_command
    (command_of "extrude" [("height", height); ("operation", VStr operation)]) w
  = respond (extrude height (VInt 0) (VStr operation) (VStr "positive") w) /\
  ScriptGenerator._get_operation_code (VStr operation) = Ret "NewBody" /\
  (forall (inv : W -> Prop) (o : extrude_objects) (feature_name : val),
     new_body_extrusion inv o height profile_index feature_name -> inv w ->
     exists w',
       extrude height profile_index (VStr operation) direction w
       = (Ret (VDict [("extrude_created", VBool true); ("height", height);
                      ("operation", VStr operation); ("direction", direction);
                      ("feature_name", feature_name)]), w') /\
       inv w').
Proof.
  intros Hn. split; [|split; [|split; [|split]]].
  - apply (operation_type_unknown operation Hn).
  - unfold extrude. apply try_except_same_but_echo.
    rewrite (operation_type_unknown operation Hn).
    change (operation_type_of (VStr "new_body"))
      with (Ret (A := val) (feature_operation NewBodyFeatureOperation)).
    repeat (apply bind_same_but_echo; intros).
    reflexivity.
  - unfold command_of.
    rewrite (execute_command_dispatch _ "extrude" call_extrude w);
      [|reflexivity|reflexivity].
    reflexivity.
  - apply operation_code_unknown, Hn.
  - intros inv o feature_name Hx Hw.
    destruct Hx as [Hdesign Hroot Hsketch Hprofile Hextrudes Hcreate Hinput Hreal
                    Hdistance Hsetsym Hsym Hsetdist Hone Hadd Hfeature Hname].
    unfold extrude.
    assert (Hrun : exists w',
      (design <- attr app "activeProduct";;
       root_component <- attr design "rootComponent";;
       sketch <- last_sketch root_component "No sketch available.";;
       profile <- profile_of sketch profile_index;;
       extrudes <- path root_component ["features"; "extrudeFeatures"];;
       operation_type <- lift (operation_type_of (VStr operation));;
       create_input <- attr extrudes "createInput";;
       extrude_input <- call create_input [profile; operation_type];;
       create_by_real <- path adsk ["core"; "ValueInput"; "createByReal"];;
       distance_value <- call create_by_real [height];;
       (if py_eq direction (VStr "symmetric") then
          set_extent <- attr extrude_input "setSymmetricExtent";;
          call set_extent [distance_value; VBool true]
        else
          let is_negative := py_eq direction (VStr "negative") in
          set_extent <- attr extrude_input "setDistanceExtent";;
          call set_extent [VBool is_negative; distance_value]);;;
       add <- attr extrudes "add";;
       feature <- call add [extrude_input];;
       feature_name <- attr feature "name";;
       ret (VDict [("extrude_created", VBool true); ("height", height);
                   ("operation", VStr operation); ("direction", direction);
                   ("feature_name", feature_name)]))%host w
      = (Ret (VDict [("extrude_created", VBool true); ("height", height);
                     ("operation", VStr operation); ("direction", direction);
                     ("feature_name", feature_name)]), w') /\ inv w').
    { answered Hdesign Hw. answered Hroot Hw0. answered Hsketch Hw1.
      answered Hprofile Hw2. answered Hextrudes Hw3.
      rewrite (operation_type_unknown operation Hn).
      unfold bind at 1. unfold lift at 1.
      answered Hcreate Hw4. answered Hinput Hw5. answered Hreal Hw6.
      answered Hdistance Hw7.
      assert (Hextent : exists (a : val) w9, inv w9 /\
        bind (if py_eq direction (VStr "symmetric")
              then bind (attr (x_input o) "setSymmetricExtent")
                     (fun set_extent => call set_extent [x_distance o; VBool true])
              else bind (attr (x_input o) "setDistanceExtent")
                     (fun set_extent =>
                        call set_extent
                          [VBool (py_eq direction (VStr "negative")); x_distance o]))
          (fun _ =>
             add <- attr (x_extrudes o) "add";;
             feature <- call add [x_input o];;
             feature_name <- attr feature "name";;
             ret (VDict [("extrude_created", VBool true); ("height", height);
                         ("operation", VStr operation); ("direction", direction);
                         ("feature_name", feature_name)]))%host w8
        = (add <- attr (x_extrudes o) "add";;
           feature <- call add [x_input o];;
           feature_name <- attr feature "name";;
           ret (VDict [("extrude_created", VBool true); ("height", height);
                       ("operation", VStr operation); ("direction", direction);
                       ("feature_name", feature_name)]))%host w9).
      { destruct (py_eq direction (VStr "symmetric")).
        - unfold bind at 1. answered Hsetsym Hw8.
          destruct (Hsym _ Hw9) as (a & w10 & E & Hw10). rewrite E.
          now exists a, w10.
        - unfold bind at 1. answered Hsetdist Hw8.
          destruct (Hone (py_eq direction (VStr "negative")) _ Hw9)
            as (a & w10 & E & Hw10).
          rewrite E. now exists a, w10. }
      destruct Hextent as (a & w9 & Hw9 & E). cbv zeta. rewrite E. clear E.
      answered Hadd Hw9. answered Hfeature Hw10. answered Hname Hw11.
      exists w12. now split. }
    destruct Hrun as (w' & E & Hw'). exists w'. split; [|exact Hw'].
    now apply try_except_returns.
Qed.

(** ** The query handlers *)

(** A [try] block whose [except Exception] clause returns a value ends by
    returning one, unless an exception that is no [Exception] passes. *)
Lemma try_except_returning (m : M W val) (f : exn -> val) (w : W) :
  try_except m (fun e => ret (f e)) w =
  match m w with
  | (Ret a, w') => (Ret a, w')
  | (Raise e, w') => if is_Exception e then (Ret (f e), w') else (Raise e, w')
  end.
Proof. unfold try_except, ret. destruct (m w) as [[a|e] w']; reflexivity. Qed.

(** C9. [get_scene_info] and [get_object_info] never lead to an error
    response: for a call that binds, the dispatcher answers with status
    ["success"] (or an exception that is no [Exception] passes through);
    a failure inside the handler, any [Exception] raised by the host, ends
    in the result [{"error": <text>}], and so does a missing active design. *)
Theorem C9_query_handlers_never_error (d : list (string * val)) (w : W) :
  query_call d ->
  (match execute_command (VDict d) w with
   | (Ret r, _) =>
       status_of r = Some (VStr "success") /\ exists result, r = success_response result
   | (Raise e, _) => is_Exception e = false
   end) /\
  (forall e w', get_scene_info_body w = (Raise e, w') -> is_Exception e = true ->
     get_scene_info w = (Ret (VDict [("error", VStr (exn_msg e))]), w')) /\
  (forall name e w',
     get_object_info_body name w = (Raise e, w') -> is_Exception e = true ->
     get_object_info name w = (Ret (VDict [("error", VStr (exn_msg e))]), w')) /\
  (forall design w', attr app "activeProduct" w = (Ret design, w') ->
     py_truthy design = false ->
     get_scene_info w = (Ret (VDict [("error", VStr "No active design")]), w') /\
     forall name,
       get_object_info name w = (Ret (VDict [("error", VStr "No active design")]), w')).
Proof.
  intros Hq. split; [|split; [|split]].
  - destruct Hq as [[Ht [kw Hk]]|[Ht [kw Hk]]].
    + rewrite (execute_command_dispatch d "get_scene_info" call_get_scene_info w Ht eq_refl).
      unfold call_get_scene_info, bind, lift. rewrite Hk.
      unfold get_scene_info. rewrite try_except_returning.
      destruct (get_scene_info_body w) as [[a|e] w1]; cbn; eauto.
      destruct (is_Exception e) eqn:E; cbn; eauto. now rewrite E.
    + rewrite (execute_command_dispatch d "get_object_info" call_get_object_info w Ht eq_refl).
      unfold call_get_object_info, bind, lift. rewrite Hk.
      unfold get_object_info. rewrite try_except_returning.
      destruct (get_object_info_body _ w) as [[a|e] w1]; cbn; eauto.
      destruct (is_Exception e) eqn:E; cbn; eauto. now rewrite E.
  - intros e w' Hb He. unfold get_scene_info. rewrite try_except_returning, Hb, He.
    reflexivity.
  - intros name e w' Hb He. unfold get_object_info.
    rewrite try_except_returning, Hb, He. reflexivity.
  - intros design w' Ha Ht. split; [|intros name].
    + unfold get_scene_info. rewrite try_except_returning.
      unfold get_scene_info_body, bind. rewrite Ha, Ht. reflexivity.
    + unfold get_object_info. rewrite try_except_returning.
      unfold get_object_info_body, bind. rewrite Ha, Ht. reflexivity.
Qed.

(** ** The selection of edges *)

Lemma collection_add_holds (holds : list val -> W -> Prop) (o : fillet_objects)
    (es : list val) (body_z : float) (edge_z : val -> float) (l : list val) (x : val) :
  reports_edges holds o es body_z edge_z ->
  answers (holds l) (holds (l ++ [x])) (collection_add (f_collection o) x) tt.
Proof.
  intros Hr w Hw. unfold collection_add.
  answered (read_add _ _ _ _ _ Hr l) Hw.
  performed (call_add _ _ _ _ _ Hr l x) Hw0.
  exists w1. now split.
Qed.

Lemma top_loop (holds : list val -> W -> Prop) (o : fillet_objects) (es : list val)
    (body_z : float) (edge_z : val -> float) :
  reports_edges holds o es body_z edge_z ->
  forall xs l, incl xs es ->
  answers (holds l) (holds (l ++ filter (fun x => above_top body_z (edge_z x)) xs))
    (for_each xs (fun x =>
       bind (path x ["boundingBox"; "maxPoint"; "z"]) (fun z =>
       bind (path (f_bbox o) ["maxPoint"; "z"]) (fun body_z =>
       bind (lift (py_sub body_z (VFloat epsilon))) (fun limit =>
       bind (lift (py_gt z limit)) (fun above =>
       if above : bool then collection_add (f_collection o) x else ret tt))))))
    tt.
Proof.
  intros Hr. induction xs as [|x xs IH]; intros l Hin w Hw.
  { cbn [for_each filter]. rewrite app_nil_r. exists w. now split. }
  assert (Hin' : incl xs es) by (intros y Hy; apply Hin; now right).
  cbn [for_each filter]. rewrite bind_assoc.
  answered (read_edge_z _ _ _ _ _ Hr l x (Hin x (or_introl eq_refl))) Hw.
  rewrite bind_assoc.
  answered (read_body_z _ _ _ _ _ Hr l) Hw0.
  rewrite bind_assoc. unfold bind at 1. unfold lift at 1.
  cbn [py_sub as_number number_sub val_of_number].
  rewrite bind_assoc. unfold bind at 1. unfold lift at 1.
  cbn [py_gt as_number number_gtb].
  change (PrimFloat.ltb (PrimFloat.sub body_z epsilon) (edge_z x))
    with (above_top body_z (edge_z x)).
  destruct (above_top body_z (edge_z x)).
  - answered (collection_add_holds holds o es body_z edge_z l x Hr) Hw1.
    destruct (IH (l ++ [x]) Hin' w2 Hw2) as (w' & E & Hw').
    exists w'. split; [exact E|]. now rewrite <- app_assoc in Hw'.
  - unfold bind at 1. unfold ret at 1. apply (IH l Hin' w1 Hw1).
Qed.

Lemma fillet_select_top (holds : list val -> W -> Prop) (o : fillet_objects)
    (es : list val) (body_z : float) (edge_z : val -> float) (l : list val) :
  reports_edges holds o es body_z edge_z ->
  answers (holds l) (holds (l ++ filter (fun x => above_top body_z (edge_z x)) es))
    (fillet_select (VStr "top") (f_collection o) (f_body o)) tt.
Proof.
  intros Hr w Hw.
  unfold fillet_select. cbn [py_eq String.eqb Ascii.eqb Bool.eqb].
  unfold select_top.
  answered (read_bbox _ _ _ _ _ Hr l) Hw.
  answered (read_edges _ _ _ _ _ Hr l) Hw0.
  answered (read_items _ _ _ _ _ Hr l) Hw1.
  apply (top_loop holds o es body_z edge_z Hr es l (incl_refl es) w2 Hw2).
Qed.

(** C7. With the strategy ["top"], [fillet] selects exactly the edges whose
    bounding box reaches higher than the greatest z of the body's bounding
    box minus 0.001.  On a host that reports the edges [es] of the body and
    the z coordinates, and on which [add] puts an edge behind what the
    collection holds, the selection leaves in the collection the edges of
    [es] with [z > body_z - 0.001], in their order, behind what it held;
    the handler [fillet], which starts with a new collection, makes its
    feature of exactly these edges and reports their number; and the script
    generator writes the same test. *)
Theorem C7_top_edges (ready : W -> Prop) (holds : list val -> W -> Prop)
    (o : fillet_objects) (es : list val) (body_z : float) (edge_z : val -> float)
    (radius body_index feature_name : val) :
  reports_edges holds o es body_z edge_z ->
  makes_fillet ready holds o radius body_index feature_name ->
  let selected := filter (fun x => above_top body_z (edge_z x)) es in
  (forall l w, holds l w ->
     exists w',
       fillet_select (VStr "top") (f_collection o) (f_body o) w = (Ret tt, w') /\
       holds (l ++ selected) w') /\
  (forall w, ready w ->
     exists w',
       fillet radius body_index (VStr "top") w
       = (Ret (VDict [("fillet_created", VBool true); ("radius", radius);
                      ("edges_count", VInt (Z.of_nat (List.length selected)));
                      ("feature_name", feature_name)]), w') /\
       holds selected w') /\
  ScriptGenerator._get_edge_collection_code (VStr "top")
  = ScriptGenerator.lines
      ["for edge in body.edges:";
       "    if edge.boundingBox.maxPoint.z > (body.boundingBox.maxPoint.z - 0.001):";
       "        edgeCollection.add(edge)"].
Proof.
  intros Hr Hm selected. split; [|split; [|reflexivity]].
  - intros l w Hw. apply (fillet_select_top holds o es body_z edge_z l Hr w Hw).
  - intros w Hw.
    destruct Hm as [Hdesign Hroot Hbody Hnew Hfillets Hcreate Hinput Haddset Hreal
                    Hradius Hset Hadd Hfeature Hcount Hname].
    unfold fillet.
    assert (Hrun : exists w',
      (design <- attr app "activeProduct";;
       root_component <- attr design "rootComponent";;
       body <- body_of root_component body_index "No bodies available for filleting.";;
       edge_collection <- new_collection;;
       fillet_select (VStr "top") edge_collection body;;;
       fillets <- path root_component ["features"; "filletFeatures"];;
       create_input <- attr fillets "createInput";;
       fillet_input <- call create_input [];;
       add_set <- attr fillet_input "addConstantRadiusEdgeSet";;
       create_by_real <- path adsk ["core"; "ValueInput"; "createByReal"];;
       radius_value <- call create_by_real [radius];;
       call add_set [edge_collection; radius_value; VBool true];;;
       add <- attr fillets "add";;
       feature <- call add [fillet_input];;
       edges_count <- attr edge_collection "count";;
       feature_name <- attr feature "name";;
       ret (VDict [("fillet_created", VBool true); ("radius", radius);
                   ("edges_count", edges_count); ("feature_name", feature_name)]))%host w
      = (Ret (VDict [("fillet_created", VBool true); ("radius", radius);
                     ("edges_count", VInt (Z.of_nat (List.length selected)));
                     ("feature_name", feature_name)]), w') /\ holds selected w').
    { answered Hdesign Hw. answered Hroot Hw0. answered Hbody Hw1.
      answered Hnew Hw2.
      answered (fillet_select_top holds o es body_z edge_z [] Hr) Hw3.
      cbn [List.app] in Hw4. fold selected in Hw4.
      answered (Hfillets selected) Hw4. answered (Hcreate selected) Hw5.
      answered (Hinput selected) Hw6. answered (Haddset selected) Hw7.
      answered (Hreal selected) Hw8. answered (Hradius selected) Hw9.
      performed (Hset selected) Hw10.
      answered (Hadd selected) Hw11. answered (Hfeature selected) Hw12.
      answered (Hcount selected) Hw13. answered (Hname selected) Hw14.
      exists w15. now split. }
    destruct Hrun as (w' & E & Hw'). exists w'. split; [|exact Hw'].
    now apply try_except_returns.
Qed.

(** What [fillet] and [chamfer] do with a selection they do not name, and
    what the script generator does. *)
Lemma fillet_select_other (s : string) (collection body : val) :
  s <> "all" -> s <> "top" -> fillet_select (VStr s) collection body = ret tt.
Proof.
  intros Ha Ht. unfold fillet_select. cbn [py_eq].
  destruct (String.eqb_spec s "all"); [contradiction|].
  destruct (String.eqb_spec s "top"); [contradiction|]. reflexivity.
Qed.

Lemma chamfer_select_other (s : string) (collection body : val) :
  s <> "all" -> chamfer_select (VStr s) collection body = ret tt.
Proof.
  intros Ha. unfold chamfer_select. cbn [py_eq].
  destruct (String.eqb_spec s "all"); [contradiction|]. reflexivity.
Qed.

Lemma shell_select_other (s : string) (collection body : val) :
  s <> "top" -> shell_select (VStr s) collection body = ret tt.
Proof.
  intros Ha. unfold shell_select. cbn [py_eq].
  destruct (String.eqb_spec s "top"); [contradiction|]. reflexivity.
Qed.

End DispatcherFacts.

Lemma edge_code_other (s : string) :
  ~ In s known_edge_selections ->
  ScriptGenerator._get_edge_collection_code (VStr s)
  = ScriptGenerator._get_edge_collection_code (VStr "all").
Proof.
  intros Hn. unfold ScriptGenerator._get_edge_collection_code. cbn [py_eq].
  repeat match goal with
  | |- context [String.eqb s ?a] =>
      destruct (String.eqb_spec s a) as [->|_]; [exfalso; apply Hn; cbn; tauto|]
  end.
  reflexivity.
Qed.

(* ================================================================== *)
(** * The dispatcher on the test double *)
(* ================================================================== *)

Module DispatcherExamples.
Import MockHost Examples.

Lemma C1_witness :
  let r := error_response "Unknown command type: bogus" in
  (status_of r = Some (VStr "error") \/ status_of r = Some (VStr "success")) /\
  (status_of r = Some (VStr "error") <->
     has_key r "message" = true /\ has_key r "result" = false) /\
  (status_of r = Some (VStr "success") <->
     has_key r "result" = true /\ has_key r "message" = false) /\
  (has_key r "result" = negb (has_key r "message")).
Proof.
  apply (C1_response_invariant (command_of "bogus" []) blank blank).
  vm_compute. reflexivity.
Defined.

Lemma C2_witness :
  execute_command (command_of "bogus" []) blank
    = (Ret (error_response "Unknown command type: bogus"), blank) /\
  status_of (error_response "Unknown command type: bogus") = Some (VStr "error") /\
  message_of (error_response "Unknown command type: bogus")
    = Some (VStr "Unknown command type: bogus").
Proof.
  apply (C2_unknown_command_type
           [("type", VStr "bogus"); ("params", VDict [])] "bogus" blank).
  - reflexivity.
  - vm_compute. intuition discriminate.
Defined.

(** C4, the claim as it stands: on a design without sketches the response
    to [draw_rectangle] is not the one with the bare message. *)
Lemma C4_counterexample :
  fst (execute_command
         (command_of "draw_rectangle" [("width", VInt 50); ("height", VInt 30)])
         no_sketch)
  <> Ret (error_response "No sketch available. Create a sketch first.").
Proof. vm_compute. discriminate. Qed.

Lemma C4_witness :
  execute_command
    (command_of "draw_rectangle" [("width", VInt 50); ("height", VInt 30)]) no_sketch
  = (Ret (error_response
       "Failed to draw rectangle: No sketch available. Create a sketch first."),
     no_sketch).
Proof.
  apply (C4_draw_rectangle_without_sketch no_sketch no_sketch (VInt 0)).
  - vm_compute. reflexivity.
  - reflexivity.
Defined.

(** The double carries out the new-body extrusion of the sketch. *)
Lemma sketch_extrusion :
  new_body_extrusion sketch_inv sketch_objects (VInt 20) (VInt 0)
    (VObj (root ++ ".features.extrudeFeatures.add().name")).
Proof.
  split;
    try match goal with |- forall negative : bool, _ => intros negative end;
    intros [a f i c k] (Ha & Hf & Hc); cbn in Ha, Hf, Hc; subst a f c;
    try (eexists; split; [reflexivity|repeat split]);
    try (eexists _, _; split; [reflexivity|repeat split]).
Qed.

Lemma C8_witness :
  (operation_type_of (VStr "bogus") = Ret (feature_operation NewBodyFeatureOperation) /\
   same_but_echo (VStr "bogus")
     (extrude (VInt 20) (VInt 0) (VStr "bogus") (VStr "positive") one_sketch)
     (extrude (VInt 20) (VInt 0) (VStr "new_body") (VStr "positive") one_sketch) /\
   execute_command
     (command_of "extrude" [("height", VInt 20); ("operation", VStr "bogus")]) one_sketch
   = respond (extrude (VInt 20) (VInt 0) (VStr "bogus") (VStr "positive") one_sketch) /\
   ScriptGenerator._get_operation_code (VStr "bogus") = Ret "NewBody") /\
  exists w',
    extrude (VInt 20) (VInt 0) (VStr "bogus") (VStr "positive") one_sketch
    = (Ret (VDict [("extrude_created", VBool true); ("height", VInt 20);
                   ("operation", VStr "bogus"); ("direction", VStr "positive");
                   ("feature_name",
                    VObj (root ++ ".features.extrudeFeatures.add().name"))]), w') /\
    sketch_inv w'.
Proof.
  assert (Hn : ~ In "bogus" known_operations) by (vm_compute; intuition discriminate).
  destruct (C8_extrude_unknown_operation (VInt 20) (VInt 0) (VStr "positive") "bogus"
              one_sketch Hn) as (H1 & H2 & H3 & H4 & H5).
  split; [repeat split; assumption|].
  apply (H5 sketch_inv sketch_objects _ sketch_extrusion).
  repeat split.
Defined.

(** The scenario of the specification: the response has status ["success"],
    and the host was asked for a new-body extrusion. *)
Example extrude_bogus_on_double :
  let '(r, w) :=
    execute_command
      (command_of "extrude" [("height", VInt 20); ("operation", VStr "bogus")])
      one_sketch in
  match r with
  | Ret response => status_of response
  | Raise _ => None
  end = Some (VStr "success") /\
  In ((root ++ ".features.extrudeFeatures.createInput")%string,
      [VObj (root ++ ".sketches.item(0).profiles.item(0)");
       feature_operation NewBodyFeatureOperation])
     (calls w).
Proof. vm_compute. split; [reflexivity|]. right; right; left. reflexivity. Qed.

Lemma C9_witness :
  (match execute_command (VDict [("type", VStr "get_scene_info")]) broken_host with
   | (Ret r, _) =>
       status_of r = Some (VStr "success") /\ exists result, r = success_response result
   | (Raise e, _) => is_Exception e = false
   end) /\
  (forall e w',
     get_scene_info_body broken_host = (Raise e, w') -> is_Exception e = true ->
     get_scene_info broken_host = (Ret (VDict [("error", VStr (exn_msg e))]), w')) /\
  (forall name e w',
     get_object_info_body name broken_host = (Raise e, w') -> is_Exception e = true ->
     get_object_info name broken_host
       = (Ret (VDict [("error", VStr (exn_msg e))]), w')) /\
  (forall design w', attr app "activeProduct" broken_host = (Ret design, w') ->
     py_truthy design = false ->
     get_scene_info broken_host
       = (Ret (VDict [("error", VStr "No active design")]), w') /\
     forall name,
       get_object_info name broken_host
         = (Ret (VDict [("error", VStr "No active design")]), w')).
Proof.
  apply (C9_query_handlers_never_error [("type", VStr "get_scene_info")] broken_host).
  left. split; [reflexivity|]. exists []. reflexivity.
Defined.

(** The two query handlers on a failing host and without a design. *)
Example queries_on_double :
  fst (execute_command (VDict [("type", VStr "get_scene_info")]) broken_host)
  = Ret (success_response
           (VDict [("error", VStr "RuntimeError: 2 : InternalValidationError")])) /\
  fst (execute_command (command_of "get_object_info" [("name", VStr "Body1")]) no_design)
  = Ret (success_response (VDict [("error", VStr "No active design")])) /\
  fst (execute_command (command_of "get_object_info" []) no_design)
  = Ret (error_response
           "CommandHandler.get_object_info() missing 1 required positional argument: 'name'").
Proof. vm_compute. repeat split. Qed.

(** The double reports the box and its edges, and makes the fillet. *)
Lemma box_reports_edges :
  reports_edges box_holds box_objects box_edges 10%float box_z.
Proof.
  split.
  - intros l [a f i c k] (Ha & Hf & Hi & Hc). cbn in Ha, Hf, Hi, Hc. subst a f i c.
    eexists; split; [reflexivity|repeat split].
  - intros l [a f i c k] (Ha & Hf & Hi & Hc). cbn in Ha, Hf, Hi, Hc. subst a f i c.
    eexists; split; [reflexivity|repeat split].
  - intros l [a f i c k] (Ha & Hf & Hi & Hc). cbn in Ha, Hf, Hi, Hc. subst a f i c.
    eexists; split; [reflexivity|repeat split].
  - intros l x Hx [a f i c k] (Ha & Hf & Hi & Hc). cbn in Ha, Hf, Hi, Hc. subst a f i c.
    destruct Hx as [<-|[<-|[<-|[]]]];
      (eexists; split; [reflexivity|repeat split]).
  - intros l [a f i c k] (Ha & Hf & Hi & Hc). cbn in Ha, Hf, Hi, Hc. subst a f i c.
    eexists; split; [reflexivity|repeat split].
  - intros l [a f i c k] (Ha & Hf & Hi & Hc). cbn in Ha, Hf, Hi, Hc. subst a f i c.
    eexists; split; [reflexivity|repeat split].
  - intros l x [a f i c k] (Ha & Hf & Hi & Hc). cbn in Ha, Hf, Hi, Hc. subst a f i c.
    eexists _, _; split; [reflexivity|repeat split].
Qed.

Lemma box_makes_fillet :
  makes_fillet box_ready box_holds box_objects (VInt 1) (VInt 0)
    (VObj (root ++ ".features.filletFeatures.add().name")).
Proof.
  split;
    try match goal with |- forall l : list val, _ => intros l end;
    intros [a f i c k] (Ha & Hf & Hi & Hc); cbn in Ha, Hf, Hi, Hc; subst a f i c;
    try (eexists; split; [reflexivity|repeat split]);
    try (eexists _, _; split; [reflexivity|repeat split]).
Qed.

Lemma C7_witness :
  (forall l w, box_holds l w ->
     exists w',
       fillet_select (VStr "top") (VObj "collection0") (VObj box) w = (Ret tt, w') /\
       box_holds (l ++ [VObj "e0"; VObj "e2"]) w') /\
  (forall w, box_ready w ->
     exists w',
       fillet (VInt 1) (VInt 0) (VStr "top") w
       = (Ret (VDict [("fillet_created", VBool true); ("radius", VInt 1);
                      ("edges_count", VInt 2);
                      ("feature_name",
                       VObj (root ++ ".features.filletFeatures.add().name"))]), w') /\
       box_holds [VObj "e0"; VObj "e2"] w') /\
  ScriptGenerator._get_edge_collection_code (VStr "top")
  = ScriptGenerator.lines
      ["for edge in body.edges:";
       "    if edge.boundingBox.maxPoint.z > (body.boundingBox.maxPoint.z - 0.001):";
       "        edgeCollection.add(edge)"].
Proof.
  exact (C7_top_edges box_ready box_holds box_objects box_edges 10%float box_z
           (VInt 1) (VInt 0) (VObj (root ++ ".features.filletFeatures.add().name"))
           box_reports_edges box_makes_fillet).
Defined.

(** On the box, ["top"] selects the first and the third edge. *)
Example fillet_top_on_double :
  collections
    (snd (execute_command
            (command_of "fillet" [("radius", VInt 1); ("edge_selection", VStr "top")])
            one_box))
  = [("collection0", [VObj "e0"; VObj "e2"])].
Proof. vm_compute. reflexivity. Qed.

(** C3, at the inputs where the code leaves the claim: on the box, [fillet]
    with the unknown selection ["bogus"] (and with ["bottom"], which the
    tool schema offers) and [chamfer] with ["top"] succeed with an empty
    collection, where ["all"] selects the three edges; the script generator
    does fall back to the code of ["all"]. *)
Theorem C3_unknown_selection_selects_nothing :
  let selected (tool size selection : string) :=
    collections
      (snd (execute_command
              (command_of tool [(size, VInt 1); ("edge_selection", VStr selection)])
              one_box)) in
  selected "fillet" "radius" "all" = [("collection0", box_edges)] /\
  selected "fillet" "radius" "bogus" = [("collection0", [])] /\
  selected "fillet" "radius" "bottom" = [("collection0", [])] /\
  selected "chamfer" "distance" "all" = [("collection0", box_edges)] /\
  selected "chamfer" "distance" "bogus" = [("collection0", [])] /\
  selected "chamfer" "distance" "top" = [("collection0", [])] /\
  result_of
    match fst (execute_command
                 (command_of "fillet"
                    [("radius", VInt 1); ("edge_selection", VStr "bogus")])
                 one_box) with
    | Ret response => response
    | Raise _ => VNone
    end
  = Some (VDict [("fillet_created", VBool true); ("radius", VInt 1);
                 ("edges_count", VInt 0);
                 ("feature_name",
                  VObj (root ++ ".features.filletFeatures.add().name"))]) /\
  ScriptGenerator._get_edge_collection_code (VStr "bogus")
  = ScriptGenerator.all_edges_code.
Proof. vm_compute. repeat split. Qed.

End DispatcherExamples.

(* ================================================================== *)
(** * Properties of the connection manager *)
(* ================================================================== *)

Import Sock Connection.

Section ConnectionFacts.
Context `{PyRuntime}.

Lemma each_outcome_raises {A B : Type} (P : exn -> Prop) (f : A -> outcome B)
    (l : list A) (e : exn) :
  Forall (fun x => forall e, f x = Raise e -> P e) l ->
  Json.each_outcome f l = Raise e -> P e.
Proof.
  induction 1 as [|x l Hx Hl IH]; cbn; [discriminate|].
  destruct (f x) as [y|ex] eqn:Ex.
  - destruct (Json.each_outcome f l) as [ys|el]; [discriminate|].
    intros E; inversion E; subst. now apply IH.
  - intros E; inversion E; subst. now apply Hx.
Qed.

(** What the interpreter raises is an [Exception]. *)
Lemma py_raise_is_Exception {A : Type} (pe : py_error) (e : exn) :
  py_raise (A := A) pe = Raise e -> is_Exception e = true.
Proof. unfold py_raise. intros E; inversion E; subst. now destruct pe. Qed.

Lemma py_str_raises (v : val) (e : exn) :
  py_str v = Raise e ->
  exn_class_of e = ValueErrorC \/ exn_class_of e = RecursionErrorC.
Proof.
  assert (Hf : forall f : str_failure,
    py_raise (A := string) (str_failure_error f) = Raise e ->
    exn_class_of e = ValueErrorC \/ exn_class_of e = RecursionErrorC).
  { intros f. unfold py_raise. intros E; inversion E; subst.
    destruct f; [now left|now right]. }
  destruct v as [|b|z|f|s|l|d|r]; cbn; try discriminate.
  - destruct b; discriminate.
  - destruct (beyond_limit _); [|discriminate].
    unfold py_raise. intros E; inversion E; subst. now left.
  - destruct (str_error _) as [f|]; [apply Hf|discriminate].
  - destruct (str_error _) as [f|]; [apply Hf|discriminate].
  - destruct (str_error _) as [f|]; [apply Hf|discriminate].
Qed.

(** [json.dumps] raises [TypeError] on an object of the host, [ValueError]
    on an [int] beyond the limit on its digits and [RecursionError] on a
    value that is nested too deep, and nothing else. *)
Lemma encode_value_raises : forall (v : val) (room : nat) (e : exn),
  Json.encode_value room v = Raise e ->
  exn_class_of e = TypeErrorC \/ exn_class_of e = ValueErrorC \/
  exn_class_of e = RecursionErrorC.
Proof.
  fix IH 1. intros v room e. destruct v as [|b|z|f|s|l|d|r]; cbn.
  - discriminate.
  - destruct b; discriminate.
  - destruct (beyond_limit _); [|discriminate].
    unfold py_raise. intros E; inversion E; subst. auto.
  - discriminate.
  - discriminate.
  - destruct room as [|room].
    { unfold py_raise. intros E; inversion E; subst. auto. }
    destruct (Json.each_outcome (Json.encode_value room) l) as [ss|el] eqn:El;
      [discriminate|].
    intros E; inversion E; subst.
    refine (each_outcome_raises
      (fun e => exn_class_of e = TypeErrorC \/ exn_class_of e = ValueErrorC \/
                exn_class_of e = RecursionErrorC) _ l _ _ El).
    clear El. induction l as [|x l IHl]; constructor; [apply IH|exact IHl].
  - destruct room as [|room].
    { unfold py_raise. intros E; inversion E; subst. auto. }
    match goal with |- context [Json.each_outcome ?f d] =>
      destruct (Json.each_outcome f d) as [ss|el] eqn:El end; [discriminate|].
    intros E; inversion E; subst.
    refine (each_outcome_raises
      (fun e => exn_class_of e = TypeErrorC \/ exn_class_of e = ValueErrorC \/
                exn_class_of e = RecursionErrorC) _ d _ _ El).
    clear El. induction d as [|[k x] d IHd]; constructor; [|exact IHd].
    intros e0. cbn. destruct (Json.encode_value room x) as [sx|ex] eqn:Ex; [discriminate|].
    intros E0; inversion E0; subst. now apply (IH x room).
  - unfold py_raise. intros E; inversion E; subst. auto.
Qed.

Lemma json_dumps_raises (v : val) (e : exn) :
  Json.json_dumps v = Raise e ->
  exn_class_of e = TypeErrorC \/ exn_class_of e = ValueErrorC \/
  exn_class_of e = RecursionErrorC.
Proof. apply encode_value_raises. Qed.

Lemma json_dumps_is_Exception (v : val) (e : exn) :
  Json.json_dumps v = Raise e -> is_Exception e = true.
Proof.
  intros E. unfold is_Exception.
  destruct (json_dumps_raises _ _ E) as [-> | [-> | ->]]; reflexivity.
Qed.

(** [json.loads] raises [JSONDecodeError], or the [ValueError] or the
    [RecursionError] of the interpreter: some [Exception]. *)
Lemma json_loads_is_Exception (text : string) (e : exn) :
  Json.json_loads text = Raise e -> is_Exception e = true.
Proof.
  unfold Json.json_loads.
  destruct (Json.scan_once _ _ _) as [v rest| |pe|].
  - destruct (Json.skip_ws rest); [discriminate|apply py_raise_is_Exception].
  - apply py_raise_is_Exception.
  - apply py_raise_is_Exception.
  - apply py_raise_is_Exception.
Qed.

Lemma decode_raises (data : list Byte.byte) (e : exn) :
  Utf8.decode data = Raise e -> exn_class_of e = UnicodeDecodeErrorC.
Proof.
  unfold Utf8.decode. destruct (Utf8.validate _ _); [|discriminate].
  intros E; inversion E; subst. reflexivity.
Qed.

Lemma complete_raises (chunks : list (list Byte.byte)) (e : exn) :
  complete chunks = Raise e -> invalidating e = true.
Proof.
  unfold complete. destruct (Utf8.decode _) as [text|e0] eqn:E0.
  - destruct (Json.json_loads text) as [v|e1] eqn:E1; [discriminate|].
    destruct (exn_class_eqb (exn_class_of e1) JSONDecodeErrorC) eqn:Ec; [discriminate|].
    intros E; inversion E; subst. apply json_loads_is_Exception in E1.
    unfold invalidating, is_Exception in *.
    destruct (exn_class_of e); try reflexivity; discriminate.
  - intros E; inversion E; subst. unfold invalidating.
    now rewrite (decode_raises _ _ E0).
Qed.

Lemma complete_parses (chunks : list (list Byte.byte)) (data : list Byte.byte) :
  complete chunks = Ret (Some data) -> parses data.
Proof.
  unfold complete. destruct (Utf8.decode _) as [text|e0] eqn:E0; [|discriminate].
  destruct (Json.json_loads text) as [v|e1] eqn:Ev.
  - intros E; inversion E; subst. exists text, v. now split.
  - destruct (exn_class_eqb _ _); discriminate.
Qed.

Lemma socket_level_invalidating (e : exn) :
  socket_level e = true -> invalidating e = true.
Proof.
  unfold socket_level, is_timeout, is_connection_error, invalidating.
  destruct (exn_class_of e); cbn; congruence.
Qed.

Lemma reads_socket_level (buffer_size : nat) (tape : list recv_event) :
  Forall socket_level_event tape ->
  Forall socket_level_event (reads buffer_size tape).
Proof.
  induction 1 as [|ev tape Hev Ht IH]; [constructor|].
  cbn [reads flat_map]. apply Forall_app. split; [|exact IH].
  destruct ev as [data|e].
  - destruct data; [repeat constructor|].
    apply Forall_forall. intros ev Hin. apply in_map_iff in Hin.
    destruct Hin as [p [<- _]]. exact I.
  - repeat constructor. exact Hev.
Qed.

Lemma receive_loop_ends (tape : list recv_event) :
  Forall socket_level_event tape ->
  forall chunks,
  match receive_loop tape chunks with
  | (Returned data, _) => parses data
  | (Raised e, _) => invalidating e = true
  | (Broke _, _) => True
  end.
Proof.
  induction 1 as [|ev tape Hev Ht IH]; intros chunks; cbn [receive_loop]; [exact I|].
  destruct ev as [data|e].
  - destruct data as [|b data].
    + destruct chunks; [reflexivity|exact I].
    + destruct (complete (chunks ++ [b :: data])) as [[d|]|e] eqn:E.
      * eapply complete_parses; eauto.
      * apply IH.
      * eapply complete_raises; eauto.
  - destruct (is_timeout e) eqn:Et; [exact I|].
    apply socket_level_invalidating. exact Hev.
Qed.

Lemma receive_full_response_ends (buffer_size : nat) (tape : list recv_event) :
  Forall socket_level_event tape ->
  match receive_full_response buffer_size tape with
  | (Ret data, _) => parses data
  | (Raise e, _) => invalidating e = true
  end.
Proof.
  intros Ht. unfold receive_full_response.
  pose proof (receive_loop_ends _ (reads_socket_level buffer_size tape Ht) []) as Hl.
  destruct (receive_loop (reads buffer_size tape) []) as [[data|e|chunks] rest].
  - exact Hl.
  - exact Hl.
  - destruct chunks as [|c chunks]; [reflexivity|].
    destruct (complete (c :: chunks)) as [[d|]|e] eqn:E.
    + eapply complete_parses; eauto.
    + reflexivity.
    + eapply complete_raises; eauto.
Qed.

Lemma py_str_invalidating (v : val) (e : exn) :
  py_str v = Raise e -> invalidating e = true.
Proof.
  intros E. unfold invalidating.
  destruct (py_str_raises _ _ E) as [-> | ->]; reflexivity.
Qed.

Lemma response_get_invalidating (response : val) (key : string) (default : val)
    (e : exn) :
  response_get response key default = Raise e -> invalidating e = true.
Proof.
  unfold response_get.
  destruct response; try discriminate;
    unfold py_raise; intros E; inversion E; subst; reflexivity.
Qed.

Lemma and_then_raises {A B : Type} (o : outcome A) (k : A -> outcome B) (e : exn) :
  and_then o k = Raise e -> o = Raise e \/ exists a, o = Ret a /\ k a = Raise e.
Proof.
  destruct o as [a|e0]; cbn; intros E; [right; now exists a|left].
  now inversion E.
Qed.

Lemma interpret_raises (data : list Byte.byte) (e : exn) :
  parses data -> interpret data = Raise e -> invalidating e = true.
Proof.
  intros [text [v [Hd Hv]]]. unfold interpret. rewrite Hd. cbn [and_then].
  rewrite Hv. cbn [and_then].
  intros E.
  repeat match goal with
  | E : and_then _ _ = Raise _ |- _ =>
      apply and_then_raises in E; destruct E as [E|[? [_ E]]];
      [first [ now apply response_get_invalidating in E
             | now apply py_str_invalidating in E ]|]
  | E : (if ?b then _ else _) = Raise _ |- _ => destruct b
  end.
  - inversion E; subst. reflexivity.
  - now apply response_get_invalidating in E.
Qed.

Lemma sendall_ends (data : list Byte.byte) (n n1 : net) (r : outcome unit) :
  sendall data n = (r, n1) ->
  recv_script n1 = recv_script n /\
  match r with
  | Raise e => In (Some e) (send_script n)
  | Ret _ => True
  end.
Proof.
  unfold sendall. destruct (send_script n) as [|[e1|] script];
    intros E; inversion E; subst; cbn; auto.
Qed.

Lemma exchange_raises (command_type params : val) (n n' : net) (e : exn) :
  Forall socket_level_outcome (send_script n) ->
  Forall socket_level_event (recv_script n) ->
  exchange command_type params n = (Raise e, n') -> invalidating e = true.
Proof.
  intros Hs Hr. unfold exchange.
  destruct (and_then (py_str command_type) (fun _ => py_str params)) as [logged|e0]
    eqn:El.
  2:{ intros E; inversion E; subst.
      apply and_then_raises in El. destruct El as [El|[? [_ El]]];
        now apply py_str_invalidating in El. }
  destruct (Json.json_dumps _) as [text|e0] eqn:Ed.
  - destruct (sendall (Utf8.encode text) n) as [[u|e1] n1] eqn:Esend;
      destruct (sendall_ends _ _ _ _ Esend) as [Hrecv Hin].
    + rewrite Hrecv.
      pose proof (receive_full_response_ends default_buffer_size _ Hr) as Hf.
      destruct (receive_full_response default_buffer_size (recv_script n))
        as [[data|e1] rest].
      * intros E; inversion E; subst. eapply interpret_raises; eauto.
      * intros E; inversion E; subst. exact Hf.
    + intros E; inversion E; subst. apply socket_level_invalidating.
      rewrite Forall_forall in Hs. exact (Hs _ Hin).
  - intros E; inversion E; subst. unfold invalidating.
    destruct (json_dumps_raises _ _ Ed) as [-> | [-> | ->]]; reflexivity.
Qed.

(** C6. When [send_command] fails on a network whose socket operations fail
    with socket-level errors only (timeout, connection reset, broken pipe,
    refused connection), the connection has no socket afterwards; and the
    next [send_command], with no call of [connect] by the caller, opens a
    new socket when the peer accepts the connection and returns what the
    exchange over it returns. *)
Theorem C6_connection_resilience (c c1 : Fusion360Connection) (command_type params : val)
    (n n1 : net) (e : exn) :
  socket_errors_only n ->
  send_command c command_type params n = (Raise e, c1, n1) ->
  sock c1 = None /\
  forall (command_type' params' result : val) (n2 n3 : net)
         (script : list (option exn)),
    connect_script n2 = None :: script ->
    exchange command_type' params' (connected n2 script) = (Ret result, n3) ->
    send_command c1 command_type' params' n2
      = (Ret result, with_sock c1 (Some (sockets_created n2)), n3).
Proof.
  intros [Hc [Hs Hr]] Hsend.
  assert (Hsock : sock c1 = None).
  { revert Hsend. unfold send_command.
    assert (Hx : forall c0 n0,
      send_script n0 = send_script n -> recv_script n0 = recv_script n ->
      match exchange command_type params n0 with
      | (Ret result, n2) => (Ret result, c0, n2)
      | (Raise e0, n2) =>
          match exn_class_of e0 with
          | BaseExceptionOnly => (Raise e0, c0, n2)
          | SocketTimeoutC =>
              (Raise (Exn ExceptionC
                 "Timeout waiting for Fusion360 response - try simplifying your request"),
               with_sock c0 None, n2)
          | ConnectionErrorC =>
              (Raise (Exn ExceptionC ("Connection to Fusion360 lost: " ++ exn_msg e0)),
               with_sock c0 None, n2)
          | JSONDecodeErrorC =>
              (Raise (Exn ExceptionC ("Invalid response from Fusion360: " ++ exn_msg e0)),
               c0, n2)
          | _ =>
              (Raise (Exn ExceptionC ("Communication error with Fusion360: " ++ exn_msg e0)),
               with_sock c0 None, n2)
          end
      end = (Raise e, c1, n1) -> sock c1 = None).
    { intros c0 n0 Hs0 Hr0.
      destruct (exchange _ _ n0) as [[result|e0] n2] eqn:Ex; [discriminate|].
      apply exchange_raises in Ex; [|now rewrite Hs0|now rewrite Hr0].
      unfold invalidating in Ex.
      destruct (exn_class_of e0); try discriminate;
        intros E; inversion E; subst; reflexivity. }
    destruct (sock c) as [s|] eqn:Ec.
    - apply Hx; reflexivity.
    - unfold connect. rewrite Ec.
      destruct (connect_script n) as [|[e0|] script] eqn:Escript.
      + intros E; inversion E; subst. reflexivity.
      + assert (He0 : is_Exception e0 = true).
        { inversion Hc as [|? ? He0 _]; subst. cbn in He0.
          unfold socket_level, is_timeout, is_connection_error in He0.
          unfold is_Exception. destruct (exn_class_of e0); cbn in *; congruence. }
        rewrite He0. intros E; inversion E; subst. reflexivity.
      + apply Hx; reflexivity. }
  split; [exact Hsock|].
  intros command_type' params' result n2 n3 script Hscript Hex.
  unfold send_command, connect. rewrite Hsock, Hscript.
  fold (connected n2 script). now rewrite Hex.
Qed.
End ConnectionFacts.

(** ** Texts in ASCII *)

Import Json Reader ScannerFacts.

Lemma validate_ascii (bs : list N) (pos : nat) :
  forallb (fun b => (b <? 128)%N) bs = true -> Utf8.validate pos bs = None.
Proof.
  revert pos. induction bs as [|b bs IH]; intros pos; cbn; [reflexivity|].
  intros Hb. apply andb_true_iff in Hb. destruct Hb as [Hb Hbs].
  rewrite Hb. now apply IH.
Qed.

Lemma decode_ascii (data : list Byte.byte) :
  ascii_only data = true -> Utf8.decode data = Ret (string_of_list_byte data).
Proof.
  intros Ha. unfold Utf8.decode. rewrite validate_ascii; [reflexivity|].
  unfold ascii_only in Ha. rewrite forallb_forall in *.
  intros b Hb. apply in_map_iff in Hb. destruct Hb as (x & <- & Hx). now apply Ha.
Qed.

Lemma string_of_bytes_app (a b : list Byte.byte) :
  string_of_list_byte (a ++ b) = string_of_list_ascii (text_of a ++ text_of b).
Proof. unfold string_of_list_byte, text_of. now rewrite map_app. Qed.

Lemma skip_ws_nil_app (a b : list ascii) : skip_ws (a ++ b) = [] -> skip_ws b = [].
Proof.
  induction a as [|c a IH]; cbn; [trivial|].
  destruct (is_ws c); [exact IH|discriminate].
Qed.

Lemma ends_without_space_tail (p x : list Byte.byte) :
  ends_without_space (p ++ x) = true -> x <> [] -> skip_ws (text_of x) <> [].
Proof.
  intros He Hx. destruct (exists_last Hx) as (x' & l & ->).
  unfold ends_without_space in He.
  rewrite app_assoc, rev_app_distr in He. cbn in He.
  unfold text_of. rewrite map_app. cbn. intros E.
  apply skip_ws_nil_app in E. cbn in E.
  destruct (is_ws (ascii_of_byte l)); discriminate.
Qed.

Section Receiving.
Context {runtime : PyRuntime}.

Lemma is_json_object_inv (data : list Byte.byte) :
  is_json_object data = true ->
  exists d, Json.json_loads (string_of_list_byte data) = Ret (VDict d).
Proof.
  unfold is_json_object.
  destruct (Json.json_loads _) as [[| | | | | |d|]|]; try discriminate.
  intros _. now exists d.
Qed.

Lemma short_numbers_prefix (pre x : list Byte.byte) :
  short_numbers (pre ++ x) = true -> fits (text_of pre).
Proof.
  unfold short_numbers, text_of. rewrite map_app. intros Hs.
  apply runs_fit_fits in Hs. now apply fits_prefix in Hs.
Qed.

(** ** Receiving a response that comes in pieces *)

Section Pieces.
Variable payload : list Byte.byte.
Hypothesis Hobject : is_json_object payload = true.
Hypothesis Hascii : ascii_only payload = true.
Hypothesis Hend : ends_without_space payload = true.
Hypothesis Hshort : short_numbers payload = true.

Lemma complete_whole (chunks : list (list Byte.byte)) :
  List.concat chunks = payload -> complete chunks = Ret (Some payload).
Proof.
  intros E. unfold complete. rewrite E, (decode_ascii _ Hascii).
  destruct (is_json_object_inv _ Hobject) as [d ->]. reflexivity.
Qed.

Lemma complete_cut (chunks : list (list Byte.byte)) (x : list Byte.byte) :
  List.concat chunks ++ x = payload -> x <> [] -> complete chunks = Ret None.
Proof.
  intros E Hx. unfold complete.
  assert (Ha : ascii_only (List.concat chunks) = true).
  { generalize Hascii. rewrite <- E. unfold ascii_only. rewrite forallb_app.
    intros Hb. now apply andb_true_iff in Hb. }
  rewrite (decode_ascii _ Ha).
  destruct (is_json_object_inv _ Hobject) as [d Hd].
  rewrite <- E, string_of_bytes_app in Hd.
  unfold string_of_list_byte. fold (text_of (List.concat chunks)).
  rewrite (json_loads_cut _ _ _ Hd eq_refl); [reflexivity| |].
  - apply (ends_without_space_tail (List.concat chunks)); [now rewrite E|exact Hx].
  - apply (short_numbers_prefix _ x). now rewrite E.
Qed.

Lemma receive_loop_pieces (chunks : list (list Byte.byte)) :
  forall (acc : list (list Byte.byte)) (more : list recv_event),
  Forall (fun c => c <> []) chunks -> chunks <> [] ->
  List.concat acc ++ List.concat chunks = payload ->
  receive_loop (map Chunk chunks ++ more) acc = (Returned payload, more).
Proof.
  induction chunks as [|ch chunks IH]; intros acc more Hne Hc E; [contradiction|].
  apply Forall_cons_iff in Hne. destruct Hne as [Hch Hrest].
  destruct ch as [|b ch]; [contradiction|].
  change (map Chunk ((b :: ch) :: chunks) ++ more)
    with (Chunk (b :: ch) :: (map Chunk chunks ++ more)).
  cbn [receive_loop].
  destruct chunks as [|ch2 chunks].
  - rewrite complete_whole; [reflexivity|].
    rewrite concat_app. cbn in E |- *. now rewrite app_nil_r in E |- *.
  - rewrite (complete_cut _ (List.concat (ch2 :: chunks))).
    + apply IH; [exact Hrest|discriminate|].
      rewrite concat_app. cbn in E |- *. rewrite app_nil_r, <- app_assoc. exact E.
    + rewrite concat_app. cbn in E |- *. rewrite app_nil_r, <- app_assoc. exact E.
    + apply Forall_cons_iff in Hrest. destruct Hrest as [Hch2 _]. cbn.
      destruct ch2; [contradiction|discriminate].
Qed.

End Pieces.

Lemma pieces_from_concat (n : nat) (data : list Byte.byte) :
  forall cur room, List.concat (pieces_from n data cur room) = rev cur ++ data.
Proof.
  induction data as [|b data IH]; intros cur room; cbn.
  - destruct cur; cbn; [reflexivity|]. now rewrite !app_nil_r.
  - destruct room as [|room]; cbn; rewrite IH; cbn; [reflexivity|].
    now rewrite <- app_assoc.
Qed.

Lemma pieces_from_nonempty (n : nat) (data : list Byte.byte) :
  forall cur room, cur <> [] \/ 0 < room ->
  Forall (fun c => c <> []) (pieces_from n data cur room).
Proof.
  induction data as [|b data IH]; intros cur room Hc; cbn.
  - destruct cur as [|x cur]; constructor; [|constructor].
    cbn. intros E. apply app_eq_nil in E. destruct E; discriminate.
  - destruct room as [|room].
    + constructor.
      * destruct Hc as [Hc|Hc]; [|lia]. intros E. apply Hc.
        apply (f_equal (@rev _)) in E. now rewrite rev_involutive in E.
      * apply IH. left. discriminate.
    + apply IH. left. discriminate.
Qed.

Lemma pieces_from_short (n : nat) (data : list Byte.byte) :
  forall cur room, List.length data <= room -> rev cur ++ data <> [] ->
  pieces_from n data cur room = [rev cur ++ data].
Proof.
  induction data as [|b data IH]; intros cur room Hl Hne; cbn.
  - rewrite app_nil_r in *. destruct cur; [contradiction|reflexivity].
  - destruct room as [|room]; [cbn in Hl; lia|].
    rewrite IH; cbn in *; [|lia|].
    + now rewrite <- app_assoc.
    + rewrite <- app_assoc. cbn. intros E. apply app_eq_nil in E.
      destruct E; discriminate.
Qed.

Lemma reads_byte_chunks (n : nat) (payload : list Byte.byte) :
  0 < n -> reads n (byte_chunks payload) = byte_chunks payload.
Proof.
  intros Hn. unfold reads, byte_chunks.
  induction payload as [|b payload IH]; cbn [map flat_map]; [reflexivity|].
  rewrite IH. unfold pieces. destruct n as [|n]; [lia|]. reflexivity.
Qed.

Lemma reads_cons_short (n : nat) (data : list Byte.byte) (tape : list recv_event) :
  data <> [] -> List.length data <= n ->
  reads n (Chunk data :: tape) = Chunk data :: reads n tape.
Proof.
  intros Hd Hl. unfold reads. cbn [flat_map].
  destruct data as [|b data]; [contradiction|].
  unfold pieces. rewrite pieces_from_short; [reflexivity|exact Hl|discriminate].
Qed.

Lemma json_object_nonempty (payload : list Byte.byte) :
  is_json_object payload = true -> payload <> [].
Proof. intros Ho ->. discriminate Ho. Qed.

Lemma receive_in_pieces (payload : list Byte.byte) (chunks : list (list Byte.byte)) :
  is_json_object payload = true -> ascii_only payload = true ->
  ends_without_space payload = true -> short_numbers payload = true ->
  Forall (fun c => c <> []) chunks -> List.concat chunks = payload ->
  receive_loop (map Chunk chunks) [] = (Returned payload, []).
Proof.
  intros Ho Ha He Hs Hne E.
  rewrite <- (app_nil_r (map Chunk chunks)).
  apply receive_loop_pieces; try assumption.
  intros ->. apply (json_object_nonempty _ Ho). now rewrite <- E.
Qed.

(** C5, amended: a response that is one JSON object in ASCII with no
    whitespace after it, and with no run of digits longer than the
    interpreter lets an [int] be (4300 digits, unless the limit is set
    otherwise), is received the same whether it comes byte by byte or at
    once: [receive_full_response] returns exactly its bytes. *)
Theorem C5_chunked_receive (buffer_size : nat) (payload : list Byte.byte) :
  0 < buffer_size -> is_json_object payload = true -> ascii_only payload = true ->
  ends_without_space payload = true -> short_numbers payload = true ->
  receive_full_response buffer_size (byte_chunks payload) = (Ret payload, []) /\
  receive_full_response buffer_size [Chunk payload] = (Ret payload, []).
Proof.
  intros Hn Ho Ha He Hs. unfold receive_full_response. split.
  - rewrite reads_byte_chunks by exact Hn.
    unfold byte_chunks. rewrite <- (map_map (fun b => [b]) Chunk).
    rewrite (receive_in_pieces payload); try assumption; [reflexivity| |].
    + apply Forall_forall. intros c Hc. apply in_map_iff in Hc.
      destruct Hc as (b & <- & _). discriminate.
    + clear. induction payload as [|b p IH]; cbn; [reflexivity|now rewrite IH].
  - unfold reads. cbn [flat_map]. rewrite app_nil_r.
    destruct payload as [|b p] eqn:Ep; [now apply json_object_nonempty in Ho|].
    rewrite <- Ep in *.
    rewrite (receive_in_pieces payload); try assumption; [reflexivity| |].
    + apply pieces_from_nonempty. right. exact Hn.
    + unfold pieces. now rewrite pieces_from_concat.
Qed.

End Receiving.

Module ConnectionExamples.
Import MockHost Examples.

Lemma C6_witness :
  sock (with_sock in_use None) = None /\
  forall (command_type' params' result : val) (n2 n3 : net)
         (script : list (option exn)),
    connect_script n2 = None :: script ->
    exchange command_type' params' (connected n2 script) = (Ret result, n3) ->
    send_command (with_sock in_use None) command_type' params' n2
      = (Ret result,
         with_sock (with_sock in_use None) (Some (sockets_created n2)), n3).
Proof.
  apply (C6_connection_resilience in_use (with_sock in_use None)
           (VStr "get_scene_info") VNone dropping dropped
           (Exn ExceptionC
              "Connection to Fusion360 lost: [Errno 104] Connection reset by peer")).
  - repeat split; repeat constructor.
  - vm_compute. reflexivity.
Defined.

(** A reset during [sendall], and the next call. *)
Example reset_then_reconnect :
  let '(r1, c1, _) := send_command in_use (VStr "get_scene_info") VNone dropping in
  let '(r2, c2, n2) := send_command c1 (VStr "get_scene_info") VNone answering in
  r1 = Raise (Exn ExceptionC
         "Connection to Fusion360 lost: [Errno 104] Connection reset by peer") /\
  sock c1 = None /\
  r2 = Ret (VDict [("bodies", VInt 2)]) /\
  sock c2 = Some 1%nat /\
  sent n2 = [json_bytes "{'type': 'get_scene_info', 'params': {}}"].
Proof. vm_compute. repeat split. Qed.

Lemma C5_witness :
  receive_full_response default_buffer_size (byte_chunks scene_response)
    = (Ret scene_response, []) /\
  receive_full_response default_buffer_size [Chunk scene_response]
    = (Ret scene_response, []).
Proof.
  apply (C5_chunked_receive default_buffer_size scene_response).
  - apply Nat.ltb_lt. vm_compute. reflexivity.
  - vm_compute. reflexivity.
  - vm_compute. reflexivity.
  - vm_compute. reflexivity.
  - vm_compute. reflexivity.
Defined.

(** The payload [accented] is one complete JSON object.  Delivered in a
    single read it is returned as it is and [send_command] returns its
    result; delivered in chunks of one byte, the read that ends between the
    two bytes of the accented character makes [decode] raise
    [UnicodeDecodeError], which no [except] clause of
    [receive_full_response] takes for incomplete data: the call raises with
    the rest of the payload unread, and [send_command] fails and forgets
    its socket. *)
Lemma C5_counterexample :
  is_json_object accented = true /\
  receive_full_response default_buffer_size [Chunk accented] = (Ret accented, []) /\
  receive_full_response default_buffer_size (byte_chunks accented)
  = (Raise (Exn UnicodeDecodeErrorC
       "'utf-8' codec can't decode byte 0xc3 in position 33: unexpected end of data"),
     byte_chunks (Byte.xa9 :: json_bytes "'}")) /\
  (let '(r, c, _) :=
     send_command in_use (VStr "get_object_info") (VDict [("name", VStr "x")])
       (receiving [Chunk accented]) in
   r = Ret (VStr (String "195"%char (String "169"%char ""))) /\
   sock c = Some 0%nat) /\
  (let '(r, c, _) :=
     send_command in_use (VStr "get_object_info") (VDict [("name", VStr "x")])
       (receiving (byte_chunks accented)) in
   r = Raise (Exn ExceptionC
         ("Communication error with Fusion360: "
          ++ "'utf-8' codec can't decode byte 0xc3 in position 33: unexpected end of data")) /\
   sock c = None).
Proof.
  split. { vm_compute. reflexivity. }
  split. { vm_compute. reflexivity. }
  split. { vm_compute. reflexivity. }
  split. { vm_compute. split; reflexivity. }
  vm_compute. split; reflexivity.
Qed.

(** Whitespace after the object: read at once it is part of what is
    returned; read byte by byte the object is returned without it, and the
    line feed is left to the next call. *)
Example padded_response :
  receive_full_response default_buffer_size [Chunk padded] = (Ret padded, []) /\
  receive_full_response default_buffer_size (byte_chunks padded)
  = (Ret (json_bytes "{'a': 1}"), [Chunk [Byte.x0a]]).
Proof. split; vm_compute; reflexivity. Qed.

End ConnectionExamples.
(* ================================================================== *)
(** * Properties of the socket server *)
(* ================================================================== *)

Module ServerFacts.
Import Sock SocketServer.

Lemma has_text_app (a b : list Byte.byte) : has_text a = true -> has_text (a ++ b) = true.
Proof.
  unfold has_text, text_of. rewrite map_app. intros H.
  rewrite skip_ws_app.
  - destruct (skip_ws (map ascii_of_byte a)); [discriminate|reflexivity].
  - intros E. now rewrite E in H.
Qed.

Section Buffers.
Context {runtime : PyRuntime}.

Lemma stuck_app (buffer data : list Byte.byte) : stuck buffer -> stuck (buffer ++ data).
Proof.
  intros (first & extra & v & -> & Hv & Hc & Hx).
  exists first, (extra ++ data), v. rewrite <- app_assoc.
  repeat split; try assumption. now apply has_text_app.
Qed.

(** A stuck buffer is no JSON: [json.loads] raises [JSONDecodeError]. *)
Lemma stuck_no_parse (buffer : list Byte.byte) :
  stuck buffer ->
  json_loads (string_of_list_byte buffer)
  = py_raise (JsonDecodeFailure (string_of_list_byte buffer)).
Proof.
  intros (first & extra & v & -> & Hv & Hc & Hx).
  rewrite string_of_bytes_app.
  apply (json_loads_extra_data _ _ v); [exact Hv|exact Hc|].
  unfold has_text in Hx. intros E. now rewrite E in Hx.
Qed.

End Buffers.

Lemma decode_text (data : list Byte.byte) (text : string) :
  Utf8.decode data = Ret text -> text = string_of_list_byte data.
Proof.
  unfold Utf8.decode. destruct (Utf8.validate _ _); [discriminate|]. congruence.
Qed.

Section Server.
Context `{PyRuntime} {W : Type} `{Host W}.

Lemma sendall_dispatched (data : list Byte.byte) (c : client) :
  dispatched (snd (sendall data c)) = dispatched c.
Proof. unfold sendall. destruct (send_script c) as [|[e|] script]; reflexivity. Qed.

(** Every call of [execute_wrapper] hands one command to the dispatcher. *)
Lemma execute_wrapper_dispatched (command : val) (w : W) (c : client) :
  dispatched (snd (execute_wrapper command w c)) = dispatched c ++ [command].
Proof.
  unfold execute_wrapper.
  destruct (execute_command command w) as [[response|e] w'].
  - destruct (json_dumps response) as [text|e].
    + cbn. now rewrite sendall_dispatched.
    + destruct (is_Exception e); [|reflexivity].
      destruct (json_dumps _); cbn; [now rewrite sendall_dispatched|reflexivity].
  - destruct (is_Exception e); [|reflexivity].
    destruct (json_dumps _); cbn; [now rewrite sendall_dispatched|reflexivity].
Qed.

(** At most one command is dispatched for each read. *)
Lemma client_loop_dispatches (tape : list recv_event) :
  forall (buffer : list Byte.byte) (w : W) (c : client),
  List.length (dispatched (snd (client_loop tape buffer w c)))
  <= List.length (dispatched c) + List.length tape.
Proof.
  induction tape as [|ev tape IH]; intros buffer w c; cbn [client_loop].
  - cbn. lia.
  - destruct ev as [data|e].
    + destruct data as [|b data]; [cbn; lia|].
      destruct (Utf8.decode _) as [text|e]; [|cbn; lia].
      destruct (json_loads text) as [command|e].
      * generalize (execute_wrapper_dispatched command w c).
        destruct (execute_wrapper command w c) as [[[e|] w'] c']; cbn [snd]; intros E.
        -- rewrite E, length_app. cbn. lia.
        -- specialize (IH [] w' c'). rewrite E, length_app in IH. cbn in *. lia.
      * destruct (exn_class_eqb _ _); [|cbn; lia].
        specialize (IH (buffer ++ b :: data) w c). cbn in *. lia.
    + destruct (is_Exception e); cbn; lia.
Qed.

Lemma client_loop_chunk (data : list Byte.byte) (tape : list recv_event)
    (buffer : list Byte.byte) (w : W) (c : client) :
  data <> [] ->
  client_loop (Chunk data :: tape) buffer w c =
  match Utf8.decode (buffer ++ data) with
  | Raise e => (ReceiveError e, w, c)
  | Ret text =>
      match json_loads text with
      | Raise e =>
          if exn_class_eqb (exn_class_of e) JSONDecodeErrorC
          then client_loop tape (buffer ++ data) w c
          else (ReceiveError e, w, c)
      | Ret command =>
          match execute_wrapper command w c with
          | (Some e, w', c') => (Escaped e, w', c')
          | (None, w', c') => client_loop tape [] w' c'
          end
      end
  end.
Proof. intros Hd. destruct data as [|b data]; [contradiction|reflexivity]. Qed.

(** A read that completes a JSON text: one command is dispatched, and the
    loop goes on with an empty buffer. *)
Lemma client_loop_parse (data : list Byte.byte) (tape : list recv_event)
    (buffer : list Byte.byte) (text : string) (command : val) (w : W) (c : client) :
  data <> [] -> Utf8.decode (buffer ++ data) = Ret text ->
  json_loads text = Ret command ->
  client_loop (Chunk data :: tape) buffer w c =
  match execute_wrapper command w c with
  | (Some e, w', c') => (Escaped e, w', c')
  | (None, w', c') => client_loop tape [] w' c'
  end.
Proof.
  intros Hd Ht Hc. rewrite client_loop_chunk by exact Hd. now rewrite Ht, Hc.
Qed.

(** On a stuck buffer the loop dispatches nothing, whatever arrives. *)
Lemma client_loop_stuck (tape : list recv_event) :
  forall (buffer : list Byte.byte) (w : W) (c : client),
  stuck buffer ->
  exists exit, client_loop tape buffer w c = (exit, w, c) /\
    forall kept, exit = Blocked kept -> exists more, kept = buffer ++ more.
Proof.
  induction tape as [|ev tape IH]; intros buffer w c Hs; cbn [client_loop].
  - exists (Blocked buffer). split; [reflexivity|].
    intros kept E. injection E as <-. exists []. now rewrite app_nil_r.
  - destruct ev as [data|e].
    + destruct data as [|b data].
      { exists Disconnected. split; [reflexivity|discriminate]. }
      destruct (Utf8.decode _) as [text|e] eqn:Et.
      * apply decode_text in Et. subst text.
        rewrite (stuck_no_parse _ (stuck_app buffer (b :: data) Hs)).
        unfold py_raise. cbn [exn_class_of py_error_class exn_class_eqb].
        destruct (IH (buffer ++ b :: data) w c (stuck_app _ _ Hs))
          as (exit & E & Hk).
        exists exit. split; [exact E|].
        intros kept Ek. destruct (Hk kept Ek) as [more ->].
        exists ((b :: data) ++ more). now rewrite <- app_assoc.
      * exists (ReceiveError e). split; [reflexivity|discriminate].
    + destruct (is_Exception e).
      * exists (ReceiveError e). split; [reflexivity|discriminate].
      * exists (Escaped e). split; [reflexivity|discriminate].
Qed.

Lemma handle_client_arriving (tape : list recv_event) (w : W) (c : client) :
  _handle_client w (arriving tape c)
  = client_loop (reads recv_size tape) [] w (arriving [] c).
Proof. reflexivity. Qed.

(** C10, amended: a command that arrives alone is handed to the dispatcher
    once and the buffer starts empty again; when more than whitespace arrives
    with it in the same read (a second pipelined command, for one), the
    buffer is no JSON: nothing is dispatched, nothing is answered, no byte
    is dropped, and nothing that arrives later is dispatched either. *)
Theorem C10_pipelined_commands (first extra : list Byte.byte) (text : string)
    (command : val) (tape : list recv_event) (w : W) (c : client) :
  Utf8.decode first = Ret text -> json_loads text = Ret command ->
  is_container command = true -> has_text extra = true ->
  List.length (first ++ extra) <= recv_size ->
  _handle_client w (arriving (Chunk first :: tape) c) =
    match execute_wrapper command w (arriving [] c) with
    | (Some e, w', c') => (Escaped e, w', c')
    | (None, w', c') => client_loop (reads recv_size tape) [] w' c'
    end /\
  dispatched (snd (execute_wrapper command w (arriving [] c)))
    = dispatched c ++ [command] /\
  exists exit,
    _handle_client w (arriving (Chunk (first ++ extra) :: tape) c)
      = (exit, w, arriving [] c) /\
    forall kept, exit = Blocked kept -> exists more, kept = first ++ extra ++ more.
Proof.
  intros Ht Hc Hv Hx Hl.
  assert (Hfirst : first <> []).
  { intros ->. cbn in Ht. injection Ht as <-. discriminate Hc. }
  split; [|split].
  - rewrite handle_client_arriving.
    rewrite reads_cons_short; [|exact Hfirst|rewrite length_app in Hl; lia].
    apply (client_loop_parse first _ [] text); assumption.
  - apply (execute_wrapper_dispatched command w (arriving [] c)).
  - rewrite handle_client_arriving.
    rewrite reads_cons_short; [|destruct first; [contradiction|discriminate]|exact Hl].
    assert (Hs : stuck (first ++ extra)).
    { exists first, extra, command. repeat split; try assumption.
      now rewrite <- (decode_text _ _ Ht). }
    rewrite client_loop_chunk by (destruct first; [contradiction|discriminate]).
    rewrite app_nil_l.
    destruct (Utf8.decode (first ++ extra)) as [text'|e] eqn:Et.
    + apply decode_text in Et. subst text'.
      rewrite (stuck_no_parse _ Hs).
      unfold py_raise. cbn [exn_class_of py_error_class exn_class_eqb].
      destruct (client_loop_stuck (reads recv_size tape) _ w (arriving [] c) Hs)
        as (exit & E & Hk).
      exists exit. split; [exact E|].
      intros kept Ek. destruct (Hk kept Ek) as [more ->].
      exists more. now rewrite <- app_assoc.
    + exists (ReceiveError e). split; [reflexivity|discriminate].
Qed.

End Server.

End ServerFacts.

Module ServerExamples.
Import Sock SocketServer MockHost Examples.

Lemma C10_witness :
  _handle_client no_design (arriving [Chunk scene_query] (fresh_client [])) =
    match execute_wrapper scene_command no_design
            (arriving [] (fresh_client [])) with
    | (Some e, w', c') => (Escaped e, w', c')
    | (None, w', c') => client_loop (reads recv_size []) [] w' c'
    end /\
  dispatched (snd (execute_wrapper scene_command no_design
                     (arriving [] (fresh_client []))))
    = dispatched (fresh_client []) ++ [scene_command] /\
  exists exit,
    _handle_client no_design
      (arriving [Chunk (scene_query ++ scene_query)] (fresh_client []))
      = (exit, no_design, arriving [] (fresh_client [])) /\
    forall kept, exit = Blocked kept ->
      exists more, kept = scene_query ++ scene_query ++ more.
Proof.
  apply (ServerFacts.C10_pipelined_commands scene_query scene_query
           (json_text "{'type': 'get_scene_info'}")
           scene_command [] no_design (fresh_client [])).
  - vm_compute. reflexivity.
  - vm_compute. reflexivity.
  - vm_compute. reflexivity.
  - vm_compute. reflexivity.
  - apply Nat.leb_le. vm_compute. reflexivity.
Defined.

(** Two commands that arrive in one read: the buffer holds both and is no
    JSON, so neither is dispatched, nothing is answered, and the handler
    waits with both in its buffer. *)
Lemma C10_counterexample :
  _handle_client no_design (fresh_client [Chunk (scene_query ++ scene_query)])
  = (Blocked (scene_query ++ scene_query), no_design, fresh_client []).
Proof. vm_compute. reflexivity. Qed.

(** One command that arrives alone is dispatched and answered, and the
    handler waits with an empty buffer. *)
Example one_command_answered :
  _handle_client no_design (fresh_client [Chunk scene_query])
  = (Blocked [], no_design,
     {| incoming := []; send_script := [];
        sent := [json_bytes
                   "{'status': 'success', 'result': {'error': 'No active design'}}"];
        dispatched := [scene_command] |}).
Proof. vm_compute. reflexivity. Qed.

(** Two commands in two reads are both dispatched. *)
Example two_reads_two_commands :
  dispatched
    (snd (_handle_client no_design
            (fresh_client [Chunk scene_query; Chunk scene_query])))
  = [scene_command; scene_command].
Proof. vm_compute. reflexivity. Qed.

End ServerExamples.
(* ================================================================== *)
(** * Further properties of the dispatcher *)
(* ================================================================== *)

Module DispatcherProperties.
Import Py HostApi CommandHandler Terms.
Local Open Scope string_scope.
Local Open Scope list_scope.

Section Dispatch.
Context `{PyRuntime} {W : Type} `{Host W}.

(** X1. A command that is no JSON object, or whose [type] is missing or is
    no string, reaches no handler and does not touch the host: the response
    is an error response with the interpreter's text, or with
    ["Unknown command type: "] and [str] of the type (with what [str]
    raises, when it does not print the type). *)
Theorem X1_malformed_command (command : val) (message : string) (w : W) :
  malformed_reply command = Some message ->
  execute_command command w = (Ret (error_response message), w).
Proof.
  assert (Hstr : forall t : val,
    match py_str t with
    | Ret printed => Some ("Unknown command type: " ++ printed)%string
    | Raise e => Some (exn_msg e)
    end = Some message ->
    match
      (let (o, w') := (py_str t, w) in
       match o with
       | Ret a => (Ret (error_response ("Unknown command type: " ++ a)%string), w')
       | Raise e => (Raise e, w')
       end)
    with
    | (Ret a, w') => (Ret a, w')
    | (Raise e, w') =>
        if is_Exception e then (Ret (error_response (exn_msg e)), w') else (Raise e, w')
    end = (Ret (error_response message), w)).
  { intros t. destruct (py_str t) as [printed|e] eqn:Es.
    - intros E; injection E as <-; reflexivity.
    - intros E; injection E as <-.
      assert (He : is_Exception e = true).
      { unfold is_Exception. destruct (py_str_raises _ _ Es) as [-> | ->]; reflexivity. }
      now rewrite He. }
  unfold malformed_reply, execute_command, try_except, _execute_command_internal.
  unfold bind, lift, command_get, handlers_get, str_dict_get, ret.
  destruct command as [|b|z|f|s|l|d|r];
    try (unfold py_raise; cbn; intros E; injection E as <-; reflexivity).
  destruct (arg d "type" VNone) as [|b|z|f|s|l|d'|r]; try discriminate;
    try (unfold py_raise; cbn; intros E; injection E as <-; reflexivity);
    apply Hstr.
Qed.

Lemma bind_kwargs_raises (func : string) (required optional : list string)
    (params : val) (e : exn) :
  bind_kwargs func required optional params = Raise e -> is_Exception e = true.
Proof.
  unfold bind_kwargs, py_raise. destruct params as [| | | | | |d|];
    try (intros E; injection E as <-; reflexivity).
  destruct (find _ (dict_keys d)) as [k|].
  - destruct (String.eqb k "self"); intros E; injection E as <-; reflexivity.
  - destruct (filter _ required); [discriminate|].
    intros E; injection E as <-; reflexivity.
Qed.

Ltac unfold_call :=
  cbn [snd];
  unfold call_get_scene_info, call_get_object_info, call_execute_code,
    call_create_sketch, call_draw_rectangle, call_draw_circle, call_draw_line,
    call_extrude, call_revolve, call_fillet, call_chamfer, call_shell, call_mirror.

Ltac each_signature Hin :=
  unfold signatures in Hin; cbn [In] in Hin;
  repeat (destruct Hin as [Hin|Hin]; [injection Hin as <- <- <-|]);
  [..|contradiction].

(** X2. When the keyword arguments of a command do not fit the handler (they
    are no mapping, name a parameter the handler does not have, or leave out
    one without a default), the response is the error response with the
    text of the [TypeError] of the call, and the host has not been touched. *)
Theorem X2_arguments_checked_first (d : list (string * val)) (type : string)
    (required optional : list string) (e : exn) (w : W) :
  dict_get d "type" = Some (VStr type) ->
  In (type, (required, optional)) signatures ->
  bind_kwargs type required optional (arg d "params" (VDict [])) = Raise e ->
  execute_command (VDict d) w = (Ret (error_response (exn_msg e)), w).
Proof.
  intros Ht Hin Hb. pose proof (bind_kwargs_raises _ _ _ _ _ Hb) as He.
  each_signature Hin;
    (erewrite execute_command_dispatch; [|exact Ht|reflexivity]);
    unfold_call; unfold bind, lift; rewrite Hb; unfold respond; now rewrite He.
Qed.

Local Open Scope host_scope.

Lemma guarded_fails {A : Type} (check : val -> M W A) (rest : val -> A -> M W val)
    (prefix text : string) (w w' : W) :
  (design <- attr app "activeProduct";;
   root_component <- attr design "rootComponent";;
   check root_component) w = (Raise (Exn ExceptionC text), w') ->
  try_except
    (design <- attr app "activeProduct";;
     root_component <- attr design "rootComponent";;
     x <- check root_component;;
     rest root_component x)
    (fun e => raise_Exception (prefix ++ exn_msg e)) w
  = (Raise (Exn ExceptionC (prefix ++ text)), w').
Proof.
  unfold try_except, bind.
  destruct (attr app "activeProduct" w) as [[design|e] w1].
  - destruct (attr design "rootComponent" w1) as [[rc|e] w2].
    + destruct (check rc w2) as [[x|e] w3]; [discriminate|].
      intros E; injection E as -> ->. reflexivity.
    + intros E; injection E as -> ->. reflexivity.
  - intros E; injection E as -> ->. reflexivity.
Qed.

Lemma last_sketch_none (text : string) (count : val) (w w' : W) :
  path app ["activeProduct"; "rootComponent"; "sketches"; "count"] w = (Ret count, w') ->
  py_eq count (VInt 0) = true ->
  (design <- attr app "activeProduct";;
   root_component <- attr design "rootComponent";;
   last_sketch root_component text) w = (Raise (Exn ExceptionC text), w').
Proof.
  intros Hp Hc. cbn [path] in Hp. unfold bind in Hp.
  unfold last_sketch. cbn [path]. unfold bind.
  destruct (attr app "activeProduct" w) as [[design|e] w1]; [|discriminate].
  destruct (attr design "rootComponent" w1) as [[rc|e] w2]; [|discriminate].
  destruct (attr rc "sketches" w2) as [[sk|e] w3]; [|discriminate].
  destruct (attr sk "count" w3) as [[c|e] w4]; [|discriminate].
  unfold ret in Hp. injection Hp as -> ->. unfold ret. now rewrite Hc.
Qed.

Lemma body_of_none (index : val) (text : string) (count : val) (w w' : W) :
  path app ["activeProduct"; "rootComponent"; "bRepBodies"; "count"] w = (Ret count, w') ->
  py_eq count (VInt 0) = true ->
  (design <- attr app "activeProduct";;
   root_component <- attr design "rootComponent";;
   body_of root_component index text) w = (Raise (Exn ExceptionC text), w').
Proof.
  intros Hp Hc. cbn [path] in Hp. unfold bind in Hp.
  unfold body_of. cbn [path]. unfold bind.
  destruct (attr app "activeProduct" w) as [[design|e] w1]; [|discriminate].
  destruct (attr design "rootComponent" w1) as [[rc|e] w2]; [|discriminate].
  destruct (attr rc "bRepBodies" w2) as [[sk|e] w3]; [|discriminate].
  destruct (attr sk "count" w3) as [[c|e] w4]; [|discriminate].
  unfold ret in Hp. injection Hp as -> ->. unfold ret. now rewrite Hc.
Qed.

Ltac this_signature Hin :=
  unfold signatures in Hin; cbn [In] in Hin;
  repeat (destruct Hin as [Hin|Hin];
          [first [discriminate Hin | injection Hin as <- <-]|]);
  [..|contradiction].

(** X3. The handlers that draw in a sketch or build on one, and those that
    work on a body, test first that the design has one: when the count of
    sketches (of bodies) of the root component is [0], the response is the
    error response with the message of the handler, and nothing has been
    done on the host but the reads up to that count. *)
Theorem X3_nothing_to_work_on (d : list (string * val)) (type collection message : string)
    (count : val) (w w' : W) :
  dict_get d "type" = Some (VStr type) ->
  In (type, (collection, message)) needs ->
  binds type d ->
  path app ["activeProduct"; "rootComponent"; collection; "count"] w = (Ret count, w') ->
  py_eq count (VInt 0) = true ->
  execute_command (VDict d) w = (Ret (error_response message), w').
Proof.
  intros Ht Hn (required & optional & kw & Hin & Hb) Hp Hc.
  unfold needs in Hn; cbn [In] in Hn.
  repeat (destruct Hn as [Hn|Hn]; [injection Hn as <- <- <-|]); [..|contradiction];
    this_signature Hin;
    (erewrite execute_command_dispatch; [|exact Ht|reflexivity]);
    unfold_call; unfold bind at 1, lift; rewrite Hb.
  - unfold draw_circle.
    erewrite guarded_fails; [reflexivity|]. now apply last_sketch_none with (count := count).
  - unfold draw_line.
    erewrite guarded_fails; [reflexivity|]. now apply last_sketch_none with (count := count).
  - unfold extrude.
    erewrite guarded_fails; [reflexivity|]. now apply last_sketch_none with (count := count).
  - unfold revolve.
    erewrite guarded_fails; [reflexivity|]. now apply last_sketch_none with (count := count).
  - unfold fillet.
    erewrite guarded_fails; [reflexivity|]. now apply body_of_none with (count := count).
  - unfold chamfer.
    erewrite guarded_fails; [reflexivity|]. now apply body_of_none with (count := count).
  - unfold shell.
    erewrite guarded_fails; [reflexivity|]. now apply body_of_none with (count := count).
  - unfold mirror.
    erewrite guarded_fails; [reflexivity|]. now apply body_of_none with (count := count).
Qed.

(** X4. [extrude] and [revolve] on a last sketch without profiles: the
    response is the error response of the handler, and no feature has been
    asked for. *)
Theorem X4_sketch_without_profiles (d : list (string * val)) (type : string)
    (rc sketch count : val) (w w1 w2 w3 : W) :
  In type ["extrude"; "revolve"] ->
  dict_get d "type" = Some (VStr type) ->
  binds type d ->
  path app ["activeProduct"; "rootComponent"] w = (Ret rc, w1) ->
  last_sketch rc "No sketch available." w1 = (Ret sketch, w2) ->
  path sketch ["profiles"; "count"] w2 = (Ret count, w3) ->
  py_eq count (VInt 0) = true ->
  execute_command (VDict d) w
  = (Ret (error_response ("Failed to " ++ type ++ ": No profiles found in sketch.")), w3).
Proof.
  intros Hty Ht (required & optional & kw & Hin & Hb) Hrc Hs Hp Hc.
  cbn [path] in Hrc. unfold bind, ret in Hrc.
  destruct (attr app "activeProduct" w) as [[design|e] wa] eqn:Ea; [|discriminate].
  destruct (attr design "rootComponent" wa) as [[rc'|e] wb] eqn:Eb; [|discriminate].
  injection Hrc as -> ->.
  assert (Hprofile : forall index,
            profile_of sketch index w2
            = (Raise (Exn ExceptionC "No profiles found in sketch."), w3)).
  { intros index. unfold profile_of, bind. rewrite Hp, Hc. reflexivity. }
  cbn [In] in Hty. destruct Hty as [<-|[<-|[]]];
    this_signature Hin;
    (erewrite execute_command_dispatch; [|exact Ht|reflexivity]);
    unfold_call; unfold bind at 1, lift; rewrite Hb.
  - unfold extrude, try_except, bind. rewrite Ea, Eb, Hs, Hprofile. reflexivity.
  - unfold revolve, try_except, bind. rewrite Ea, Eb, Hs, Hprofile. reflexivity.
Qed.

Lemma respond_wrapped (body : M W val) (prefix : string) (r : val) (w w' : W) :
  respond (try_except body (fun e => raise_Exception (prefix ++ exn_msg e)) w)
    = (Ret r, w') ->
  status_of r = Some (VStr "error") ->
  exists m, r = error_response (prefix ++ m).
Proof.
  unfold respond, try_except, raise_Exception, raise.
  destruct (body w) as [[x|e] w1].
  - intros E; injection E as <- _. discriminate.
  - destruct (is_Exception e) eqn:He.
    + cbn. intros E; injection E as <- _. intros _. now exists (exn_msg e).
    + rewrite He. discriminate.
Qed.

(** X5. The error of a handler that changes the design names the handler:
    when the arguments fit, every error response to such a command has a
    message that begins with the text of the handler (["Failed to
    extrude: "] and the like). *)
Theorem X5_errors_name_the_handler (d : list (string * val)) (type prefix : string)
    (r : val) (w w' : W) :
  dict_get d "type" = Some (VStr type) ->
  In (type, prefix) prefixes ->
  binds type d ->
  execute_command (VDict d) w = (Ret r, w') ->
  status_of r = Some (VStr "error") ->
  exists m, r = error_response (prefix ++ m).
Proof.
  intros Ht Hp (required & optional & kw & Hin & Hb).
  unfold prefixes in Hp; cbn [In] in Hp.
  repeat (destruct Hp as [Hp|Hp]; [injection Hp as <- <-|]); [..|contradiction];
    this_signature Hin;
    (erewrite execute_command_dispatch; [|exact Ht|reflexivity]);
    unfold_call; unfold bind at 1, lift; rewrite Hb;
    apply respond_wrapped.
Qed.

(** ** Values that stand for a default *)

Lemma bind_same_but {A : Type} (key : string) (v : val) (m : M W A)
    (k1 k2 : A -> M W val) (w : W) :
  (forall a w', same_but key v (k1 a w') (k2 a w')) ->
  same_but key v (bind m k1 w) (bind m k2 w).
Proof.
  intros Hk. unfold same_but, bind in *.
  destruct (m w) as [[a|e] w1]; [apply Hk|reflexivity].
Qed.

Lemma bind_same_but_from {A : Type} (key : string) (v : val) (m1 m2 : M W A)
    (k1 k2 : A -> M W val) (w : W) :
  m1 w = m2 w ->
  (forall a w', same_but key v (k1 a w') (k2 a w')) ->
  same_but key v (bind m1 k1 w) (bind m2 k2 w).
Proof.
  intros Hm Hk. unfold same_but, bind in *. rewrite Hm.
  destruct (m2 w) as [[a|e] w1]; [apply Hk|reflexivity].
Qed.

Lemma try_except_same_but (key : string) (v : val) (m1 m2 : M W val)
    (f : exn -> string) (w : W) :
  same_but key v (m1 w) (m2 w) ->
  same_but key v
    (try_except m1 (fun e => raise_Exception (f e)) w)
    (try_except m2 (fun e => raise_Exception (f e)) w).
Proof.
  unfold same_but, try_except. intros ->.
  destruct (m2 w) as [[x|e] w1]; cbn.
  - destruct x; reflexivity.
  - destruct (is_Exception e); reflexivity.
Qed.

Lemma plane_fallback (rc : val) (plane : string) (w : W) :
  reads_quietly "xYConstructionPlane" -> reads_quietly "yZConstructionPlane" ->
  reads_quietly "xZConstructionPlane" ->
  ~ In plane known_planes ->
  construction_plane_of rc (VStr plane) w = construction_plane_of rc (VStr "xy") w.
Proof.
  intros Hxy Hyz Hxz Hn. unfold construction_plane_of, bind.
  pose proof (Hxy rc w) as E1.
  destruct (attr rc "xYConstructionPlane" w) as [[xy|e] w1] eqn:Exy;
    cbn in E1; subst w1; [|reflexivity].
  pose proof (Hyz rc w) as E2.
  destruct (attr rc "yZConstructionPlane" w) as [[yz|e] w1];
    cbn in E2; subst w1; [|reflexivity].
  pose proof (Hxz rc w) as E3.
  destruct (attr rc "xZConstructionPlane" w) as [[xz|e] w1];
    cbn in E3; subst w1; [|reflexivity].
  rewrite Exy. unfold lift, str_dict_get. cbn [find fst snd].
  destruct (String.eqb_spec "xy" plane) as [<-|_]; [exfalso; apply Hn; cbn; tauto|].
  destruct (String.eqb_spec "yz" plane) as [<-|_]; [exfalso; apply Hn; cbn; tauto|].
  destruct (String.eqb_spec "xz" plane) as [<-|_]; [exfalso; apply Hn; cbn; tauto|].
  reflexivity.
Qed.

(** X6. A plane that is none of [xy], [yz], [xz] stands for [xy] in
    [create_sketch] and in [mirror]: on a host where reading a construction
    plane changes nothing, the handler does to the host what it does for
    [xy] and ends the same way, except that the result echoes the plane as
    it was given. *)
Theorem X6_unknown_plane_is_xy (plane : string) (body_index : val) (w : W) :
  reads_quietly "xYConstructionPlane" -> reads_quietly "yZConstructionPlane" ->
  reads_quietly "xZConstructionPlane" ->
  ~ In plane known_planes ->
  same_but "plane" (VStr plane)
    (create_sketch (VStr plane) w) (create_sketch (VStr "xy") w) /\
  same_but "mirror_plane" (VStr plane)
    (mirror (VStr plane) body_index w) (mirror (VStr "xy") body_index w).
Proof.
  intros Hxy Hyz Hxz Hn. split.
  - unfold create_sketch. apply try_except_same_but.
    do 2 (apply bind_same_but; intros).
    apply bind_same_but_from; [now apply plane_fallback|intros].
    repeat (apply bind_same_but; intros). reflexivity.
  - unfold mirror. apply try_except_same_but.
    do 3 (apply bind_same_but; intros).
    apply bind_same_but_from; [now apply plane_fallback|intros].
    repeat (apply bind_same_but; intros). reflexivity.
Qed.

(** X7. A [revolve] whose [operation] is none of [new_body], [join], [cut],
    [intersect] is carried out as a new-body operation: the handler does to
    the host what it does for [new_body] and ends the same way, except that
    the result echoes the operation as it was given. *)
Theorem X7_revolve_unknown_operation
    (angle profile_index ox oy oz dx dy dz : val) (operation : string) (w : W) :
  ~ In operation known_operations ->
  same_but "operation" (VStr operation)
    (revolve angle profile_index ox oy oz dx dy dz (VStr operation) w)
    (revolve angle profile_index ox oy oz dx dy dz (VStr "new_body") w).
Proof.
  intros Hn. unfold revolve. apply try_except_same_but.
  rewrite (operation_type_unknown operation Hn).
  change (operation_type_of (VStr "new_body"))
    with (Ret (A := val) (feature_operation NewBodyFeatureOperation)).
  repeat (apply bind_same_but; intros).
  reflexivity.
Qed.

(** X8. In [extrude] every direction but [symmetric] and [negative] is the
    positive one: the handler does to the host what it does for [positive]
    (a distance extent that is not negative) and ends the same way, except
    that the result echoes the direction as it was given. *)
Theorem X8_extrude_unknown_direction
    (height profile_index operation : val) (direction : string) (w : W) :
  direction <> "symmetric" -> direction <> "negative" ->
  same_but "direction" (VStr direction)
    (extrude height profile_index operation (VStr direction) w)
    (extrude height profile_index operation (VStr "positive") w).
Proof.
  intros Hs Hg. unfold extrude. apply try_except_same_but.
  cbn [py_eq].
  destruct (String.eqb_spec direction "symmetric") as [E|_]; [contradiction|].
  destruct (String.eqb_spec direction "negative") as [E|_]; [contradiction|].
  cbn [String.eqb Ascii.eqb Bool.eqb].
  repeat (apply bind_same_but; intros).
  reflexivity.
Qed.

End Dispatch.

End DispatcherProperties.

(* ================================================================== *)
(** * Further properties of the connection manager *)
(* ================================================================== *)

Module ConnectionProperties.
Import Py HostApi CommandHandler Terms.
Import Sock Connection.
Local Open Scope string_scope.
Local Open Scope list_scope.

(** X9. [connect] leaves a connection that has a socket alone, never raises
    an [Exception], and returns [True] exactly when the connection has a
    socket afterwards. *)
Theorem X9_connect (c c' : Fusion360Connection) (n n' : net) (r : outcome bool) :
  connect c n = (r, c', n') ->
  (sock c <> None -> r = Ret true /\ c' = c /\ n' = n) /\
  match r with
  | Ret b => b = true <-> sock c' <> None
  | Raise e => is_Exception e = false
  end.
Proof.
  unfold connect. destruct (sock c) as [s|] eqn:Es.
  - intros E; injection E as <- <- <-. split; [auto|].
    rewrite Es. split; [discriminate|reflexivity].
  - split; [intros Hs; now contradiction Hs|].
    destruct (connect_script n) as [|[e|] script].
    + injection H as <- <- <-. cbn. split; [discriminate|intros Hs; now contradiction Hs].
    + destruct (is_Exception e) eqn:He; injection H as <- <- <-; cbn.
      * split; [discriminate|intros Hs; now contradiction Hs].
      * exact He.
    + injection H as <- <- <-. cbn. split; [discriminate|reflexivity].
Qed.

Section Send.
Context `{PyRuntime}.

(** X10. Without a socket and with a peer that refuses the connection,
    [send_command] raises [ConnectionError] with the text
    ["Not connected to Fusion360"]: nothing is sent, and the connection
    still has no socket. *)
Theorem X10_not_connected (c : Fusion360Connection) (command_type params : val) (n : net) :
  sock c = None -> refusing n ->
  send_command c command_type params n
  = (Raise (Exn ConnectionErrorC "Not connected to Fusion360"),
     with_sock c None, attempted n).
Proof.
  intros Hs Hr. unfold send_command, connect, refusing, attempted in *. rewrite Hs.
  destruct (connect_script n) as [|[e|] script]; [reflexivity| |contradiction].
  now rewrite Hr.
Qed.

(** What [send_command] does once the response has been received. *)
Lemma send_command_received (command_type params : val)
    (n n1 : net) (text : string) (data : list Byte.byte) (rest : list recv_event) :
  prints command_type -> prints params ->
  Json.json_dumps (command_sent command_type params) = Ret text ->
  sendall (Utf8.encode text) n = (Ret tt, n1) ->
  receive_full_response default_buffer_size (recv_script n1) = (Ret data, rest) ->
  exchange command_type params n = (interpret data, received n1 rest).
Proof.
  intros [a Ha] [b Hb] Hd Hsend Hr. unfold exchange, command_sent in *.
  rewrite Ha. cbn [and_then]. now rewrite Hb, Hd, Hsend, Hr.
Qed.

Lemma py_eq_error (status : val) :
  py_eq status (VStr "error") = true -> status = VStr "error".
Proof.
  destruct status as [|b|z|f|s|l|d|r]; cbn; try discriminate;
    try (destruct b; discriminate).
  intros E. apply String.eqb_eq in E. now subst s.
Qed.

(** The message that is logged is the message that is raised, or [None]. *)
Lemma logged_message (d : list (string * val)) (default : val) :
  arg d "message" VNone = arg d "message" default \/ arg d "message" VNone = VNone.
Proof. unfold arg. destruct (dict_get d "message"); [now left|now right]. Qed.

(** What [send_command] makes of an error response. *)
Lemma interpret_error (data : list Byte.byte) (reply : string)
    (d : list (string * val)) (status : val) :
  Utf8.decode data = Ret reply -> Json.json_loads reply = Ret (VDict d) ->
  dict_get d "status" = Some status -> py_eq status (VStr "error") = true ->
  interpret data
  = and_then (py_str (arg d "message" (VStr "Unknown error from Fusion360")))
      (fun shown => Raise (Exn ExceptionC shown)).
Proof.
  intros Hdec Hl Hst Herr. apply py_eq_error in Herr. subst status.
  unfold interpret. rewrite Hdec. cbn [and_then]. rewrite Hl. cbn [and_then response_get].
  unfold arg at 1 2. rewrite Hst. cbn [py_str and_then py_eq String.eqb Ascii.eqb Bool.eqb].
  destruct (logged_message d (VStr "Unknown error from Fusion360")) as [-> | ->].
  - destruct (py_str _) as [shown|e]; reflexivity.
  - reflexivity.
Qed.

Lemma send_command_error (c : Fusion360Connection) (command_type params : val)
    (n n1 : net) (s : nat) (text reply : string) (data : list Byte.byte)
    (rest : list recv_event) (d : list (string * val)) (status : val) :
  sock c = Some s -> prints command_type -> prints params ->
  Json.json_dumps (command_sent command_type params) = Ret text ->
  sendall (Utf8.encode text) n = (Ret tt, n1) ->
  receive_full_response default_buffer_size (recv_script n1) = (Ret data, rest) ->
  Utf8.decode data = Ret reply -> Json.json_loads reply = Ret (VDict d) ->
  dict_get d "status" = Some status -> py_eq status (VStr "error") = true ->
  exists e,
    and_then (py_str (arg d "message" (VStr "Unknown error from Fusion360")))
      (fun shown => Raise (A := val) (Exn ExceptionC shown)) = Raise e /\
    send_command c command_type params n
    = (Raise (Exn ExceptionC ("Communication error with Fusion360: " ++ exn_msg e)),
       with_sock c None, received n1 rest).
Proof.
  intros Hs Hct Hp Hd Hsend Hr Hdec Hl Hst Herr.
  unfold send_command. rewrite Hs.
  rewrite (send_command_received _ _ n n1 text data rest Hct Hp Hd Hsend Hr).
  rewrite (interpret_error data reply d status Hdec Hl Hst Herr).
  destruct (py_str _) as [shown|e] eqn:Es; cbn [and_then].
  - eexists. split; reflexivity.
  - exists e. split; [reflexivity|].
    destruct (py_str_raises _ _ Es) as [-> | ->]; reflexivity.
Qed.

(** X11. When the add-in answers with an error response, [send_command]
    raises [Exception] with ["Communication error with Fusion360: "] and the
    message of the response, and forgets its socket, though the connection
    has worked.  ([str()] prints the command type and the parameters for
    the log, and the message.) *)
Theorem X11_error_response (c : Fusion360Connection) (command_type params : val)
    (n n1 : net) (s : nat) (text reply shown : string) (data : list Byte.byte)
    (rest : list recv_event) (d : list (string * val)) (status : val) :
  sock c = Some s -> prints command_type -> prints params ->
  Json.json_dumps (command_sent command_type params) = Ret text ->
  sendall (Utf8.encode text) n = (Ret tt, n1) ->
  receive_full_response default_buffer_size (recv_script n1) = (Ret data, rest) ->
  Utf8.decode data = Ret reply -> Json.json_loads reply = Ret (VDict d) ->
  dict_get d "status" = Some status -> py_eq status (VStr "error") = true ->
  py_str (arg d "message" (VStr "Unknown error from Fusion360")) = Ret shown ->
  send_command c command_type params n
  = (Raise (Exn ExceptionC ("Communication error with Fusion360: " ++ shown)),
     with_sock c None, received n1 rest).
Proof.
  intros Hs Hct Hp Hd Hsend Hr Hdec Hl Hst Herr Hshown.
  destruct (send_command_error c command_type params n n1 s text reply data rest d
              status Hs Hct Hp Hd Hsend Hr Hdec Hl Hst Herr) as (e & He & ->).
  rewrite Hshown in He. cbn in He. injection He as <-. reflexivity.
Qed.

(** X12. When the response is a JSON object whose status is not ["error"],
    [send_command] returns its [result], or an empty dict when it has none,
    and keeps its socket.  ([str()] prints the command type and the
    parameters for the log, and the status.) *)
Theorem X12_result_of_response (c : Fusion360Connection) (command_type params : val)
    (n n1 : net) (s : nat) (text reply : string) (data : list Byte.byte)
    (rest : list recv_event) (d : list (string * val)) :
  sock c = Some s -> prints command_type -> prints params ->
  Json.json_dumps (command_sent command_type params) = Ret text ->
  sendall (Utf8.encode text) n = (Ret tt, n1) ->
  receive_full_response default_buffer_size (recv_script n1) = (Ret data, rest) ->
  Utf8.decode data = Ret reply -> Json.json_loads reply = Ret (VDict d) ->
  prints (arg d "status" (VStr "unknown")) ->
  py_eq (arg d "status" VNone) (VStr "error") = false ->
  send_command c command_type params n
  = (Ret (arg d "result" (VDict [])), c, received n1 rest).
Proof.
  intros Hs Hct Hp Hd Hsend Hr Hdec Hl [logged Hlog] Hst.
  unfold send_command. rewrite Hs.
  rewrite (send_command_received _ _ n n1 text data rest Hct Hp Hd Hsend Hr).
  unfold interpret. rewrite Hdec. cbn [and_then]. rewrite Hl.
  cbn [and_then response_get]. rewrite Hlog. cbn [and_then]. now rewrite Hst.
Qed.

End Send.

(** ** Responses that do not come *)

Section Silence.
Context {runtime : PyRuntime}.

Lemma receive_loop_never_complete (chunks : list (list Byte.byte)) :
  forall (acc : list (list Byte.byte)) (tape : list recv_event),
  Forall (fun c => c <> []) chunks ->
  (forall pre post, chunks = pre ++ post -> pre <> [] -> complete (acc ++ pre) = Ret None) ->
  receive_loop (map Chunk chunks ++ tape) acc = receive_loop tape (acc ++ chunks).
Proof.
  induction chunks as [|ch chunks IH]; intros acc tape Hne Hc.
  - now rewrite app_nil_r.
  - apply Forall_cons_iff in Hne. destruct Hne as [Hch Hne].
    destruct ch as [|b ch]; [contradiction|].
    change (map Chunk ((b :: ch) :: chunks) ++ tape)
      with (Chunk (b :: ch) :: (map Chunk chunks ++ tape)).
    cbn [receive_loop].
    rewrite (Hc [b :: ch] chunks eq_refl) by discriminate.
    rewrite IH; [now rewrite <- app_assoc|exact Hne|].
    intros pre post E Hpre. rewrite <- app_assoc.
    apply (Hc ((b :: ch) :: pre) post); [now rewrite E|discriminate].
Qed.

Lemma reads_app (n : nat) (a b : list recv_event) :
  reads n (a ++ b) = reads n a ++ reads n b.
Proof. unfold reads. apply flat_map_app. Qed.

Lemma reads_small_chunks (n : nat) (chunks : list (list Byte.byte)) :
  Forall (fun c => c <> [] /\ List.length c <= n) chunks ->
  reads n (map Chunk chunks) = map Chunk chunks.
Proof.
  induction 1 as [|ch chunks [Hne Hl] _ IH]; [reflexivity|].
  cbn [map]. rewrite reads_cons_short by assumption. now rewrite IH.
Qed.

Lemma reads_goes_quiet (n : nat) (tape : list recv_event) :
  goes_quiet tape -> goes_quiet (reads n tape).
Proof.
  destruct tape as [|[[|b data]|e] tape]; cbn; intros Hq;
    try contradiction; auto.
Qed.

(** X13. A response that does not come to an end: when the chunks that
    arrive (each within the buffer size) never make a complete JSON text and
    then the socket times out or the peer closes the connection,
    [receive_full_response] raises [Exception] with the text
    ["Incomplete JSON response received"]; when nothing has arrived at all,
    with ["No data received"] after a timeout and with ["Connection closed
    before receiving any data"] after the peer has closed. *)
Theorem X13_response_never_complete (buffer_size : nat)
    (chunks : list (list Byte.byte)) (tape : list recv_event) :
  Forall (fun c => c <> [] /\ List.length c <= buffer_size) chunks ->
  never_complete chunks -> goes_quiet tape ->
  receive_full_response buffer_size (map Chunk chunks ++ tape)
  = (Raise (Exn ExceptionC
       match chunks, tape with
       | [], Chunk [] :: _ => "Connection closed before receiving any data"
       | [], _ => "No data received"
       | _, _ => "Incomplete JSON response received"
       end), reads buffer_size (tl tape)).
Proof.
  intros Hsmall Hnever Hq. unfold receive_full_response.
  rewrite reads_app, reads_small_chunks by exact Hsmall.
  rewrite receive_loop_never_complete.
  - change ([] ++ chunks) with chunks.
    assert (Hlast : chunks <> [] -> complete chunks = Ret None).
    { intros Hc. apply (Hnever chunks []); [now rewrite app_nil_r|exact Hc]. }
    destruct tape as [|[[|b data]|e] tape]; cbn in Hq; try contradiction.
    + cbn [reads flat_map receive_loop].
      destruct chunks as [|ch chunks]; [|rewrite Hlast by discriminate];
        reflexivity.
    + change (reads buffer_size (Chunk [] :: tape))
        with (Chunk [] :: reads buffer_size tape).
      cbn [receive_loop].
      destruct chunks as [|ch chunks]; [|rewrite Hlast by discriminate];
        reflexivity.
    + change (reads buffer_size (RecvRaise e :: tape))
        with (RecvRaise e :: reads buffer_size tape).
      cbn [receive_loop]. rewrite Hq.
      destruct chunks as [|ch chunks]; [|rewrite Hlast by discriminate];
        reflexivity.
  - eapply Forall_impl; [|exact Hsmall]. now intros a [Ha _].
  - intros pre post E Hpre. now apply (Hnever pre post).
Qed.

End Silence.

End ConnectionProperties.

Module PersistentFacts.
Import Py Sock Connection PersistentConnection Terms ConnectionProperties.
Local Open Scope list_scope.
Local Open Scope string_scope.

Lemma connect_ends (c : Fusion360Connection) (n : net) :
  match connect c n with
  | (Ret true, c', _) => sock c' <> None
  | (Ret false, _, _) => True
  | (Raise e, _, _) => is_Exception e = false
  end.
Proof.
  unfold connect. destruct (sock c) as [s|] eqn:Es.
  - rewrite Es. discriminate.
  - destruct (connect_script n) as [|[e|] script]; cbn; try exact I; try discriminate.
    destruct (is_Exception e) eqn:Ee; cbn; [exact I | exact Ee].
Qed.

Section Global.
Context `{PyRuntime}.

Lemma send_command_ends (c : Fusion360Connection) (command_type params : val) (n : net) :
  match send_command c command_type params n with
  | (Ret _, c', _) => sock c' <> None
  | (Raise _, _, _) => True
  end.
Proof.
  unfold send_command. destruct (sock c) as [s|] eqn:Es.
  - destruct (exchange _ _ n) as [[v|e] n2].
    + rewrite Es. discriminate.
    + destruct (exn_class_of e); exact I.
  - pose proof (connect_ends c n) as Hc.
    destruct (connect c n) as [[[[|]|e] c1] n1]; try exact I.
    destruct (exchange _ _ n1) as [[v|e] n2].
    + exact Hc.
    + destruct (exn_class_of e); exact I.
Qed.

Lemma new_connection_ends (n : net) (closes : list (option exn)) :
  match new_connection n closes with
  | (Ret (Some c), p') => connection p' = Some c /\ sock c <> None
  | (Ret None, p') => connection p' = None
  | (Raise e, _) => is_Exception e = false
  end.
Proof.
  unfold new_connection.
  pose proof (connect_ends {| host := "localhost"; port := 9876; sock := None |} n) as Hc.
  destruct (connect _ n) as [[[[|]|e] c1] n1]; cbn; auto.
Qed.

(** X25. The connection that [get_fusion360_connection] returns has a
    socket and is the one that the process keeps; when it returns [None] the
    process keeps no connection; and no [Exception] leaves it. *)
Theorem X25_connection_handed_out (p : process) :
  match get_fusion360_connection p with
  | (Ret (Some c), p') => connection p' = Some c /\ sock c <> None
  | (Ret None, p') => connection p' = None
  | (Raise e, _) => is_Exception e = false
  end.
Proof.
  unfold get_fusion360_connection. destruct (connection p) as [c|].
  - pose proof (send_command_ends c (VStr "get_scene_info") VNone (network p)) as Hs.
    destruct (send_command c _ _ (network p)) as [[[v|e] c'] n'].
    + cbn. auto.
    + destruct (is_Exception e) eqn:Ee; [|exact Ee].
      destruct (disconnect c' (close_script p)) as [[r c2] closes].
      apply new_connection_ends.
  - apply new_connection_ends.
Qed.

(** X26. When the add-in answers the [get_scene_info] that tests the kept
    connection with an error response, [get_fusion360_connection] gives up
    the socket without closing it and goes on as a process without a
    connection does: it opens a new socket. *)
Theorem X26_error_response_to_the_test (p : process) (c : Fusion360Connection)
    (n1 : net) (s : nat) (text reply : string) (data : list Byte.byte)
    (rest : list recv_event) (d : list (string * val)) (status : val) :
  connection p = Some c ->
  sock c = Some s ->
  Json.json_dumps (command_sent (VStr "get_scene_info") VNone) = Ret text ->
  sendall (Utf8.encode text) (network p) = (Ret tt, n1) ->
  receive_full_response default_buffer_size (recv_script n1) = (Ret data, rest) ->
  Utf8.decode data = Ret reply -> Json.json_loads reply = Ret (VDict d) ->
  dict_get d "status" = Some status -> py_eq status (VStr "error") = true ->
  get_fusion360_connection p = new_connection (received n1 rest) (close_script p) /\
  close_script (snd (get_fusion360_connection p)) = close_script p /\
  sockets_created (network (snd (get_fusion360_connection p)))
  = S (sockets_created (network p)).
Proof.
  intros Hc Hs Hd Hsend Hr Hdec Hl Hst Herr.
  assert (Hget : get_fusion360_connection p
                 = new_connection (received n1 rest) (close_script p)).
  { unfold get_fusion360_connection. rewrite Hc.
    destruct (send_command_error c (VStr "get_scene_info") VNone (network p) n1 s text
                reply data rest d status Hs) as (e & _ & ->); try assumption.
    - now exists "get_scene_info".
    - now exists "None".
    - reflexivity. }
  rewrite Hget. split; [reflexivity|].
  assert (Hn1 : sockets_created n1 = sockets_created (network p)).
  { revert Hsend. unfold sendall.
    destruct (send_script (network p)) as [|[e|] script]; intros [= <-]; reflexivity. }
  unfold new_connection, connect. cbn [sock received sockets_created connect_script].
  destruct (connect_script n1) as [|[e|] script]; cbn; try (rewrite Hn1; split; reflexivity).
  destruct (is_Exception e); cbn; rewrite Hn1; split; reflexivity.
Qed.

End Global.

End PersistentFacts.

(* ================================================================== *)
(** * Further properties of the socket server *)
(* ================================================================== *)

Module ServerProperties.
Import Py HostApi CommandHandler Terms.
Import Json Reader ScannerFacts.
Import Sock SocketServer.
Import DispatcherProperties ConnectionProperties.
Local Open Scope string_scope.
Local Open Scope list_scope.

Section Clients.
Context `{PyRuntime} {W : Type} `{Host W}.

Lemma sendall_sent (data : list Byte.byte) (c : client) :
  sent (snd (sendall data c)) = sent c \/
  sent (snd (sendall data c)) = sent c ++ [data].
Proof. unfold sendall. destruct (send_script c) as [|[e|] script]; cbn; auto. Qed.

Lemma sendall_succeeds (data : list Byte.byte) (c : client) :
  sends_succeed c ->
  sent (snd (sendall data c)) = sent c ++ [data] /\ sends_succeed (snd (sendall data c)).
Proof.
  unfold sends_succeed, sendall. intros Hs.
  destruct (send_script c) as [|[e|] script]; cbn.
  - split; [reflexivity|constructor].
  - apply Forall_cons_iff in Hs. destruct Hs as [Hs _]. discriminate.
  - apply Forall_cons_iff in Hs. now split.
Qed.

Lemma error_response_dumps (m : string) :
  json_dumps (error_response m)
  = Ret ("{" ++ encode_string "status" ++ ": " ++ encode_string "error" ++ ", "
         ++ encode_string "message" ++ ": " ++ encode_string m ++ "}")%string.
Proof. reflexivity. Qed.

(** X14. Every command handed to the dispatcher is answered at most once,
    and exactly once when sending succeeds, whatever the handler does; no
    [Exception] leaves [execute_wrapper] (a failing [sendall] included), so
    the loop of the client handler goes on. *)
Theorem X14_one_answer (command : val) (w w' : W) (c c' : client) (escaped : option exn) :
  execute_wrapper command w c = (escaped, w', c') ->
  (forall e, escaped = Some e -> is_Exception e = false) /\
  (sent c' = sent c \/ exists answer, sent c' = sent c ++ [answer]) /\
  (escaped = None -> sends_succeed c -> exists answer, sent c' = sent c ++ [answer]).
Proof.
  unfold execute_wrapper.
  assert (Hsend : forall data w1,
    (None, w1, snd (sendall data (note_dispatched command c))) = (escaped, w', c') ->
    (forall e, escaped = Some e -> is_Exception e = false) /\
    (sent c' = sent c \/ exists answer, sent c' = sent c ++ [answer]) /\
    (escaped = None -> sends_succeed c -> exists answer, sent c' = sent c ++ [answer])).
  { intros data w1 E. injection E as <- <- <-. split; [discriminate|]. split.
    - destruct (sendall_sent data (note_dispatched command c)) as [E|E];
        rewrite E; cbn; [now left|right; now exists data].
    - intros _ Hs. exists data.
      apply (sendall_succeeds data (note_dispatched command c)). exact Hs. }
  assert (Hescape : forall e w1, is_Exception e = false ->
    (Some e, w1, note_dispatched command c) = (escaped, w', c') ->
    (forall e, escaped = Some e -> is_Exception e = false) /\
    (sent c' = sent c \/ exists answer, sent c' = sent c ++ [answer]) /\
    (escaped = None -> sends_succeed c -> exists answer, sent c' = sent c ++ [answer])).
  { intros e w1 He E. injection E as <- <- <-. split; [|split].
    - intros e0 E0. injection E0 as <-. exact He.
    - now left.
    - discriminate. }
  destruct (execute_command command w) as [[response|e] w1].
  - destruct (json_dumps response) as [text|e] eqn:Ed; [apply Hsend|].
    destruct (is_Exception e) eqn:He; [|now apply Hescape].
    rewrite error_response_dumps. apply Hsend.
  - destruct (is_Exception e) eqn:He; [|now apply Hescape].
    rewrite error_response_dumps. apply Hsend.
Qed.

(** X15. A result that [json.dumps] cannot write (it holds an object of the
    host) does not leave the client without an answer: the client gets the
    error response with the text of the error that [json.dumps] raises (the
    [TypeError]), and the changes that the handler has made on the host
    stay. *)
Theorem X15_result_not_serializable (command response : val) (w w' : W) (c : client)
    (e : exn) :
  execute_command command w = (Ret response, w') ->
  json_dumps response = Raise e ->
  exists text,
    json_dumps (error_response (exn_msg e)) = Ret text /\
    execute_wrapper command w c
    = (None, w', answered (note_dispatched command c) (Utf8.encode text)).
Proof.
  intros Hx Hd. eexists. split; [apply error_response_dumps|].
  unfold execute_wrapper. rewrite Hx, Hd.
  assert (He : is_Exception e = true).
  { exact (json_dumps_is_Exception _ _ Hd). }
  rewrite He, error_response_dumps. reflexivity.
Qed.

(** ** A command that comes in pieces *)

Section Pieces.
Variable payload : list Byte.byte.
Variable command : val.
Hypothesis Hcommand : json_loads (string_of_list_byte payload) = Ret command.
Hypothesis Hcontainer : is_container command = true.
Hypothesis Hascii : ascii_only payload = true.
Hypothesis Hend : ends_without_space payload = true.
Hypothesis Hshort : short_numbers payload = true.

Lemma buffer_cut (pre x : list Byte.byte) :
  pre ++ x = payload -> x <> [] ->
  Utf8.decode pre = Ret (string_of_list_byte pre) /\
  json_loads (string_of_list_byte pre)
  = py_raise (JsonDecodeFailure (string_of_list_byte pre)).
Proof.
  intros E Hx.
  assert (Ha : ascii_only pre = true).
  { generalize Hascii. rewrite <- E. unfold ascii_only. rewrite forallb_app.
    intros Hb. now apply andb_true_iff in Hb. }
  split; [now apply decode_ascii|].
  generalize Hcommand. rewrite <- E, string_of_bytes_app. intros Hc.
  unfold string_of_list_byte. fold (text_of pre).
  apply (json_loads_cut _ _ _ Hc Hcontainer).
  - apply (ends_without_space_tail pre); [now rewrite E|exact Hx].
  - apply (short_numbers_prefix pre x). now rewrite E.
Qed.

Lemma client_loop_pieces (chunks : list (list Byte.byte)) :
  forall (acc : list Byte.byte) (tape : list recv_event) (w : W) (c : client),
  Forall (fun ch => ch <> []) chunks -> chunks <> [] ->
  acc ++ List.concat chunks = payload ->
  client_loop (map Chunk chunks ++ tape) acc w c
  = match execute_wrapper command w c with
    | (Some e, w', c') => (Escaped e, w', c')
    | (None, w', c') => client_loop tape [] w' c'
    end.
Proof.
  induction chunks as [|ch chunks IH]; intros acc tape w c Hne Hc E; [contradiction|].
  apply Forall_cons_iff in Hne. destruct Hne as [Hch Hne].
  change (map Chunk (ch :: chunks) ++ tape)
    with (Chunk ch :: (map Chunk chunks ++ tape)).
  rewrite ServerFacts.client_loop_chunk by exact Hch.
  cbn [List.concat] in E.
  destruct chunks as [|ch2 chunks].
  - cbn in E. rewrite app_nil_r in E. rewrite E.
    rewrite (decode_ascii _ Hascii), Hcommand. reflexivity.
  - rewrite app_assoc in E.
    destruct (buffer_cut (acc ++ ch) (List.concat (ch2 :: chunks)) E) as [Hd Hl].
    { apply Forall_cons_iff in Hne. destruct Hne as [Hch2 _]. cbn.
      destruct ch2; [contradiction|discriminate]. }
    rewrite Hd, Hl. unfold py_raise. cbn [exn_class_of py_error_class exn_class_eqb].
    apply IH; [exact Hne|discriminate|exact E].
Qed.

End Pieces.

Lemma pieces_nonempty (n : nat) (data : list Byte.byte) :
  0 < n -> Forall (fun ch => ch <> []) (pieces n data).
Proof. intros Hn. apply pieces_from_nonempty. now right. Qed.

Lemma pieces_concat (n : nat) (data : list Byte.byte) :
  List.concat (pieces n data) = data.
Proof. unfold pieces. now rewrite pieces_from_concat. Qed.

(** X16. The client handler puts a command together from the pieces it
    reads: a command in ASCII with no whitespace after it, and with no run
    of digits longer than the interpreter lets an [int] be, is dispatched
    once, after its last piece, as if it had arrived in one read, however it
    is cut into pieces. *)
Theorem X16_command_in_pieces (payload : list Byte.byte)
    (chunks : list (list Byte.byte)) (tape : list recv_event) (w : W) (c : client) :
  is_json_object payload = true -> ascii_only payload = true ->
  ends_without_space payload = true -> short_numbers payload = true ->
  Forall (fun ch => ch <> [] /\ List.length ch <= recv_size) chunks ->
  List.concat chunks = payload ->
  _handle_client w (arriving (map Chunk chunks ++ tape) c)
  = _handle_client w (arriving (Chunk payload :: tape) c).
Proof.
  intros Ho Ha He Hshort Hsmall Hc.
  destruct (is_json_object_inv _ Ho) as [d Hd].
  assert (Hp : payload <> []) by now apply json_object_nonempty.
  rewrite !ServerFacts.handle_client_arriving.
  rewrite reads_app, (reads_small_chunks recv_size chunks Hsmall).
  change (Chunk payload :: tape) with ([Chunk payload] ++ tape).
  rewrite reads_app.
  assert (Er : reads recv_size [Chunk payload] = map Chunk (pieces recv_size payload)).
  { unfold reads. cbn [flat_map]. rewrite app_nil_r.
    destruct payload; [contradiction|reflexivity]. }
  rewrite Er.
  rewrite (client_loop_pieces payload (VDict d) Hd eq_refl Ha He Hshort chunks).
  - rewrite (client_loop_pieces payload (VDict d) Hd eq_refl Ha He Hshort
               (pieces recv_size payload)); [reflexivity| | |].
    + apply pieces_nonempty. apply Nat.ltb_lt. reflexivity.
    + intros E. apply Hp. rewrite <- (pieces_concat recv_size payload), E. reflexivity.
    + apply pieces_concat.
  - eapply Forall_impl; [|exact Hsmall]. now intros a [Ha' _].
  - intros ->. apply Hp. now rewrite <- Hc.
  - exact Hc.
Qed.

End Clients.

End ServerProperties.

(* ================================================================== *)
(** * The script generator *)
(* ================================================================== *)

Module GeneratorFacts.
Import Py Tools Generator McpServer GeneratorTerms.
Local Open Scope list_scope.
Local Open Scope string_scope.

(** ** Dictionaries *)

Lemma dict_get_set (d : list (string * val)) (k k' : string) (v : val) :
  dict_get (dict_set d k v) k' = if String.eqb k k' then Some v else dict_get d k'.
Proof.
  induction d as [|[k0 v0] d IH]; cbn.
  - destruct (String.eqb_spec k k'); reflexivity.
  - destruct (String.eqb_spec k0 k) as [->|Hk0]; cbn.
    + destruct (String.eqb_spec k k'); reflexivity.
    + destruct (String.eqb_spec k0 k') as [->|Hk0'].
      * destruct (String.eqb_spec k k'); congruence.
      * exact IH.
Qed.

Lemma dict_has_set (d : list (string * val)) (k k' : string) (v : val) :
  dict_has (dict_set d k v) k' = String.eqb k k' || dict_has d k'.
Proof.
  unfold dict_has. rewrite dict_get_set. destruct (String.eqb k k'); reflexivity.
Qed.

Lemma dict_set_absent (d : list (string * val)) (k : string) (v : val) :
  dict_get d k = None -> dict_set d k v = (d ++ [(k, v)])%list.
Proof.
  induction d as [|[k0 v0] d IH]; cbn; [reflexivity|].
  destruct (String.eqb k0 k); [discriminate|].
  intros E. rewrite (IH E). reflexivity.
Qed.

Lemma copy_has_from (d acc : list (string * val)) (k : string) :
  dict_has (fold_left (fun acc kv => dict_set acc (fst kv) (snd kv)) d acc) k
  = dict_has acc k || dict_has d k.
Proof.
  revert acc. induction d as [|[k0 v0] d IH]; intros acc; cbn [fold_left].
  - unfold dict_has. cbn [dict_get]. destruct (dict_get acc k); reflexivity.
  - rewrite IH. cbn [fst snd]. rewrite dict_has_set. clear IH.
    unfold dict_has. cbn [dict_get].
    destruct (String.eqb k0 k), (dict_get acc k), (dict_get d k); reflexivity.
Qed.

Lemma copied_has (d : list (string * val)) (k : string) :
  dict_has (copied d) k = dict_has d k.
Proof. unfold copied. rewrite copy_has_from. reflexivity. Qed.

Lemma copy_values_from (P : val -> Prop) (d acc : list (string * val)) :
  Forall (fun kv => P (snd kv)) d -> Forall (fun kv => P (snd kv)) acc ->
  Forall (fun kv => P (snd kv))
    (fold_left (fun acc kv => dict_set acc (fst kv) (snd kv)) d acc).
Proof.
  intros Hd. revert acc. induction Hd as [|[k0 v0] d Hv Hd IH]; intros acc Hacc; cbn.
  - exact Hacc.
  - apply IH. clear IH Hd. induction Hacc as [|[k1 v1] acc Hv1 Hacc IH]; cbn.
    + constructor; [exact Hv | constructor].
    + destruct (String.eqb k1 k0); constructor; auto.
Qed.

Lemma dict_get_in (d : list (string * val)) (k : string) (v : val) :
  dict_get d k = Some v -> In (k, v) d.
Proof.
  induction d as [|[k0 v0] d IH]; cbn; [discriminate|].
  destruct (String.eqb_spec k0 k) as [->|_].
  - intros [= ->]. left. reflexivity.
  - intros E. right. exact (IH E).
Qed.

Lemma copied_set (d : list (string * val)) (k : string) (v : val) :
  dict_get d k = None -> copied (dict_set d k v) = dict_set (copied d) k v.
Proof.
  intros E. rewrite (dict_set_absent _ _ _ E). unfold copied.
  rewrite fold_left_app. reflexivity.
Qed.

(** ** The defaults of the schema *)

Lemma apply_defaults_get (props p : list (string * val)) (k : string) :
  dict_get (apply_defaults props p) k
  = match dict_get p k with
    | Some v => Some v
    | None => default_in props k
    end.
Proof.
  revert p. unfold apply_defaults, default_in.
  induction props as [|[k0 def] props IH]; intros p; cbn [fold_left find fst snd].
  - destruct (dict_get p k); reflexivity.
  - rewrite IH. clear IH.
    destruct (subscript def "default") as [dv|] eqn:Ed.
    + unfold dict_has. destruct (dict_get p k0) as [v0|] eqn:E0.
      * destruct (String.eqb_spec k0 k) as [->|Hk]; cbn [andb].
        -- rewrite E0. reflexivity.
        -- reflexivity.
      * rewrite dict_get_set.
        destruct (String.eqb_spec k0 k) as [->|Hk]; cbn [andb].
        -- rewrite E0. cbn [snd]. rewrite Ed. reflexivity.
        -- reflexivity.
    + rewrite andb_false_r. reflexivity.
Qed.

(** ** Filling a template *)

Section Fill.
Context `{PyRuntime}.

Lemma fill_agree (items : list item) (a b : list (string * val)) :
  (forall f, In f (fields items) -> dict_get a f = dict_get b f) ->
  fill items a = fill items b.
Proof.
  induction items as [|[c|name] items IH]; intros Hf; cbn [fill].
  - reflexivity.
  - rewrite IH; [reflexivity | exact Hf].
  - rewrite <- (Hf name) by (left; reflexivity).
    rewrite IH; [reflexivity|]. intros f Hin. apply Hf. right. exact Hin.
Qed.

(** Every value of the dict prints. *)
Lemma values_print_set (a : list (string * val)) (k text : string) :
  (forall f v, dict_get a f = Some v -> Terms.prints v) ->
  forall f v, dict_get (dict_set a k (VStr text)) f = Some v -> Terms.prints v.
Proof.
  intros Ha f v. rewrite dict_get_set. destruct (String.eqb k f).
  - intros [= <-]. now exists text.
  - apply Ha.
Qed.

(** When every value prints, [format] ends with the text or with the first
    keyword that is missing. *)
Lemma fill_first_missing (items : list item) (a : list (string * val)) :
  (forall f v, dict_get a f = Some v -> Terms.prints v) ->
  match fill items a with
  | Formatted _ => find (fun f => negb (dict_has a f)) (fields items) = None
  | KeyError k => find (fun f => negb (dict_has a f)) (fields items) = Some k
  | FormatRaised _ => False
  end.
Proof.
  intros Ha.
  induction items as [|[c|name] items IH]; cbn [fill fields flat_map List.app find].
  - reflexivity.
  - fold (fields items). destruct (fill items a); exact IH.
  - fold (fields items). unfold dict_has at 1 3.
    destruct (dict_get a name) as [v|] eqn:Ev; cbn [negb].
    + destruct (Ha name v Ev) as [printed ->].
      destruct (fill items a); exact IH.
    + reflexivity.
Qed.

(** What [format] raises is an [Exception]. *)
Lemma fill_raises (items : list item) (a : list (string * val)) (e : exn) :
  fill items a = FormatRaised e -> is_Exception e = true.
Proof.
  induction items as [|[c|name] items IH]; cbn [fill].
  - discriminate.
  - destruct (fill items a); try discriminate. intros [= <-]. now apply IH.
  - destruct (dict_get a name) as [v|]; [|discriminate].
    destruct (py_str v) as [printed|e0] eqn:Es.
    + destruct (fill items a); try discriminate. intros [= <-]. now apply IH.
    + intros [= <-]. unfold is_Exception.
      destruct (py_str_raises _ _ Es) as [-> | ->]; reflexivity.
Qed.

(** ** The computed keywords *)

Ltac special_cases tn :=
  unfold special, computed;
  destruct (py_eq tn (VStr "create_sketch"));
  [|destruct (py_eq tn (VStr "extrude"));
    [|destruct (py_eq tn (VStr "revolve"));
      [|destruct (py_eq tn (VStr "fillet") || py_eq tn (VStr "chamfer"));
        [|destruct (py_eq tn (VStr "shell"));
          [|destruct (py_eq tn (VStr "mirror"))]]]]].

Lemma special_get (tn : val) (a p : list (string * val)) (k : string) :
  special tn a = Ret p ->
  existsb (String.eqb k) (computed tn) = false ->
  dict_get p k = dict_get a k.
Proof.
  special_cases tn; cbn [existsb]; intros E Hk;
    repeat match type of Hk with
           | _ || _ = false => apply orb_false_iff in Hk; destruct Hk as [? Hk]
           end;
    repeat match type of E with
           | match ?x with _ => _ end = _ => destruct x as [[? ?]|?] eqn:?; try discriminate
           | match ?x with _ => _ end = _ => destruct x eqn:?; try discriminate
           end;
    injection E as <-; rewrite ?dict_get_set;
    repeat match goal with
           | Hn : String.eqb k ?c = false |- context [String.eqb ?c k] =>
               rewrite (String.eqb_sym c k), Hn
           end; reflexivity.
Qed.

Lemma special_has (tn : val) (a p : list (string * val)) (k : string) :
  special tn a = Ret p ->
  existsb (String.eqb k) (computed tn) = true ->
  dict_has p k = true.
Proof.
  special_cases tn; cbn [existsb]; intros E Hk;
    repeat match type of E with
           | match ?x with _ => _ end = _ => destruct x as [[? ?]|?] eqn:?; try discriminate
           | match ?x with _ => _ end = _ => destruct x eqn:?; try discriminate
           end;
    injection E as <-; rewrite ?dict_has_set;
    repeat match type of Hk with
           | _ || _ = true => apply orb_true_iff in Hk; destruct Hk as [Hk|Hk]
           end;
    try discriminate;
    rewrite String.eqb_sym in Hk; rewrite Hk; rewrite ?orb_true_r; reflexivity.
Qed.

Lemma processed_has (tn : val) (props d p : list (string * val)) (f : string) :
  special tn (apply_defaults props (copied d)) = Ret p ->
  dict_has p f = provided tn props f || dict_has d f.
Proof.
  intros E. unfold provided.
  destruct (existsb (String.eqb f) (computed tn)) eqn:Ec.
  - exact (special_has _ _ _ _ E Ec).
  - unfold dict_has at 1. rewrite (special_get _ _ _ _ E Ec), apply_defaults_get.
    fold (copied d). pose proof (copied_has d f) as Hc. unfold dict_has in Hc at 1.
    destruct (dict_get (copied d) f).
    + rewrite <- Hc. rewrite orb_true_r. reflexivity.
    + rewrite <- Hc. destruct (default_in props f); reflexivity.
Qed.

Lemma find_filter {A : Type} (p q : A -> bool) (l : list A) :
  find (fun x => negb (p x || q x)) l = find (fun x => negb (q x)) (filter (fun x => negb (p x)) l).
Proof.
  induction l as [|x l IH]; cbn; [reflexivity|].
  destruct (p x); cbn; [exact IH|].
  destruct (q x); cbn; [exact IH | reflexivity].
Qed.

Lemma find_ext' {A : Type} (p q : A -> bool) (l : list A) :
  (forall x, p x = q x) -> find p l = find q l.
Proof.
  intros Hpq. induction l as [|x l IH]; cbn; [reflexivity|].
  rewrite Hpq, IH. reflexivity.
Qed.

(** What [generate_script] does for a tool that has a template. *)
Lemma generate_script_scripted (tool_name tool schema : val) (template : string)
    (props d : list (string * val)) :
  get_tool_by_name tool_name = tool ->
  py_truthy tool = true ->
  str_dict_get (map (fun kv => (fst kv, VStr (snd kv))) SCRIPT_TEMPLATES) tool_name VNone
    = Ret (VStr template) ->
  template <> "" ->
  subscript tool "inputSchema" = Some schema ->
  subscript schema "properties" = Some (VDict props) ->
  generate_script tool_name (VDict d)
  = match special tool_name (apply_defaults props (copied d)) with
    | Raise e => Raised e
    | Ret p =>
        match parse template with
        | Some items =>
            match fill items p with
            | Formatted script => Ok script
            | KeyError key =>
                raise_ValueError
                  (and_then (py_str tool_name) (fun name =>
                   Ret ("Missing required parameter for " ++ name ++ ": "
                        ++ key_error_text key)))
            | FormatRaised e => Raised e
            end
        | None => Unmodelled
        end
    end.
Proof.
  intros Ht Htruthy Htemplate Hne Hschema Hprops. unfold generate_script.
  rewrite Ht, Htruthy, Htemplate. cbn [negb py_truthy].
  destruct (String.eqb_spec template "") as [->|_]; [congruence|]. cbn [negb].
  unfold copy_arguments. rewrite Hschema, Hprops. reflexivity.
Qed.

Lemma special_agree (tn : val) (a b : list (string * val)) :
  (forall k, dict_get a k = dict_get b k) ->
  match special tn a, special tn b with
  | Ret p, Ret q => forall k, dict_get p k = dict_get q k
  | Raise e, Raise e' => e = e'
  | _, _ => False
  end.
Proof.
  intros Hab. special_cases tn; unfold get; rewrite ?dict_get_set; rewrite ?Hab;
    repeat match goal with
           | |- context [match ?x with Ret _ => _ | Raise _ => _ end] =>
               lazymatch x with
               | context [match _ with Ret _ => _ | Raise _ => _ end] => fail
               | _ =>
                   let r := fresh "r" in
                   destruct x as [r|?];
                   [match type of r with
                    | (_ * _)%type => destruct r
                    | _ => idtac
                    end|];
                   rewrite ?dict_get_set; rewrite ?Hab
               end
           end;
    try reflexivity; try exact Hab;
    intros k; rewrite ?dict_get_set; rewrite Hab; reflexivity.
Qed.

Lemma special_plain (tn : val) (a : list (string * val)) :
  (forall k v, dict_get a k = Some v -> hashable v = true) ->
  py_eq tn (VStr "extrude") = false ->
  exists p, special tn a = Ret p.
Proof.
  intros Ha. special_cases tn; intros Hne; try discriminate; unfold get;
    try (eexists; reflexivity);
    match goal with
    | |- context [dict_get a ?key] =>
        destruct (dict_get a key) as [v|] eqn:E; [|eexists; reflexivity]
    end;
    apply Ha in E;
    unfold _get_plane_code, _get_mirror_plane_code,
      ScriptGenerator._get_operation_code, ScriptGenerator._get_face_collection_code,
      str_dict_get;
    destruct v; try discriminate; try (eexists; reflexivity);
    match goal with
    | |- context [find ?f ?l] => destruct (find f l) as [[k1 x]|]
    end;
    try (eexists; reflexivity);
    cbn [snd]; try destruct x; eexists; reflexivity.
Qed.

Ltac scripted_tool d :=
  erewrite (generate_script_scripted _ _ _ _ _ d);
  [ | vm_compute; reflexivity | vm_compute; reflexivity | vm_compute; reflexivity
    | discriminate | vm_compute; reflexivity | vm_compute; reflexivity ].

Ltac evaluate t :=
  let v := eval vm_compute in t in
  replace t with v by (vm_compute; reflexivity).

Lemma simple_prints (v : val) : simple v = true -> Terms.prints v.
Proof.
  destruct v as [|b|z|f|s|l|d|r]; cbn [simple]; try discriminate; intros Hs.
  - now exists "None".
  - destruct b; eexists; reflexivity.
  - apply Nat.leb_le in Hs. unfold Terms.prints. cbn [py_str]. unfold beyond_limit.
    replace (Nat.ltb 640 (int_digits z)) with false
      by (symmetry; apply Nat.ltb_ge; exact Hs).
    eexists; reflexivity.
  - eexists; reflexivity.
  - eexists; reflexivity.
Qed.

Lemma processed_print (props d : list (string * val)) :
  arguments_print d -> defaults_simple props = true ->
  forall k v, dict_get (apply_defaults props (copied d)) k = Some v -> Terms.prints v.
Proof.
  intros Hd Hp k v. rewrite apply_defaults_get.
  destruct (dict_get (copied d) k) as [v'|] eqn:E.
  - intros [= <-]. apply dict_get_in in E.
    assert (Hall : Forall (fun kv => Terms.prints (snd kv)) (copied d))
      by (apply (copy_values_from (fun v => Terms.prints v) d []);
          [exact Hd | constructor]).
    rewrite Forall_forall in Hall. exact (Hall _ E).
  - unfold default_in. destruct (find _ props) as [prop|] eqn:Ef; [|discriminate].
    apply find_some in Ef. destruct Ef as [Hin _].
    unfold defaults_simple in Hp. rewrite forallb_forall in Hp.
    specialize (Hp _ Hin). intros Es. rewrite Es in Hp. now apply simple_prints.
Qed.

Lemma special_print (tn : val) (a p : list (string * val)) :
  special tn a = Ret p ->
  (forall k v, dict_get a k = Some v -> Terms.prints v) ->
  forall k v, dict_get p k = Some v -> Terms.prints v.
Proof.
  special_cases tn; intros E Ha;
    repeat match type of E with
           | match ?x with _ => _ end = _ => destruct x as [[? ?]|?] eqn:?; try discriminate
           | match ?x with _ => _ end = _ => destruct x eqn:?; try discriminate
           end;
    injection E as <-; repeat apply values_print_set; exact Ha.
Qed.

(** How [generate_script] ends for a tool that has a template, when the
    arguments print. *)
Lemma generate_script_outcome (t : string) (needed : list string)
    (d : list (string * val)) :
  In (t, needed) template_parameters ->
  arguments_print d ->
  match special (VStr t) (apply_defaults (properties t) (copied d)) with
  | Raise e => generate_script (VStr t) (VDict d) = Raised e
  | Ret _ =>
      match first_missing needed d with
      | Some k =>
          generate_script (VStr t) (VDict d)
          = ValueError ("Missing required parameter for " ++ t ++ ": '" ++ k ++ "'")
      | None => exists script, generate_script (VStr t) (VDict d) = Ok script
      end
  end.
Proof.
  intros Hin Hprint. unfold template_parameters in Hin.
  repeat (destruct Hin as [Hin|Hin];
          [injection Hin as <- <-;
           scripted_tool d;
           match goal with
           | |- context [properties ?t] =>
               assert (Hsimple : defaults_simple (properties t) = true)
                 by (vm_compute; reflexivity)
           end;
           pose proof (processed_print _ d Hprint Hsimple) as Hq;
           match goal with
           | |- context [properties ?t] => evaluate (properties t)
           end;
           match goal with
           | |- context [special ?tn ?a] => destruct (special tn a) as [p|e] eqn:Es
           end; [|reflexivity];
           match goal with
           | |- context [parse ?tpl] => evaluate (parse tpl)
           end;
           cbv beta iota;
           match goal with
           | |- context [fill ?items ?q] =>
               pose proof (fill_first_missing items q (special_print _ _ _ Es Hq)) as Hf;
               match type of Es with
               | special ?tn (apply_defaults ?props _) = _ =>
                   rewrite (find_ext' _ (fun f => negb (provided tn props f || dict_has d f)))
                     in Hf
                     by (intros f; rewrite (processed_has _ _ _ _ _ Es); reflexivity);
                   rewrite find_filter in Hf;
                   match type of Hf with
                   | context [filter ?g ?l] =>
                       let v := eval vm_compute in (filter g l) in
                       replace (filter g l) with v in Hf by (vm_compute; reflexivity)
                   end
               end;
               unfold first_missing; destruct (fill items q) as [script|key|e];
               [ rewrite Hf; eexists; reflexivity
               | rewrite Hf; reflexivity
               | contradiction ]
           end
          |]);
    contradiction.
Qed.

Lemma processed_hashable (props d : list (string * val)) :
  plain_arguments d -> defaults_hashable props = true ->
  forall k v, dict_get (apply_defaults props (copied d)) k = Some v -> hashable v = true.
Proof.
  intros Hd Hp k v. rewrite apply_defaults_get.
  destruct (dict_get (copied d) k) as [v'|] eqn:E.
  - intros [= <-]. apply dict_get_in in E.
    assert (Hall : Forall (fun kv => hashable (snd kv) = true) (copied d))
      by (apply (copy_values_from (fun v => hashable v = true) d []);
          [exact Hd | constructor]).
    rewrite Forall_forall in Hall. exact (Hall _ E).
  - unfold default_in. destruct (find _ props) as [prop|] eqn:Ef; [|discriminate].
    apply find_some in Ef. destruct Ef as [Hin _].
    unfold defaults_hashable in Hp. rewrite forallb_forall in Hp.
    specialize (Hp _ Hin). intros Es. rewrite Es in Hp. exact Hp.
Qed.

Lemma py_eq_str (t : string) (v : val) : py_eq (VStr t) v = true -> v = VStr t.
Proof.
  destruct v; cbn; try discriminate. intros E. apply String.eqb_eq in E. congruence.
Qed.

(** The tool that [get_tool_by_name] finds has the name asked for, and is
    one of the registry. *)
Lemma get_tool_by_name_cases (name : val) :
  (exists t, name = VStr t /\ In t registered_tools /\
             py_truthy (get_tool_by_name name) = true /\ is_registered name = true)
  \/ (get_tool_by_name name = VNone /\ is_registered name = false).
Proof.
  unfold get_tool_by_name.
  destruct (find _ FUSION360_TOOLS) as [tool|] eqn:Ef.
  - left. apply find_some in Ef. destruct Ef as [Hin Hname].
    unfold FUSION360_TOOLS in Hin.
    repeat (destruct Hin as [<-|Hin];
            [match type of Hname with
             | context [subscript ?tool "name"] =>
                 let v := eval vm_compute in (subscript tool "name") in
                 change (subscript tool "name") with v in Hname
             end;
             cbv beta iota in Hname; apply py_eq_str in Hname; subst name;
             eexists; split; [reflexivity|]; vm_compute; intuition |]).
    contradiction.
  - right. split; [reflexivity|].
    destruct name as [| | | |t| | |]; try reflexivity.
    unfold is_registered. apply not_true_is_false. intros Hreg.
    apply existsb_exists in Hreg. destruct Hreg as [t' [Hin Heq]].
    apply String.eqb_eq in Heq. subst t'.
    revert Ef. vm_compute in Hin.
    repeat (destruct Hin as [<-|Hin]; [vm_compute; discriminate|]).
    contradiction.
Qed.

Lemma scripted_parameters (t : string) :
  In t scripted ->
  exists needed,
    In (t, needed) template_parameters /\ incl needed (required t) /\
    defaults_hashable (properties t) = true.
Proof.
  intros Hin. vm_compute in Hin.
  repeat (destruct Hin as [<-|Hin];
          [eexists; split; [unfold template_parameters; cbn [In]; intuition eauto|];
           split; [|vm_compute; reflexivity];
           intros k Hk; cbn [In] in Hk; vm_compute; intuition |]).
  contradiction.
Qed.

Lemma scripted_defaults_simple (t : string) :
  In t scripted -> defaults_simple (properties t) = true.
Proof.
  intros Hin. vm_compute in Hin.
  repeat (destruct Hin as [<-|Hin]; [vm_compute; reflexivity|]).
  contradiction.
Qed.

Lemma str_dict_get_class {A : Type} (table : list (string * A)) (key : val)
    (default : A) (e : exn) :
  str_dict_get table key default = Raise e -> exn_class_of e = TypeErrorC.
Proof.
  unfold str_dict_get. destruct key; try discriminate;
    try (destruct (find _ table); discriminate);
    intros [= <-]; reflexivity.
Qed.

(** With a height that prints, the code of the direction fails only on the
    division by two of a symmetric extrusion. *)
Lemma direction_code_class (direction height : val) (e : exn) :
  Terms.prints height ->
  _get_direction_code direction height = Raise e ->
  exn_class_of e = TypeErrorC \/ exn_class_of e = OverflowErrorC.
Proof.
  intros [printed Hp]. unfold _get_direction_code. rewrite Hp. cbn [and_then].
  repeat match goal with
         | |- context [if ?c then _ else _] => destruct c; try discriminate
         end.
  unfold py_half.
  destruct (as_number height) as [[z|f]|]; cbn [and_then py_str]; try discriminate.
  - destruct (is_infinity _); cbn [and_then py_str]; [|discriminate].
    intros [= <-]. now right.
  - unfold py_raise. cbn [and_then]. intros [= <-]. now left.
Qed.

Lemma special_not_ValueError (tn : val) (a : list (string * val)) (e : exn) :
  (forall k v, dict_get a k = Some v -> Terms.prints v) ->
  special tn a = Raise e -> exn_class_of e <> ValueErrorC.
Proof.
  intros Ha. special_cases tn; intros E; try discriminate;
    repeat match type of E with
           | match ?x with Ret _ => _ | Raise _ => _ end = _ =>
               let r := fresh "r" in
               let Er := fresh "Er" in
               destruct x as [r|?] eqn:Er;
               [try (destruct r; discriminate E)|]
           end;
    try discriminate E;
    injection E as <-;
    first [ match goal with
            | Er : str_dict_get _ _ _ = Raise _ |- _ =>
                rewrite (str_dict_get_class _ _ _ _ Er); discriminate
            end
          | match goal with
            | Er : ScriptGenerator._get_operation_code _ = Raise _ |- _ =>
                unfold ScriptGenerator._get_operation_code in Er;
                rewrite (str_dict_get_class _ _ _ _ Er); discriminate
            | Er : ScriptGenerator._get_face_collection_code _ = Raise _ |- _ =>
                unfold ScriptGenerator._get_face_collection_code in Er;
                rewrite (str_dict_get_class _ _ _ _ Er); discriminate
            | Er : _get_plane_code _ = Raise _ |- _ =>
                unfold _get_plane_code in Er;
                rewrite (str_dict_get_class _ _ _ _ Er); discriminate
            | Er : _get_mirror_plane_code _ = Raise _ |- _ =>
                unfold _get_mirror_plane_code in Er;
                rewrite (str_dict_get_class _ _ _ _ Er); discriminate
            end
          | match goal with
            | Er : _get_direction_code _ ?h = Raise _ |- _ =>
                let Hh := fresh "Hh" in
                assert (Hh : Terms.prints h);
                [ unfold get; rewrite dict_get_set; cbn [String.eqb Ascii.eqb Bool.eqb];
                  destruct (dict_get a "height") as [v|] eqn:Ev;
                  [exact (Ha _ _ Ev)|eexists; reflexivity]
                | destruct (direction_code_class _ _ _ Hh Er) as [-> | ->]; discriminate ]
            end ].
Qed.

Lemma first_missing_none (names : list string) (d : list (string * val)) :
  (forall k, In k names -> dict_has d k = true) -> first_missing names d = None.
Proof.
  unfold first_missing. induction names as [|k names IH]; intros Hall; cbn.
  - reflexivity.
  - rewrite (Hall k) by (left; reflexivity). cbn. apply IH.
    intros k' Hin. apply Hall. right. exact Hin.
Qed.

Lemma defaults_agree (props d : list (string * val)) (k : string) (v : val) :
  default_in props k = Some v -> dict_has d k = false ->
  forall x,
    dict_get (apply_defaults props (copied (dict_set d k v))) x
    = dict_get (apply_defaults props (copied d)) x.
Proof.
  intros Hdef Hd x. unfold dict_has in Hd.
  destruct (dict_get d k) eqn:Ed; [discriminate|].
  rewrite (copied_set _ _ _ Ed), !apply_defaults_get, dict_get_set.
  destruct (String.eqb_spec k x) as [<-|Hkx]; [|reflexivity].
  pose proof (copied_has d k) as Hc. unfold dict_has in Hc. rewrite Ed in Hc.
  destruct (dict_get (copied d) k); [discriminate|]. symmetry. exact Hdef.
Qed.

Lemma generate_script_agree (tool_name tool schema : val) (template : string)
    (props d d' : list (string * val)) :
  get_tool_by_name tool_name = tool ->
  py_truthy tool = true ->
  str_dict_get (map (fun kv => (fst kv, VStr (snd kv))) SCRIPT_TEMPLATES) tool_name VNone
    = Ret (VStr template) ->
  template <> "" ->
  subscript tool "inputSchema" = Some schema ->
  subscript schema "properties" = Some (VDict props) ->
  (forall x,
     dict_get (apply_defaults props (copied d)) x
     = dict_get (apply_defaults props (copied d')) x) ->
  generate_script tool_name (VDict d) = generate_script tool_name (VDict d').
Proof.
  intros Ht Htruthy Htemplate Hne Hschema Hprops Hagree.
  rewrite (generate_script_scripted _ _ _ _ _ d Ht Htruthy Htemplate Hne Hschema Hprops).
  rewrite (generate_script_scripted _ _ _ _ _ d' Ht Htruthy Htemplate Hne Hschema Hprops).
  pose proof (special_agree tool_name _ _ Hagree) as Hs.
  destruct (special tool_name (apply_defaults props (copied d))) as [p|e],
           (special tool_name (apply_defaults props (copied d'))) as [q|e'];
    try contradiction; [|congruence].
  destruct (parse template) as [items|]; [|reflexivity].
  rewrite (fill_agree items p q) by (intros f _; apply Hs). reflexivity.
Qed.

Lemma generate_script_unscripted (name arguments : val) :
  (forall t, In t scripted -> name <> VStr t) ->
  generate_script name arguments
  = match py_str name with
    | Ret printed =>
        ValueError ((if is_registered name then "No script template for tool: "
                     else "Unknown tool: ") ++ printed)
    | Raise e => Raised e
    end.
Proof.
  intros Hs.
  destruct (get_tool_by_name_cases name)
    as [[t [-> [Hin [_ Hreg]]]] | [Hnone Hreg]]; rewrite Hreg.
  - vm_compute in Hin.
    repeat (destruct Hin as [<-|Hin];
            [first [ exfalso; eapply Hs; [|reflexivity]; vm_compute; tauto
                   | vm_compute; reflexivity ] |]).
    contradiction.
  - unfold generate_script. rewrite Hnone. cbn [py_truthy negb].
    destruct (py_str name); reflexivity.
Qed.

(** X17. A tool without a script template is refused before the arguments
    are looked at, whatever they are: with [No script template for tool]
    when the registry has the tool, with [Unknown tool] otherwise, and the
    name as [str()] prints it behind; when the name does not print, what
    [str()] raises is raised. *)
Theorem X17_no_script_without_template (name arguments : val) :
  (forall t, In t scripted -> name <> VStr t) ->
  generate_script name arguments
  = match py_str name with
    | Ret printed =>
        ValueError ((if is_registered name then "No script template for tool: "
                     else "Unknown tool: ") ++ printed)
    | Raise e => Raised e
    end.
Proof. exact (generate_script_unscripted name arguments). Qed.

(** X18. When the arguments hold every parameter that the schema of a tool
    with a template requires, and [str()] prints every argument (no [int]
    beyond the limit on digits among them), [generate_script] does not
    raise [ValueError]; when moreover no argument is a list or a dict, it
    returns a script for every such tool but [extrude]. *)
Theorem X18_required_parameters_suffice (t : string) (d : list (string * val)) :
  In t scripted ->
  (forall k, In k (required t) -> dict_has d k = true) ->
  arguments_print d ->
  (forall text, generate_script (VStr t) (VDict d) <> ValueError text) /\
  (plain_arguments d -> t <> "extrude" ->
   exists script, generate_script (VStr t) (VDict d) = Ok script).
Proof.
  intros Hin Hreq Hprint.
  destruct (scripted_parameters t Hin) as [needed [Hneeded [Hincl Hdef]]].
  pose proof (generate_script_outcome t needed d Hneeded Hprint) as Hout.
  rewrite first_missing_none in Hout by (intros k Hk; apply Hreq, Hincl, Hk).
  split.
  - intros text. destruct (special _ _) as [p|e] eqn:Es.
    + destruct Hout as [script ->]. discriminate.
    + rewrite Hout. intros [= ->].
      apply (special_not_ValueError _ _ _ (processed_print _ d Hprint
               (scripted_defaults_simple t Hin)) Es). reflexivity.
  - intros Hplain Hne.
    destruct (special_plain (VStr t) (apply_defaults (properties t) (copied d)))
      as [p Hp].
    + apply processed_hashable; assumption.
    + cbn. apply String.eqb_neq. exact Hne.
    + rewrite Hp in Hout. exact Hout.
Qed.

(** X19. When the arguments lack a parameter that the template of a tool
    needs, no argument is a list or a dict and [str()] prints every argument
    (no [int] beyond the limit on digits among them), [generate_script]
    raises [ValueError] with the text [Missing required parameter for], the
    tool and the first such parameter in quotes. *)
Theorem X19_missing_parameter_reported (t k : string) (needed : list string)
    (d : list (string * val)) :
  In (t, needed) template_parameters ->
  first_missing needed d = Some k ->
  plain_arguments d ->
  arguments_print d ->
  generate_script (VStr t) (VDict d)
  = ValueError ("Missing required parameter for " ++ t ++ ": '" ++ k ++ "'").
Proof.
  intros Hneeded Hmissing Hplain Hprint.
  pose proof (generate_script_outcome t needed d Hneeded Hprint) as Hout.
  rewrite Hmissing in Hout.
  assert (Hin : In t scripted).
  { unfold template_parameters in Hneeded. cbn [In] in Hneeded.
    repeat (destruct Hneeded as [[= <- <-]|Hneeded]; [vm_compute; tauto|]).
    contradiction. }
  destruct (scripted_parameters t Hin) as [needed' [_ [_ Hdef]]].
  destruct (special_plain (VStr t) (apply_defaults (properties t) (copied d)))
    as [p Hp].
  - apply processed_hashable; assumption.
  - cbn. apply String.eqb_neq. intros ->.
    unfold template_parameters in Hneeded. cbn [In] in Hneeded.
    repeat (destruct Hneeded as [Hneeded|Hneeded];
            [try discriminate Hneeded; injection Hneeded as <-;
             cbn in Hmissing; discriminate Hmissing|]).
    contradiction.
  - rewrite Hp in Hout. exact Hout.
Qed.

(** X20. A parameter that is left out and has a default in the schema of
    the tool gives the script that the default itself gives. *)
Theorem X20_omitted_parameter_is_default (t k : string) (v : val)
    (d : list (string * val)) :
  In t scripted ->
  schema_default t k = Some v ->
  dict_has d k = false ->
  generate_script (VStr t) (VDict (dict_set d k v)) = generate_script (VStr t) (VDict d).
Proof.
  intros Hin Hdef Hd. unfold schema_default in Hdef. vm_compute in Hin.
  repeat (destruct Hin as [<-|Hin];
          [eapply generate_script_agree;
           [ vm_compute; reflexivity | vm_compute; reflexivity | vm_compute; reflexivity
           | discriminate | vm_compute; reflexivity | vm_compute; reflexivity
           | exact (defaults_agree _ d k v Hdef Hd) ] |]).
  contradiction.
Qed.

Lemma special_fallback (t k : string) (v : val) (a b : list (string * val)) :
  In (t, (k, v)) fallbacks ->
  (forall x, x <> k -> dict_get a x = dict_get b x) ->
  dict_get a k = Some v -> dict_get b k = None ->
  match special (VStr t) a, special (VStr t) b with
  | Ret p, Ret q => forall x, x <> k -> dict_get p x = dict_get q x
  | Raise e, Raise e' => e = e'
  | _, _ => False
  end.
Proof.
  intros Hin Hab Ha Hb. unfold fallbacks in Hin. cbn [In] in Hin.
  destruct Hin as [[= <- <- <-]|[[= <- <- <-]|[]]].
  - change (special (VStr "extrude") a)
      with (match ScriptGenerator._get_operation_code
                    (get a "operation" (VStr "new_body")) with
            | Ret operation_code =>
                match _get_direction_code
                        (get (dict_set a "operation_code" (VStr operation_code))
                           "direction" (VStr "positive"))
                        (get (dict_set a "operation_code" (VStr operation_code))
                           "height" (VFloat 10)) with
                | Ret direction_code =>
                    Ret (dict_set (dict_set a "operation_code" (VStr operation_code))
                           "direction_code" (VStr direction_code))
                | Raise e => Raise e
                end
            | Raise e => Raise e
            end).
    change (special (VStr "extrude") b)
      with (match ScriptGenerator._get_operation_code
                    (get b "operation" (VStr "new_body")) with
            | Ret operation_code =>
                match _get_direction_code
                        (get (dict_set b "operation_code" (VStr operation_code))
                           "direction" (VStr "positive"))
                        (get (dict_set b "operation_code" (VStr operation_code))
                           "height" (VFloat 10)) with
                | Ret direction_code =>
                    Ret (dict_set (dict_set b "operation_code" (VStr operation_code))
                           "direction_code" (VStr direction_code))
                | Raise e => Raise e
                end
            | Raise e => Raise e
            end).
    unfold get. rewrite (Hab "operation") by discriminate.
    destruct (ScriptGenerator._get_operation_code _) as [oc|e]; [|reflexivity].
    rewrite !dict_get_set. simpl String.eqb. cbv iota.
    rewrite (Hab "direction") by discriminate. rewrite Ha, Hb.
    destruct (_get_direction_code _ _) as [dc|e]; [|reflexivity].
    intros x Hx. rewrite !dict_get_set, (Hab x Hx). reflexivity.
  - change (special (VStr "mirror") a)
      with (match _get_mirror_plane_code (get a "mirror_plane" (VStr "xy")) with
            | Ret (mirror_plane_code, mirror_plane_var) =>
                Ret (dict_set
                       (dict_set a "mirror_plane_code" (VStr mirror_plane_code))
                       "mirror_plane_var" (VStr mirror_plane_var))
            | Raise e => Raise e
            end).
    change (special (VStr "mirror") b)
      with (match _get_mirror_plane_code (get b "mirror_plane" (VStr "xy")) with
            | Ret (mirror_plane_code, mirror_plane_var) =>
                Ret (dict_set
                       (dict_set b "mirror_plane_code" (VStr mirror_plane_code))
                       "mirror_plane_var" (VStr mirror_plane_var))
            | Raise e => Raise e
            end).
    unfold get. rewrite Ha, Hb.
    destruct (_get_mirror_plane_code _) as [[c r]|e]; [|reflexivity].
    intros x Hx. rewrite !dict_get_set, (Hab x Hx). reflexivity.
Qed.

Lemma fallback_lookups (props d : list (string * val)) (k : string) (v : val) :
  default_in props k = None -> dict_has d k = false ->
  (forall x, x <> k ->
     dict_get (apply_defaults props (copied (dict_set d k v))) x
     = dict_get (apply_defaults props (copied d)) x) /\
  dict_get (apply_defaults props (copied (dict_set d k v))) k = Some v /\
  dict_get (apply_defaults props (copied d)) k = None.
Proof.
  intros Hdef Hd. unfold dict_has in Hd.
  destruct (dict_get d k) eqn:Ed; [discriminate|].
  rewrite (copied_set _ _ _ Ed).
  pose proof (copied_has d k) as Hc. unfold dict_has in Hc. rewrite Ed in Hc.
  repeat split.
  - intros x Hx. rewrite !apply_defaults_get, dict_get_set.
    destruct (String.eqb_spec k x); [congruence | reflexivity].
  - rewrite apply_defaults_get, dict_get_set, String.eqb_refl. reflexivity.
  - rewrite apply_defaults_get. destruct (dict_get (copied d) k); [discriminate|].
    exact Hdef.
Qed.

(** X21. [extrude] without a [height] gives the script of the height [10.0],
    and [mirror] without a [mirror_plane] the script of the plane [xy],
    although the schema requires both parameters. *)
Theorem X21_required_but_optional (t k : string) (v : val) (d : list (string * val)) :
  In (t, (k, v)) fallbacks ->
  dict_has d k = false ->
  generate_script (VStr t) (VDict (dict_set d k v)) = generate_script (VStr t) (VDict d).
Proof.
  intros Hin Hd. pose proof Hin as Hin'. unfold fallbacks in Hin'. cbn [In] in Hin'.
  destruct Hin' as [[= <- <- <-]|[[= <- <- <-]|[]]].
  all: match type of Hin with
       | In (_, (?k0, ?v0)) fallbacks =>
           scripted_tool d; scripted_tool (dict_set d k0 v0);
           match goal with
           | |- context [special ?tn (apply_defaults ?props _)] =>
               destruct (fallback_lookups props d k0 v0) as [Hab [Ha Hb]];
               [vm_compute; reflexivity | exact Hd |];
               pose proof (special_fallback _ _ _ _ _ Hin Hab Ha Hb) as Hs;
               destruct (special tn (apply_defaults props (copied (dict_set d k0 v0))))
                 as [p|e],
                 (special tn (apply_defaults props (copied d))) as [q|e'];
               try contradiction; [|congruence]
           end
       end.
  all: match goal with
       | |- context [parse ?tpl] => evaluate (parse tpl)
       end; cbv beta iota.
  all: match goal with
       | |- context [fill ?items ?p0] =>
           rewrite (fill_agree items p q); [reflexivity|];
           intros f Hf; apply Hs; vm_compute in Hf;
           repeat (destruct Hf as [<-|Hf]; [discriminate|]); contradiction
       end.
Qed.

(** ** What the generator raises *)

Lemma str_dict_get_raises {A : Type} (table : list (string * A)) (key : val)
    (default : A) (e : exn) :
  str_dict_get table key default = Raise e -> is_Exception e = true.
Proof.
  unfold str_dict_get. destruct key; try discriminate;
    try (destruct (find _ table); discriminate);
    intros [= <-]; reflexivity.
Qed.

Lemma direction_code_raises (direction height : val) (e : exn) :
  _get_direction_code direction height = Raise e -> is_Exception e = true.
Proof.
  assert (Hstr : forall (v : val) (k : string -> outcome string),
    (forall printed, k printed <> Raise e) ->
    and_then (py_str v) k = Raise e -> is_Exception e = true).
  { intros v k Hk. destruct (py_str v) as [printed|e0] eqn:Es; cbn [and_then].
    - intros E. now apply Hk in E.
    - intros [= <-]. unfold is_Exception.
      destruct (py_str_raises _ _ Es) as [-> | ->]; reflexivity. }
  unfold _get_direction_code.
  repeat match goal with
         | |- context [if py_eq ?a ?b then _ else _] => destruct (py_eq a b)
         end;
    try (apply Hstr; discriminate).
  unfold py_half.
  destruct (as_number height) as [[z|f]|]; cbn [and_then].
  - destruct (is_infinity _); cbn [and_then].
    + intros [= <-]. reflexivity.
    + apply Hstr; discriminate.
  - apply Hstr; discriminate.
  - unfold py_raise. intros [= <-]. reflexivity.
Qed.

Lemma special_raises (tn : val) (a : list (string * val)) (e : exn) :
  special tn a = Raise e -> is_Exception e = true.
Proof.
  special_cases tn; intros E; try discriminate;
    repeat match type of E with
           | match ?x with Ret _ => _ | Raise _ => _ end = _ =>
               let r := fresh "r" in
               let Er := fresh "Er" in
               destruct x as [r|?] eqn:Er;
               [try (destruct r; discriminate E)|]
           end;
    try discriminate E;
    injection E as <-;
    first [ eapply str_dict_get_raises; eassumption
          | eapply direction_code_raises; eassumption ].
Qed.

(** [generate_script] returns a script or raises an [Exception], whatever
    the tool name and the arguments are. *)
Lemma generate_script_ends (tn a : val) :
  match generate_script tn a with
  | Ok _ => True
  | Raised e => is_Exception e = true
  | Unmodelled => False
  end.
Proof.
  assert (Hname : forall v : val,
    match py_str v with
    | Ret printed =>
        ValueError (A := string)
          ((if is_registered v then "No script template for tool: "
            else "Unknown tool: ") ++ printed)
    | Raise e => Raised e
    end = generate_script v a ->
    match generate_script v a with
    | Ok _ => True
    | Raised e => is_Exception e = true
    | Unmodelled => False
    end).
  { intros v E. rewrite <- E. destruct (py_str v) as [printed|e] eqn:Es; [reflexivity|].
    unfold is_Exception. destruct (py_str_raises _ _ Es) as [-> | ->]; reflexivity. }
  destruct (get_tool_by_name_cases tn)
    as [[t [-> [Hin [_ Hreg]]]] | [Hnone Hreg]].
  - destruct (in_dec string_dec t scripted) as [Hs|Hs].
    + destruct a as [| | | | | |d|];
        try (vm_compute in Hs;
             repeat (destruct Hs as [<-|Hs]; [vm_compute; reflexivity|]);
             contradiction).
      vm_compute in Hs.
      repeat (destruct Hs as [<-|Hs];
              [scripted_tool d;
               match goal with
               | |- context [special ?tn ?q] =>
                   destruct (special tn q) as [p|e] eqn:Es;
                   [|exact (special_raises _ _ _ Es)]
               end;
               match goal with
               | |- context [parse ?tpl] => evaluate (parse tpl)
               end;
               cbv beta iota;
               match goal with
               | |- context [fill ?items ?q] =>
                   destruct (fill items q) as [script|key|e] eqn:Ef;
                   [exact I | reflexivity | exact (fill_raises _ _ _ Ef)]
               end |]).
      contradiction.
    + apply Hname. symmetry. apply generate_script_unscripted.
      intros t' Hin' [= ->]. exact (Hs Hin').
  - apply Hname. rewrite Hreg. unfold generate_script. rewrite Hnone.
    cbn [py_truthy negb]. destruct (py_str tn); reflexivity.
Qed.

(** ** Several tool calls *)

(** One tool call whose name prints gives its part of the script. *)
Lemma tool_call_part (i : nat) (c : list (string * val)) (rest : list val) :
  name_prints (VDict c) ->
  exists part,
    tool_parts i (VDict c :: rest)
    = match tool_parts (S i) rest with
      | Ok more => Ok (part ++ more)%list
      | other => other
      end.
Proof.
  intros [printed Hp]. cbn [tool_parts call_get]. cbv zeta. rewrite Hp.
  match goal with
  | |- context [generate_script ?tn ?a] =>
      pose proof (generate_script_ends tn a) as Hends;
      destruct (generate_script tn a) as [script|e|]
  end; [| rewrite Hends | contradiction]; eexists; reflexivity.
Qed.

Lemma tool_parts_total (calls : list val) :
  Forall (fun call => is_dict call = true) calls ->
  Forall name_prints calls ->
  forall i, exists parts, tool_parts i calls = Ok parts.
Proof.
  induction 1 as [|call calls Hcall _ IH]; intros Hp i.
  - eexists. reflexivity.
  - apply Forall_cons_iff in Hp. destruct Hp as [Hname Hp].
    destruct call as [| | | | | |c|]; try discriminate.
    destruct (tool_call_part i c calls Hname) as [part ->].
    destruct (IH Hp (S i)) as [more ->]. eexists; reflexivity.
Qed.

Lemma tool_parts_not_a_dict (before after : list val) (bad : val) :
  Forall (fun call => is_dict call = true) before ->
  Forall name_prints before ->
  is_dict bad = false ->
  forall i,
    tool_parts i (before ++ bad :: after)%list
    = Raised (Exn AttributeErrorC (error_text (NoAttribute bad "get"))).
Proof.
  intros Hbefore Hp Hbad.
  induction Hbefore as [|call calls Hcall _ IH]; intros i.
  - destruct bad; try discriminate; reflexivity.
  - change ((call :: calls) ++ bad :: after)%list
      with (call :: (calls ++ bad :: after))%list.
    apply Forall_cons_iff in Hp. destruct Hp as [Hname Hp].
    destruct call as [| | | | | |c|]; try discriminate.
    destruct (tool_call_part i c (calls ++ bad :: after) Hname) as [part ->].
    rewrite (IH Hp (S i)). reflexivity.
Qed.

(** X22. [generate_multi_tool_script] returns a script for every list of
    tool calls that are dicts and whose tool names [str()] prints: a call
    that cannot be scripted does not make it fail. *)
Theorem X22_script_for_every_list (calls : list val) :
  Forall (fun call => is_dict call = true) calls ->
  Forall name_prints calls ->
  exists parts,
    generate_multi_tool_script calls
    = Ok (String.concat ScriptGenerator.nl
            ([script_header] ++ parts ++ [script_footer])%list).
Proof.
  intros Hcalls Hp. destruct (tool_parts_total calls Hcalls Hp 0) as [parts Hparts].
  exists parts. unfold generate_multi_tool_script. rewrite Hparts. reflexivity.
Qed.

(** X23. A tool call that is no dict makes [generate_multi_tool_script]
    raise the [AttributeError] of its missing [get], whatever the calls
    after it are, and whatever the calls before it are when they are dicts
    whose tool names [str()] prints. *)
Theorem X23_call_that_is_no_dict (before after : list val) (bad : val) :
  Forall (fun call => is_dict call = true) before ->
  Forall name_prints before ->
  is_dict bad = false ->
  generate_multi_tool_script (before ++ bad :: after)%list
  = Raised (Exn AttributeErrorC (error_text (NoAttribute bad "get"))).
Proof.
  intros Hbefore Hp Hbad. unfold generate_multi_tool_script.
  rewrite (tool_parts_not_a_dict before after bad Hbefore Hp Hbad 0). reflexivity.
Qed.

(** X24. In script mode the answer to a tool call is the text of a
    generated script, whatever the arguments are and whatever the tool name
    is, as long as [str()] prints it: the branch that reports an error is
    not taken. *)
Theorem X24_script_mode_never_reports_failure (name arguments : val)
    (printed : string) :
  py_str name = Ret printed ->
  exists script,
    generate_single_tool_script name arguments = Ok script /\
    generate_tool_script name arguments
    = Ok ("Generated Fusion360 script for '" ++ printed ++ "':"
          ++ ScriptGenerator.nl ++ ScriptGenerator.nl ++ "```python"
          ++ ScriptGenerator.nl ++ script ++ ScriptGenerator.nl ++ "```").
Proof.
  intros Hp.
  unfold generate_tool_script, generate_single_tool_script,
    generate_multi_tool_script.
  destruct (tool_parts_total
              [VDict [("tool_name", name); ("arguments", arguments)]]
              ltac:(repeat constructor)) with (i := 0) as [parts ->].
  - constructor; [|constructor]. cbn. unfold py_or.
    destruct (py_truthy name); [now exists printed|now exists "None"].
  - rewrite Hp. eexists. split; reflexivity.
Qed.

End Fill.

End GeneratorFacts.

(* ================================================================== *)
(** * Writing and reading JSON *)
(* ================================================================== *)

From Stdlib Require DecimalPos.

Module JsonRoundTrip.
Import Py Text Json ScannerFacts JsonTerms.
Local Open Scope list_scope.

(** ** Strings *)

Lemma chars_app (a b : string) : chars (a ++ b)%string = chars a ++ chars b.
Proof.
  unfold chars. induction a as [|c a IH]; cbn; [reflexivity|]. now rewrite IH.
Qed.

Lemma chars_cons (c : ascii) (t : string) : chars (String c t) = c :: chars t.
Proof. reflexivity. Qed.

Lemma chars_concat (parts : list string) :
  chars (String.concat "" parts) = flat_map chars parts.
Proof.
  induction parts as [|p parts IH]; [reflexivity|].
  destruct parts as [|q parts].
  - cbn. now rewrite app_nil_r.
  - change (String.concat "" (p :: q :: parts))
      with (p ++ "" ++ String.concat "" (q :: parts))%string.
    rewrite !chars_app, IH. reflexivity.
Qed.

Definition is_printable (c : ascii) : bool := (32 <=? code c)%N && (code c <=? 126)%N.

Lemma codepoints_printable (s : list ascii) :
  forallb is_printable s = true -> codepoints s = map code s.
Proof.
  induction s as [|c s IH]; [reflexivity|]. cbn [forallb codepoints map].
  intros Hs. apply andb_true_iff in Hs. destruct Hs as [Hc Hs].
  unfold is_printable in Hc. apply andb_true_iff in Hc. destruct Hc as [_ Hc].
  apply N.leb_le in Hc.
  destruct (N.ltb_spec (code c) 192); [|lia]. now rewrite IH.
Qed.

(** The escape of a printable character is read back as the character. *)
Lemma scanstring_escape (c : ascii) (r : list ascii) :
  is_printable c = true ->
  scanstring (chars (escape_codepoint (code c)) ++ r)
  = match scanstring r with
    | Some (str, rest) => Some (c :: str, rest)
    | None => None
    end.
Proof.
  each_char c; intros Hc; try discriminate Hc; reflexivity.
Qed.

Lemma scanstring_body_printable (s r : list ascii) :
  forallb is_printable s = true ->
  scanstring (flat_map (fun n => chars (escape_codepoint n)) (map code s)
              ++ "034"%char :: r)
  = Some (s, r).
Proof.
  induction s as [|c s IH]; [reflexivity|]. cbn [forallb map flat_map].
  intros Hs. apply andb_true_iff in Hs. destruct Hs as [Hc Hs].
  rewrite <- app_assoc, (scanstring_escape c _ Hc), (IH Hs). reflexivity.
Qed.

Lemma chars_encode_string (t : string) :
  chars (encode_string t)
  = "034"%char
      :: flat_map (fun n => chars (escape_codepoint n)) (codepoints (chars t))
      ++ ["034"%char].
Proof.
  unfold encode_string. cbn [String.append].
  rewrite chars_cons, chars_app, chars_concat, flat_map_concat_map, map_map,
    <- flat_map_concat_map. reflexivity.
Qed.

(** A text of printable characters, written and read. *)
Lemma scanstring_encoded (t : string) (r : list ascii) :
  printable t = true ->
  exists body,
    chars (encode_string t) = "034"%char :: body /\
    scanstring (body ++ r) = Some (chars t, r).
Proof.
  intros Ht. rewrite chars_encode_string.
  eexists. split; [reflexivity|].
  rewrite (codepoints_printable _ Ht), <- app_assoc.
  exact (scanstring_body_printable _ r Ht).
Qed.

(** ** Integers *)

Lemma follows_inv (rest : list ascii) :
  follows rest = true ->
  span_digits rest = ([], rest) /\ match_frac rest = None /\ match_exp rest = None.
Proof.
  destruct rest as [|c rest]; [repeat split|]. cbn [follows].
  intros Hc. repeat rewrite orb_true_iff in Hc.
  destruct Hc as [[Hc|Hc]|Hc]; apply Ascii.eqb_eq in Hc; subst c; repeat split;
    destruct rest; reflexivity.
Qed.

Lemma span_digits_app (ds rest : list ascii) :
  forallb is_digit ds = true -> follows rest = true ->
  span_digits (ds ++ rest) = (ds, rest).
Proof.
  intros Hds Hrest. induction ds as [|c ds IH]; cbn [List.app].
  - apply follows_inv, Hrest.
  - cbn [forallb] in Hds. apply andb_true_iff in Hds. destruct Hds as [Hc Hds].
    cbn [span_digits]. rewrite Hc, (IH Hds). reflexivity.
Qed.

Lemma length_chars (t : string) : List.length (chars t) = String.length t.
Proof. unfold chars. induction t as [|c t IH]; cbn; [reflexivity|]. now rewrite IH. Qed.

Lemma digits_fold (d : Decimal.uint) (acc : positive) :
  fold_left (fun a c => (a * 10 + digit_value c)%Z)
    (chars (NilEmpty.string_of_uint d)) (Z.pos acc)
  = Z.pos (Pos.of_uint_acc d acc).
Proof.
  revert acc. induction d; intros acc; cbn [NilEmpty.string_of_uint Pos.of_uint_acc];
    [reflexivity|..]; rewrite chars_cons; cbn [fold_left]; rewrite <- IHd; f_equal;
    vm_compute digit_value; lia.
Qed.

Lemma digits_value_uint (d : Decimal.uint) :
  digits_value (chars (NilEmpty.string_of_uint d)) = Z.of_N (Pos.of_uint d).
Proof.
  unfold digits_value. induction d; cbn [NilEmpty.string_of_uint Pos.of_uint];
    [reflexivity|..]; rewrite chars_cons; cbn [fold_left Z.of_N];
    match goal with
    | |- fold_left _ _ ?a = _ => let v := eval vm_compute in a in change a with v
    end;
    [exact IHd|..]; apply digits_fold.
Qed.

Lemma digits_are_digits (d : Decimal.uint) :
  forallb is_digit (chars (NilEmpty.string_of_uint d)) = true.
Proof.
  induction d; cbn [NilEmpty.string_of_uint]; [reflexivity|..];
    rewrite chars_cons; cbn [forallb]; rewrite IHd; reflexivity.
Qed.

Lemma nzhead_head (d : Decimal.uint) :
  match Decimal.nzhead d with Decimal.D0 _ => False | _ => True end.
Proof. induction d; cbn; auto. Qed.

(** The digits of a positive number: a digit that is not [0], and more
    digits. *)
Lemma positive_digits (p : positive) :
  exists c ds,
    chars (NilEmpty.string_of_uint (Pos.to_uint p)) = c :: ds /\
    is_digit c = true /\ Ascii.eqb c "0" = false /\ forallb is_digit ds = true /\
    digits_value (c :: ds) = Z.pos p.
Proof.
  pose proof (DecimalPos.Unsigned.to_of (Pos.to_uint p)) as Hn.
  rewrite DecimalPos.Unsigned.of_to in Hn. cbn [N.to_uint] in Hn.
  pose proof (DecimalPos.Unsigned.to_uint_nonzero p) as Hz.
  pose proof (digits_are_digits (Pos.to_uint p)) as Hd.
  pose proof (digits_value_uint (Pos.to_uint p)) as Hv.
  rewrite DecimalPos.Unsigned.of_to in Hv.
  pose proof (nzhead_head (Pos.to_uint p)) as Hh.
  unfold Decimal.unorm in Hn.
  destruct (Pos.to_uint p) as [|d|d|d|d|d|d|d|d|d|d] eqn:E;
    try (eexists _, _; split; [reflexivity|]; split; [reflexivity|];
         split; [reflexivity|]; split; [exact Hd | exact Hv]).
  - exfalso. exact (DecimalPos.Unsigned.to_uint_nonnil p E).
  - exfalso. cbn [Decimal.nzhead] in Hn, Hh.
    destruct (Decimal.nzhead d) eqn:En; try contradiction; discriminate Hn.
Qed.

(** The text of a positive number, and the number of its digits. *)
Lemma positive_text (p : positive) :
  exists c ds,
    chars (NilZero.string_of_uint (Pos.to_uint p)) = c :: ds /\
    is_digit c = true /\ Ascii.eqb c "0" = false /\ forallb is_digit ds = true /\
    digits_value (c :: ds) = Z.pos p /\
    int_digits (Z.pos p) = List.length (c :: ds) /\
    int_digits (Z.neg p) = List.length (c :: ds).
Proof.
  destruct (positive_digits p) as [c [ds [E [Hc [H0 [Hds Hv]]]]]].
  exists c, ds.
  assert (Et : NilZero.string_of_uint (Pos.to_uint p)
               = NilEmpty.string_of_uint (Pos.to_uint p)).
  { unfold NilZero.string_of_uint.
    destruct (Pos.to_uint p) eqn:Ep;
      [exfalso; exact (DecimalPos.Unsigned.to_uint_nonnil p Ep)|..]; reflexivity. }
  rewrite Et. repeat split; try assumption.
  - unfold int_digits. cbn [Z.abs Z.to_int NilZero.string_of_int].
    now rewrite Et, <- length_chars, E.
  - unfold int_digits. cbn [Z.abs Z.to_int NilZero.string_of_int].
    now rewrite Et, <- length_chars, E.
Qed.

Lemma digits_ascii (ds : list ascii) :
  forallb is_digit ds = true -> ascii_text ds = true.
Proof.
  unfold ascii_text. intros Hds. rewrite forallb_forall in *. intros c Hc.
  specialize (Hds c Hc). revert Hds. unfold is_digit. intros Hd.
  apply andb_true_iff in Hd. destruct Hd as [_ Hd]. apply N.leb_le in Hd.
  apply N.ltb_lt. lia.
Qed.

Lemma int_text (z : Z) :
  exists c s,
    chars (decimal_of_Z z) = c :: s /\ (is_digit c = true \/ c = "-"%char) /\
    ascii_text (c :: s) = true.
Proof.
  unfold decimal_of_Z. destruct z as [|p|p]; cbn [Z.to_int].
  - exists "0"%char, []. repeat split. left. reflexivity.
  - destruct (positive_text p) as [c [ds [E [Hc [H0 [Hds _]]]]]].
    cbn [NilZero.string_of_int]. exists c, ds.
    split; [exact E|]. split; [left; exact Hc|].
    apply digits_ascii; cbn [forallb]; rewrite Hc; exact Hds.
  - destruct (positive_text p) as [c [ds [E [Hc [H0 [Hds _]]]]]].
    cbn [NilZero.string_of_int]. rewrite chars_cons.
    eexists _, _. split; [reflexivity|]. split; [right; reflexivity|].
    rewrite E. change (ascii_text ("-"%char :: c :: ds)) with (ascii_text (c :: ds)).
    apply digits_ascii; cbn [forallb]; rewrite Hc; exact Hds.
Qed.

Lemma escape_ascii (c : ascii) :
  is_printable c = true -> ascii_text (chars (escape_codepoint (code c))) = true.
Proof. each_char c; intros Hc; try discriminate Hc; reflexivity. Qed.

Lemma ascii_text_app (a b : list ascii) :
  ascii_text (a ++ b) = ascii_text a && ascii_text b.
Proof. apply forallb_app. Qed.

Lemma body_ascii (s : list ascii) :
  forallb is_printable s = true ->
  ascii_text (flat_map (fun n => chars (escape_codepoint n)) (map code s)) = true.
Proof.
  induction s as [|c s IH]; [reflexivity|]. cbn [forallb map flat_map].
  intros Hs. apply andb_true_iff in Hs. destruct Hs as [Hc Hs].
  rewrite ascii_text_app, (escape_ascii c Hc), (IH Hs). reflexivity.
Qed.

Lemma encode_string_ascii (t : string) :
  printable t = true ->
  starts (chars (encode_string t)) = true /\ ascii_text (chars (encode_string t)) = true.
Proof.
  intros Ht. rewrite chars_encode_string, (codepoints_printable _ Ht).
  split; [reflexivity|].
  change (ascii_text ("034"%char :: ?x)) with (ascii_text x).
  rewrite ascii_text_app, (body_ascii _ Ht). reflexivity.
Qed.

Lemma concat_cons (sep t u : string) (ts : list string) :
  String.concat sep (t :: u :: ts) = (t ++ sep ++ String.concat sep (u :: ts))%string.
Proof. reflexivity. Qed.

Lemma skip_ws_starts (s r : list ascii) :
  starts s = true -> skip_ws (s ++ r) = s ++ r.
Proof.
  destruct s as [|c s]; [discriminate|]. cbn [starts List.app skip_ws].
  intros Hc. apply andb_true_iff in Hc. destruct Hc as [Hc _].
  apply negb_true_iff in Hc. rewrite Hc. reflexivity.
Qed.

Lemma starts_app (s r : list ascii) : starts s = true -> starts (s ++ r) = true.
Proof. destruct s; [discriminate|]. intros Hs. exact Hs. Qed.

Lemma starts_cons (s r : list ascii) :
  starts s = true ->
  exists x r1, s ++ r = x :: r1 /\ Ascii.eqb x "]" = false.
Proof.
  destruct s as [|c s]; [discriminate|]. cbn [starts]. intros Hc.
  apply andb_true_iff in Hc. destruct Hc as [_ Hc]. apply negb_true_iff in Hc.
  exists c, (s ++ r). split; [reflexivity | exact Hc].
Qed.

Lemma encoded_tail (t : string) (r : list ascii) :
  printable t = true ->
  chars (encode_string t) = "034"%char :: tl (chars (encode_string t)) /\
  scanstring (tl (chars (encode_string t)) ++ r) = Some (chars t, r).
Proof.
  intros Ht. destruct (scanstring_encoded t r Ht) as [body [E Hb]].
  rewrite E. cbn [tl]. split; [reflexivity | exact Hb].
Qed.

(** ** Reading what has been written *)

Section Reading.
Context {runtime : PyRuntime}.

Lemma match_number_digits (c : ascii) (ds rest : list ascii) :
  is_digit c = true -> Ascii.eqb c "0" = false ->
  forallb is_digit ds = true -> follows rest = true ->
  beyond_limit (List.length (c :: ds)) = false ->
  match_number (c :: ds ++ rest) = POk (VInt (digits_value (c :: ds))) rest /\
  match_number ("-"%char :: c :: ds ++ rest)
  = POk (VInt (- digits_value (c :: ds))) rest.
Proof.
  intros Hc H0 Hds Hrest Hb. destruct (follows_inv rest Hrest) as [_ [Hf He]].
  assert (Hm : Ascii.eqb c "-" = false) by (revert Hc; each_char c; now vm_compute).
  split.
  - unfold match_number. cbv beta iota. rewrite Hm. cbv beta iota.
    unfold match_int_part. rewrite H0, Hc, (span_digits_app ds rest Hds Hrest).
    cbv beta iota. rewrite Hf, He, Hb. reflexivity.
  - unfold match_number. cbv beta iota.
    change (Ascii.eqb "-" "-") with true. cbv beta iota.
    unfold match_int_part. rewrite H0, Hc, (span_digits_app ds rest Hds Hrest).
    cbv beta iota. rewrite Hf, He, Hb. reflexivity.
Qed.

Lemma scan_atom_number (c : ascii) (s : list ascii) :
  is_digit c = true -> scan_atom (c :: s) = match_number (c :: s).
Proof.
  intros Hc. unfold scan_atom. revert Hc. each_char c; intros Hc; try discriminate Hc;
    reflexivity.
Qed.

Lemma scan_atom_negative (c : ascii) (s : list ascii) :
  is_digit c = true ->
  scan_atom ("-"%char :: c :: s) = match_number ("-"%char :: c :: s).
Proof.
  intros Hc. unfold scan_atom. revert Hc. each_char c; intros Hc; try discriminate Hc;
    reflexivity.
Qed.

Lemma scan_atom_int (z : Z) (rest : list ascii) :
  follows rest = true -> beyond_limit (int_digits z) = false ->
  scan_atom (chars (decimal_of_Z z) ++ rest) = POk (VInt z) rest.
Proof.
  intros Hrest Hb. unfold decimal_of_Z. destruct z as [|p|p]; cbn [Z.to_int].
  - destruct (follows_inv rest Hrest) as [_ [Hf He]].
    change (chars (NilZero.string_of_int (Decimal.Pos Decimal.zero))) with ["0"%char].
    cbn [List.app]. rewrite scan_atom_number by reflexivity.
    unfold match_number, match_int_part. cbn [Ascii.eqb Bool.eqb]. cbv iota.
    rewrite Hf, He. change (List.length ["0"%char]) with (int_digits 0). rewrite Hb.
    reflexivity.
  - destruct (positive_text p) as [c [ds [E [Hc [H0 [Hds [Hv [Hn _]]]]]]]].
    cbn [NilZero.string_of_int]. rewrite E. cbn [List.app].
    rewrite (scan_atom_number c _ Hc). rewrite Hn in Hb.
    destruct (match_number_digits c ds rest Hc H0 Hds Hrest Hb) as [-> _].
    rewrite Hv. reflexivity.
  - destruct (positive_text p) as [c [ds [E [Hc [H0 [Hds [Hv [_ Hn]]]]]]]].
    cbn [NilZero.string_of_int]. rewrite chars_cons, E. cbn [List.app].
    rewrite (scan_atom_negative c _ Hc). rewrite Hn in Hb.
    destruct (match_number_digits c ds rest Hc H0 Hds Hrest Hb) as [_ ->].
    rewrite Hv. reflexivity.
Qed.

(** ** The values that are no containers *)

Lemma reads_back_more (v : val) (t : string) (fuel fuel' room room' : nat) :
  fuel <= fuel' -> room <= room' -> reads_back v t fuel room ->
  reads_back v t fuel' room'.
Proof.
  intros Hf Hroom (Hs & Ha & Hr). repeat split; [exact Hs | exact Ha |].
  intros f r rest Hf' Hr' Hrest. apply Hr; [lia | lia | exact Hrest].
Qed.

Lemma reads_back_none : reads_back VNone "null" 1 0.
Proof.
  repeat split. intros f r rest Hf _ _. destruct f as [|f]; [lia|]. reflexivity.
Qed.

Lemma reads_back_bool (b : bool) :
  reads_back (VBool b) (if b then "true" else "false") 1 0.
Proof.
  destruct b; repeat split; intros f r rest Hf _ _; (destruct f as [|f]; [lia|]);
    reflexivity.
Qed.

Lemma scan_once_atom (f room : nat) (c : ascii) (s : list ascii) :
  is_digit c = true \/ c = "-"%char ->
  scan_once (S f) room (c :: s) = scan_atom (c :: s).
Proof.
  intros [Hc| ->]; [|reflexivity].
  revert Hc. each_char c; intros Hc; try discriminate Hc; reflexivity.
Qed.

Lemma reads_back_int (z : Z) :
  beyond_limit (int_digits z) = false -> reads_back (VInt z) (decimal_of_Z z) 1 0.
Proof.
  intros Hb. destruct (int_text z) as [c [s [E [Hc Ha]]]].
  split; [|split; [rewrite E; exact Ha|]].
  - rewrite E. destruct Hc as [Hc| ->]; [|reflexivity].
    revert Hc. each_char c; intros Hc; try discriminate Hc; reflexivity.
  - intros f r rest Hf _ Hrest. destruct f as [|f]; [lia|].
    pose proof (scan_atom_int z rest Hrest Hb) as Hz. rewrite E in *.
    cbn [List.app] in *. rewrite (scan_once_atom f r c _ Hc). exact Hz.
Qed.

Lemma reads_back_str (t : string) :
  printable t = true -> reads_back (VStr t) (encode_string t) 1 0.
Proof.
  intros Ht. destruct (encode_string_ascii t Ht) as [Hs Ha].
  split; [exact Hs|]. split; [exact Ha|].
  intros f r rest Hf _ _. destruct f as [|f]; [lia|].
  destruct (scanstring_encoded t rest Ht) as [body [E Hb]].
  rewrite E. cbn [List.app scan_once]. change (Ascii.eqb "034" "034") with true. cbv iota.
  rewrite Hb. unfold chars. rewrite string_of_list_ascii_of_string. reflexivity.
Qed.

(** ** Lists *)

Lemma array_round (fuel room : nat) (l : list val) (ts : list string) :
  Forall2 (fun x t => reads_back x t fuel room) l ts -> l <> [] ->
  starts (chars (String.concat ", " ts)) = true /\
  forall f r rest acc, fuel + List.length l <= f -> room <= r -> follows rest = true ->
    array_rest f r (chars (String.concat ", " ts) ++ "]"%char :: rest) acc
    = POk (VList (acc ++ l)) rest.
Proof.
  induction 1 as [|x t l ts (Hs & Ha & Hr) Hrest IH]; [congruence|]. intros _.
  destruct Hrest as [|y u l' ts' Hy Hrest'].
  - split; [exact Hs|]. intros f r rest acc Hf Hroom Hfollow.
    destruct f as [|f]; [cbn in Hf; lia|]. cbn [array_rest String.concat].
    rewrite (Hr f r ("]"%char :: rest)) by (cbn in Hf; first [lia | reflexivity]).
    reflexivity.
  - destruct IH as [Hs' IH]; [discriminate|].
    rewrite concat_cons, !chars_app. split; [apply starts_app, Hs|].
    intros f r rest acc Hf Hroom Hfollow.
    destruct f as [|f]; [cbn in Hf; lia|]. cbn [array_rest].
    rewrite <- !app_assoc.
    rewrite (Hr f r) by (cbn in Hf; first [lia | reflexivity]).
    change (chars ", " ++ ?x) with (","%char :: " "%char :: x).
    cbn [skip_ws is_ws Ascii.eqb Bool.eqb orb]. cbv iota.
    change (skip_ws (" "%char :: ?x)) with (skip_ws x).
    rewrite (skip_ws_starts _ _ Hs').
    rewrite (IH f r rest (acc ++ [x])) by (cbn in Hf |- *; first [lia | assumption]).
    rewrite <- app_assoc. reflexivity.
Qed.

(** ** Dicts *)

Lemma object_round (fuel room : nat) (d : list (string * val)) (its : list string) :
  Forall2
    (fun kv it =>
       exists t, it = item_text (fst kv) t /\ printable (fst kv) = true /\
                 reads_back (snd kv) t fuel room)
    d its ->
  d <> [] ->
  chars (String.concat ", " its)
  = "034"%char :: tl (chars (String.concat ", " its)) /\
  forall f r rest acc, fuel + List.length d <= f -> room <= r -> follows rest = true ->
    object_rest f r (tl (chars (String.concat ", " its)) ++ "}"%char :: rest) acc
    = POk (VDict (dict_update acc d)) rest.
Proof.
  induction 1 as [|[k v] it d its (t & -> & Hk & Hs & Ha & Hr) Hrest IH];
    [congruence|]. intros _. cbn [fst snd] in *.
  assert (Hit : chars (item_text k t)
               = "034"%char :: tl (chars (encode_string k))
                   ++ ":"%char :: " "%char :: chars t).
  { unfold item_text. rewrite !chars_app.
    destruct (encoded_tail k [] Hk) as [E _]. rewrite E at 1. reflexivity. }
  assert (Hstep : forall f r acc more,
             fuel <= f -> room <= r -> follows more = true ->
             object_rest (S f) r
               (tl (chars (encode_string k)) ++ ":"%char :: " "%char :: chars t ++ more)
               acc
             = match skip_ws more with
               | x :: s4 =>
                   if Ascii.eqb x "}" then POk (VDict (dict_set acc k v)) s4
                   else if Ascii.eqb x "," then
                     match expect "034" (skip_ws s4) with
                     | Some s5 => object_rest f r s5 (dict_set acc k v)
                     | None => PErr
                     end
                   else PErr
               | [] => PErr
               end).
  { intros f r acc more Hf Hroom Hmore. cbn [object_rest].
    destruct (encoded_tail k (":"%char :: " "%char :: chars t ++ more) Hk) as [_ ->].
    change (skip_ws (":"%char :: ?x)) with (":"%char :: x).
    change (expect ":" (":"%char :: ?x)) with (Some x). cbv iota.
    change (skip_ws (" "%char :: ?x)) with (skip_ws x).
    rewrite (skip_ws_starts _ _ Hs), (Hr f r more Hf Hroom Hmore).
    unfold chars. rewrite string_of_list_ascii_of_string. reflexivity. }
  destruct Hrest as [|[k' v'] it' d' its' Hy Hrest'].
  - cbn [String.concat]. rewrite Hit. cbn [tl]. split; [reflexivity|].
    intros f r rest acc Hf Hroom Hfollow.
    destruct f as [|f]; [cbn in Hf; lia|].
    rewrite <- app_assoc. cbn [List.app].
    rewrite Hstep by (cbn in Hf; first [lia | reflexivity]). reflexivity.
  - destruct IH as [E' IH]; [discriminate|].
    rewrite concat_cons, !chars_app, Hit. cbn [tl List.app]. split; [reflexivity|].
    intros f r rest acc Hf Hroom Hfollow.
    destruct f as [|f]; [cbn in Hf; lia|].
    rewrite <- ?app_assoc. cbn [List.app]. rewrite <- ?app_assoc. cbn [List.app].
    change (chars ", " ++ ?x) with (","%char :: " "%char :: x).
    rewrite Hstep by (cbn in Hf; first [lia | reflexivity]).
    change (skip_ws (","%char :: ?x)) with (","%char :: x). cbv iota.
    change (Ascii.eqb "," "}") with false. change (Ascii.eqb "," ",") with true.
    cbv iota. change (skip_ws (" "%char :: ?x)) with (skip_ws x).
    rewrite E'. cbn [List.app]. change (skip_ws ("034"%char :: ?x)) with ("034"%char :: x).
    change (expect "034" ("034"%char :: ?x)) with (Some x). cbv iota.
    rewrite (IH f r rest (dict_set acc k v)) by (cbn in Hf |- *; first [lia | assumption]).
    reflexivity.
Qed.

Lemma dict_update_distinct (d acc : list (string * val)) :
  distinct (map fst d) = true ->
  (forall k, In k (map fst d) -> dict_get acc k = None) ->
  dict_update acc d = acc ++ d.
Proof.
  unfold dict_update. revert acc.
  induction d as [|[k v] d IH]; intros acc Hd Hacc; cbn [fold_left map distinct] in *.
  - now rewrite app_nil_r.
  - apply andb_true_iff in Hd. destruct Hd as [Hk Hd].
    cbn [fst snd]. rewrite (GeneratorFacts.dict_set_absent acc k v)
      by (apply Hacc; left; reflexivity).
    rewrite IH; [now rewrite <- app_assoc | exact Hd |].
    intros k' Hin. 
    assert (Hg : forall a, dict_get (a ++ [(k, v)]) k'
                           = match dict_get a k' with
                             | Some x => Some x
                             | None => if String.eqb k k' then Some v else None
                             end).
    { induction a as [|[k0 v0] a IHa]; cbn; [reflexivity|].
      destruct (String.eqb k0 k'); [reflexivity | exact IHa]. }
    rewrite Hg, (Hacc k') by (right; exact Hin).
    destruct (String.eqb_spec k k') as [E|_]; [|reflexivity].
    apply negb_true_iff in Hk. exfalso.
    assert (Hex : existsb (String.eqb k) (map fst d) = true)
      by (apply existsb_exists; exists k'; split;
          [exact Hin | apply String.eqb_eq; exact E]).
    cbn [fst] in Hk. rewrite Hex in Hk. discriminate Hk.
Qed.

(** ** Every writable value *)

Lemma size_positive (v : val) : 1 <= size v.
Proof. destruct v; cbn; lia. Qed.

Lemma size_element (l : list val) (x : val) :
  In x l -> size x <= list_sum (map size l).
Proof.
  induction l as [|y l IH]; [contradiction|].
  change (list_sum (map size (y :: l))) with (size y + list_sum (map size l)).
  intros [->|Hin]; [lia|]. specialize (IH Hin). lia.
Qed.

Lemma size_item (d : list (string * val)) (kv : string * val) :
  In kv d -> size (snd kv) <= list_sum (map (fun kv => size (snd kv)) d).
Proof.
  induction d as [|y d IH]; [contradiction|].
  change (list_sum (map (fun kv => size (snd kv)) (y :: d)))
    with (size (snd y) + list_sum (map (fun kv => size (snd kv)) d)).
  intros [->|Hin]; [lia|]. specialize (IH Hin). lia.
Qed.

Lemma concat_ascii (ts : list string) :
  Forall (fun t => ascii_text (chars t) = true) ts ->
  ascii_text (chars (String.concat ", " ts)) = true.
Proof.
  induction 1 as [|t ts Ht Hts IH]; [reflexivity|].
  destruct ts as [|u ts]; [exact Ht|].
  rewrite concat_cons, !chars_app, !ascii_text_app, Ht, IH. reflexivity.
Qed.

Lemma each_outcome_cons {A B : Type} (f : A -> outcome B) (x : A) (l : list A) :
  each_outcome f (x :: l)
  = match f x with
    | Raise e => Raise e
    | Ret y =>
        match each_outcome f l with
        | Raise e => Raise e
        | Ret ys => Ret (y :: ys)
        end
    end.
Proof. reflexivity. Qed.

Lemma reads_back_list (fuel room : nat) (l : list val) (ts : list string) :
  Forall2 (fun x t => reads_back x t fuel room) l ts ->
  reads_back (VList l) ("[" ++ String.concat ", " ts ++ "]")%string
    (S (fuel + List.length l)) (S room).
Proof.
  intros Hl.
  assert (Hchars : forall rest,
             chars ("[" ++ String.concat ", " ts ++ "]")%string ++ rest
             = "["%char :: chars (String.concat ", " ts) ++ "]"%char :: rest).
  { intros rest. rewrite !chars_app. cbn [chars list_ascii_of_string List.app].
    rewrite <- app_assoc. reflexivity. }
  split; [|split].
  - rewrite <- (app_nil_r (chars _)), Hchars. reflexivity.
  - rewrite <- (app_nil_r (chars _)), Hchars.
    change (ascii_text ("["%char :: ?x)) with (ascii_text x).
    rewrite ascii_text_app, concat_ascii; [reflexivity|].
    clear Hchars. induction Hl as [|x t l ts (_ & Ha & _) _ IH]; constructor; assumption.
  - intros f r rest Hf Hroom Hrest. rewrite Hchars.
    destruct f as [|f]; [lia|]. destruct r as [|r]; [lia|]. cbn [scan_once].
    change (Ascii.eqb "[" "034") with false. change (Ascii.eqb "[" "{") with false.
    change (Ascii.eqb "[" "[") with true. cbv iota.
    destruct l as [|x l].
    + inversion Hl. reflexivity.
    + destruct (array_round fuel room (x :: l) ts Hl) as [Hs Hr]; [discriminate|].
      rewrite (skip_ws_starts _ _ Hs).
      destruct (starts_cons _ ("]"%char :: rest) Hs) as [c [r1 [E Hc]]].
      rewrite E, Hc, <- E.
      rewrite (Hr f r rest []) by (first [lia | assumption]). reflexivity.
Qed.

Lemma reads_back_dict (fuel room : nat) (d : list (string * val)) (its : list string) :
  Forall (fun it => ascii_text (chars it) = true) its ->
  Forall2
    (fun kv it =>
       exists t, it = item_text (fst kv) t /\ printable (fst kv) = true /\
                 reads_back (snd kv) t fuel room)
    d its ->
  distinct (map fst d) = true ->
  reads_back (VDict d) ("{" ++ String.concat ", " its ++ "}")%string
    (S (fuel + List.length d)) (S room).
Proof.
  intros Ha Hd Hkeys.
  assert (Hchars : forall rest,
             chars ("{" ++ String.concat ", " its ++ "}")%string ++ rest
             = "{"%char :: chars (String.concat ", " its) ++ "}"%char :: rest).
  { intros rest. rewrite !chars_app. cbn [chars list_ascii_of_string List.app].
    rewrite <- app_assoc. reflexivity. }
  split; [|split].
  - rewrite <- (app_nil_r (chars _)), Hchars. reflexivity.
  - rewrite <- (app_nil_r (chars _)), Hchars.
    change (ascii_text ("{"%char :: ?x)) with (ascii_text x).
    rewrite ascii_text_app, (concat_ascii _ Ha). reflexivity.
  - intros f r rest Hf Hroom Hrest. rewrite Hchars.
    destruct f as [|f]; [lia|]. destruct r as [|r]; [lia|]. cbn [scan_once].
    change (Ascii.eqb "{" "034") with false. change (Ascii.eqb "{" "{") with true.
    cbv iota.
    destruct d as [|kv d].
    + inversion Hd. reflexivity.
    + destruct (object_round fuel room (kv :: d) its Hd) as [E Hr]; [discriminate|].
      rewrite E. cbn [List.app].
      change (skip_ws ("034"%char :: ?x)) with ("034"%char :: x). cbv iota.
      change (Ascii.eqb "034" "}") with false. change (Ascii.eqb "034" "034") with true.
      cbv iota.
      rewrite (Hr f r rest []) by (first [lia | assumption]).
      rewrite (dict_update_distinct (kv :: d) [] Hkeys); [reflexivity|].
      intros k _. reflexivity.
Qed.

(** A text that is read back with the budget and the room that
    [json.loads] has is what [json.loads] returns. *)
Lemma loads_written (v : val) (t : string) (fuel room : nat) :
  reads_back v t fuel room -> room <= json_depth -> json_loads t = Ret v.
Proof.
  intros (Hs & _ & Hr) Hroom. unfold json_loads.
  pose proof (skip_ws_starts (chars t) [] Hs) as Hw. rewrite app_nil_r in Hw.
  pose proof (scan_once_fuel json_depth (chars t)) as Hfuel. rewrite Hw in *.
  pose proof (Hr (Nat.max fuel (S (2 * List.length (chars t)))) json_depth []
                (Nat.le_max_l _ _) Hroom eq_refl) as Hmax.
  rewrite app_nil_r in Hmax.
  rewrite (proj1 (fuel_mono _) _ (chars t) _ (Nat.le_max_r fuel _) Hfuel) in Hmax.
  rewrite Hmax. reflexivity.
Qed.

End Reading.

(** ** Writing in one interpreter, reading in another *)

Lemma depth_element (l : list val) (x : val) :
  In x l -> depth x <= list_max (map depth l).
Proof.
  induction l as [|y l IH]; [contradiction|].
  change (list_max (map depth (y :: l))) with (Nat.max (depth y) (list_max (map depth l))).
  intros [->|Hin]; [lia|]. specialize (IH Hin). lia.
Qed.

Lemma depth_item (d : list (string * val)) (kv : string * val) :
  In kv d -> depth (snd kv) <= list_max (map (fun kv => depth (snd kv)) d).
Proof.
  induction d as [|y d IH]; [contradiction|].
  change (list_max (map (fun kv => depth (snd kv)) (y :: d)))
    with (Nat.max (depth (snd y)) (list_max (map (fun kv => depth (snd kv)) d))).
  intros [->|Hin]; [lia|]. specialize (IH Hin). lia.
Qed.

Section Written.
Context (writer reader : PyRuntime).

Lemma list_written (room rho : nat) (l : list val) :
  (forall x, In x l ->
     exists t fuel,
       @encode_value writer room x = Ret t /\ @reads_back reader x t fuel rho) ->
  exists ts fuel,
    each_outcome (@encode_value writer room) l = Ret ts /\
    Forall2 (fun x t => @reads_back reader x t fuel rho) l ts.
Proof.
  induction l as [|x l IH]; intros Hl.
  - exists [], 0. split; [reflexivity | constructor].
  - destruct (Hl x (or_introl eq_refl)) as [t [fuel1 [Ht Hr]]].
    destruct IH as [ts [fuel2 [Hts Hrs]]];
      [intros y Hy; apply Hl; right; exact Hy|].
    exists (t :: ts), (Nat.max fuel1 fuel2). split.
    + rewrite each_outcome_cons, Ht, Hts. reflexivity.
    + constructor.
      * apply (reads_back_more _ _ fuel1 _ rho); [lia | lia | exact Hr].
      * eapply Forall2_impl; [|exact Hrs]. intros y u Hy.
        apply (reads_back_more _ _ fuel2 _ rho); [lia | lia | exact Hy].
Qed.

Lemma dict_written (room rho : nat) (d : list (string * val)) :
  (forall kv, In kv d ->
     printable (fst kv) = true /\
     exists t fuel,
       @encode_value writer room (snd kv) = Ret t /\
       @reads_back reader (snd kv) t fuel rho) ->
  exists its fuel,
    each_outcome (@encode_item writer room) d = Ret its /\
    Forall (fun it => ascii_text (chars it) = true) its /\
    Forall2
      (fun kv it =>
         exists t, it = item_text (fst kv) t /\ printable (fst kv) = true /\
                   @reads_back reader (snd kv) t fuel rho)
      d its.
Proof.
  induction d as [|kv d IH]; intros Hd.
  - exists [], 0. repeat split; constructor.
  - destruct (Hd kv (or_introl eq_refl)) as [Hk [t [fuel1 [Ht Hr]]]].
    destruct IH as [its [fuel2 [Hits [Ha Hrs]]]];
      [intros y Hy; apply Hd; right; exact Hy|].
    exists (item_text (fst kv) t :: its), (Nat.max fuel1 fuel2). split; [|split].
    + rewrite each_outcome_cons. unfold encode_item at 1. rewrite Ht, Hits. reflexivity.
    + constructor; [|exact Ha]. unfold item_text.
      rewrite !chars_app, !ascii_text_app.
      destruct (encode_string_ascii _ Hk) as [_ ->].
      destruct Hr as (_ & -> & _). reflexivity.
    + constructor.
      * exists t. split; [reflexivity|]. split; [exact Hk|].
        apply (reads_back_more _ _ fuel1 _ rho); [lia | lia | exact Hr].
      * eapply Forall2_impl; [|exact Hrs]. intros y u (t' & Hu & Hy & Hr').
        exists t'. split; [exact Hu|]. split; [exact Hy|].
        apply (reads_back_more _ _ fuel2 _ rho); [lia | lia | exact Hr'].
Qed.

Lemma encode_list (room : nat) (l : list val) :
  @encode_value writer (S room) (VList l)
  = match each_outcome (@encode_value writer room) l with
    | Raise e => Raise e
    | Ret ss => Ret ("[" ++ String.concat ", " ss ++ "]")%string
    end.
Proof. reflexivity. Qed.

Lemma encode_dict (room : nat) (d : list (string * val)) :
  @encode_value writer (S room) (VDict d)
  = match each_outcome (@encode_item writer room) d with
    | Raise e => Raise e
    | Ret ss => Ret ("{" ++ String.concat ", " ss ++ "}")%string
    end.
Proof. reflexivity. Qed.

(** A writable value within the limits of the two interpreters is written
    by the one, and its text is read back as the value by the other. *)
Lemma written (n : nat) :
  forall v room, size v <= n -> writable v = true ->
  @short_ints writer v = true -> @short_ints reader v = true -> depth v <= room ->
  exists t fuel,
    @encode_value writer room v = Ret t /\ @reads_back reader v t fuel (depth v).
Proof.
  induction n as [|n IH]; intros v room Hn Hw Hsw Hsr Hd.
  { pose proof (size_positive v). lia. }
  destruct v as [|b|z|x|t|l|d|r]; try discriminate Hw.
  - exists "null"%string, 1. split; [reflexivity | exact reads_back_none].
  - exists (if b then "true" else "false")%string, 1.
    split; [destruct b; reflexivity | exact (reads_back_bool b)].
  - cbn [short_ints] in Hsw, Hsr. apply negb_true_iff in Hsw, Hsr.
    exists (decimal_of_Z z), 1. split.
    + cbn [encode_value]. now rewrite Hsw.
    + exact (reads_back_int z Hsr).
  - exists (encode_string t), 1. split; [reflexivity | exact (reads_back_str t Hw)].
  - cbn [writable] in Hw. rewrite forallb_forall in Hw.
    cbn [short_ints] in Hsw, Hsr. rewrite forallb_forall in Hsw, Hsr.
    cbn [depth] in Hd |- *. destruct room as [|room]; [lia|].
    destruct (list_written room (list_max (map depth l)) l) as [ts [fuel [Hts Hl]]].
    { intros x Hx. pose proof (depth_element l x Hx) as Hdx.
      destruct (IH x room) as [t [fuel [Ht Hr]]];
        [pose proof (size_element l x Hx); cbn [size] in Hn; lia
        |exact (Hw x Hx)|exact (Hsw x Hx)|exact (Hsr x Hx)|lia|].
      exists t, fuel. split; [exact Ht|].
      apply (reads_back_more _ _ fuel _ (depth x)); [lia | exact Hdx | exact Hr]. }
    eexists _, _. rewrite encode_list, Hts. split; [reflexivity|].
    exact (reads_back_list fuel _ l ts Hl).
  - cbn [writable] in Hw. apply andb_true_iff in Hw. destruct Hw as [Hw Hkeys].
    rewrite forallb_forall in Hw.
    cbn [short_ints] in Hsw, Hsr. rewrite forallb_forall in Hsw, Hsr.
    cbn [depth] in Hd |- *. destruct room as [|room]; [lia|].
    destruct (dict_written room (list_max (map (fun kv => depth (snd kv)) d)) d)
      as [its [fuel [Hits [Ha Hrs]]]].
    { intros kv Hkv. specialize (Hw kv Hkv). apply andb_true_iff in Hw.
      destruct Hw as [Hk Hv]. split; [exact Hk|].
      pose proof (depth_item d kv Hkv) as Hdx.
      destruct (IH (snd kv) room) as [t [fuel [Ht Hr]]];
        [pose proof (size_item d kv Hkv); cbn [size] in Hn; lia
        |exact Hv|exact (Hsw kv Hkv)|exact (Hsr kv Hkv)|lia|].
      exists t, fuel. split; [exact Ht|].
      apply (reads_back_more _ _ fuel _ (depth (snd kv))); [lia | exact Hdx | exact Hr]. }
    eexists _, _. rewrite encode_dict, Hits. split; [reflexivity|].
    exact (reads_back_dict fuel _ d its Ha Hrs Hkeys).
Qed.

(** What the one interpreter writes with [json.dumps], the other reads back
    with [json.loads]. *)
Lemma dumps_loads (v : val) :
  writable v = true -> @within_limits writer v -> @within_limits reader v ->
  exists t,
    @json_dumps writer v = Ret t /\ @json_loads reader t = Ret v /\
    starts (chars t) = true /\ ascii_text (chars t) = true.
Proof.
  intros Hw [Hsw Hdw] [Hsr Hdr].
  destruct (written (size v) v (@json_depth writer) (le_n _) Hw Hsw Hsr Hdw)
    as [t [fuel [Ht Hr]]].
  exists t. split; [exact Ht|]. split; [exact (loads_written v t fuel _ Hr Hdr)|].
  destruct Hr as (Hs & Ha & _). now split.
Qed.

End Written.

Section RoundTrip.
Context `{PyRuntime}.

(** X27. What [json.dumps] writes for a value without floats and host
    objects, with texts of printable ASCII characters and no key twice in a
    dict, whose [int]s are within the limit on digits and which is nested
    no deeper than the recursion limit allows, [json.loads] reads back as
    the same value. *)
Theorem X27_json_round_trip (v : val) :
  writable v = true -> within_limits v ->
  exists t, json_dumps v = Ret t /\ json_loads t = Ret v.
Proof.
  intros Hw Hl. destruct (dumps_loads _ _ v Hw Hl Hl) as (t & Ht & Hr & _).
  now exists t.
Qed.

End RoundTrip.

End JsonRoundTrip.

(* ================================================================== *)
(** * From the connection manager to the dispatcher and back *)
(* ================================================================== *)

Module RelayProperties.
Import Py Text Json ScannerFacts JsonTerms JsonRoundTrip.
Import HostApi CommandHandler Sock Terms.
Local Open Scope list_scope.

Lemma byte_code (c : ascii) : Byte.to_N (byte_of_ascii c) = code c.
Proof. each_char c; reflexivity. Qed.

Lemma encode_ascii (t : string) :
  ascii_text (chars t) = true -> ascii_only (Utf8.encode t) = true.
Proof.
  unfold ascii_text, ascii_only, Utf8.encode, chars.
  induction t as [|c t IH]; [reflexivity|]. cbn [list_ascii_of_string forallb].
  intros Ht. apply andb_true_iff in Ht. destruct Ht as [Hc Ht].
  change (list_byte_of_string (String c t))
    with (byte_of_ascii c :: list_byte_of_string t).
  cbn [forallb]. rewrite byte_code, Hc. exact (IH Ht).
Qed.

Lemma decode_encoded (t : string) :
  ascii_text (chars t) = true -> Utf8.decode (Utf8.encode t) = Ret t.
Proof.
  intros Ht. rewrite (decode_ascii _ (encode_ascii t Ht)).
  unfold Utf8.encode. now rewrite string_of_list_byte_of_string.
Qed.

Lemma encode_app (a b : string) :
  Utf8.encode (a ++ b)%string = Utf8.encode a ++ Utf8.encode b.
Proof.
  unfold Utf8.encode. induction a as [|c a IH]; [reflexivity|].
  change (list_byte_of_string (String c a ++ b)%string)
    with (byte_of_ascii c :: list_byte_of_string (a ++ b)%string).
  rewrite IH. reflexivity.
Qed.

(** The add-in and the MCP server run in two interpreters, each with its
    limits. *)
Section Relay.
Context (mcp addin : PyRuntime).

(** The text of a dict ends with its closing brace. *)
Lemma dict_text (runtime : PyRuntime) (d : list (string * val)) (text : string) :
  @json_dumps runtime (VDict d) = Ret text ->
  Utf8.encode text <> [] /\ ends_without_space (Utf8.encode text) = true.
Proof.
  unfold json_dumps, json_depth. cbn [Nat.add]. rewrite (encode_dict runtime).
  destruct (each_outcome _ d) as [its|e]; [|discriminate].
  intros [= <-].
  change (Utf8.encode (String "{" (String.concat ", " its ++ "}")))
    with (Byte.x7b :: Utf8.encode (String.concat ", " its ++ "}")%string).
  rewrite encode_app. split; [discriminate|].
  unfold ends_without_space.
  change (Byte.x7b :: ?a ++ ?b) with ((Byte.x7b :: a) ++ b).
  rewrite rev_app_distr. reflexivity.
Qed.

(** What the add-in writes for a response within the limits of the two
    interpreters, the MCP server reads as that response. *)
Lemma response_read (response : val) :
  writable response = true ->
  @within_limits addin response -> @within_limits mcp response ->
  exists text,
    @json_dumps addin response = Ret text /\
    Utf8.decode (Utf8.encode text) = Ret text /\
    @json_loads mcp text = Ret response.
Proof.
  intros Hw Ha Hm.
  destruct (dumps_loads addin mcp response Hw Ha Hm) as (text & Ht & Hl & _ & Hascii).
  exists text. split; [exact Ht|]. split; [exact (decode_encoded text Hascii)|exact Hl].
Qed.

(** X28. A writable result that a handler returns comes out of
    [send_command]'s reading of the response as it went in, when the
    response is within the limits of the two interpreters (the digits of
    its [int]s and its nesting), and the message of an error response comes
    out as the text of the exception. *)
Theorem X28_response_read_back (result : val) (message : string) :
  (writable result = true ->
   @within_limits addin (success_response result) ->
   @within_limits mcp (success_response result) ->
   exists text,
     @json_dumps addin (success_response result) = Ret text /\
     @Connection.interpret mcp (Utf8.encode text) = Ret result) /\
  (printable message = true ->
   exists text,
     @json_dumps addin (error_response message) = Ret text /\
     @Connection.interpret mcp (Utf8.encode text) = Raise (Exn ExceptionC message)).
Proof.
  split.
  - intros Hw Ha Hm.
    assert (Hr : writable (success_response result) = true)
      by (unfold success_response; cbn [writable forallb fst snd]; rewrite Hw;
          reflexivity).
    destruct (response_read _ Hr Ha Hm) as (text & Ht & Hd & Hl).
    exists text. split; [exact Ht|]. unfold Connection.interpret.
    rewrite Hd. cbn [and_then]. rewrite Hl. reflexivity.
  - intros Hm.
    assert (Hr : writable (error_response message) = true)
      by (unfold error_response; cbn [writable forallb fst snd]; rewrite Hm;
          reflexivity).
    assert (Hl : forall runtime : PyRuntime,
               @within_limits runtime (error_response message)).
    { intros runtime. split; [reflexivity|]. unfold json_depth. cbn. lia. }
    destruct (response_read _ Hr (Hl addin) (Hl mcp)) as (text & Ht & Hd & Hload).
    exists text. split; [exact Ht|]. unfold Connection.interpret.
    rewrite Hd. cbn [and_then]. rewrite Hload. reflexivity.
Qed.

Context {W : Type} `{Host W}.

(** X29. The command that [send_command] builds and sends is, when it is
    writable and within the limits of the two interpreters, the command
    that the client handler of the add-in hands to the dispatcher, once:
    [send_command] sends the text that [json.dumps] writes for it, and
    when that text has no run of digits longer than the add-in lets an
    [int] be, the handler puts the command together from what it reads. *)
Theorem X29_command_arrives (command_type params : val) (w : W)
    (c : SocketServer.client) :
  writable (command_sent command_type params) = true ->
  @within_limits mcp (command_sent command_type params) ->
  @within_limits addin (command_sent command_type params) ->
  exists text,
    @json_dumps mcp (command_sent command_type params) = Ret text /\
    (forall n n1 : Connection.net,
       @prints mcp command_type -> @prints mcp params ->
       Connection.sendall (Utf8.encode text) n = (Ret tt, n1) ->
       Connection.sent (snd (@Connection.exchange mcp command_type params n))
       = Connection.sent n ++ [Utf8.encode text]) /\
    (@short_numbers addin (Utf8.encode text) = true ->
     @SocketServer._handle_client addin W _ w (arriving [Chunk (Utf8.encode text)] c)
     = match @SocketServer.execute_wrapper addin W _
               (command_sent command_type params) w (arriving [] c) with
       | (Some e, w', c') => (SocketServer.Escaped e, w', c')
       | (None, w', c') => (SocketServer.Blocked [], w', c')
       end).
Proof.
  intros Hw Hm Ha.
  destruct (dumps_loads mcp addin _ Hw Hm Ha) as (text & Ht & Hl & _ & Hascii).
  exists text. split; [exact Ht|]. split.
  - intros n n1 [a Hct] [b Hp] Hsend. unfold Connection.exchange.
    rewrite Hct. cbn [and_then]. rewrite Hp.
    unfold command_sent in Ht. rewrite Ht, Hsend.
    assert (Hsent : Connection.sent n1 = Connection.sent n ++ [Utf8.encode text]).
    { revert Hsend. unfold Connection.sendall.
      destruct (Connection.send_script n) as [|[e|] script]; intros [= <-];
        reflexivity. }
    destruct (Connection.receive_full_response _ _) as [[data|e] rest]; exact Hsent.
  - intros Hshort.
    destruct (dict_text mcp _ text Ht) as [Hne Hend].
    rewrite ServerFacts.handle_client_arriving.
    assert (Er : reads SocketServer.recv_size [Chunk (Utf8.encode text)]
                 = map Chunk (pieces SocketServer.recv_size (Utf8.encode text)) ++ []).
    { unfold reads. cbn [flat_map]. rewrite !app_nil_r.
      destruct (Utf8.encode text); [contradiction|reflexivity]. }
    rewrite Er.
    rewrite (@ServerProperties.client_loop_pieces addin W _ (Utf8.encode text)
               (command_sent command_type params)).
    + destruct (SocketServer.execute_wrapper _ w _) as [[[e|] w'] c']; reflexivity.
    + unfold Utf8.encode. rewrite string_of_list_byte_of_string. exact Hl.
    + reflexivity.
    + exact (encode_ascii text Hascii).
    + exact Hend.
    + exact Hshort.
    + apply ServerProperties.pieces_nonempty. apply Nat.ltb_lt. reflexivity.
    + intros E. apply Hne.
      rewrite <- (ServerProperties.pieces_concat SocketServer.recv_size
                    (Utf8.encode text)), E.
      reflexivity.
    + cbn [List.app]. apply ServerProperties.pieces_concat.
Qed.

End Relay.

End RelayProperties.
(* ================================================================== *)
(** * The further properties on the test double *)
(* ================================================================== *)

Module PropertyExamples.
Import Py HostApi CommandHandler MockHost Examples Terms MoreExamples.
Import DispatcherProperties.
Local Open Scope list_scope.
Local Open Scope string_scope.

Lemma X1_witness :
  execute_command (VList []) blank
  = (Ret (error_response "'list' object has no attribute 'get'"), blank).
Proof.
  apply (X1_malformed_command (VList []) "'list' object has no attribute 'get'" blank).
  reflexivity.
Defined.

Lemma X2_witness :
  execute_command (command_of "extrude" []) blank
  = (Ret (error_response
            "CommandHandler.extrude() missing 1 required positional argument: 'height'"),
     blank).
Proof.
  apply (X2_arguments_checked_first
           [("type", VStr "extrude"); ("params", VDict [])] "extrude"
           ["height"] ["profile_index"; "operation"; "direction"]
           (Exn TypeErrorC
              "CommandHandler.extrude() missing 1 required positional argument: 'height'")
           blank).
  - reflexivity.
  - vm_compute. tauto.
  - vm_compute. reflexivity.
Defined.

Lemma circle_binds :
  binds "draw_circle" [("type", VStr "draw_circle"); ("params", VDict [("radius", VInt 5)])].
Proof.
  exists ["radius"], ["center_x"; "center_y"; "center_z"], [("radius", VInt 5)].
  split; [vm_compute; tauto | vm_compute; reflexivity].
Qed.

Lemma extrude_binds :
  binds "extrude" [("type", VStr "extrude"); ("params", VDict [("height", VInt 20)])].
Proof.
  exists ["height"], ["profile_index"; "operation"; "direction"], [("height", VInt 20)].
  split; [vm_compute; tauto | vm_compute; reflexivity].
Qed.

Lemma X3_witness :
  execute_command circle_command no_sketch
  = (Ret (error_response
            "Failed to draw circle: No sketch available. Create a sketch first."),
     no_sketch).
Proof.
  apply (X3_nothing_to_work_on
           [("type", VStr "draw_circle"); ("params", VDict [("radius", VInt 5)])]
           "draw_circle" "sketches"
           "Failed to draw circle: No sketch available. Create a sketch first."
           (VInt 0) no_sketch no_sketch).
  - reflexivity.
  - vm_compute. tauto.
  - exact circle_binds.
  - vm_compute. reflexivity.
  - reflexivity.
Defined.

Lemma X4_witness :
  execute_command extrude_command empty_sketch
  = (Ret (error_response "Failed to extrude: No profiles found in sketch."),
     empty_sketch_read).
Proof.
  apply (X4_sketch_without_profiles
           [("type", VStr "extrude"); ("params", VDict [("height", VInt 20)])]
           "extrude" (VObj root) (VObj (root ++ ".sketches.item(0)")) (VInt 0)
           empty_sketch empty_sketch empty_sketch_read empty_sketch_read).
  - vm_compute. tauto.
  - reflexivity.
  - exact extrude_binds.
  - vm_compute. reflexivity.
  - vm_compute. reflexivity.
  - vm_compute. reflexivity.
  - reflexivity.
Defined.

Lemma X5_witness :
  exists m,
    error_response "Failed to draw circle: No sketch available. Create a sketch first."
    = error_response ("Failed to draw circle: " ++ m).
Proof.
  apply (X5_errors_name_the_handler
           [("type", VStr "draw_circle"); ("params", VDict [("radius", VInt 5)])]
           "draw_circle" "Failed to draw circle: "
           (error_response
              "Failed to draw circle: No sketch available. Create a sketch first.")
           no_sketch no_sketch).
  - reflexivity.
  - vm_compute. tauto.
  - exact circle_binds.
  - vm_compute. reflexivity.
  - reflexivity.
Defined.

(** Reading an attribute changes nothing on the double. *)
Lemma double_reads_quietly (name : string) : reads_quietly (W := world) name.
Proof.
  intros obj w. unfold attr. cbn. unfold mock_getattr.
  destruct obj; try reflexivity.
  destruct (lookup (failing w) _); [reflexivity|].
  destruct (dict_get (attrs w) _); [reflexivity|].
  destruct (lookup (collections w) _); [|reflexivity].
  destruct (String.eqb name "count"); reflexivity.
Qed.

Lemma X6_witness :
  same_but "plane" (VStr "zz")
    (create_sketch (VStr "zz") blank) (create_sketch (VStr "xy") blank) /\
  same_but "mirror_plane" (VStr "zz")
    (mirror (VStr "zz") (VInt 0) one_box) (mirror (VStr "xy") (VInt 0) one_box).
Proof.
  split.
  - apply (X6_unknown_plane_is_xy "zz" (VInt 0) blank);
      try apply double_reads_quietly.
    vm_compute. intuition discriminate.
  - apply (X6_unknown_plane_is_xy "zz" (VInt 0) one_box);
      try apply double_reads_quietly.
    vm_compute. intuition discriminate.
Defined.

Lemma X7_witness :
  same_but "operation" (VStr "bogus")
    (revolve (VInt 90) (VInt 0) (VInt 0) (VInt 0) (VInt 0) (VInt 1) (VInt 0) (VInt 0)
       (VStr "bogus") one_sketch)
    (revolve (VInt 90) (VInt 0) (VInt 0) (VInt 0) (VInt 0) (VInt 1) (VInt 0) (VInt 0)
       (VStr "new_body") one_sketch).
Proof.
  apply (X7_revolve_unknown_operation (VInt 90) (VInt 0) (VInt 0) (VInt 0) (VInt 0)
           (VInt 1) (VInt 0) (VInt 0) "bogus" one_sketch).
  vm_compute. intuition discriminate.
Defined.

Lemma X8_witness :
  same_but "direction" (VStr "up")
    (extrude (VInt 20) (VInt 0) (VStr "new_body") (VStr "up") one_sketch)
    (extrude (VInt 20) (VInt 0) (VStr "new_body") (VStr "positive") one_sketch).
Proof.
  apply (X8_extrude_unknown_direction (VInt 20) (VInt 0) (VStr "new_body") "up"
           one_sketch); discriminate.
Defined.

Import Sock Connection ConnectionProperties.

Lemma X9_witness :
  (sock idle <> None ->
   Ret true = Ret true /\ with_sock idle (Some 1) = idle /\ attempted dropped = dropped) /\
  (true = true <-> sock (with_sock idle (Some 1)) <> None).
Proof.
  apply (X9_connect idle (with_sock idle (Some 1)) dropped (attempted dropped) (Ret true)).
  reflexivity.
Defined.

Lemma X10_witness :
  send_command idle (VStr "get_scene_info") VNone silent
  = (Raise (Exn ConnectionErrorC "Not connected to Fusion360"),
     with_sock idle None, attempted silent).
Proof.
  apply (X10_not_connected idle (VStr "get_scene_info") VNone silent).
  - reflexivity.
  - exact I.
Defined.

Lemma X11_witness :
  send_command in_use (VStr "get_scene_info") VNone (receiving [Chunk error_reply])
  = (Raise (Exn ExceptionC "Communication error with Fusion360: No active design"),
     with_sock in_use None,
     received (snd (sendall (Utf8.encode test_text) (receiving [Chunk error_reply]))) []).
Proof.
  apply (X11_error_response in_use (VStr "get_scene_info") VNone
           (receiving [Chunk error_reply])
           (snd (sendall (Utf8.encode test_text) (receiving [Chunk error_reply])))
           0 test_text error_reply_text "No active design" error_reply []
           [("status", VStr "error"); ("message", VStr "No active design")]
           (VStr "error")).
  - reflexivity.
  - now exists "get_scene_info".
  - now exists "None".
  - vm_compute. reflexivity.
  - reflexivity.
  - vm_compute. reflexivity.
  - vm_compute. reflexivity.
  - vm_compute. reflexivity.
  - reflexivity.
  - reflexivity.
  - reflexivity.
Defined.

Lemma X12_witness :
  send_command in_use (VStr "get_scene_info") VNone (receiving [Chunk scene_response])
  = (Ret (VDict [("bodies", VInt 2)]), in_use,
     received (snd (sendall (Utf8.encode test_text) (receiving [Chunk scene_response])))
       []).
Proof.
  apply (X12_result_of_response in_use (VStr "get_scene_info") VNone
           (receiving [Chunk scene_response])
           (snd (sendall (Utf8.encode test_text) (receiving [Chunk scene_response])))
           0 test_text (json_text "{'status': 'success', 'result': {'bodies': 2}}")
           scene_response []
           [("status", VStr "success"); ("result", VDict [("bodies", VInt 2)])]).
  - reflexivity.
  - now exists "get_scene_info".
  - now exists "None".
  - vm_compute. reflexivity.
  - reflexivity.
  - vm_compute. reflexivity.
  - vm_compute. reflexivity.
  - vm_compute. reflexivity.
  - now exists "success".
  - reflexivity.
Defined.

Lemma cut_response_never_complete : never_complete [cut_response].
Proof.
  intros pre post E Hne. destruct pre as [|x pre]; [contradiction|].
  destruct pre as [|y pre].
  - injection E as <- _. vm_compute. reflexivity.
  - destruct pre; discriminate E.
Qed.

Lemma X13_witness :
  receive_full_response default_buffer_size (map Chunk [cut_response] ++ [])
  = (Raise (Exn ExceptionC "Incomplete JSON response received"), []).
Proof.
  apply (X13_response_never_complete default_buffer_size [cut_response] []).
  - constructor; [|constructor]. split; [discriminate|].
    apply Nat.leb_le. vm_compute. reflexivity.
  - exact cut_response_never_complete.
  - exact I.
Defined.

Import SocketServer ServerProperties.

Lemma X14_witness :
  let r := execute_wrapper scene_command blank (fresh_client []) in
  (forall e, fst (fst r) = Some e -> is_Exception e = false) /\
  (SocketServer.sent (snd r) = [] \/
   exists answer, SocketServer.sent (snd r) = ([] ++ [answer])%list) /\
  (fst (fst r) = None -> sends_succeed (fresh_client []) ->
   exists answer, SocketServer.sent (snd r) = ([] ++ [answer])%list).
Proof.
  intros r.
  apply (X14_one_answer scene_command blank (snd (fst r)) (fresh_client []) (snd r)
           (fst (fst r))).
  vm_compute. reflexivity.
Defined.

Lemma X15_witness :
  exists text,
    Json.json_dumps
      (error_response "Object of type object is not JSON serializable") = Ret text /\
    execute_wrapper sketch_command blank (fresh_client [])
    = (None, snd (execute_command sketch_command blank),
       answered (note_dispatched sketch_command (fresh_client [])) (Utf8.encode text)).
Proof.
  apply (X15_result_not_serializable sketch_command
           (match fst (execute_command sketch_command blank) with
            | Ret response => response
            | Raise _ => VNone
            end)
           blank (snd (execute_command sketch_command blank)) (fresh_client [])
           (Exn TypeErrorC "Object of type object is not JSON serializable")).
  - vm_compute. reflexivity.
  - vm_compute. reflexivity.
Defined.

Lemma X16_witness :
  _handle_client blank
    (arriving (map Chunk (Sock.pieces 10 scene_query) ++ [])%list (fresh_client []))
  = _handle_client blank (arriving (Chunk scene_query :: []) (fresh_client [])).
Proof.
  apply (X16_command_in_pieces scene_query (Sock.pieces 10 scene_query) [] blank
           (fresh_client [])).
  - vm_compute. reflexivity.
  - vm_compute. reflexivity.
  - vm_compute. reflexivity.
  - vm_compute. reflexivity.
  - apply Forall_forall. intros ch Hin. vm_compute in Hin.
    repeat (destruct Hin as [<-|Hin];
            [split; [discriminate | apply Nat.leb_le; vm_compute; reflexivity]|]).
    contradiction.
  - vm_compute. reflexivity.
Defined.

Import Tools Generator McpServer GeneratorTerms GeneratorFacts.

Lemma X17_witness :
  generate_script (VStr "get_scene_info") VNone
  = match py_str (VStr "get_scene_info") with
    | Ret printed =>
        ValueError ((if is_registered (VStr "get_scene_info")
                     then "No script template for tool: "
                     else "Unknown tool: ") ++ printed)
    | Raise e => Raised e
    end.
Proof.
  apply (X17_no_script_without_template (VStr "get_scene_info") VNone).
  intros t Hin. vm_compute in Hin.
  repeat (destruct Hin as [<-|Hin]; [discriminate|]). contradiction.
Defined.

Lemma X18_witness :
  (forall text,
     generate_script (VStr "draw_circle") (VDict [("radius", VInt 5)])
     <> ValueError text) /\
  (plain_arguments [("radius", VInt 5)] -> "draw_circle" <> "extrude" ->
   exists script,
     generate_script (VStr "draw_circle") (VDict [("radius", VInt 5)]) = Ok script).
Proof.
  apply (X18_required_parameters_suffice "draw_circle" [("radius", VInt 5)]).
  - vm_compute. tauto.
  - intros k Hk. vm_compute in Hk. destruct Hk as [<-|[]]. reflexivity.
  - constructor; [now exists "5"|constructor].
Defined.

Lemma X19_witness :
  generate_script (VStr "draw_rectangle") (VDict [("width", VInt 5)])
  = ValueError ("Missing required parameter for " ++ "draw_rectangle" ++ ": '"
                ++ "height" ++ "'").
Proof.
  apply (X19_missing_parameter_reported "draw_rectangle" "height" ["width"; "height"]
           [("width", VInt 5)]).
  - vm_compute. tauto.
  - reflexivity.
  - repeat constructor.
  - constructor; [now exists "5"|constructor].
Defined.

Lemma X20_witness :
  generate_script (VStr "draw_circle")
    (VDict (dict_set [("radius", VInt 5)] "center_x" (VFloat 0)))
  = generate_script (VStr "draw_circle") (VDict [("radius", VInt 5)]).
Proof.
  apply (X20_omitted_parameter_is_default "draw_circle" "center_x" (VFloat 0)
           [("radius", VInt 5)]).
  - vm_compute. tauto.
  - vm_compute. reflexivity.
  - reflexivity.
Defined.

Lemma X21_witness :
  generate_script (VStr "extrude") (VDict (dict_set [] "height" (VFloat 10)))
  = generate_script (VStr "extrude") (VDict []).
Proof.
  apply (X21_required_but_optional "extrude" "height" (VFloat 10) []).
  - left. reflexivity.
  - reflexivity.
Defined.

Lemma two_calls_print : Forall name_prints two_calls.
Proof.
  constructor; [now exists "create_sketch"|].
  constructor; [now exists "bogus"|constructor].
Qed.

Lemma X22_witness :
  exists parts,
    generate_multi_tool_script two_calls
    = Ok (String.concat ScriptGenerator.nl
            ([script_header] ++ parts ++ [script_footer])%list).
Proof.
  apply (X22_script_for_every_list two_calls).
  - repeat constructor.
  - exact two_calls_print.
Defined.

Lemma X23_witness :
  generate_multi_tool_script (two_calls ++ VInt 5 :: [])%list
  = Raised (Exn AttributeErrorC (error_text (NoAttribute (VInt 5) "get"))).
Proof.
  apply (X23_call_that_is_no_dict two_calls [] (VInt 5)).
  - repeat constructor.
  - exact two_calls_print.
  - reflexivity.
Defined.

Lemma X24_witness :
  exists script,
    generate_single_tool_script (VStr "bogus") VNone = Ok script /\
    generate_tool_script (VStr "bogus") VNone
    = Ok ("Generated Fusion360 script for '" ++ "bogus" ++ "':"
          ++ ScriptGenerator.nl ++ ScriptGenerator.nl ++ "```python"
          ++ ScriptGenerator.nl ++ script ++ ScriptGenerator.nl ++ "```").
Proof.
  apply (X24_script_mode_never_reports_failure (VStr "bogus") VNone "bogus").
  reflexivity.
Defined.

Import PersistentConnection PersistentFacts.

Lemma X26_witness :
  let p := keeping error_reply in
  let n1 := snd (Connection.sendall (Utf8.encode test_text) (network p)) in
  get_fusion360_connection p = new_connection (received n1 []) (close_script p) /\
  close_script (snd (get_fusion360_connection p)) = close_script p /\
  Connection.sockets_created (network (snd (get_fusion360_connection p)))
  = S (Connection.sockets_created (network p)).
Proof.
  intros p n1.
  apply (X26_error_response_to_the_test p in_use n1 0 test_text error_reply_text
           error_reply [] [("status", VStr "error"); ("message", VStr "No active design")]
           (VStr "error")).
  - reflexivity.
  - reflexivity.
  - vm_compute. reflexivity.
  - reflexivity.
  - vm_compute. reflexivity.
  - vm_compute. reflexivity.
  - vm_compute. reflexivity.
  - reflexivity.
  - reflexivity.
Defined.

Import Json JsonTerms JsonRoundTrip RelayProperties.


Lemma X27_witness :
  exists t,
    json_dumps extrude_command = Ret t /\ json_loads t = Ret extrude_command.
Proof.
  apply (X27_json_round_trip extrude_command).
  - reflexivity.
  - split; [reflexivity|]. apply Nat.leb_le. vm_compute. reflexivity.
Defined.

Lemma X28_witness :
  (exists text,
     json_dumps (success_response (VDict [("bodies", VInt 2)])) = Ret text /\
     Connection.interpret (Utf8.encode text) = Ret (VDict [("bodies", VInt 2)])) /\
  (exists text,
     json_dumps (error_response "No active design") = Ret text /\
     Connection.interpret (Utf8.encode text)
     = Raise (Exn ExceptionC "No active design")).
Proof.
  split.
  - apply (proj1 (X28_response_read_back sample_runtime sample_runtime
                    (VDict [("bodies", VInt 2)]) "No active design")).
    + reflexivity.
    + split; [reflexivity|]. apply Nat.leb_le. vm_compute. reflexivity.
    + split; [reflexivity|]. apply Nat.leb_le. vm_compute. reflexivity.
  - apply (proj2 (X28_response_read_back sample_runtime sample_runtime
                    (VDict [("bodies", VInt 2)]) "No active design")).
    reflexivity.
Defined.

Lemma X29_witness :
  exists text,
    json_dumps (command_sent (VStr "get_scene_info") VNone) = Ret text /\
    Connection.sent
      (snd (Connection.exchange (VStr "get_scene_info") VNone
              (receiving [Sock.Chunk scene_response])))
    = [Utf8.encode text] /\
    SocketServer._handle_client blank
      (arriving [Sock.Chunk (Utf8.encode text)] (fresh_client []))
    = match SocketServer.execute_wrapper (command_sent (VStr "get_scene_info") VNone)
              blank (arriving [] (fresh_client [])) with
      | (Some e, w', c') => (SocketServer.Escaped e, w', c')
      | (None, w', c') => (SocketServer.Blocked [], w', c')
      end.
Proof.
  destruct (X29_command_arrives sample_runtime sample_runtime
              (VStr "get_scene_info") VNone blank (fresh_client []))
    as (text & Ht & Hsent & Hclient).
  - reflexivity.
  - split; [reflexivity|]. apply Nat.leb_le. vm_compute. reflexivity.
  - split; [reflexivity|]. apply Nat.leb_le. vm_compute. reflexivity.
  - exists text. split; [exact Ht|].
    assert (Etext : text = test_text)
      by (apply (f_equal (fun r => match r with Ret t => t | Raise _ => text end)) in Ht;
          rewrite <- Ht; vm_compute; reflexivity).
    split.
    + apply (Hsent (receiving [Sock.Chunk scene_response])
               (snd (Connection.sendall (Utf8.encode text)
                       (receiving [Sock.Chunk scene_response])))).
      * now exists "get_scene_info".
      * now exists "None".
      * reflexivity.
    + apply Hclient. rewrite Etext. vm_compute. reflexivity.
Defined.

End PropertyExamples.
